(** * Reconstruction of games from server logs: a shallow embedding of
      [server/logs_to_games.py]

    The Python program reads a server log line by line, classifies each line,
    rebuilds the state of every game a client would have observed, infers the
    hidden tile bag and compares the rebuilt state with a replay through the
    reference game engine.  This file embeds the classes [Enums],
    [CommandsToClientTranslator], [LogParser], [LogProcessor] and [Game] as
    Rocq functions and proves properties of them.  It also embeds the
    classes that cut a log into the logs of its games,
    [IndividualGameLogMaker] and [IndividualGameLog], and the functions
    [get_player_id_to_ranking] and [print_table] of the reports.

    Conventions.
    - Python values that come out of JSON are terms of [pyval].  Floats are
      not represented: commands and log entries of the protocol carry
      integers; the number on a [time:] line is kept as its decimal text.
    - A [str] is a [string] with one [ascii] for each character, so the
      lines of a file are texts whose characters have code points below
      256.  Among these the decimal digits of [\d], [int] and [float] are
      [0] to [9], and the white space of [\s] is the characters 9 to 13,
      28 to 32, 133 and 160.
    - An operation that can raise returns a [result]; a method that mutates
      [self] and can raise is a function in the state-and-exception monad
      [M], which keeps the mutations made before the exception, as Python
      does.
    - A Python [dict] is an association list in insertion order ([pydict]),
      a [set] is a list without a meaningful order.
    - What the program imports and is not its own code is a parameter: the
      module [enums] (a record [enums_py]), [ujson.decode], [repr] on [str]
      objects and the generator behind [random]. *)

From Stdlib Require Import List ZArith Bool String Ascii Lia Permutation Sorted.
From Stdlib Require Import DecimalString.
Import ListNotations.

Local Open Scope string_scope.
Local Open Scope list_scope.
Local Open Scope Z_scope.

(** Concatenation of strings, written like Python's [+]. *)
Notation "s ^^ t" := (String.append s t)
  (at level 60, right associativity) : string_scope.

(* ------------------------------------------------------------------ *)
(** ** Exceptions and results *)

Inductive exn : Type :=
| KeyError
| IndexError
| TypeError
| ValueError.

Inductive result (A : Type) : Type :=
| Ok (a : A)
| Raise (e : exn).

Arguments Ok {A} a.
Arguments Raise {A} e.

Definition rbind {A B : Type} (r : result A) (k : A -> result B) : result B :=
  match r with
  | Ok a => k a
  | Raise e => Raise e
  end.

Declare Scope result_scope.
Delimit Scope result_scope with result.

Notation "'let?' x ':=' r 'in' k" := (rbind r (fun x => k))
  (at level 10, x pattern, r at level 100, k at level 200) : result_scope.

Local Open Scope result_scope.

Definition is_ok {A : Type} (r : result A) : bool :=
  match r with
  | Ok _ => true
  | Raise _ => false
  end.

(** [for x in l: acc = f(acc, x)], stopping at the first exception. *)
Fixpoint rfold {A S : Type} (f : S -> A -> result S) (l : list A) (s : S)
  : result S :=
  match l with
  | [] => Ok s
  | x :: l' => let? s' := f s x in rfold f l' s'
  end.

(** A list comprehension [[f(x) for x in l]]. *)
Fixpoint rmap {A B : Type} (f : A -> result B) (l : list A) : result (list B) :=
  match l with
  | [] => Ok []
  | x :: l' => let? y := f x in let? ys := rmap f l' in Ok (y :: ys)
  end.

(* ------------------------------------------------------------------ *)
(** ** Python values *)

#[warnings="-register-all"]
Inductive pyval : Type :=
| PyNone
| PyBool (b : bool)
| PyInt (n : Z)
| PyStr (s : string)
| PyList (items : list pyval)
| PyTuple (items : list pyval)
| PyDict (entries : list (pyval * pyval)).

Module Py.

(** Python's [==].  [True == 1] and [False == 0]; a list never equals a
    tuple; two dicts are equal when they have the same keys with equal
    values, whatever the order. *)
Fixpoint eqb (a b : pyval) {struct a} : bool :=
  match a, b with
  | PyNone, PyNone => true
  | PyBool x, PyBool y => Bool.eqb x y
  | PyBool x, PyInt y => Z.b2z x =? y
  | PyInt x, PyBool y => x =? Z.b2z y
  | PyInt x, PyInt y => x =? y
  | PyStr x, PyStr y => String.eqb x y
  | PyList xs, PyList ys =>
      (fix all2 (xs ys : list pyval) {struct xs} : bool :=
         match xs, ys with
         | [], [] => true
         | x :: xs', y :: ys' => eqb x y && all2 xs' ys'
         | _, _ => false
         end) xs ys
  | PyTuple xs, PyTuple ys =>
      (fix all2 (xs ys : list pyval) {struct xs} : bool :=
         match xs, ys with
         | [], [] => true
         | x :: xs', y :: ys' => eqb x y && all2 xs' ys'
         | _, _ => false
         end) xs ys
  | PyDict d1, PyDict d2 =>
      Nat.eqb (List.length d1) (List.length d2) &&
      (fix sub (d : list (pyval * pyval)) {struct d} : bool :=
         match d with
         | [] => true
         | (k, v) :: d' =>
             (fix find (e : list (pyval * pyval)) : bool :=
                match e with
                | [] => false
                | (k', v') :: e' =>
                    if eqb k k' then eqb v v' else find e'
                end) d2 && sub d'
         end) d1
  | _, _ => false
  end.

(** Equality of two Python lists held as Rocq lists. *)
Fixpoint list_eqb (xs ys : list pyval) : bool :=
  match xs, ys with
  | [], [] => true
  | x :: xs', y :: ys' => eqb x y && list_eqb xs' ys'
  | _, _ => false
  end.

(** Can the value be hashed (used as a dict key or a set element)? *)
Fixpoint hashable (v : pyval) : bool :=
  match v with
  | PyList _ | PyDict _ => false
  | PyTuple items => forallb hashable items
  | _ => true
  end.

(** Truth value of an object in a condition. *)
Definition truthy (v : pyval) : bool :=
  match v with
  | PyNone => false
  | PyBool b => b
  | PyInt n => negb (n =? 0)
  | PyStr s => negb (String.eqb s "")
  | PyList l | PyTuple l => negb (Nat.eqb (List.length l) 0)
  | PyDict d => negb (Nat.eqb (List.length d) 0)
  end.

(** [isinstance(v, int)]: [bool] is a subclass of [int]. *)
Definition is_int (v : pyval) : bool :=
  match v with
  | PyInt _ | PyBool _ => true
  | _ => false
  end.

(** The integer an object stands for when it is used as an index. *)
Definition as_index (v : pyval) : result Z :=
  match v with
  | PyInt n => Ok n
  | PyBool b => Ok (Z.b2z b)
  | _ => Raise TypeError
  end.

(** [l[i]] on a list: negative indices count from the end. *)
Definition index {A : Type} (l : list A) (i : Z) : result A :=
  let n := Z.of_nat (List.length l) in
  let j := if i <? 0 then i + n else i in
  if (0 <=? j) && (j <? n) then
    match nth_error l (Z.to_nat j) with
    | Some x => Ok x
    | None => Raise IndexError
    end
  else Raise IndexError.

Fixpoint replace_nth {A : Type} (n : nat) (x : A) (l : list A) : list A :=
  match l, n with
  | [], _ => []
  | _ :: l', O => x :: l'
  | y :: l', S n' => y :: replace_nth n' x l'
  end.

(** [l[i] = x] on a list. *)
Definition set_index {A : Type} (l : list A) (i : Z) (x : A)
  : result (list A) :=
  let n := Z.of_nat (List.length l) in
  let j := if i <? 0 then i + n else i in
  if (0 <=? j) && (j <? n) then Ok (replace_nth (Z.to_nat j) x l)
  else Raise IndexError.

(** Where a slice bound falls in a sequence of length [n]. *)
Definition clamp (n : nat) (i : Z) : nat :=
  let m := Z.of_nat n in
  let j := if i <? 0 then i + m else i in
  Z.to_nat (Z.min m (Z.max 0 j)).

(** [l[i:]] and [l[:j]]. *)
Definition slice_from {A : Type} (l : list A) (i : Z) : list A :=
  skipn (clamp (List.length l) i) l.

Definition slice_to {A : Type} (l : list A) (j : Z) : list A :=
  firstn (clamp (List.length l) j) l.

(** [l[i:j]]. *)
Definition slice {A : Type} (l : list A) (i j : Z) : list A :=
  let a := clamp (List.length l) i in
  let b := clamp (List.length l) j in
  firstn (b - a) (skipn a l).

(** [l.insert(i, x)]. *)
Definition insert {A : Type} (l : list A) (i : Z) (x : A) : list A :=
  let a := clamp (List.length l) i in
  firstn a l ++ x :: skipn a l.

Definition chars (s : string) : list pyval :=
  map (fun c => PyStr (String c EmptyString)) (list_ascii_of_string s).

(** The entry of a key in the items of a dict, which are kept in
    insertion order. *)
Fixpoint lookup {V : Type} (k : pyval) (d : list (pyval * V)) : option V :=
  match d with
  | [] => None
  | (k', v) :: d' => if eqb k k' then Some v else lookup k d'
  end.

(** An existing key keeps its place (and its first spelling), a new one
    goes last. *)
Fixpoint put {V : Type} (k : pyval) (v : V) (d : list (pyval * V))
  : list (pyval * V) :=
  match d with
  | [] => [(k, v)]
  | (k', v') :: d' =>
      if eqb k k' then (k', v) :: d' else (k', v') :: put k v d'
  end.

Fixpoint remove {V : Type} (k : pyval) (d : list (pyval * V))
  : list (pyval * V) :=
  match d with
  | [] => []
  | (k', v') :: d' =>
      if eqb k k' then d' else (k', v') :: remove k d'
  end.

(** [v[i]] on an arbitrary object. *)
Definition getitem (v i : pyval) : result pyval :=
  match v with
  | PyList l | PyTuple l => let? n := as_index i in index l n
  | PyStr s => let? n := as_index i in index (chars s) n
  | PyDict d =>
      if hashable i then
        match lookup i d with
        | Some x => Ok x
        | None => Raise KeyError
        end
      else Raise TypeError
  | _ => Raise TypeError
  end.

(** [v[i] = x] on an arbitrary object, returning the mutated object. *)
Definition setitem (v i x : pyval) : result pyval :=
  match v with
  | PyList l =>
      let? n := as_index i in
      let? l' := set_index l n x in
      Ok (PyList l')
  | PyDict d =>
      if hashable i then Ok (PyDict (put i x d)) else Raise TypeError
  | _ => Raise TypeError
  end.

(** [k in v] for a string [k]. *)
Definition contains_key (k : string) (v : pyval) : result bool :=
  match v with
  | PyDict d =>
      Ok (match lookup (PyStr k) d with Some _ => true | None => false end)
  | PyList l | PyTuple l => Ok (existsb (eqb (PyStr k)) l)
  | PyStr s =>
      Ok ((fix sub (s : string) : bool :=
             if String.prefix k s then true
             else match s with
                  | EmptyString => false
                  | String _ s' => sub s'
                  end) s)
  | _ => Raise TypeError
  end.

(** What [for x in v] runs through. *)
Definition iter (v : pyval) : result (list pyval) :=
  match v with
  | PyList l | PyTuple l => Ok l
  | PyStr s => Ok (chars s)
  | PyDict d => Ok (map fst d)
  | _ => Raise TypeError
  end.

(** [len(v)]. *)
Definition len (v : pyval) : result nat :=
  match v with
  | PyList l | PyTuple l => Ok (List.length l)
  | PyStr s => Ok (String.length s)
  | PyDict d => Ok (List.length d)
  | _ => Raise TypeError
  end.

(** [v[1:]]-style slices of an object. *)
Definition slice_from_obj (v : pyval) (i : Z) : result pyval :=
  match v with
  | PyList l => Ok (PyList (slice_from l i))
  | PyTuple l => Ok (PyTuple (slice_from l i))
  | PyStr s =>
      Ok (PyStr (string_of_list_ascii
                   (slice_from (list_ascii_of_string s) i)))
  | _ => Raise TypeError
  end.

Definition slice_to_obj (v : pyval) (j : Z) : result pyval :=
  match v with
  | PyList l => Ok (PyList (slice_to l j))
  | PyTuple l => Ok (PyTuple (slice_to l j))
  | PyStr s =>
      Ok (PyStr (string_of_list_ascii
                   (slice_to (list_ascii_of_string s) j)))
  | _ => Raise TypeError
  end.

(** [tuple(v)]. *)
Definition to_tuple (v : pyval) : result pyval :=
  let? l := iter v in Ok (PyTuple l).

(** [x in s] for a set or a list of hashable things held as a Rocq list. *)
Definition mem (x : pyval) (s : list pyval) : bool :=
  existsb (eqb x) s.

(** [s.remove(x)] on a set. *)
Fixpoint set_remove (x : pyval) (s : list pyval) : result (list pyval) :=
  match s with
  | [] => Raise KeyError
  | y :: s' =>
      if eqb x y then Ok s'
      else let? r := set_remove x s' in Ok (y :: r)
  end.

(** [s - t] on sets. *)
Definition set_diff (s t : list pyval) : list pyval :=
  filter (fun x => negb (mem x t)) s.

Definition str_of_Z (n : Z) : string :=
  NilZero.string_of_int (Z.to_int n).

Fixpoint join (sep : string) (l : list string) : string :=
  match l with
  | [] => ""
  | [s] => s
  | s :: l' => s ^^ sep ^^ join sep l'
  end.

Section Repr.

(** [repr] of a [str] object (quoting and escaping). *)
Variable repr_str : string -> string.

Fixpoint repr (v : pyval) : string :=
  match v with
  | PyNone => "None"
  | PyBool true => "True"
  | PyBool false => "False"
  | PyInt n => str_of_Z n
  | PyStr s => repr_str s
  | PyList l => "[" ^^ join ", " (map repr l) ^^ "]"
  | PyTuple l =>
      match l with
      | [x] => "(" ^^ repr x ^^ ",)"
      | _ => "(" ^^ join ", " (map repr l) ^^ ")"
      end
  | PyDict d =>
      "{" ^^ join ", "
               (map (fun e => repr (fst e) ^^ ": " ^^ repr (snd e)) d)
          ^^ "}"
  end.

(** [str(v)]. *)
Definition str (v : pyval) : string :=
  match v with
  | PyStr s => s
  | _ => repr v
  end.

End Repr.

End Py.

(* ------------------------------------------------------------------ *)
(** ** Dictionaries in insertion order *)

Definition pydict (V : Type) : Type := list (pyval * V).

(** Dictionaries whose keys are known to be strings ([sdict]) or integers
    ([zdict]). *)
Definition sdict (V : Type) : Type := list (string * V).
Definition zdict (V : Type) : Type := list (Z * V).

Module SDict.

Section Ops.
Context {V : Type}.

Fixpoint lookup (k : string) (d : sdict V) : option V :=
  match d with
  | [] => None
  | (k', v) :: d' => if String.eqb k k' then Some v else lookup k d'
  end.

Fixpoint put (k : string) (v : V) (d : sdict V) : sdict V :=
  match d with
  | [] => [(k, v)]
  | (k', v') :: d' =>
      if String.eqb k k' then (k', v) :: d' else (k', v') :: put k v d'
  end.

Definition keys (d : sdict V) : list string := map fst d.

(** [d.update(e)]. *)
Definition update (d e : sdict V) : sdict V :=
  fold_left (fun acc kv => put (fst kv) (snd kv) acc) e d.

End Ops.

End SDict.

Module ZDict.

Section Ops.
Context {V : Type}.

Fixpoint lookup (k : Z) (d : zdict V) : option V :=
  match d with
  | [] => None
  | (k', v) :: d' => if k =? k' then Some v else lookup k d'
  end.

Fixpoint put (k : Z) (v : V) (d : zdict V) : zdict V :=
  match d with
  | [] => [(k, v)]
  | (k', v') :: d' =>
      if k =? k' then (k', v) :: d' else (k', v') :: put k v d'
  end.

(** [d[k]] for an arbitrary object [k]: [True] and [False] hash and
    compare like [1] and [0]. *)
Definition getitem (k : pyval) (d : zdict V) : result V :=
  if Py.hashable k then
    match k with
    | PyInt _ | PyBool _ =>
        match Py.as_index k with
        | Ok n =>
            match lookup n d with
            | Some v => Ok v
            | None => Raise KeyError
            end
        | Raise e => Raise e
        end
    | _ => Raise KeyError
    end
  else Raise TypeError.

(** [d.get(k)]. *)
Definition get (k : pyval) (d : zdict V) : result (option V) :=
  if Py.hashable k then
    match k with
    | PyInt n => Ok (lookup n d)
    | PyBool b => Ok (lookup (Z.b2z b) d)
    | _ => Ok None
    end
  else Raise TypeError.

End Ops.

End ZDict.

Module Dict.

Section Ops.
Context {V : Type}.

(** [d.get(k)]; an unhashable key is a [TypeError]. *)
Definition get (k : pyval) (d : pydict V) : result (option V) :=
  if Py.hashable k then Ok (Py.lookup k d) else Raise TypeError.

(** [d[k]]. *)
Definition getitem (k : pyval) (d : pydict V) : result V :=
  if Py.hashable k then
    match Py.lookup k d with
    | Some v => Ok v
    | None => Raise KeyError
    end
  else Raise TypeError.

(** [k in d]. *)
Definition contains (k : pyval) (d : pydict V) : result bool :=
  if Py.hashable k then
    Ok (match Py.lookup k d with Some _ => true | None => false end)
  else Raise TypeError.

(** [d[k] = v]. *)
Definition setitem (k : pyval) (v : V) (d : pydict V)
  : result (pydict V) :=
  if Py.hashable k then Ok (Py.put k v d) else Raise TypeError.

(** [del d[k]]. *)
Definition delitem (k : pyval) (d : pydict V) : result (pydict V) :=
  if Py.hashable k then
    match Py.lookup k d with
    | Some _ => Ok (Py.remove k d)
    | None => Raise KeyError
    end
  else Raise TypeError.

Definition keys (d : pydict V) : list pyval := map fst d.
Definition values (d : pydict V) : list V := map snd d.

End Ops.

End Dict.

(* ------------------------------------------------------------------ *)
(** ** The imported module [enums]

    [enums.py] is not among the sources at hand.  The program uses the names
    of the members of two of its enumerations, in declaration order, and the
    [.value] of some members; the record below holds exactly these. *)

Record enums_py : Type := {
  (** [list(enums.CommandsToClient.__members__.keys())] *)
  CommandsToClient_members : list string;
  (** [list(enums.Errors.__members__.keys())] *)
  Errors_members : list string;
  (** [enums.CommandsToClient.<member>.value] *)
  FatalError : Z;
  SetGameBoardCell : Z;
  SetScoreSheetCell : Z;
  SetScoreSheet : Z;
  SetGamePlayerJoin : Z;
  SetGamePlayerRejoin : Z;
  SetGamePlayerLeave : Z;
  SetGameWatcherClientId : Z;
  ReturnWatcherToLobby : Z;
  AddGameHistoryMessage : Z;
  AddGameHistoryMessages : Z;
  SetTile : Z;
  RemoveTile : Z;
  (** [enums.CommandsToServer.DoGameAction.value] *)
  DoGameAction : Z;
  (** [enums.GameBoardTypes.Nothing.value] *)
  Nothing : Z;
  (** [enums.GameHistoryMessages.<member>.value] *)
  TurnBegan : Z;
  DrewPositionTile : Z;
  DrewTile : Z;
  ReplacedDeadTile : Z
}.

(** [l.index(x)] on a list of strings, [None] standing for [ValueError]. *)
Fixpoint index_of (x : string) (l : list string) : option nat :=
  match l with
  | [] => None
  | y :: l' =>
      if String.eqb x y then Some O
      else match index_of x l' with
           | Some n => Some (S n)
           | None => None
           end
  end.

(** [enumerate(l)], counting from [i]. *)
Fixpoint enumerate_from {A : Type} (i : nat) (l : list A) : list (nat * A) :=
  match l with
  | [] => []
  | x :: l' => (i, x) :: enumerate_from (S i) l'
  end.

Definition enumerate {A : Type} (l : list A) : list (nat * A) :=
  enumerate_from 0 l.

(** Is [sub] a substring of [s] ([sub in s])? *)
Fixpoint contains_substring (sub s : string) : bool :=
  if String.prefix sub s then true
  else match s with
       | EmptyString => false
       | String _ s' => contains_substring sub s'
       end.

(** [x in s] for a set [s] of integers and an arbitrary object [x]. *)
Definition in_int_set (x : pyval) (s : list Z) : result bool :=
  if Py.hashable x then
    match x with
    | PyInt n => Ok (existsb (Z.eqb n) s)
    | PyBool b => Ok (existsb (Z.eqb (Z.b2z b)) s)
    | _ => Ok false
    end
  else Raise TypeError.

(* ------------------------------------------------------------------ *)
(** ** class Enums *)

Module Enums.

(** One translation: old index to new index. *)
Definition index_map : Type := zdict Z.

(** [Enums._lookups_changes]: for a time stamp, the member names of the
    enumerations as they were until then. *)
Definition _lookups_changes : zdict (sdict (list string)) :=
  [ (1417176502,
     [ ("CommandsToClient",
        [ "FatalError";
          "SetClientId";
          "SetClientIdToData";
          "SetGameState";
          "SetGameBoardCell";
          "SetGameBoard";
          "SetScoreSheetCell";
          "SetScoreSheet";
          "SetGamePlayerUsername";
          "SetGamePlayerClientId";
          "SetGameWatcherClientId";
          "ReturnWatcherToLobby";
          "AddGameHistoryMessage";
          "AddGameHistoryMessages";
          "SetTurn";
          "SetGameAction";
          "SetTile";
          "SetTileGameBoardType";
          "RemoveTile";
          "AddGlobalChatMessage";
          "AddGameChatMessage";
          "DestroyGame" ]) ]);
    (1409233190,
     [ ("Errors",
        [ "NotUsingLatestVersion";
          "InvalidUsername";
          "UsernameAlreadyInUse" ]) ]) ].

Section WithEnums.

Variable enums : enums_py.

(** [Enums.lookups] *)
Definition lookups : sdict (list string) :=
  [ ("CommandsToClient",
     CommandsToClient_members enums
       ++ ["SetGamePlayerUsername"; "SetGamePlayerClientId"]);
    ("Errors", Errors_members enums) ].

(** [{entry: index for index, entry in enumerate(names)}] *)
Definition entry_to_new_index (names : list string) : sdict Z :=
  fold_left (fun d ie => SDict.put (snd ie) (Z.of_nat (fst ie)) d)
            (enumerate names) [].

(** [{index: entry_to_new_index[entry] for index, entry in
     enumerate(entries)}] *)
Definition old_index_to_new_index (names entries : list string)
  : result index_map :=
  rfold (fun d ie =>
           match SDict.lookup (snd ie) (entry_to_new_index names) with
           | Some n => Ok (ZDict.put (Z.of_nat (fst ie)) n d)
           | None => Raise KeyError
           end)
        (enumerate entries) [].

(** The body of the outer loop of [Enums.initialize]. *)
Definition translation_of (changes : sdict (list string))
  : result (sdict index_map) :=
  rfold (fun translation ne =>
           match SDict.lookup (fst ne) lookups with
           | Some names =>
               let? m := old_index_to_new_index names (snd ne) in
               Ok (SDict.put (fst ne) m translation)
           | None => Raise KeyError
           end)
        changes [].

(** [Enums.initialize()], returning [Enums._translations]. *)
Definition initialize (lookups_changes : zdict (sdict (list string)))
  : result (zdict (sdict index_map)) :=
  rfold (fun translations tc =>
           let? translation := translation_of (snd tc) in
           Ok (ZDict.put (fst tc) translation translations))
        lookups_changes [].

End WithEnums.

(** [sorted(d.items(), reverse=True)] for a dict with integer keys. *)
Fixpoint insert_desc {V : Type} (kv : Z * V) (l : list (Z * V))
  : list (Z * V) :=
  match l with
  | [] => [kv]
  | kv' :: l' =>
      if fst kv' <? fst kv then kv :: l else kv' :: insert_desc kv l'
  end.

Definition sorted_reverse {V : Type} (d : zdict V) : list (Z * V) :=
  fold_right insert_desc [] d.

(** [Enums.get_translations(timestamp)], given [Enums._translations]. *)
Definition get_translations (_translations : zdict (sdict index_map))
  (timestamp : Z) : sdict index_map :=
  fold_left
    (fun translations_for_timestamp tc =>
       if timestamp <=? fst tc
       then SDict.update translations_for_timestamp (snd tc)
       else translations_for_timestamp)
    (sorted_reverse _translations) [].

End Enums.

(* ------------------------------------------------------------------ *)
(** ** class CommandsToClientTranslator *)

Module CommandsToClientTranslator.

Record t : Type := {
  _commands_to_client : option Enums.index_map;
  _errors : option Enums.index_map;
  _fatal_error : Z
}.

(** [__init__(self, translations)] *)
Definition __init__ (enums : enums_py) (translations : sdict Enums.index_map)
  : t :=
  {| _commands_to_client := SDict.lookup "CommandsToClient" translations;
     _errors := SDict.lookup "Errors" translations;
     _fatal_error := FatalError enums |}.

(** [if d:] for [d] that is [None] or a dict. *)
Definition present (d : option Enums.index_map) : option Enums.index_map :=
  match d with
  | Some (_ :: _) => d
  | _ => None
  end.

(** [command[0] = self._commands_to_client[command[0]]] *)
Definition translate_code (m : Enums.index_map) (command : pyval)
  : result pyval :=
  let? code := Py.getitem command (PyInt 0) in
  let? new := ZDict.getitem code m in
  Py.setitem command (PyInt 0) (PyInt new).

(** [if command[0] == self._fatal_error:
       command[1] = self._errors[command[1]]] *)
Definition translate_error (fatal : Z) (m : Enums.index_map)
  (command : pyval) : result pyval :=
  let? code := Py.getitem command (PyInt 0) in
  if Py.eqb code (PyInt fatal) then
    let? err := Py.getitem command (PyInt 1) in
    let? new := ZDict.getitem err m in
    Py.setitem command (PyInt 1) (PyInt new)
  else Ok command.

(** [for command in commands: <mutate command>].  The commands of a list
    or tuple are mutated where they are; the items a string or a dict
    yields cannot be mutated. *)
Definition for_each_command (f : pyval -> result pyval) (commands : pyval)
  : result pyval :=
  match commands with
  | PyList l => let? l' := rmap f l in Ok (PyList l')
  | PyTuple l => let? l' := rmap f l in Ok (PyTuple l')
  | _ =>
      let? l := Py.iter commands in
      let? _ := rmap f l in
      Ok commands
  end.

(** [translate(self, commands)], returning the mutated [commands]. *)
Definition translate (self : t) (commands : pyval) : result pyval :=
  let? commands :=
    match present (_commands_to_client self) with
    | Some m => for_each_command (translate_code m) commands
    | None => Ok commands
    end in
  match present (_errors self) with
  | Some m => for_each_command (translate_error (_fatal_error self) m) commands
  | None => Ok commands
  end.

End CommandsToClientTranslator.

(* ------------------------------------------------------------------ *)
(** ** Regular expressions, as far as [LogParser] uses module [re]

    The matcher tries alternatives in the order a backtracking engine does
    (greedy repetition first, left alternative first), so that the groups it
    reports are those of [re.match].  The classes [\d] and [\s] are those
    of a [str] pattern, on characters with code points below 256. *)

Module Re.

Inductive regex : Type :=
| Bol                               (* ^ *)
| Eol                               (* $ *)
| Lit (text : string)               (* literal characters *)
| Class (p : ascii -> bool)         (* one character of a class *)
| Seq (r1 r2 : regex)
| Alt (r1 r2 : regex)               (* r1|r2 *)
| Star (r : regex)                  (* r* *)
| Group (name : string) (r : regex) (* (?P<name>r) *).

Definition Plus (r : regex) : regex := Seq r (Star r).
Definition Opt (r : regex) : regex := Alt r (Lit "").

Fixpoint seq (rs : list regex) : regex :=
  match rs with
  | [] => Lit ""
  | [r] => r
  | r :: rs' => Seq r (seq rs')
  end.

Definition is_digit (c : ascii) : bool :=
  let n := nat_of_ascii c in (48 <=? n)%nat && (n <=? 57)%nat.

Definition is_space (c : ascii) : bool :=
  let n := nat_of_ascii c in
  ((9 <=? n)%nat && (n <=? 13)%nat) || ((28 <=? n)%nat && (n <=? 32)%nat)
  || (n =? 133)%nat || (n =? 160)%nat.

Definition newline : ascii := ascii_of_nat 10.

(** [\d], [\S], [.], [[\d,]] and [[\d\.]] *)
Definition digit : regex := Class is_digit.
Definition nonspace : regex := Class (fun c => negb (is_space c)).
Definition dot : regex := Class (fun c => negb (Ascii.eqb c newline)).
Definition digit_or (x : ascii) : regex :=
  Class (fun c => is_digit c || Ascii.eqb c x).

Definition groups : Type := sdict string.

Fixpoint drop (n : nat) (s : string) : string :=
  match n, s with
  | S n', String _ s' => drop n' s'
  | _, _ => s
  end.

(** [run r s pos g k]: match [r] at the front of [s], which starts [pos]
    characters into the line, and hand what is left to [k]. *)
Fixpoint run (r : regex) (s : string) (pos : nat) (g : groups)
  (k : string -> nat -> groups -> option groups) {struct r}
  : option groups :=
  match r with
  | Bol => if (pos =? 0)%nat then k s pos g else None
  | Eol =>
      match s with
      | EmptyString => k s pos g
      | String c EmptyString =>
          if Ascii.eqb c newline then k s pos g else None
      | _ => None
      end
  | Lit t =>
      if String.prefix t s
      then k (drop (String.length t) s) (pos + String.length t)%nat g
      else None
  | Class p =>
      match s with
      | String c s' => if p c then k s' (S pos) g else None
      | EmptyString => None
      end
  | Seq r1 r2 =>
      run r1 s pos g (fun s' pos' g' => run r2 s' pos' g' k)
  | Alt r1 r2 =>
      match run r1 s pos g k with
      | Some m => Some m
      | None => run r2 s pos g k
      end
  | Star r' =>
      (fix star (fuel : nat) (s : string) (pos : nat) (g : groups)
         {struct fuel} : option groups :=
         match fuel with
         | O => k s pos g
         | S fuel' =>
             match run r' s pos g
                     (fun s' pos' g' =>
                        if (pos <? pos')%nat then star fuel' s' pos' g'
                        else None) with
             | Some m => Some m
             | None => k s pos g
             end
         end) (String.length s) s pos g
  | Group name r' =>
      run r' s pos g
        (fun s' pos' g' =>
           k s' pos' (SDict.put name (substring 0 (pos' - pos) s) g'))
  end.

(** [regex.match(line)]: the groups of the match, if there is one. *)
Definition match_ (r : regex) (line : string) : option groups :=
  run r line 0 [] (fun _ _ g => Some g).

(** [match.group(name)] *)
Definition group (name : string) (g : groups) : string :=
  match SDict.lookup name g with
  | Some s => s
  | None => ""
  end.

End Re.

(** [int(s)] for a string of digits; [None] is [ValueError]. *)
Fixpoint int_of_digits (acc : Z) (s : string) : option Z :=
  match s with
  | EmptyString => Some acc
  | String c s' =>
      if Re.is_digit c
      then int_of_digits (10 * acc + (Z.of_nat (nat_of_ascii c) - 48)) s'
      else None
  end.

Definition py_int (s : string) : option Z :=
  match s with
  | EmptyString => None
  | _ => int_of_digits 0 s
  end.

(** [s.split(c)] *)
Fixpoint split_on (c : ascii) (s : string) : list string :=
  match s with
  | EmptyString => [EmptyString]
  | String a s' =>
      if Ascii.eqb a c then EmptyString :: split_on c s'
      else match split_on c s' with
           | [] => [String a EmptyString]
           | w :: ws => String a w :: ws
           end
  end.

(** Does [float(s)] accept [s], a string of digits and dots?  It does when
    there is at least one digit and at most one dot. *)
Definition float_accepts (s : string) : bool :=
  let cs := list_ascii_of_string s in
  (1 <=? List.length (filter Re.is_digit cs))%nat
  && (List.length (filter (Ascii.eqb ".") cs) <=? 1)%nat.

(* ------------------------------------------------------------------ *)
(** ** class LineTypes *)

Module LineTypes.

Inductive t : Type :=
| time
| connect
| disconnect
| command_to_client
| command_to_server
| game_expired
| log
| blank_line
| connection_made
| error.

Definition eqb (a b : t) : bool :=
  match a, b with
  | time, time | connect, connect | disconnect, disconnect
  | command_to_client, command_to_client
  | command_to_server, command_to_server
  | game_expired, game_expired | log, log | blank_line, blank_line
  | connection_made, connection_made | error, error => true
  | _, _ => false
  end.

End LineTypes.

(* ------------------------------------------------------------------ *)
(** ** class LogParser *)

Module LogParser.

(** What a line handler returns for its line: the arguments of the
    [LogProcessor] handler of that line type. *)
Inductive parse_data : Type :=
| PNone                                   (* None *)
| PUnit                                   (* () *)
| PTime (time : string)                   (* (float,) as its text *)
| PCommandToClient (client_ids : list Z) (commands : pyval)
| PCommandToServer (client_id : Z) (command : pyval)
| PLog (entry : pyval)
| PConnect (client_id : Z) (username : string)
| PDisconnect (client_id : Z)
| PGameExpired (game_id : Z).

(** A handler returns [None], the string ['stop'] or data. *)
Inductive handler_result : Type :=
| HNone
| HStop
| HData (d : parse_data).

(** What [go] yields for a line. *)
Record parsed_line : Type := {
  handled_line_type : option LineTypes.t;
  line_number : nat;
  line : string;
  parse_line_data : parse_data
}.

Record t : Type := {
  _commands_to_client_translator : CommandsToClientTranslator.t;
  _connection_made_count : nat;
  _enum_set_game_board_cell : Z;
  _enum_set_game_player : list Z
}.

Definition handler : Type := Re.groups -> t -> result (handler_result * t).

Definition regexes_to_ignore : list Re.regex :=
  [ Re.seq [Re.Bol; Re.Lit " "];
    Re.seq [Re.Bol; Re.Lit "AttributeError:"];
    Re.seq [Re.Bol; Re.Lit "connection_lost"; Re.Eol];
    Re.seq [Re.Bol; Re.Lit "Exception in callback "];
    Re.seq [Re.Bol; Re.Lit "handle:"];
    Re.seq [Re.Bol; Re.Lit "ImportError:"];
    Re.seq [Re.Bol; Re.Lit "socket.send() raised exception."; Re.Eol];
    Re.seq [Re.Bol; Re.Lit "Traceback (most recent call last):"];
    Re.seq [Re.Bol; Re.Lit "UnicodeEncodeError:"] ].

(** ['|'.join(regexes_to_ignore)] *)
Fixpoint alternatives (rs : list Re.regex) : Re.regex :=
  match rs with
  | [] => Re.Lit ""
  | [r] => r
  | r :: rs' => Re.Alt r (alternatives rs')
  end.

(** [\d+\.\d+\.\d+\.\d+] *)
Definition ip_address : Re.regex :=
  Re.seq [ Re.Plus Re.digit; Re.Lit "."; Re.Plus Re.digit; Re.Lit ".";
           Re.Plus Re.digit; Re.Lit "."; Re.Plus Re.digit ].

Definition re_time : Re.regex :=
  Re.seq [ Re.Bol; Re.Lit "time: ";
           Re.Group "time" (Re.Plus (Re.digit_or ".")); Re.Eol ].

Definition re_command_to_client : Re.regex :=
  Re.seq [ Re.Bol; Re.Group "client_ids" (Re.Plus (Re.digit_or ","));
           Re.Lit " <- "; Re.Group "commands" (Re.Star Re.dot) ].

Definition re_blank_line : Re.regex := Re.seq [Re.Bol; Re.Eol].

Definition re_command_to_server : Re.regex :=
  Re.seq [ Re.Bol; Re.Group "client_id" (Re.Plus Re.digit);
           Re.Lit " -> "; Re.Group "command" (Re.Star Re.dot) ].

Definition re_log : Re.regex :=
  Re.seq [ Re.Bol; Re.Group "entry" (Re.Seq (Re.Lit "{") (Re.Star Re.dot)) ].

Definition re_connect : Re.regex :=
  Re.seq [ Re.Bol; Re.Group "client_id" (Re.Plus Re.digit);
           Re.Lit " connect "; Re.Group "username" (Re.Plus Re.dot);
           Re.Lit " "; ip_address; Re.Lit " "; Re.Plus Re.nonspace;
           Re.Opt (Re.Seq (Re.Lit " ")
                     (Re.Alt (Re.Lit "True") (Re.Lit "False")));
           Re.Eol ].

Definition re_disconnect : Re.regex :=
  Re.seq [ Re.Bol; Re.Group "client_id" (Re.Plus Re.digit);
           Re.Lit " disconnect"; Re.Eol ].

Definition re_game_expired : Re.regex :=
  Re.seq [ Re.Bol; Re.Lit "game #"; Re.Group "game_id" (Re.Plus Re.digit);
           Re.Lit " expired";
           Re.Opt (Re.seq [ Re.Lit " (internal #"; Re.Plus Re.digit;
                            Re.Lit ")" ]);
           Re.Eol ].

Definition re_connect_old : Re.regex :=
  Re.seq [ Re.Bol; Re.Group "client_id" (Re.Plus Re.digit);
           Re.Lit " connect "; ip_address; Re.Lit " ";
           Re.Group "username" (Re.Plus Re.dot); Re.Eol ].

Definition re_disconnect_after_error : Re.regex :=
  Re.seq [ Re.Bol; Re.Plus Re.digit; Re.Lit " -> ";
           Re.Group "client_id" (Re.Plus Re.digit);
           Re.Lit " disconnect"; Re.Eol ].

Definition re_command_to_server_after_connect : Re.regex :=
  Re.seq [ Re.Bol; Re.Plus Re.digit; Re.Lit " connect ";
           Re.Group "client_id" (Re.Plus Re.digit); Re.Lit " -> ";
           Re.Group "command" (Re.Star Re.dot) ].

Definition re_connection_made : Re.regex :=
  Re.seq [Re.Bol; Re.Lit "connection_made"; Re.Eol].

Definition re_error : Re.regex := alternatives regexes_to_ignore.

(** [min(s)] and [max(s)] of a non-empty set of indexes. *)
Definition minimum (l : list nat) : nat :=
  match l with
  | [] => O
  | x :: l' => fold_left Nat.min l' x
  end.

Definition maximum (l : list nat) : nat :=
  match l with
  | [] => O
  | x :: l' => fold_left Nat.max l' x
  end.

(** The loop of [_handle_command_to_client] that collects
    [enum_set_game_board_cell_indexes] and [enum_set_game_player_indexes]. *)
Definition collect_indexes (board_cell : Z) (player : list Z)
  (commands : list pyval) : result (list nat * list nat) :=
  rfold (fun acc ic =>
           let? code := Py.getitem (snd ic) (PyInt 0) in
           if Py.eqb code (PyInt board_cell)
           then Ok (fst acc ++ [fst ic], snd acc)
           else
             let? p := in_int_set code player in
             if p then Ok (fst acc, snd acc ++ [fst ic]) else Ok acc)
        (enumerate commands) ([], []).

(** The second half of [_handle_command_to_client]: move the
    [SetGamePlayer*] commands to the beginning if one of them is after a
    [SetGameBoardCell] command. *)
Definition reorder (board_cell : Z) (player : list Z)
  (commands : list pyval) : result (list pyval) :=
  let? ix := collect_indexes board_cell player commands in
  let enum_set_game_board_cell_indexes := fst ix in
  let enum_set_game_player_indexes := snd ix in
  match enum_set_game_board_cell_indexes, enum_set_game_player_indexes with
  | _ :: _, _ :: _ =>
      if (minimum enum_set_game_board_cell_indexes
          <? minimum enum_set_game_player_indexes)%nat
      then
        let min_index := Z.of_nat (minimum enum_set_game_player_indexes) in
        let max_index := Z.of_nat (maximum enum_set_game_player_indexes) in
        Ok (Py.slice commands min_index (max_index + 1)
              ++ Py.slice_to commands min_index
              ++ Py.slice_from commands (max_index + 1))
      else Ok commands
  | _, _ => Ok commands
  end.

(** [reorder] on whatever [ujson.decode] returned. *)
Definition reorder_obj (board_cell : Z) (player : list Z)
  (commands : pyval) : result pyval :=
  match commands with
  | PyList l => let? l' := reorder board_cell player l in Ok (PyList l')
  | PyTuple l => let? l' := reorder board_cell player l in Ok (PyTuple l')
  | _ =>
      (* the items of a string or of a dict are strings: none of them is
         a command code, the index sets stay empty *)
      let? l := Py.iter commands in
      let? _ := collect_indexes board_cell player l in
      Ok commands
  end.

Section WithImports.

Variable enums : enums_py.

(** [ujson.decode]; [None] stands for [ValueError]. *)
Variable ujson_decode : string -> option pyval.

(** [__init__(self, log_timestamp, file)], given [Enums._translations].
    The file is passed to [go]. *)
Definition __init__ (_translations : zdict (sdict Enums.index_map))
  (log_timestamp : Z) : t :=
  let enums_translations :=
    Enums.get_translations _translations log_timestamp in
  {| _commands_to_client_translator :=
       CommandsToClientTranslator.__init__ enums enums_translations;
     _connection_made_count := 0;
     _enum_set_game_board_cell := SetGameBoardCell enums;
     _enum_set_game_player :=
       map (fun ie => Z.of_nat (fst ie))
         (filter (fun ie => contains_substring "SetGamePlayer" (snd ie))
            (enumerate
               (match SDict.lookup "CommandsToClient" (Enums.lookups enums)
                with Some names => names | None => [] end))) |}.

Definition _handle_time : handler := fun match_ self =>
  let time := Re.group "time" match_ in
  if float_accepts time then Ok (HData (PTime time), self)
  else Raise ValueError.

Definition _handle_command_to_client : handler := fun match_ self =>
  match rmap (fun x => match py_int x with
                       | Some n => Ok n
                       | None => Raise ValueError
                       end)
             (split_on "," (Re.group "client_ids" match_)),
        ujson_decode (Re.group "commands" match_) with
  | Ok client_ids, Some commands =>
      let? commands :=
        CommandsToClientTranslator.translate
          (_commands_to_client_translator self) commands in
      let? commands :=
        reorder_obj (_enum_set_game_board_cell self)
          (_enum_set_game_player self) commands in
      Ok (HData (PCommandToClient client_ids commands), self)
  | _, _ => Ok (HNone, self)
  end.

Definition _handle_command_to_server : handler := fun match_ self =>
  match py_int (Re.group "client_id" match_),
        ujson_decode (Re.group "command" match_) with
  | Some client_id, Some command =>
      Ok (HData (PCommandToServer client_id command), self)
  | _, _ => Ok (HNone, self)
  end.

Definition _handle_log : handler := fun match_ self =>
  match ujson_decode (Re.group "entry" match_) with
  | Some entry => Ok (HData (PLog entry), self)
  | None => Ok (HNone, self)
  end.

Definition _handle_connect : handler := fun match_ self =>
  match py_int (Re.group "client_id" match_) with
  | Some client_id =>
      Ok (HData (PConnect client_id (Re.group "username" match_)), self)
  | None => Raise ValueError
  end.

Definition _handle_disconnect : handler := fun match_ self =>
  match py_int (Re.group "client_id" match_) with
  | Some client_id => Ok (HData (PDisconnect client_id), self)
  | None => Raise ValueError
  end.

Definition _handle_game_expired : handler := fun match_ self =>
  match py_int (Re.group "game_id" match_) with
  | Some game_id => Ok (HData (PGameExpired game_id), self)
  | None => Raise ValueError
  end.

Definition _handle_connection_made : handler := fun match_ self =>
  let self :=
    {| _commands_to_client_translator :=
         _commands_to_client_translator self;
       _connection_made_count := S (_connection_made_count self);
       _enum_set_game_board_cell := _enum_set_game_board_cell self;
       _enum_set_game_player := _enum_set_game_player self |} in
  if (_connection_made_count self =? 1)%nat
  then Ok (HData PUnit, self)
  else Ok (HStop, self).

Definition _line_matchers_and_handlers
  : list (LineTypes.t * Re.regex * option handler) :=
  [ (LineTypes.time, re_time, Some _handle_time);
    (LineTypes.command_to_client, re_command_to_client,
      Some _handle_command_to_client);
    (LineTypes.blank_line, re_blank_line, None);
    (LineTypes.command_to_server, re_command_to_server,
      Some _handle_command_to_server);
    (LineTypes.log, re_log, Some _handle_log);
    (LineTypes.connect, re_connect, Some _handle_connect);
    (LineTypes.disconnect, re_disconnect, Some _handle_disconnect);
    (LineTypes.game_expired, re_game_expired, Some _handle_game_expired);
    (LineTypes.connect, re_connect_old, Some _handle_connect);
    (LineTypes.disconnect, re_disconnect_after_error,
      Some _handle_disconnect);
    (LineTypes.command_to_server, re_command_to_server_after_connect,
      Some _handle_command_to_server);
    (LineTypes.connection_made, re_connection_made,
      Some _handle_connection_made);
    (LineTypes.error, re_error, None) ].

(** What the inner loop of [go] leaves behind for one line. *)
Record line_outcome : Type := {
  lo_handled_line_type : option LineTypes.t;
  lo_parse_line_data : parse_data;
  lo_stop_processing_file : bool;
  lo_self : t
}.

(** The inner loop of [go]: [for line_type, regex, handler in
    self._line_matchers_and_handlers]. *)
Fixpoint match_line
  (matchers : list (LineTypes.t * Re.regex * option handler))
  (line : string) (self : t) : result line_outcome :=
  match matchers with
  | [] =>
      Ok {| lo_handled_line_type := None;
            lo_parse_line_data := PNone;
            lo_stop_processing_file := false;
            lo_self := self |}
  | (line_type, regex, handler) :: matchers' =>
      match Re.match_ regex line with
      | Some match_ =>
          match handler with
          | Some handler =>
              let? r := handler match_ self in
              match fst r with
              | HNone => match_line matchers' line (snd r)
              | HStop =>
                  Ok {| lo_handled_line_type := Some line_type;
                        lo_parse_line_data := PNone;
                        lo_stop_processing_file := true;
                        lo_self := snd r |}
              | HData d =>
                  Ok {| lo_handled_line_type := Some line_type;
                        lo_parse_line_data := d;
                        lo_stop_processing_file := false;
                        lo_self := snd r |}
              end
          | None =>
              Ok {| lo_handled_line_type := Some line_type;
                    lo_parse_line_data := PUnit;
                    lo_stop_processing_file := false;
                    lo_self := self |}
          end
      | None => match_line matchers' line self
      end
  end.

(** [if len(line) and line[-1] == '\n': line = line[:-1]] *)
Fixpoint strip_newline (line : string) : string :=
  match line with
  | EmptyString => EmptyString
  | String c EmptyString =>
      if Ascii.eqb c Re.newline then EmptyString else line
  | String c rest => String c (strip_newline rest)
  end.

(** How the [for line in self._file] loop of [go] ended. *)
Inductive loop_end : Type :=
| Exhausted          (* the file has no more lines *)
| Stopped            (* stop_processing_file *)
| Failed (e : exn)   (* a handler raised *).

Record loop_result : Type := {
  yields : list parsed_line;
  ended : loop_end;
  last_handled_line_type : option LineTypes.t;
  last_line_number : nat;
  (** the parser after the loop *)
  last_self : t
}.

(** The outer loop of [go], from the state reached after
    [line_number] lines. *)
Fixpoint go_loop (self : t) (file : list string)
  (handled_line_type : option LineTypes.t) (line_number : nat)
  : loop_result :=
  match file with
  | [] =>
      {| yields := []; ended := Exhausted;
         last_handled_line_type := handled_line_type;
         last_line_number := line_number;
         last_self := self |}
  | raw :: file' =>
      let line_number := S line_number in
      let line := strip_newline raw in
      match match_line _line_matchers_and_handlers line self with
      | Raise e =>
          {| yields := []; ended := Failed e;
             last_handled_line_type := handled_line_type;
             last_line_number := line_number;
             last_self := self |}
      | Ok o =>
          if lo_stop_processing_file o then
            {| yields := []; ended := Stopped;
               last_handled_line_type := lo_handled_line_type o;
               last_line_number := line_number;
               last_self := lo_self o |}
          else
            let r := go_loop (lo_self o) file'
                       (lo_handled_line_type o) line_number in
            {| yields :=
                 {| handled_line_type := lo_handled_line_type o;
                    line_number := line_number;
                    line := line;
                    parse_line_data := lo_parse_line_data o |}
                 :: yields r;
               ended := ended r;
               last_handled_line_type := last_handled_line_type r;
               last_line_number := last_line_number r;
               last_self := last_self r |}
      end
  end.

Definition is_blank_line (h : option LineTypes.t) : bool :=
  match h with
  | Some LineTypes.blank_line => true
  | _ => false
  end.

(** [go(self)]: everything the generator yields, and the exception it
    ends with, if any. *)
Definition go (self : t) (file : list string)
  : list parsed_line * option exn :=
  let r := go_loop self file None 0 in
  match ended r with
  | Failed e => (yields r, Some e)
  | _ =>
      (* make sure last line type is always LineTypes.blank_line *)
      if is_blank_line (last_handled_line_type r) then (yields r, None)
      else
        (yields r
           ++ [ {| handled_line_type := Some LineTypes.blank_line;
                   line_number := S (last_line_number r);
                   line := "";
                   parse_line_data := PUnit |} ],
         None)
  end.

End WithImports.

End LogParser.

(* ------------------------------------------------------------------ *)
(** ** The reference game engine, as [Game] reads it

    [server.Game] is consumed as a black box; after the replay
    [compare_with_server_game] reads the fields below. *)

Record ServerGame : Type := {
  (** [game_board.x_to_y_to_board_type] *)
  x_to_y_to_board_type : pyval;
  (** [score_sheet.player_data], one row per player *)
  player_data : list pyval;
  (** [score_sheet.chain_size] *)
  chain_size : pyval;
  (** [len(score_sheet.username_to_player_id)] *)
  number_of_players : nat;
  (** [tile_racks.racks], or [None] when [tile_racks] is [None] *)
  racks : option (list (list pyval));
  (** [history_messages]: pairs of a target player id (or [None]) and a
      message *)
  history_messages : list (pyval * pyval)
}.

(* ------------------------------------------------------------------ *)
(** ** class Game *)

Module Game.

Record t : Type := {
  log_timestamp : Z;
  game_id : pyval;
  internal_game_id : pyval;
  _verbose : bool;
  state : pyval;
  mode : pyval;
  max_players : pyval;
  tile_bag : option (list pyval);
  begin_ : pyval;
  end_ : pyval;
  score : pyval;
  player_id_to_username : pydict pyval;
  username_to_player_id : pydict pyval;
  player_join_order : list pyval;
  board : list (list pyval);
  score_sheet_players : list pyval;
  score_sheet_chain_size : pyval;
  played_tiles_order : list pyval;
  tile_rack_tiles : list pyval;
  initial_tile_racks : list (list pyval);
  tile_racks : list (list pyval);
  additional_tile_rack_tiles_order : list pyval;
  actions : list (pyval * pyval);
  username_to_game_history : pydict (list pyval);
  expired : bool;
  is_server_game_synchronized : option bool;
  sync_log : option (list string)
}.

(** Assignment to one attribute: [set_<field> v self] is [self] after
    [self.<field> = v].  The terms are built from the record's
    eta-expansion. *)
Definition eta (r : t) : t :=
  Build_t (log_timestamp r) (game_id r) (internal_game_id r) (_verbose r)
    (state r) (mode r) (max_players r) (tile_bag r) (begin_ r) (end_ r)
    (score r) (player_id_to_username r) (username_to_player_id r)
    (player_join_order r) (board r) (score_sheet_players r)
    (score_sheet_chain_size r) (played_tiles_order r) (tile_rack_tiles r)
    (initial_tile_racks r) (tile_racks r)
    (additional_tile_rack_tiles_order r) (actions r)
    (username_to_game_history r) (expired r)
    (is_server_game_synchronized r) (sync_log r).

Ltac setter proj :=
  let v := fresh "v" in
  let r := fresh "r" in
  intros v r;
  let e := eval cbv [eta] in (eta r) in
  match eval pattern (proj r) in e with
  | ?f _ => exact (f v)
  end.

Definition set_state : pyval -> t -> t := ltac:(setter state).
Definition set_mode : pyval -> t -> t := ltac:(setter mode).
Definition set_max_players : pyval -> t -> t := ltac:(setter max_players).
Definition set_tile_bag : option (list pyval) -> t -> t :=
  ltac:(setter tile_bag).
Definition set_begin : pyval -> t -> t := ltac:(setter begin_).
Definition set_end : pyval -> t -> t := ltac:(setter end_).
Definition set_score : pyval -> t -> t := ltac:(setter score).
Definition set_player_id_to_username : pydict pyval -> t -> t :=
  ltac:(setter player_id_to_username).
Definition set_username_to_player_id : pydict pyval -> t -> t :=
  ltac:(setter username_to_player_id).
Definition set_player_join_order : list pyval -> t -> t :=
  ltac:(setter player_join_order).
Definition set_board : list (list pyval) -> t -> t := ltac:(setter board).
Definition set_score_sheet_players : list pyval -> t -> t :=
  ltac:(setter score_sheet_players).
Definition set_score_sheet_chain_size : pyval -> t -> t :=
  ltac:(setter score_sheet_chain_size).
Definition set_played_tiles_order : list pyval -> t -> t :=
  ltac:(setter played_tiles_order).
Definition set_tile_rack_tiles : list pyval -> t -> t :=
  ltac:(setter tile_rack_tiles).
Definition set_initial_tile_racks : list (list pyval) -> t -> t :=
  ltac:(setter initial_tile_racks).
Definition set_tile_racks : list (list pyval) -> t -> t :=
  ltac:(setter tile_racks).
Definition set_additional_tile_rack_tiles_order : list pyval -> t -> t :=
  ltac:(setter additional_tile_rack_tiles_order).
Definition set_actions : list (pyval * pyval) -> t -> t :=
  ltac:(setter actions).
Definition set_username_to_game_history : pydict (list pyval) -> t -> t :=
  ltac:(setter username_to_game_history).
Definition set_expired : bool -> t -> t := ltac:(setter expired).

(** [Game.tile_bag_tweaks]: for (log time stamp, internal game id), the
    tiles to insert at given positions; a tile may be left out ([None]). *)
Definition tweaks : Type := list ((Z * Z) * list (Z * option pyval)).

Definition tile (x y : Z) : pyval := PyTuple [PyInt x; PyInt y].

Definition tile_bag_tweaks : tweaks :=
  [ ((1414827614, 43), [(34, Some (tile 1 5))]);
    ((1415355783, 106), [(68, Some (tile 11 1))]);
    ((1421578193, 3366), [(80, Some (tile 9 6))]);
    ((1427270069, 3903), [(53, Some (tile 0 8))]);
    ((1430041771, 1330), [(63, Some (tile 0 8))]);
    ((1432033655, 1965), [(91, Some (tile 5 5))]);
    ((1433241253, 1336), [(69, Some (tile 7 5))]);
    ((1433837429, 1110), [(73, Some (tile 7 1))]);
    ((1435226336, 3165), [(88, Some (tile 2 7)); (89, Some (tile 11 3))]);
    ((1435226336, 5690), [(101, Some (tile 10 7))]) ].

(** [range(n)] as integers. *)
Definition range (n : nat) : list Z := map Z.of_nat (seq 0 n).

(** [{(x, y) for x in range(12) for y in range(9)}] *)
Definition all_tiles : list pyval :=
  flat_map (fun x => map (fun y => tile x y) (range 9)) (range 12).

Section WithEnums.

Variable enums : enums_py.

(** [__init__(self, log_timestamp, game_id, internal_game_id, verbose)] *)
Definition __init__ (log_timestamp : Z) (game_id internal_game_id : pyval)
  (verbose : bool) : t :=
  {| log_timestamp := log_timestamp;
     game_id := game_id;
     internal_game_id := internal_game_id;
     _verbose := verbose;
     state := PyNone;
     mode := PyNone;
     max_players := PyNone;
     tile_bag := None;
     begin_ := PyNone;
     end_ := PyNone;
     score := PyNone;
     player_id_to_username := [];
     username_to_player_id := [];
     player_join_order := [];
     board :=
       map (fun x => map (fun y => PyInt (Nothing enums)) (range 9))
           (range 12);
     score_sheet_players :=
       map (fun x => PyList (map PyInt [0; 0; 0; 0; 0; 0; 0; 60]))
           (range 6);
     score_sheet_chain_size := PyList (map PyInt [0; 0; 0; 0; 0; 0; 0]);
     played_tiles_order := [];
     tile_rack_tiles := [];
     initial_tile_racks :=
       map (fun x => [PyNone; PyNone; PyNone; PyNone; PyNone; PyNone])
           (range 6);
     tile_racks :=
       map (fun x => [PyNone; PyNone; PyNone; PyNone; PyNone; PyNone])
           (range 6);
     additional_tile_rack_tiles_order := [];
     actions := [];
     username_to_game_history := [];
     expired := false;
     is_server_game_synchronized := None;
     sync_log := None |}.

(** [translate_add_game_history_message(self, message)] *)
Definition translate_add_game_history_message (self : t) (message : pyval)
  : result pyval :=
  let? m0 := Py.getitem message (PyInt 0) in
  if Py.eqb m0 (PyInt (DrewPositionTile enums)) then
    let? m1 := Py.getitem message (PyInt 1) in
    if Py.is_int m1 then
      let? front := Py.slice_to_obj message 1 in
      let? username := Dict.getitem m1 (player_id_to_username self) in
      let? back := Py.slice_from_obj message 2 in
      match front, back with
      | PyList f, PyList b => Ok (PyList (f ++ [username] ++ b))
      | _, _ => Raise TypeError
      end
    else Ok message
  else Ok message.

(** [Game._drew_or_replaced_tile_message_ids] *)
Definition _drew_or_replaced_tile_message_ids : list Z :=
  [DrewPositionTile enums; DrewTile enums; ReplacedDeadTile enums].

(** The loop over one player's [game_history] in
    [_get_initial_tile_bag]: the tiles drawn or replaced, turn by turn. *)
Definition turn_by_turn_tiles_drawn_or_replaced (game_history : list pyval)
  : result (list (list pyval)) :=
  let? st :=
    rfold (fun st message =>
             let? m0 := Py.getitem message (PyInt 0) in
             let? drew :=
               in_int_set m0 _drew_or_replaced_tile_message_ids in
             if drew then
               let? x := Py.getitem message (PyInt 2) in
               let? y := Py.getitem message (PyInt 3) in
               Ok (fst st, snd st ++ [PyTuple [x; y]])
             else if Py.eqb m0 (PyInt (TurnBegan enums))
             then Ok (fst st ++ [snd st], [])
             else Ok st)
          game_history ([], []) in
  Ok (fst st ++ [snd st]).

End WithEnums.

(** [itertools.zip_longest] of the lists [ls] *)
Definition zip_longest {A : Type} (ls : list (list A))
  : list (list (option A)) :=
  map (fun i => map (fun l => nth_error l i) ls)
      (seq 0 (list_max (map (@List.length A) ls))).

(** [sorted(l, key=lambda x: -len(x))]; the sort is stable. *)
Fixpoint insert_by_len (x : list pyval) (l : list (list pyval))
  : list (list pyval) :=
  match l with
  | [] => [x]
  | y :: l' =>
      if (List.length y <=? List.length x)%nat then x :: l
      else y :: insert_by_len x l'
  end.

Definition sorted_by_len (l : list (list pyval)) : list (list pyval) :=
  fold_right insert_by_len [] l.

(** [[p for p in players_tiles_by_turn if p]] *)
Definition contributing (row : list (option (list pyval)))
  : list (list pyval) :=
  flat_map (fun p => match p with
                     | Some ((_ :: _) as tiles) => [tiles]
                     | _ => []
                     end) row.

(** [if tile not in included_tiles: included_tiles.add(tile);
     tile_bag.append(tile)], on the pair (included_tiles, tile_bag). *)
Definition include_tile (st : list pyval * list pyval) (tile : pyval)
  : result (list pyval * list pyval) :=
  if Py.hashable tile then
    if Py.mem tile (fst st) then Ok st
    else Ok (fst st ++ [tile], snd st ++ [tile])
  else Raise TypeError.

(** The loop over [zip_longest(...)]. *)
Definition include_turns (turns : list (list (list pyval)))
  : result (list pyval * list pyval) :=
  rfold (fun st players_tiles_by_turn =>
           rfold (fun st player_tiles_by_turn =>
                    rfold include_tile player_tiles_by_turn st)
                 (sorted_by_len (contributing players_tiles_by_turn)) st)
        (zip_longest turns) ([], []).

(** [Game.tile_bag_tweaks.get((self.log_timestamp, self.internal_game_id))] *)
Fixpoint tweaks_get (table : tweaks) (log_timestamp : Z) (id : pyval)
  : option (list (Z * option pyval)) :=
  match table with
  | [] => None
  | ((ts, gid), entries) :: table' =>
      if (log_timestamp =? ts) && Py.eqb id (PyInt gid) then Some entries
      else tweaks_get table' log_timestamp id
  end.

Section WithRandom.

(** The state of the generator of module [random], [random.seed],
    [random.shuffle] and the one draw of [random.sample(s, 1)].  The
    order in which a set is turned into a list is a function of the set
    and is left inside [random_shuffle] and [random_sample]. *)
Variable rng : Type.
Variable random_seed : string -> rng.
Variable random_shuffle : rng -> list pyval -> list pyval * rng.
Variable random_sample : rng -> list pyval -> pyval * rng.

Variable enums : enums_py.
Variable repr_str : string -> string.

(** State of the tweak loop: the bag, the remaining tiles, the
    generator. *)
Definition apply_tweak (st : list pyval * list pyval * rng)
  (entry : Z * option pyval) : result (list pyval * list pyval * rng) :=
  let '(tile_bag, remaining_tiles, g) := st in
  let index := fst entry in
  if Z.of_nat (List.length tile_bag) >=? index then
    let? tg :=
      match snd entry with
      | None =>
          match remaining_tiles with
          | [] => Raise ValueError
          | _ => Ok (random_sample g remaining_tiles)
          end
      | Some tile => Ok (tile, g)
      end in
    let tile_bag := Py.insert tile_bag index (fst tg) in
    let? remaining_tiles := Py.set_remove (fst tg) remaining_tiles in
    Ok (tile_bag, remaining_tiles, snd tg)
  else Ok st.

(** [_get_initial_tile_bag(self)], with the correction table as an
    argument.  The generator state goes in and, when the method
    returns, comes out next to the bag. *)
Definition _get_initial_tile_bag_with (table : tweaks) (self : t) (g : rng)
  : result (list pyval * rng) :=
  match tile_bag self with
  | Some ((_ :: _) as bag) => Ok (bag, g)
  | _ =>
      let? player_id_to_game_history :=
        rmap (fun username =>
                Dict.getitem username (username_to_game_history self))
             (Dict.values (player_id_to_username self)) in
      let? player_id_to_turn_by_turn_tiles_drawn_or_replaced :=
        rmap (turn_by_turn_tiles_drawn_or_replaced enums)
             player_id_to_game_history in
      let? _ :=
        (* max_len = max(len(x) for x in ...), computed when verbose *)
        match _verbose self,
              player_id_to_turn_by_turn_tiles_drawn_or_replaced with
        | true, [] => Raise ValueError
        | _, _ => Ok tt
        end in
      let? st :=
        include_turns player_id_to_turn_by_turn_tiles_drawn_or_replaced in
      let included_tiles := fst st in
      let tile_bag := snd st in
      let remaining_tiles := Py.set_diff all_tiles included_tiles in
      (* do tile bag tweaks *)
      let? _ :=
        if Py.hashable (internal_game_id self) then Ok tt
        else Raise TypeError in
      let? tweaked :=
        match tweaks_get table (log_timestamp self)
                (internal_game_id self) with
        | Some ((_ :: _) as entries) =>
            rfold apply_tweak entries (tile_bag, remaining_tiles, g)
        | _ => Ok (tile_bag, remaining_tiles, g)
        end in
      let tile_bag := fst (fst tweaked) in
      let remaining_tiles := snd (fst tweaked) in
      let g :=
        random_seed
          (Py.str_of_Z (log_timestamp self) ^^ "-"
             ^^ Py.str repr_str (internal_game_id self)) in
      let shuffled := random_shuffle g remaining_tiles in
      Ok (rev (tile_bag ++ fst shuffled), snd shuffled)
  end.

(** [_get_initial_tile_bag(self)] *)
Definition _get_initial_tile_bag (self : t) (g : rng)
  : result (list pyval * rng) :=
  _get_initial_tile_bag_with tile_bag_tweaks self g.

End WithRandom.

(** [zip(range(len(a)), a, b)] *)
Fixpoint zip3 {A B : Type} (i : nat) (a : list A) (b : list B)
  : list (nat * A * B) :=
  match a, b with
  | x :: a', y :: b' => (i, x, y) :: zip3 (S i) a' b'
  | _, _ => []
  end.

Section Compare.

Variable repr_str : string -> string.

Definition str_nat (n : nat) : string := Py.str_of_Z (Z.of_nat n).

(** The tile-rack branch of [_sync_compare]: one entry per rack that
    differs. *)
Definition rack_diffs (name : string) (first second : list (list pyval))
  : list string :=
  flat_map (fun e =>
              let '(player_id, rack1, rack2) := e in
              if negb (Py.list_eqb rack1 rack2) then
                [ name ^^ " diff for player_id " ^^ str_nat player_id
                    ^^ "!";
                  Py.str repr_str (PyList rack1);
                  Py.str repr_str (PyList rack2) ]
              else [])
           (zip3 0 first second).

(** [_sync_compare(self, name, first, second)] on the pair
    ([is_server_game_synchronized], [sync_log]).  [racks] holds [first]
    and [second] once more as lists of racks, for the branch that walks
    through them. *)
Definition _sync_compare (verbose : bool) (name : string)
  (first second : pyval)
  (racks : list (list pyval) * list (list pyval))
  (st : bool * list string) : bool * list string :=
  let str_first := Py.str repr_str first in
  let str_second := Py.str repr_str second in
  let log :=
    if verbose then snd st ++ [name ^^ ": " ^^ str_first] else snd st in
  if negb (String.eqb str_first str_second) then
    (false,
     if String.eqb name "tile_racks"
     then log ++ rack_diffs name (fst racks) (snd racks)
     else log ++ [name ^^ " diff!"; str_first; str_second])
  else (fst st, log).

(** [server_player_id_to_game_history]: every player's messages, in
    order. *)
Definition deliver (histories : list (list pyval))
  (entry : pyval * pyval) : result (list (list pyval)) :=
  let '(target_player_id, message) := entry in
  match target_player_id with
  | PyNone => Ok (map (fun game_history => game_history ++ [message])
                      histories)
  | _ =>
      let? i := Py.as_index target_player_id in
      let? game_history := Py.index histories i in
      Py.set_index histories i (game_history ++ [message])
  end.

Definition server_player_id_to_game_history (sg : ServerGame)
  : result (list (list pyval)) :=
  rfold deliver (history_messages sg)
        (map (fun _ => []) (seq 0 (number_of_players sg))).

(** The last loop of [compare_with_server_game]. *)
Definition compare_histories
  (local_player_id_to_game_history server : list (list pyval))
  (st : bool * list string) : bool * list string :=
  fold_left
    (fun st e =>
       let '(player_id, local_game_history, server_game_history) := e in
       let server_game_history_under_consideration :=
         Py.slice_to server_game_history
           (Z.of_nat (List.length local_game_history)) in
       if negb (Py.list_eqb local_game_history
                  server_game_history_under_consideration)
       then
         (false,
          snd st
            ++ [ "player_id_to_game_history diff for player_id "
                   ^^ str_nat player_id ^^ "!";
                 Py.str repr_str (PyList local_game_history);
                 Py.str repr_str
                   (PyList server_game_history_under_consideration) ])
       else st)
    (zip3 0 local_player_id_to_game_history server) st.

(** [compare_with_server_game(self)] for [self.server_game = sg]: the
    values it leaves in [is_server_game_synchronized] and [sync_log]. *)
Definition compare_with_server_game (self : t) (sg : ServerGame)
  : result (bool * list string) :=
  let num_players := Z.of_nat (List.length (player_id_to_username self)) in
  let verbose := _verbose self in
  let st := (true, []) in
  (* board *)
  let st :=
    _sync_compare verbose "board"
      (PyList (map PyList (board self))) (x_to_y_to_board_type sg)
      ([], []) st in
  (* score sheet players *)
  let? server_rows :=
    rmap (fun x => Py.slice_to_obj x 8) (player_data sg) in
  let st :=
    _sync_compare verbose "score_sheet_players"
      (PyList (Py.slice_to (score_sheet_players self) num_players))
      (PyList server_rows) ([], []) st in
  (* score sheet chain size *)
  let st :=
    _sync_compare verbose "score_sheet_chain_size"
      (score_sheet_chain_size self) (chain_size sg) ([], []) st in
  (* tile racks *)
  let? st :=
    match racks sg with
    | Some server_racks =>
        let? server_tile_racks :=
          rmap (fun rack =>
                  rmap (fun tile_data =>
                          if Py.truthy tile_data
                          then Py.getitem tile_data (PyInt 0)
                          else Ok PyNone) rack)
               server_racks in
        let local := Py.slice_to (tile_racks self) num_players in
        Ok (_sync_compare verbose "tile_racks"
              (PyList (map PyList local))
              (PyList (map PyList server_tile_racks))
              (local, server_tile_racks) st)
    | None => Ok st
    end in
  (* player id to game history *)
  let? local_player_id_to_game_history :=
    rmap (fun username =>
            Dict.getitem username (username_to_game_history self))
         (Dict.values (player_id_to_username self)) in
  let? server := server_player_id_to_game_history sg in
  let st :=
    if verbose then
      (fst st,
       snd st ++ ["player_id_to_game_history:"]
         ++ map (fun h => Py.str repr_str (PyList h))
                local_player_id_to_game_history)
    else st in
  Ok (compare_histories local_player_id_to_game_history server st).

End Compare.

End Game.

(* ------------------------------------------------------------------ *)
(** ** class LogProcessor

    The processor is embedded as the program constructs it wherever it
    reconstructs games: with [verbose=False], the default.  Only
    [verbosely_compare_individual_game_log] constructs it with
    [verbose=True]; then it prints what it reads and, at each frame end,
    replays every open game through the reference engine of module
    [server] and writes the replay to a file.  These branches, the end of
    [_handle_blank_line] among them, are not part of the embedding: every
    statement about [LogProcessor] below is about the processor with
    [verbose=False]. *)

Module LogProcessor.

Record t : Type := {
  _log_timestamp : Z;
  _client_id_to_username : pydict pyval;
  _username_to_client_id : pydict pyval;
  _client_id_to_game_id : pydict pyval;
  _game_id_to_game : pydict Game.t;
  (** the client ids [_handle_disconnect__delayed] is still to be called
      with *)
  _delayed_calls : list Z;
  _expired_games : list Game.t;
  _time : option string
}.

Definition eta (r : t) : t :=
  Build_t (_log_timestamp r) (_client_id_to_username r)
    (_username_to_client_id r) (_client_id_to_game_id r) (_game_id_to_game r)
    (_delayed_calls r) (_expired_games r) (_time r).

Ltac setter proj :=
  let v := fresh "v" in
  let r := fresh "r" in
  intros v r;
  let e := eval cbv [eta] in (eta r) in
  match eval pattern (proj r) in e with
  | ?f _ => exact (f v)
  end.

Definition set__client_id_to_username : pydict pyval -> t -> t :=
  ltac:(setter _client_id_to_username).
Definition set__username_to_client_id : pydict pyval -> t -> t :=
  ltac:(setter _username_to_client_id).
Definition set__client_id_to_game_id : pydict pyval -> t -> t :=
  ltac:(setter _client_id_to_game_id).
Definition set__game_id_to_game : pydict Game.t -> t -> t :=
  ltac:(setter _game_id_to_game).
Definition set__delayed_calls : list Z -> t -> t :=
  ltac:(setter _delayed_calls).
Definition set__expired_games : list Game.t -> t -> t :=
  ltac:(setter _expired_games).
Definition set__time : option string -> t -> t := ltac:(setter _time).

(** [__init__(self, log_timestamp, file)] *)
Definition __init__ (log_timestamp : Z) : t :=
  {| _log_timestamp := log_timestamp;
     _client_id_to_username := [];
     _username_to_client_id := [];
     _client_id_to_game_id := [];
     _game_id_to_game := [];
     _delayed_calls := [];
     _expired_games := [];
     _time := None |}.

(** *** Methods: state and exceptions

    A method is a function from the object before the call to the outcome
    of the call and the object after it; what was mutated before an
    exception stays mutated. *)

Definition M (A : Type) : Type := t -> result A * t.

Definition ret {A : Type} (a : A) : M A := fun s => (Ok a, s).

Definition bind {A B : Type} (m : M A) (k : A -> M B) : M B :=
  fun s =>
    match m s with
    | (Ok a, s') => k a s'
    | (Raise e, s') => (Raise e, s')
    end.

Definition lift {A : Type} (r : result A) : M A := fun s => (r, s).

Definition get : M t := fun s => (Ok s, s).

Definition modify (f : t -> t) : M unit := fun s => (Ok tt, f s).

(** [try: m except: pass] *)
Definition try_ (m : M unit) : M unit :=
  fun s => (Ok tt, snd (m s)).

Declare Scope proc_scope.
Delimit Scope proc_scope with proc.

Notation "x <- m ;; k" := (bind m (fun x => k))
  (at level 61, m at next level, right associativity) : proc_scope.
Notation "m ;;; k" := (bind m (fun _ => k))
  (at level 61, right associativity) : proc_scope.

Local Open Scope proc_scope.

(** [for x in l: body(x)] *)
Fixpoint for_each {A : Type} (l : list A) (body : A -> M unit) : M unit :=
  match l with
  | [] => ret tt
  | x :: l' => body x ;;; for_each l' body
  end.

(** The game an attribute of which a handler is about to assign: games are
    objects, the handler mutates the one stored under [key]. *)
Definition mutate_game (key : pyval) (f : Game.t -> Game.t) : M unit :=
  modify (fun s =>
            match Py.lookup key (_game_id_to_game s) with
            | Some game =>
                set__game_id_to_game
                  (Py.put key (f game) (_game_id_to_game s)) s
            | None => s
            end).

(** [self._game_id_to_game[self._client_id_to_game_id[client_id]]]: the key
    under which the game is stored, and the game. *)
Definition game_of_client (client_id : pyval) : M (pyval * Game.t) :=
  s <- get ;;
  game_id <- lift (Dict.getitem client_id (_client_id_to_game_id s)) ;;
  game <- lift (Dict.getitem game_id (_game_id_to_game s)) ;;
  ret (game_id, game).

(** [client_ids[0]] *)
Definition first_client_id (client_ids : list Z) : M pyval :=
  n <- lift (Py.index client_ids 0) ;;
  ret (PyInt n).

(** [l[i][j]] and [l[i][j] = v] on a list of lists. *)
Definition index2 (l : list (list pyval)) (i j : pyval) : result pyval :=
  let? i := Py.as_index i in
  let? row := Py.index l i in
  let? j := Py.as_index j in
  Py.index row j.

Definition set_index2 (l : list (list pyval)) (i j v : pyval)
  : result (list (list pyval)) :=
  let? i := Py.as_index i in
  let? row := Py.index l i in
  let? j := Py.as_index j in
  let? row := Py.set_index row j v in
  Py.set_index l i row.

(** The inner loop of [set_game_board_cell]: the first entry of the rack
    that equals [tile] becomes [None]. *)
Fixpoint remove_from_rack (tile : pyval) (tile_rack : list pyval)
  : list pyval :=
  match tile_rack with
  | [] => []
  | entry :: tile_rack' =>
      if Py.eqb entry tile then PyNone :: tile_rack'
      else entry :: remove_from_rack tile tile_rack'
  end.

(** [x < n] for an object [x] and an integer [n]. *)
Definition lt_int (x : pyval) (n : Z) : result bool :=
  match x with
  | PyInt m => Ok (m <? n)
  | PyBool b => Ok (Z.b2z b <? n)
  | _ => Raise TypeError
  end.

Section WithEnums.

Variable enums : enums_py.

Definition _handle_time (time : string) : M unit :=
  modify (set__time (Some time)).

Definition _handle_connect (client_id : Z) (username : string) : M unit :=
  modify (fun s =>
            set__client_id_to_username
              (Py.put (PyInt client_id) (PyStr username)
                 (_client_id_to_username s)) s) ;;;
  modify (fun s =>
            set__username_to_client_id
              (Py.put (PyStr username) (PyInt client_id)
                 (_username_to_client_id s)) s).

Definition _handle_disconnect (client_id : Z) : M unit :=
  modify (fun s => set__delayed_calls (_delayed_calls s ++ [client_id]) s).

Definition _handle_disconnect__delayed (client_id : Z) : M unit :=
  s <- get ;;
  d <- lift (Dict.delitem (PyInt client_id) (_client_id_to_username s)) ;;
  modify (set__client_id_to_username d) ;;;
  modify (set__username_to_client_id
            (fold_left (fun acc cu => Py.put (snd cu) (fst cu) acc) d [])).

Definition _handle_command_to_client__set_game_board_cell
  (client_ids : list Z) (command : pyval) : M unit :=
  client_id <- first_client_id client_ids ;;
  x <- lift (Py.getitem command (PyInt 1)) ;;
  y <- lift (Py.getitem command (PyInt 2)) ;;
  game_board_type_id <- lift (Py.getitem command (PyInt 3)) ;;
  kg <- game_of_client client_id ;;
  let key := fst kg in
  let game := snd kg in
  cell <- lift (index2 (Game.board game) x y) ;;
  (if Py.eqb cell (PyInt (Nothing enums)) then
     let tile := PyTuple [x; y] in
     mutate_game key
       (fun game =>
          Game.set_played_tiles_order
            (Game.played_tiles_order game ++ [tile]) game) ;;;
     (* remove tile from tile racks *)
     mutate_game key
       (fun game =>
          let n := Z.of_nat (List.length (Game.player_id_to_username game)) in
          Game.set_tile_racks
            (map (remove_from_rack tile)
                 (Py.slice_to (Game.tile_racks game) n)
               ++ Py.slice_from (Game.tile_racks game) n) game)
   else ret tt) ;;;
  s <- get ;;
  game <- lift (Dict.getitem key (_game_id_to_game s)) ;;
  board <- lift (set_index2 (Game.board game) x y game_board_type_id) ;;
  mutate_game key (Game.set_board board).

Definition _handle_command_to_client__set_score_sheet_cell
  (client_ids : list Z) (command : pyval) : M unit :=
  client_id <- first_client_id client_ids ;;
  row <- lift (Py.getitem command (PyInt 1)) ;;
  index <- lift (Py.getitem command (PyInt 2)) ;;
  value <- lift (Py.getitem command (PyInt 3)) ;;
  kg <- game_of_client client_id ;;
  let key := fst kg in
  let game := snd kg in
  small <- lift (lt_int row 6) ;;
  if small then
    r <- lift (Py.as_index row) ;;
    row_obj <- lift (Py.index (Game.score_sheet_players game) r) ;;
    row_obj <- lift (Py.setitem row_obj index value) ;;
    rows <- lift (Py.set_index (Game.score_sheet_players game) r row_obj) ;;
    mutate_game key (Game.set_score_sheet_players rows)
  else
    chain <- lift (Py.setitem (Game.score_sheet_chain_size game) index value) ;;
    mutate_game key (Game.set_score_sheet_chain_size chain).

Definition _handle_command_to_client__set_score_sheet
  (client_ids : list Z) (command : pyval) : M unit :=
  client_id <- first_client_id client_ids ;;
  score_sheet_data <- lift (Py.getitem command (PyInt 1)) ;;
  kg <- game_of_client client_id ;;
  let key := fst kg in
  let game := snd kg in
  (* game.score_sheet_players[:len(score_sheet_data[0])] = score_sheet_data[0] *)
  rows <- lift (Py.getitem score_sheet_data (PyInt 0)) ;;
  n <- lift (Py.len rows) ;;
  items <- lift (Py.iter rows) ;;
  mutate_game key
    (fun game =>
       Game.set_score_sheet_players
         (items ++ Py.slice_from (Game.score_sheet_players game) (Z.of_nat n))
         game) ;;;
  chain <- lift (Py.getitem score_sheet_data (PyInt 1)) ;;
  mutate_game key (Game.set_score_sheet_chain_size chain).

Definition _add_client_id_to_game (game_id client_id : pyval) : M unit :=
  s <- get ;;
  d <- lift (Dict.setitem client_id game_id (_client_id_to_game_id s)) ;;
  modify (set__client_id_to_game_id d).

Definition _remove_client_id_from_game (client_id : pyval) : M unit :=
  s <- get ;;
  present <- lift (Dict.contains client_id (_client_id_to_game_id s)) ;;
  if present then
    d <- lift (Dict.delitem client_id (_client_id_to_game_id s)) ;;
    modify (set__client_id_to_game_id d)
  else ret tt.

Definition _remove_player_id_from_game (game_id player_id : pyval) : M unit :=
  s <- get ;;
  game <- lift (Dict.get game_id (_game_id_to_game s)) ;;
  match game with
  | Some game =>
      username <-
        lift (Dict.getitem player_id (Game.player_id_to_username game)) ;;
      client_id <- lift (Dict.getitem username (_username_to_client_id s)) ;;
      _remove_client_id_from_game client_id
  | None => ret tt
  end.

Definition _handle_command_to_client__set_game_player_join
  (client_ids : list Z) (command : pyval) : M unit :=
  game_id <- lift (Py.getitem command (PyInt 1)) ;;
  client_id <- lift (Py.getitem command (PyInt 3)) ;;
  _add_client_id_to_game game_id client_id.

Definition _handle_command_to_client__set_game_player_rejoin
  (client_ids : list Z) (command : pyval) : M unit :=
  game_id <- lift (Py.getitem command (PyInt 1)) ;;
  client_id <- lift (Py.getitem command (PyInt 3)) ;;
  _add_client_id_to_game game_id client_id.

Definition _handle_command_to_client__set_game_player_leave
  (client_ids : list Z) (command : pyval) : M unit :=
  client_id <- lift (Py.getitem command (PyInt 3)) ;;
  _remove_client_id_from_game client_id.

Definition _handle_command_to_client__set_game_watcher_client_id
  (client_ids : list Z) (command : pyval) : M unit :=
  game_id <- lift (Py.getitem command (PyInt 1)) ;;
  client_id <- lift (Py.getitem command (PyInt 2)) ;;
  _add_client_id_to_game game_id client_id.

Definition _handle_command_to_client__return_watcher_to_lobby
  (client_ids : list Z) (command : pyval) : M unit :=
  client_id <- lift (Py.getitem command (PyInt 2)) ;;
  _remove_client_id_from_game client_id.

(** [game.username_to_player_id.get(username) is not None] *)
Definition is_player (game : Game.t) (username : pyval) : result bool :=
  let? player_id := Dict.get username (Game.username_to_player_id game) in
  Ok (match player_id with
      | Some PyNone | None => false
      | Some _ => true
      end).

Definition _handle_command_to_client__add_game_history_message
  (client_ids : list Z) (command : pyval) : M unit :=
  for_each client_ids (fun client_id =>
    kg <- game_of_client (PyInt client_id) ;;
    let key := fst kg in
    let game := snd kg in
    s <- get ;;
    username <-
      lift (Dict.getitem (PyInt client_id) (_client_id_to_username s)) ;;
    player <- lift (is_player game username) ;;
    if player then
      game_history <-
        lift (Dict.getitem username (Game.username_to_game_history game)) ;;
      message <- lift (Py.slice_from_obj command 1) ;;
      message <-
        lift (Game.translate_add_game_history_message enums game message) ;;
      mutate_game key
        (fun game =>
           Game.set_username_to_game_history
             (Py.put username (game_history ++ [message])
                (Game.username_to_game_history game)) game)
    else ret tt).

Definition _handle_command_to_client__add_game_history_messages
  (client_ids : list Z) (command : pyval) : M unit :=
  for_each client_ids (fun client_id =>
    kg <- game_of_client (PyInt client_id) ;;
    let key := fst kg in
    let game := snd kg in
    s <- get ;;
    username <-
      lift (Dict.getitem (PyInt client_id) (_client_id_to_username s)) ;;
    player <- lift (is_player game username) ;;
    if player then
      messages <- lift (Py.getitem command (PyInt 1)) ;;
      messages <- lift (Py.iter messages) ;;
      messages <-
        lift (rmap (Game.translate_add_game_history_message enums game)
                messages) ;;
      mutate_game key
        (fun game =>
           Game.set_username_to_game_history
             (Py.put username messages (Game.username_to_game_history game))
             game)
    else ret tt).

Definition _handle_command_to_client__set_tile
  (client_ids : list Z) (command : pyval) : M unit :=
  client_id <- first_client_id client_ids ;;
  tile_index <- lift (Py.getitem command (PyInt 1)) ;;
  x <- lift (Py.getitem command (PyInt 2)) ;;
  y <- lift (Py.getitem command (PyInt 3)) ;;
  kg <- game_of_client client_id ;;
  let key := fst kg in
  let game := snd kg in
  s <- get ;;
  username <- lift (Dict.getitem client_id (_client_id_to_username s)) ;;
  player_id <-
    lift (Dict.getitem username (Game.username_to_player_id game)) ;;
  let tile := PyTuple [x; y] in
  slot <- lift (index2 (Game.initial_tile_racks game) player_id tile_index) ;;
  (match slot with
   | PyNone =>
       (if Py.hashable tile then ret tt else lift (Raise TypeError)) ;;;
       mutate_game key
         (fun game =>
            if Py.mem tile (Game.tile_rack_tiles game) then game
            else Game.set_tile_rack_tiles
                   (Game.tile_rack_tiles game ++ [tile]) game) ;;;
       racks <-
         lift (set_index2 (Game.initial_tile_racks game)
                 player_id tile_index tile) ;;
       mutate_game key (Game.set_initial_tile_racks racks)
   | _ =>
       (if Py.hashable tile then ret tt else lift (Raise TypeError)) ;;;
       if Py.mem tile (Game.tile_rack_tiles game) then ret tt
       else
         mutate_game key
           (fun game =>
              Game.set_tile_rack_tiles
                (Game.tile_rack_tiles game ++ [tile]) game) ;;;
         mutate_game key
           (fun game =>
              Game.set_additional_tile_rack_tiles_order
                (Game.additional_tile_rack_tiles_order game ++ [tile]) game)
   end) ;;;
  racks <-
    lift (set_index2 (Game.tile_racks game) player_id tile_index tile) ;;
  mutate_game key (Game.set_tile_racks racks).

Definition _handle_command_to_client__remove_tile
  (client_ids : list Z) (command : pyval) : M unit :=
  client_id <- first_client_id client_ids ;;
  tile_index <- lift (Py.getitem command (PyInt 1)) ;;
  kg <- game_of_client client_id ;;
  let key := fst kg in
  let game := snd kg in
  s <- get ;;
  username <- lift (Dict.getitem client_id (_client_id_to_username s)) ;;
  player_id <-
    lift (Dict.getitem username (Game.username_to_player_id game)) ;;
  racks <-
    lift (set_index2 (Game.tile_racks game) player_id tile_index PyNone) ;;
  mutate_game key (Game.set_tile_racks racks).

Definition _handle_command_to_client__set_game_player_client_id
  (client_ids : list Z) (command : pyval) : M unit :=
  client_id <- lift (Py.getitem command (PyInt 3)) ;;
  match client_id with
  | PyNone =>
      game_id <- lift (Py.getitem command (PyInt 1)) ;;
      player_id <- lift (Py.getitem command (PyInt 2)) ;;
      _remove_player_id_from_game game_id player_id
  | _ =>
      game_id <- lift (Py.getitem command (PyInt 1)) ;;
      _add_client_id_to_game game_id client_id
  end.

(** [self._commands_to_client_handlers], a dict from command codes to
    methods, written out in the order of the source. *)
Definition _commands_to_client_handlers
  : zdict (list Z -> pyval -> M unit) :=
  fold_left (fun d kv => ZDict.put (fst kv) (snd kv) d)
    ([ (SetGameBoardCell enums,
         _handle_command_to_client__set_game_board_cell);
       (SetScoreSheetCell enums,
         _handle_command_to_client__set_score_sheet_cell);
       (SetScoreSheet enums, _handle_command_to_client__set_score_sheet);
       (SetGamePlayerJoin enums,
         _handle_command_to_client__set_game_player_join);
       (SetGamePlayerRejoin enums,
         _handle_command_to_client__set_game_player_rejoin);
       (SetGamePlayerLeave enums,
         _handle_command_to_client__set_game_player_leave);
       (SetGameWatcherClientId enums,
         _handle_command_to_client__set_game_watcher_client_id);
       (ReturnWatcherToLobby enums,
         _handle_command_to_client__return_watcher_to_lobby);
       (AddGameHistoryMessage enums,
         _handle_command_to_client__add_game_history_message);
       (AddGameHistoryMessages enums,
         _handle_command_to_client__add_game_history_messages);
       (SetTile enums, _handle_command_to_client__set_tile);
       (RemoveTile enums, _handle_command_to_client__remove_tile) ]
     ++ match SDict.lookup "CommandsToClient" (Enums.lookups enums) with
        | Some names =>
            match index_of "SetGamePlayerClientId" names with
            | Some i =>
                [ (Z.of_nat i,
                    _handle_command_to_client__set_game_player_client_id) ]
            | None => []
            end
        | None => []
        end)
    [].

(** The body of the loop of [_handle_command_to_client], inside [try]. *)
Definition dispatch_command_to_client (client_ids : list Z) (command : pyval)
  : M unit :=
  code <- lift (Py.getitem command (PyInt 0)) ;;
  handler <- lift (ZDict.get code _commands_to_client_handlers) ;;
  match handler with
  | Some handler => handler client_ids command
  | None => ret tt
  end.

Definition _handle_command_to_client (client_ids : list Z) (commands : pyval)
  : M unit :=
  commands <- lift (Py.iter commands) ;;
  for_each commands (fun command =>
    try_ (dispatch_command_to_client client_ids command)).

Definition _handle_command_to_server__do_game_action
  (client_id : Z) (command : pyval) : M unit :=
  s <- get ;;
  game_id <- lift (Dict.get (PyInt client_id) (_client_id_to_game_id s)) ;;
  match game_id with
  | Some game_id =>
      if Py.truthy game_id then
        game <- lift (Dict.getitem game_id (_game_id_to_game s)) ;;
        username <-
          lift (Dict.getitem (PyInt client_id) (_client_id_to_username s)) ;;
        player_id <-
          lift (Dict.get username (Game.username_to_player_id game)) ;;
        match player_id with
        | Some PyNone | None => ret tt
        | Some player_id =>
            action <- lift (Py.slice_from_obj command 1) ;;
            mutate_game game_id
              (fun game =>
                 Game.set_actions
                   (Game.actions game ++ [(player_id, action)]) game)
        end
      else ret tt
  | None => ret tt
  end.

Definition _commands_to_server_handlers
  : zdict (Z -> pyval -> M unit) :=
  [ (DoGameAction enums, _handle_command_to_server__do_game_action) ].

Definition _handle_command_to_server (client_id : Z) (command : pyval)
  : M unit :=
  try_ (code <- lift (Py.getitem command (PyInt 0)) ;;
        handler <- lift (ZDict.get code _commands_to_server_handlers) ;;
        match handler with
        | Some handler => handler client_id command
        | None => ret tt
        end).

Definition _handle_game_expired (game_id : Z) : M unit :=
  s <- get ;;
  game <- lift (Dict.getitem (PyInt game_id) (_game_id_to_game s)) ;;
  let game := Game.set_expired true game in
  modify (fun s => set__expired_games (_expired_games s ++ [game]) s) ;;;
  modify (fun s =>
            set__game_id_to_game
              (Py.remove (PyInt game_id) (_game_id_to_game s)) s).

(** [if key in entry: game.<field> = entry[key]] *)
Definition copy_field (entry : pyval) (name : string) (key : pyval)
  (assign : pyval -> Game.t -> result Game.t) : M unit :=
  present <- lift (Py.contains_key name entry) ;;
  if present then
    value <- lift (Py.getitem entry (PyStr name)) ;;
    s <- get ;;
    game <- lift (Dict.getitem key (_game_id_to_game s)) ;;
    game <- lift (assign value game) ;;
    mutate_game key (fun _ => game)
  else ret tt.

Definition _handle_log (entry : pyval) : M unit :=
  external <- lift (Py.contains_key "external-game-id" entry) ;;
  game_id <-
    lift (Py.getitem entry
            (PyStr (if external then "external-game-id" else "game-id"))) ;;
  internal_game_id <- lift (Py.getitem entry (PyStr "game-id")) ;;
  s <- get ;;
  known <- lift (Dict.contains game_id (_game_id_to_game s)) ;;
  (if known then ret tt
   else
     modify (fun s =>
               set__game_id_to_game
                 (Py.put game_id
                    (Game.__init__ enums (_log_timestamp s) game_id
                       internal_game_id false)
                    (_game_id_to_game s)) s)) ;;;
  kind <- lift (Py.getitem entry (PyStr "_")) ;;
  if Py.eqb kind (PyStr "game-player") then
    player_id <- lift (Py.getitem entry (PyStr "player-id")) ;;
    username <- lift (Py.getitem entry (PyStr "username")) ;;
    s <- get ;;
    game <- lift (Dict.getitem game_id (_game_id_to_game s)) ;;
    d <- lift (Dict.setitem player_id username
                 (Game.player_id_to_username game)) ;;
    mutate_game game_id (Game.set_player_id_to_username d) ;;;
    d <- lift (Dict.setitem username player_id
                 (Game.username_to_player_id game)) ;;
    mutate_game game_id (Game.set_username_to_player_id d) ;;;
    (if Py.mem username (Game.player_join_order game) then ret tt
     else
       mutate_game game_id
         (Game.set_player_join_order
            (Game.player_join_order game ++ [username]))) ;;;
    (match Py.lookup username (Game.username_to_game_history game) with
     | Some _ => ret tt
     | None =>
         mutate_game game_id
           (Game.set_username_to_game_history
              (Py.put username [] (Game.username_to_game_history game)))
     end)
  else
    copy_field entry "state" game_id
      (fun v g => Ok (Game.set_state v g)) ;;;
    copy_field entry "mode" game_id
      (fun v g => Ok (Game.set_mode v g)) ;;;
    copy_field entry "max-players" game_id
      (fun v g => Ok (Game.set_max_players v g)) ;;;
    copy_field entry "tile-bag" game_id
      (fun v g =>
         let? items := Py.iter v in
         let? tiles := rmap Py.to_tuple items in
         Ok (Game.set_tile_bag (Some tiles) g)) ;;;
    copy_field entry "begin" game_id
      (fun v g => Ok (Game.set_begin v g)) ;;;
    copy_field entry "end" game_id
      (fun v g => Ok (Game.set_end v g)) ;;;
    copy_field entry "score" game_id
      (fun v g => Ok (Game.set_score v g)) ;;;
    copy_field entry "scores" game_id
      (fun v g => Ok (Game.set_score v g)).

Definition _handle_blank_line : M unit :=
  s <- get ;;
  match _delayed_calls s with
  | [] => ret tt
  | calls =>
      for_each calls _handle_disconnect__delayed ;;;
      modify (set__delayed_calls [])
  end.

(** [handler = self._line_type_to_handler.get(line_type)], called, if there
    is one, with the items of [parse_line_data].  A handler called with
    arguments that are not its own is a [TypeError]; the parser never
    pairs a line type with the data of another. *)
Definition handle_line (l : LogParser.parsed_line) : M unit :=
  match LogParser.handled_line_type l, LogParser.parse_line_data l with
  | None, _ => ret tt
  | Some LineTypes.time, LogParser.PTime time => _handle_time time
  | Some LineTypes.connect, LogParser.PConnect client_id username =>
      _handle_connect client_id username
  | Some LineTypes.disconnect, LogParser.PDisconnect client_id =>
      _handle_disconnect client_id
  | Some LineTypes.command_to_client,
    LogParser.PCommandToClient client_ids commands =>
      _handle_command_to_client client_ids commands
  | Some LineTypes.command_to_server,
    LogParser.PCommandToServer client_id command =>
      _handle_command_to_server client_id command
  | Some LineTypes.game_expired, LogParser.PGameExpired game_id =>
      _handle_game_expired game_id
  | Some LineTypes.log, LogParser.PLog entry => _handle_log entry
  | Some LineTypes.blank_line, LogParser.PUnit => _handle_blank_line
  | Some LineTypes.connection_made, LogParser.PUnit => _handle_blank_line
  | Some LineTypes.error, LogParser.PUnit => _handle_blank_line
  | Some _, _ => lift (Raise TypeError)
  end.

(** The first loop of [go]: the games yielded while the parsed lines are
    consumed, how the loop ended and the processor it leaves. *)
Fixpoint go_lines (lines : list LogParser.parsed_line) (self : t)
  : list Game.t * option exn * t :=
  match lines with
  | [] => ([], None, self)
  | l :: lines' =>
      match handle_line l self with
      | (Raise e, self) => ([], Some e, self)
      | (Ok _, self) =>
          let expired := _expired_games self in
          let self :=
            match expired with
            | [] => self
            | _ => set__expired_games [] self
            end in
          let '(games, e, self) := go_lines lines' self in
          (expired ++ games, e, self)
      end
  end.

(** [go(self)], the parser having yielded [parsed] and then ended with or
    without an exception: the games [go] yields and the exception it ends
    with, if any. *)
Definition go_parsed (self : t)
  (parsed : list LogParser.parsed_line * option exn)
  : list Game.t * option exn :=
  let '(games, e, self) := go_lines (fst parsed) self in
  match e, snd parsed with
  | Some e, _ => (games, Some e)
  | None, Some e => (games, Some e)
  | None, None => (games ++ Dict.values (_game_id_to_game self), None)
  end.

(** [LogProcessor(log_timestamp, file).go()] *)
Definition go (ujson_decode : string -> option pyval)
  (_translations : zdict (sdict Enums.index_map))
  (log_timestamp : Z) (file : list string) : list Game.t * option exn :=
  go_parsed (__init__ log_timestamp)
    (LogParser.go ujson_decode
       (LogParser.__init__ enums _translations log_timestamp) file).

End WithEnums.

End LogProcessor.

(* ------------------------------------------------------------------ *)
(** ** Instances of what the program imports

    Used where a statement is evaluated on concrete input. *)

(** An instance of module [enums].  The members of [CommandsToClient] are
    those the handler table of [LogProcessor.__init__] lists, in its order,
    and a member's value is its position. *)
Definition enums_instance : enums_py :=
  {| CommandsToClient_members :=
       [ "FatalError"; "SetClientId"; "SetClientIdToData"; "SetGameState";
         "SetGameBoardCell"; "SetGameBoard"; "SetScoreSheetCell";
         "SetScoreSheet"; "SetGamePlayerJoin"; "SetGamePlayerRejoin";
         "SetGamePlayerLeave"; "SetGamePlayerJoinMissing";
         "SetGameWatcherClientId"; "ReturnWatcherToLobby";
         "AddGameHistoryMessage"; "AddGameHistoryMessages"; "SetTurn";
         "SetGameAction"; "SetTile"; "SetTileGameBoardType"; "RemoveTile";
         "AddGlobalChatMessage"; "AddGameChatMessage"; "DestroyGame" ];
     Errors_members :=
       [ "NotUsingLatestVersion"; "GenericError"; "InvalidUsername";
         "InvalidPassword"; "MissingPassword"; "ProvidedPassword";
         "IncorrectPassword"; "NonMatchingPassword"; "ExistingPassword";
         "UsernameAlreadyInUse"; "LostConnection" ];
     FatalError := 0;
     SetGameBoardCell := 4;
     SetScoreSheetCell := 6;
     SetScoreSheet := 7;
     SetGamePlayerJoin := 8;
     SetGamePlayerRejoin := 9;
     SetGamePlayerLeave := 10;
     SetGameWatcherClientId := 12;
     ReturnWatcherToLobby := 13;
     AddGameHistoryMessage := 14;
     AddGameHistoryMessages := 15;
     SetTile := 18;
     RemoveTile := 20;
     DoGameAction := 5;
     Nothing := 7;
     TurnBegan := 0;
     DrewPositionTile := 1;
     DrewTile := 3;
     ReplacedDeadTile := 15 |}.

(** [Enums._translations] for [enums_instance], after [Enums.initialize()]. *)
Definition translations_instance : zdict (sdict Enums.index_map) :=
  match Enums.initialize enums_instance Enums._lookups_changes with
  | Ok translations => translations
  | Raise _ => []
  end.

(** A decoder that accepts nothing, for files without JSON. *)
Definition no_json : string -> option pyval := fun _ => None.

(** [repr] of strings that need no escaping. *)
Definition plain_repr_str (s : string) : string := "'" ^^ s ^^ "'".

(** A generator whose state is a counter: [seed] resets it, a draw takes
    the element the counter points at, [shuffle] rotates by the counter. *)
Definition counter_seed (s : string) : nat := String.length s.

Definition counter_sample (g : nat) (l : list pyval) : pyval * nat :=
  (nth (g mod List.length l) l PyNone, S g).

Definition counter_shuffle (g : nat) (l : list pyval) : list pyval * nat :=
  let k := (g mod S (List.length l))%nat in
  (skipn k l ++ firstn k l, S g).

(* ------------------------------------------------------------------ *)
(** ** Vocabulary of the statements *)

(** How [LogParser._handle_command_to_client] sees a command: is its code
    that of [SetGameBoardCell], is it one of the [SetGamePlayer*] codes? *)
Definition kind_of (board_cell : Z) (player : list Z) (command : pyval)
  : result (bool * bool) :=
  let? code := Py.getitem command (PyInt 0) in
  if Py.eqb code (PyInt board_cell) then Ok (true, false)
  else let? p := in_int_set code player in Ok (false, p).

Definition is_board_command (board_cell : Z) (player : list Z)
  (command : pyval) : bool :=
  match kind_of board_cell player command with
  | Ok (true, _) => true
  | _ => false
  end.

Definition is_player_command (board_cell : Z) (player : list Z)
  (command : pyval) : bool :=
  match kind_of board_cell player command with
  | Ok (false, true) => true
  | _ => false
  end.






(** A command array of integers. *)
Definition cmd (code : Z) (args : list Z) : pyval :=
  PyList (map PyInt (code :: args)).

(** Is a history entry of the reference engine for player [i] of [n]?  It
    is when its target is [None], or an index that denotes [i] (a negative
    index counts from the end). *)
Definition denotes (n i : nat) (target : Z) : bool :=
  let j := if target <? 0 then target + Z.of_nat n else target in
  (0 <=? j) && (j <? Z.of_nat n) && (j =? Z.of_nat i).

Definition addressed_to (n i : nat) (target : pyval) : bool :=
  match target with
  | PyNone => true
  | PyInt t => denotes n i t
  | PyBool b => denotes n i (Z.b2z b)
  | _ => false
  end.

(** The messages of the reference engine's history that player [i] of [n]
    gets, in order. *)
Definition delivered_to (n i : nat) (history : list (pyval * pyval))
  : list pyval :=
  map snd (filter (fun e => addressed_to n i (fst e)) history).

(** Does the observed history equal the beginning, of the same length, of
    the reference engine's? *)
Definition prefix_matches (observed simulated : list pyval) : bool :=
  Py.list_eqb observed (firstn (List.length observed) simulated).

(** Do the observed histories of the players, in the order of
    [player_id_to_username], agree with what the reference engine delivered
    to players 0, 1, ... of its [n]? *)
Definition histories_agree (n : nat) (observed : list (list pyval))
  (history : list (pyval * pyval)) : bool :=
  forallb (fun il => prefix_matches (snd il) (delivered_to n (fst il) history))
          (firstn n (enumerate observed)).

(** [str(first) == str(second)] *)
Definition same_str (repr_str : string -> string) (first second : pyval)
  : bool :=
  String.eqb (Py.str repr_str first) (Py.str repr_str second).

(** The verdict of the four comparisons of [compare_with_server_game] that
    go through [_sync_compare]: board, score sheet rows, chain sizes and,
    when the reference engine has tile racks, the racks. *)
Definition structural_verdict (repr_str : string -> string) (self : Game.t)
  (sg : ServerGame) (server_rows : list pyval)
  (server_tile_racks : option (list (list pyval))) : bool :=
  let num_players :=
    Z.of_nat (List.length (Game.player_id_to_username self)) in
  same_str repr_str (PyList (map PyList (Game.board self)))
    (x_to_y_to_board_type sg)
  && same_str repr_str
       (PyList (Py.slice_to (Game.score_sheet_players self) num_players))
       (PyList server_rows)
  && same_str repr_str (Game.score_sheet_chain_size self) (chain_size sg)
  && match server_tile_racks with
     | Some server_tile_racks =>
         same_str repr_str
           (PyList (map PyList
                      (Py.slice_to (Game.tile_racks self) num_players)))
           (PyList (map PyList server_tile_racks))
     | None => true
     end.

(** [[tile_data[0] if tile_data else None for tile_data in rack] for rack in
     racks], when the reference engine has racks. *)
Definition server_tile_racks_of (sg : ServerGame)
  : result (option (list (list pyval))) :=
  match racks sg with
  | Some server_racks =>
      let? server_tile_racks :=
        rmap (fun rack =>
                rmap (fun tile_data =>
                        if Py.truthy tile_data
                        then Py.getitem tile_data (PyInt 0)
                        else Ok PyNone) rack)
             server_racks in
      Ok (Some server_tile_racks)
  | None => Ok None
  end.

(** [[self.username_to_game_history[username] for username in
     self.player_id_to_username.values()]] *)
Definition local_histories (self : Game.t) : result (list (list pyval)) :=
  rmap (fun username =>
          Dict.getitem username (Game.username_to_game_history self))
       (Dict.values (Game.player_id_to_username self)).

(** A game with one player, who has seen one history message, and a
    reference engine that agrees with it on board, score sheet and chain
    sizes, tracks no racks, and has produced a second message. *)
Definition one_player_game : Game.t :=
  Game.set_username_to_game_history
    [(PyStr "alice", [cmd 0 [0]])]
    (Game.set_username_to_player_id
       [(PyStr "alice", PyInt 0)]
       (Game.set_player_id_to_username
          [(PyInt 0, PyStr "alice")]
          (Game.__init__ enums_instance 1500000000 (PyInt 7) (PyInt 7)
             false))).

Definition one_player_server_game : ServerGame :=
  {| x_to_y_to_board_type := PyList (map PyList (Game.board one_player_game));
     player_data := [cmd 0 [0; 0; 0; 0; 0; 0; 60; 0]];
     chain_size := Game.score_sheet_chain_size one_player_game;
     number_of_players := 1;
     racks := None;
     history_messages := [(PyNone, cmd 0 [0]); (PyNone, cmd 3 [0; 1; 5])] |}.

(** The same game and reference engine with one history message each, of
    the same length: the observed message holds [True] where the engine's
    holds [1]. *)
Definition flagged_game : Game.t :=
  Game.set_username_to_game_history
    [(PyStr "alice", [PyList [PyInt 0; PyBool true]])] one_player_game.

Definition flagged_server_game : ServerGame :=
  {| x_to_y_to_board_type := x_to_y_to_board_type one_player_server_game;
     player_data := player_data one_player_server_game;
     chain_size := chain_size one_player_server_game;
     number_of_players := 1;
     racks := None;
     history_messages := [(PyNone, cmd 0 [1])] |}.

(** The tile a history message reports as drawn or replaced, if it is such
    a message: [(message[2], message[3])]. *)
Definition drawn_tile (enums : enums_py) (message : pyval) : option pyval :=
  match Py.getitem message (PyInt 0) with
  | Ok code =>
      match in_int_set code (Game._drew_or_replaced_tile_message_ids enums)
      with
      | Ok true =>
          match Py.getitem message (PyInt 2), Py.getitem message (PyInt 3)
          with
          | Ok x, Ok y => Some (PyTuple [x; y])
          | _, _ => None
          end
      | _ => None
      end
  | Raise _ => None
  end.

(** The tiles observed in the histories of the players. *)
Definition observed_tiles (enums : enums_py) (histories : list (list pyval))
  : list pyval :=
  flat_map (flat_map (fun message =>
                        match drawn_tile enums message with
                        | Some t => [t]
                        | None => []
                        end)) histories.

(** Is the value one of the 108 board coordinates: a pair of integers
    [(x, y)] with [0 <= x < 12] and [0 <= y < 9]? *)
Definition on_board (t : pyval) : bool :=
  match t with
  | PyTuple [PyInt x; PyInt y] =>
      (0 <=? x) && (x <? 12) && (0 <=? y) && (y <? 9)
  | _ => false
  end.

(** A history message of a valid draw history: it has a message id, and if
    the id says a tile was drawn or replaced, the message carries a board
    coordinate. *)
Definition valid_message (enums : enums_py) (message : pyval) : bool :=
  match Py.getitem message (PyInt 0) with
  | Ok code =>
      match in_int_set code (Game._drew_or_replaced_tile_message_ids enums)
      with
      | Ok true =>
          match drawn_tile enums message with
          | Some t => on_board t
          | None => false
          end
      | Ok false => true
      | Raise _ => false
      end
  | Raise _ => false
  end.

(** A game with a valid per-player draw history: every player has a
    history, the histories are [histories], and their messages are
    valid. *)
Definition valid_draw_history (enums : enums_py) (self : Game.t)
  (histories : list (list pyval)) : Prop :=
  local_histories self = Ok histories
  /\ Forall (Forall (fun message => valid_message enums message = true))
            histories.

(** No tile bag was recorded in the log for the game. *)
Definition no_recorded_tile_bag (self : Game.t) : Prop :=
  Game.tile_bag self = None \/ Game.tile_bag self = Some [].

(** The tiles a list of correction entries names. *)
Definition tiles_of (entries : list (Z * option pyval)) : list pyval :=
  flat_map (fun e => match snd e with Some t => [t] | None => [] end) entries.

(** Does every correction entry name its tile? *)
Definition all_specified (entries : list (Z * option pyval)) : bool :=
  forallb (fun e => match snd e with Some _ => true | None => false end)
          entries.

(** No element occurs twice, for Python's [==]. *)
Fixpoint distinct (l : list pyval) : bool :=
  match l with
  | [] => true
  | x :: l' => negb (Py.mem x l') && distinct l'
  end.

(** Correction entries the table may hold for a game: every entry names a
    board coordinate, no coordinate twice. *)
Definition entries_wellformed (entries : list (Z * option pyval)) : bool :=
  all_specified entries
  && forallb on_board (tiles_of entries)
  && distinct (tiles_of entries).

(** The bag a call returned, without the generator state. *)
Definition bag_of {rng : Type} (r : result (list pyval * rng))
  : result (list pyval) :=
  match r with
  | Ok (bag, _) => Ok bag
  | Raise e => Raise e
  end.

(** The body of the loop over one player's history in
    [Game.turn_by_turn_tiles_drawn_or_replaced]. *)
Definition turn_step (enums : enums_py)
  (st : list (list pyval) * list pyval) (message : pyval)
  : result (list (list pyval) * list pyval) :=
  let? m0 := Py.getitem message (PyInt 0) in
  let? drew :=
    in_int_set m0 (Game._drew_or_replaced_tile_message_ids enums) in
  if drew then
    let? x := Py.getitem message (PyInt 2) in
    let? y := Py.getitem message (PyInt 3) in
    Ok (fst st, snd st ++ [PyTuple [x; y]])
  else if Py.eqb m0 (PyInt (TurnBegan enums))
  then Ok (fst st ++ [snd st], [])
  else Ok st.

(** A [DrewTile] message for player 0, and the history of a player who
    drew every tile of the columns [from], ..., [from + columns - 1]. *)
Definition draw_message (x y : Z) : pyval := cmd 3 [0; x; y].

Definition draws (from : Z) (columns : nat) : list pyval :=
  flat_map (fun x => map (draw_message (from + x)) (Game.range 9))
           (Game.range columns).

(** A game of one player with a given history. *)
Definition game_with_history (log_timestamp internal_game_id : Z)
  (history : list pyval) : Game.t :=
  Game.set_username_to_game_history
    [(PyStr "alice", history)]
    (Game.set_username_to_player_id
       [(PyStr "alice", PyInt 0)]
       (Game.set_player_id_to_username
          [(PyInt 0, PyStr "alice")]
          (Game.__init__ enums_instance log_timestamp
             (PyInt internal_game_id) (PyInt internal_game_id) false))).

(** The game of the first entry of [Game.tile_bag_tweaks], which inserts
    tile (1, 5) at position 34: once with 36 observed tiles that do not
    include (1, 5), once with 45 observed tiles that do. *)
Definition corrected_game : Game.t :=
  game_with_history 1414827614 43 (draws 2 4).

Definition clashing_game : Game.t :=
  game_with_history 1414827614 43 (draws 0 5).

(** A verbose game that has no player yet. *)
Definition verbose_new_game : Game.t :=
  Game.__init__ enums_instance 1500000000 (PyInt 7) (PyInt 7) true.

(** A game without players and a correction table that leaves the tile to
    insert unspecified. *)
Definition new_game : Game.t :=
  Game.__init__ enums_instance 1500000000 (PyInt 7) (PyInt 7) false.

Definition unspecified_tweak : Game.tweaks :=
  [((1500000000, 7), [(0, None)])].

(** The parser after one more [connection_made] line. *)
Definition count_connection (self : LogParser.t) : LogParser.t :=
  {| LogParser._commands_to_client_translator :=
       LogParser._commands_to_client_translator self;
     LogParser._connection_made_count :=
       S (LogParser._connection_made_count self);
     LogParser._enum_set_game_board_cell :=
       LogParser._enum_set_game_board_cell self;
     LogParser._enum_set_game_player :=
       LogParser._enum_set_game_player self |}.

(** Does the line, without its newline, match [^connection_made$]? *)
Definition is_connection_made (raw : string) : bool :=
  match Re.match_ LogParser.re_connection_made (LogParser.strip_newline raw)
  with
  | Some _ => true
  | None => false
  end.

(** The frame terminator [go] adds at the end. *)
Definition synthesized_blank_line (number : nat) : LogParser.parsed_line :=
  {| LogParser.handled_line_type := Some LineTypes.blank_line;
     LogParser.line_number := number;
     LogParser.line := "";
     LogParser.parse_line_data := LogParser.PUnit |}.

(** A handler that leaves the parser as it is and does not ask to stop. *)
Definition plain_handler (h : LogParser.handler) : Prop :=
  forall match_ self r self',
    h match_ self = Ok (r, self') -> self' = self /\ r <> LogParser.HStop.

(** An entry of [_line_matchers_and_handlers]: it has no handler, or a
    plain one, or it is the entry of [connection_made]. *)
Definition matcher_kind
  (m : LineTypes.t * Re.regex * option LogParser.handler) : Prop :=
  snd m = None
  \/ (exists h, snd m = Some h /\ plain_handler h)
  \/ m = (LineTypes.connection_made, LogParser.re_connection_made,
          Some LogParser._handle_connection_made).

(** A line of a file, with its newline. *)
Definition ln (s : string) : string := s ^^ String Re.newline "".

(** The parser of a current log, for [enums_instance]. *)
Definition parser_instance : LogParser.t :=
  LogParser.__init__ enums_instance translations_instance 1500000000.

(** The identity maps of the processor and its queue of disconnects. *)
Definition clients (s : LogProcessor.t)
  : pydict pyval * pydict pyval * list Z :=
  (LogProcessor._client_id_to_username s,
   LogProcessor._username_to_client_id s,
   LogProcessor._delayed_calls s).

(** A method that leaves the identity maps and the queue of disconnects as
    they are, whether it returns or raises. *)
Definition keeps_clients {A : Type} (m : LogProcessor.M A) : Prop :=
  forall s, clients (snd (m s)) = clients s.

(** A method that does not raise. *)
Definition never_raises (m : LogProcessor.M unit) : Prop :=
  forall s, fst (m s) = Ok tt.

(** The lines between a disconnect and the end of its frame that cannot
    touch the identity maps: every line type but [connect], [disconnect]
    and the three that end a frame. *)
Definition inert_for_clients (l : LogParser.parsed_line) : bool :=
  match LogParser.handled_line_type l with
  | None
  | Some LineTypes.time
  | Some LineTypes.command_to_client
  | Some LineTypes.command_to_server
  | Some LineTypes.game_expired
  | Some LineTypes.log => true
  | _ => false
  end.

(** The line types [LogProcessor._line_type_to_handler] maps to
    [_handle_blank_line]. *)
Definition ends_frame (l : LogParser.parsed_line) : bool :=
  match LogParser.handled_line_type l, LogParser.parse_line_data l with
  | Some LineTypes.blank_line, LogParser.PUnit
  | Some LineTypes.connection_made, LogParser.PUnit
  | Some LineTypes.error, LogParser.PUnit => true
  | _, _ => false
  end.

(** The lines whose handling cannot raise while no disconnect is queued:
    unmatched lines, [time], [connect], commands to the server, batches of
    commands to clients that are lists, and the lines that end a frame. *)
Definition guarded_line (l : LogParser.parsed_line) : bool :=
  match LogParser.handled_line_type l, LogParser.parse_line_data l with
  | None, _ => true
  | Some LineTypes.time, LogParser.PTime _ => true
  | Some LineTypes.connect, LogParser.PConnect _ _ => true
  | Some LineTypes.command_to_client,
    LogParser.PCommandToClient _ (PyList _) => true
  | Some LineTypes.command_to_server, LogParser.PCommandToServer _ _ => true
  | Some LineTypes.blank_line, LogParser.PUnit
  | Some LineTypes.connection_made, LogParser.PUnit
  | Some LineTypes.error, LogParser.PUnit => true
  | _, _ => false
  end.

(** A file in which a diagnostic line follows a disconnect line within the
    frame, and the lines [LogParser.go] yields for it. *)
Definition disconnect_file : list string :=
  [ ln "5 connect alice 1.2.3.4 token"; ln "5 disconnect";
    ln "connection_lost"; ln "5 -> x"; ln "" ].

Definition disconnect_lines : list LogParser.parsed_line :=
  fst (LogParser.go no_json parser_instance disconnect_file).

(** The processor after the first [k] of some parsed lines. *)
Definition processor_after (k : nat) (lines : list LogParser.parsed_line)
  : LogProcessor.t :=
  snd (LogProcessor.go_lines enums_instance (firstn k lines)
         (LogProcessor.__init__ 1500000000)).

(** A decoder that knows one batch. *)
Definition one_batch_json (s : string) : option pyval :=
  if String.eqb s "[[4, 0, 0, 1], [14, 0]]"
  then Some (PyList [cmd 4 [0; 0; 1]; cmd 14 [0]])
  else None.

(** A file whose batch refers to a client that is in no game. *)
Definition unrouted_batch_file : list string :=
  [ ln "time: 1.5"; ln "5 <- [[4, 0, 0, 1], [14, 0]]"; ln "5 -> x" ].

(** The order of [sorted(d.items(), reverse=True)]: a newer change comes
    before an older one. *)
Definition newer_first {V : Type} (a b : Z * V) : Prop := fst b <= fst a.

(* ------------------------------------------------------------------ *)
(** ** Further vocabulary and the classes of the individual game logs *)

(** An association list that is a dict: no key twice. *)
Definition distinct_keys {K V : Type} (d : list (K * V)) : Prop :=
  NoDup (map fst d).

(** A table of translations as [Enums.initialize] leaves it: no time stamp
    twice, and in each change no enumeration twice. *)
Definition translations_wellformed
  (_translations : zdict (sdict Enums.index_map)) : Prop :=
  distinct_keys _translations
  /\ Forall (fun tc => distinct_keys (snd tc)) _translations.

(** A change comes strictly before an older one. *)
Definition strictly_newer_first {V : Type} (a b : Z * V) : Prop :=
  fst b < fst a.




(** The type of the last of some parsed lines, [h] if there is none. *)
Definition last_line_type (h : option LineTypes.t)
  (lines : list LogParser.parsed_line) : option LineTypes.t :=
  last (map LogParser.handled_line_type lines) h.

(** A list of [rows] lists of [columns] items. *)
Definition rectangular (rows columns : nat) (l : list (list pyval)) : Prop :=
  List.length l = rows /\ Forall (fun row => List.length row = columns) l.

(** The board of a game is 12 by 9, its tile racks and initial tile racks
    are 6 by 6, and its score sheet has at least the six rows of the
    players. *)
Definition game_shape (game : Game.t) : Prop :=
  rectangular 12 9 (Game.board game)
  /\ rectangular 6 6 (Game.tile_racks game)
  /\ rectangular 6 6 (Game.initial_tile_racks game)
  /\ (6 <= List.length (Game.score_sheet_players game))%nat.

(** [k in d] *)
Definition has_key {V : Type} (k : pyval) (d : pydict V) : Prop :=
  Py.lookup k d <> None.

(** The players of a game: the user names with a player id are, in the
    order in which they were first seen, the user names of
    [player_join_order] and those with a history; and every user name a
    player id stands for can be hashed and has a history. *)
Definition game_players (game : Game.t) : Prop :=
  map fst (Game.username_to_player_id game) = Game.player_join_order game
  /\ map fst (Game.username_to_game_history game)
     = Game.player_join_order game
  /\ Forall (fun username =>
               Py.hashable username = true
               /\ has_key username (Game.username_to_game_history game))
            (Dict.values (Game.player_id_to_username game)).

Definition game_wellformed (game : Game.t) : Prop :=
  game_shape game /\ game_players game.

Definition open_game (game : Game.t) : Prop :=
  game_wellformed game /\ Game.expired game = false.

Definition expired_game (game : Game.t) : Prop :=
  game_wellformed game /\ Game.expired game = true.

(** The games a processor holds: those in [_game_id_to_game] are open,
    those in [_expired_games] expired. *)
Definition games_wellformed (s : LogProcessor.t) : Prop :=
  Forall open_game (Dict.values (LogProcessor._game_id_to_game s))
  /\ Forall expired_game (LogProcessor._expired_games s).

(** A triple for a method of [LogProcessor]: run in a state in which the
    games are well formed and [P] holds, it leaves them well formed, also
    when it raises, and when it returns [Q] holds of what it returns and
    of the state. *)
Definition hoare {A : Type} (P : LogProcessor.t -> Prop)
  (m : LogProcessor.M A) (Q : A -> LogProcessor.t -> Prop) : Prop :=
  forall s,
    games_wellformed s -> P s ->
    match m s with
    | (Ok a, s') => games_wellformed s' /\ Q a s'
    | (Raise _, s') => games_wellformed s'
    end.

(** A method that keeps the games well formed, whether it returns or
    raises. *)
Definition keeps_games {A : Type} (m : LogProcessor.M A) : Prop :=
  hoare (fun _ => True) m (fun _ _ => True).

(** The outcome of a method that need not leave the games well formed
    when it raises, and the triple of such a method. *)
Definition wellformed_if_ok {A : Type} (r : result A * LogProcessor.t)
  : Prop :=
  match r with
  | (Ok _, s') => games_wellformed s'
  | (Raise _, _) => True
  end.

Definition hoare_if_ok {A : Type} (P : LogProcessor.t -> Prop)
  (m : LogProcessor.M A) : Prop :=
  forall s, games_wellformed s -> P s -> wellformed_if_ok (m s).

Definition keeps_games_if_ok {A : Type} (m : LogProcessor.M A) : Prop :=
  hoare_if_ok (fun _ => True) m.

(** The state [s] is [s0] but for the game under [key], which is
    [game]. *)
Definition differs_at (key : pyval) (game : Game.t) (s s0 : LogProcessor.t) : Prop :=
  (exists game0, Py.lookup key (LogProcessor._game_id_to_game s0) = Some game0)
  /\ LogProcessor._game_id_to_game s = Py.put key game (LogProcessor._game_id_to_game s0)
  /\ LogProcessor._expired_games s = LogProcessor._expired_games s0.

(** The values of [tiles] in the order in which they first occur, for
    Python's [==], after those of [seen]. *)
Definition first_draws_from (seen tiles : list pyval) : list pyval :=
  fold_left (fun seen t => if Py.mem t seen then seen else seen ++ [t])
            tiles seen.

Definition first_draws (tiles : list pyval) : list pyval :=
  first_draws_from [] tiles.

(** The order in which [Game.include_turns] goes through the tiles. *)
Definition inclusion_order (players : list (list (list pyval)))
  : list pyval :=
  List.concat
    (List.concat
       (map (fun row => Game.sorted_by_len (Game.contributing row))
            (Game.zip_longest players))).

(** [sorted(l, key=lambda x: -x[1])] for pairs with an integer amount;
    the sort is stable. *)
Fixpoint insert_by_amount (x : nat * Z) (l : list (nat * Z))
  : list (nat * Z) :=
  match l with
  | [] => [x]
  | y :: l' =>
      if snd y <=? snd x then x :: l else y :: insert_by_amount x l'
  end.

Definition sorted_by_amount (l : list (nat * Z)) : list (nat * Z) :=
  fold_right insert_by_amount [] l.

(** The body of the loop of [get_player_id_to_ranking], on
    [player_id_to_ranking] and the pair [(last_amount, last_ranking)],
    which is [None] as long as the two variables are. *)
Definition ranking_step (st : zdict Z * option (Z * Z)) (entry : nat * Z)
  : zdict Z * option (Z * Z) :=
  let player_id_to_ranking := fst st in
  let '(player_id, amount) := entry in
  let ranking :=
    match snd st with
    | Some (last_amount, last_ranking) =>
        if amount =? last_amount then last_ranking
        else Z.of_nat (List.length player_id_to_ranking) + 1
    | None => Z.of_nat (List.length player_id_to_ranking) + 1
    end in
  (ZDict.put (Z.of_nat player_id) ranking player_id_to_ranking,
   Some (amount, ranking)).

(** [get_player_id_to_ranking(score)], for a list of integers. *)
Definition get_player_id_to_ranking (score : list Z) : zdict Z :=
  fst (fold_left ranking_step (sorted_by_amount (enumerate score))
                 ([], None)).

(** The number of amounts of [score] above [amount]. *)
Definition higher_amounts (amount : Z) (score : list Z) : nat :=
  List.length (filter (fun a => amount <? a) score).

(* ------------------------------------------------------------------ *)
(** ** class IndividualGameLog *)

Module IndividualGameLog.

(** [line_number_to_batch] is a dict in insertion order.  Its keys and
    values are what [_batch_completed] is called with: a line number and
    a list of lines, or [None] and [None]. *)
Record t : Type := {
  log_timestamp : Z;
  internal_game_id : pyval;
  player_id_to_username : pydict pyval;
  username_to_player_id : pydict pyval;
  line_number_to_batch : list (option nat * option (list string))
}.

(** [__init__(self, log_timestamp, internal_game_id)] *)
Definition __init__ (log_timestamp : Z) (internal_game_id : pyval) : t :=
  {| log_timestamp := log_timestamp;
     internal_game_id := internal_game_id;
     player_id_to_username := [];
     username_to_player_id := [];
     line_number_to_batch := [] |}.

Definition set_player_id_to_username (d : pydict pyval) (self : t) : t :=
  {| log_timestamp := log_timestamp self;
     internal_game_id := internal_game_id self;
     player_id_to_username := d;
     username_to_player_id := username_to_player_id self;
     line_number_to_batch := line_number_to_batch self |}.

Definition set_username_to_player_id (d : pydict pyval) (self : t) : t :=
  {| log_timestamp := log_timestamp self;
     internal_game_id := internal_game_id self;
     player_id_to_username := player_id_to_username self;
     username_to_player_id := d;
     line_number_to_batch := line_number_to_batch self |}.

Definition set_line_number_to_batch
  (d : list (option nat * option (list string))) (self : t) : t :=
  {| log_timestamp := log_timestamp self;
     internal_game_id := internal_game_id self;
     player_id_to_username := player_id_to_username self;
     username_to_player_id := username_to_player_id self;
     line_number_to_batch := d |}.

(** [==] on line numbers and [None] *)
Definition key_eqb (a b : option nat) : bool :=
  match a, b with
  | Some m, Some n => Nat.eqb m n
  | None, None => true
  | _, _ => false
  end.

(** [d[k] = v] *)
Fixpoint put_batch (k : option nat) (v : option (list string))
  (d : list (option nat * option (list string)))
  : list (option nat * option (list string)) :=
  match d with
  | [] => [(k, v)]
  | (k', v') :: d' =>
      if key_eqb k k' then (k', v) :: d' else (k', v') :: put_batch k v d'
  end.

(** [game_log.line_number_to_batch[batch_line_number] = batch] *)
Definition assign_batch (batch_line_number : option nat)
  (batch : option (list string)) (self : t) : t :=
  set_line_number_to_batch
    (put_batch batch_line_number batch (line_number_to_batch self)) self.

(** [sorted(self.line_number_to_batch.items())]: the keys of a dict
    differ, so the batches are not compared; [None] cannot be compared
    with a number. *)
Fixpoint insert_by_key (x : nat * option (list string))
  (l : list (nat * option (list string)))
  : list (nat * option (list string)) :=
  match l with
  | [] => [x]
  | y :: l' =>
      if (fst x <? fst y)%nat then x :: l else y :: insert_by_key x l'
  end.

Definition sorted_items (d : list (option nat * option (list string)))
  : result (list (option nat * option (list string))) :=
  match d with
  | [] | [_] => Ok d
  | _ =>
      let? numbered :=
        rmap (fun kv => match fst kv with
                        | Some n => Ok (n, snd kv)
                        | None => Raise TypeError
                        end) d in
      Ok (map (fun kv => (Some (fst kv), snd kv))
              (fold_right insert_by_key [] numbered))
  end.

(** [str(line_number)] *)
Definition str_line_number (line_number : option nat) : string :=
  match line_number with
  | Some n => Py.str_of_Z (Z.of_nat n)
  | None => "None"
  end.

(** ['--- batch line number: ' + str(line_number) + '\n'] *)
Definition header (line_number : option nat) : string :=
  "--- batch line number: " ^^ str_line_number line_number
    ^^ String Re.newline "".

(** The loop of [make_game_log_file]: what it writes, and the exception
    it ends with, if any. *)
Fixpoint write_batches (items : list (option nat * option (list string)))
  : list string * option exn :=
  match items with
  | [] => ([], None)
  | (line_number, batch) :: items' =>
      match batch with
      | Some batch =>
          let '(written, e) := write_batches items' in
          (header line_number
             :: Py.join (String Re.newline "") batch
             :: String Re.newline "" :: written, e)
      | None => ([header line_number], Some TypeError)
      end
  end.

(** [make_game_log_file(self, filename)]: the strings written to the
    file, in order, and the exception, if any. *)
Definition make_game_log_file (self : t) : list string * option exn :=
  match sorted_items (line_number_to_batch self) with
  | Ok items => write_batches items
  | Raise e => ([], Some e)
  end.

End IndividualGameLog.

(* ------------------------------------------------------------------ *)
(** ** class IndividualGameLogMaker *)

Module IndividualGameLogMaker.

Record t : Type := {
  _log_timestamp : Z;
  _client_id_to_username : pydict pyval;
  _username_to_client_id : pydict pyval;
  _client_id_to_game_id : pydict pyval;
  (** the client ids [_handle_disconnect__delayed] is still to be called
      with *)
  _delayed_calls : list Z;
  _line_number : nat;
  _batch_line_number : nat;
  _batch : list string;
  _game_id_to_game_log : pydict IndividualGameLog.t;
  _batch_add_client_id : option Z;
  _batch_remove_client_id : option Z;
  _batch_game_id : pyval;
  _batch_destroy_game_ids : list pyval;
  (** [client_id -> [batch_line_number, batch]] *)
  _client_id_to_add_batch : pydict (option nat * option (list string));
  _completed_game_logs : list IndividualGameLog.t
}.

Definition eta (r : t) : t :=
  Build_t (_log_timestamp r) (_client_id_to_username r)
    (_username_to_client_id r) (_client_id_to_game_id r) (_delayed_calls r)
    (_line_number r) (_batch_line_number r) (_batch r)
    (_game_id_to_game_log r) (_batch_add_client_id r)
    (_batch_remove_client_id r) (_batch_game_id r)
    (_batch_destroy_game_ids r) (_client_id_to_add_batch r)
    (_completed_game_logs r).

Ltac setter proj :=
  let v := fresh "v" in
  let r := fresh "r" in
  intros v r;
  let e := eval cbv [eta] in (eta r) in
  match eval pattern (proj r) in e with
  | ?f _ => exact (f v)
  end.

Definition set__client_id_to_username : pydict pyval -> t -> t :=
  ltac:(setter _client_id_to_username).
Definition set__username_to_client_id : pydict pyval -> t -> t :=
  ltac:(setter _username_to_client_id).
Definition set__client_id_to_game_id : pydict pyval -> t -> t :=
  ltac:(setter _client_id_to_game_id).
Definition set__delayed_calls : list Z -> t -> t :=
  ltac:(setter _delayed_calls).
Definition set__line_number : nat -> t -> t := ltac:(setter _line_number).
Definition set__batch_line_number : nat -> t -> t :=
  ltac:(setter _batch_line_number).
Definition set__batch : list string -> t -> t := ltac:(setter _batch).
Definition set__game_id_to_game_log : pydict IndividualGameLog.t -> t -> t :=
  ltac:(setter _game_id_to_game_log).
Definition set__batch_add_client_id : option Z -> t -> t :=
  ltac:(setter _batch_add_client_id).
Definition set__batch_remove_client_id : option Z -> t -> t :=
  ltac:(setter _batch_remove_client_id).
Definition set__batch_game_id : pyval -> t -> t :=
  ltac:(setter _batch_game_id).
Definition set__batch_destroy_game_ids : list pyval -> t -> t :=
  ltac:(setter _batch_destroy_game_ids).
Definition set__client_id_to_add_batch
  : pydict (option nat * option (list string)) -> t -> t :=
  ltac:(setter _client_id_to_add_batch).
Definition set__completed_game_logs : list IndividualGameLog.t -> t -> t :=
  ltac:(setter _completed_game_logs).

(** [__init__(self, log_timestamp, file)] *)
Definition __init__ (log_timestamp : Z) : t :=
  {| _log_timestamp := log_timestamp;
     _client_id_to_username := [];
     _username_to_client_id := [];
     _client_id_to_game_id := [];
     _delayed_calls := [];
     _line_number := 1;
     _batch_line_number := 1;
     _batch := [];
     _game_id_to_game_log := [];
     _batch_add_client_id := None;
     _batch_remove_client_id := None;
     _batch_game_id := PyNone;
     _batch_destroy_game_ids := [];
     _client_id_to_add_batch := [];
     _completed_game_logs := [] |}.

(** [self._re_disconnect = re.compile(r'^\d+ disconnect$')] *)
Definition _re_disconnect : Re.regex :=
  Re.seq [Re.Bol; Re.Plus Re.digit; Re.Lit " disconnect"; Re.Eol].

(** [not self._re_disconnect.match(line)] *)
Definition not_disconnect (line : string) : bool :=
  match Re.match_ _re_disconnect line with
  | Some _ => false
  | None => true
  end.

(** The truth value of [self._batch_add_client_id] and of
    [self._batch_remove_client_id]: [None] or a client id. *)
Definition truthy_id (client_id : option Z) : bool :=
  match client_id with
  | Some n => negb (n =? 0)
  | None => false
  end.

(** *** Methods: state and exceptions, as for [LogProcessor] *)

Definition M (A : Type) : Type := t -> result A * t.

Definition ret {A : Type} (a : A) : M A := fun s => (Ok a, s).

Definition bind {A B : Type} (m : M A) (k : A -> M B) : M B :=
  fun s =>
    match m s with
    | (Ok a, s') => k a s'
    | (Raise e, s') => (Raise e, s')
    end.

Definition lift {A : Type} (r : result A) : M A := fun s => (r, s).

Definition get : M t := fun s => (Ok s, s).

Definition modify (f : t -> t) : M unit := fun s => (Ok tt, f s).

(** [try: m except: traceback.print_exc()] *)
Definition try_ (m : M unit) : M unit :=
  fun s => (Ok tt, snd (m s)).

Declare Scope maker_scope.
Delimit Scope maker_scope with maker.

Notation "x <- m ;; k" := (bind m (fun x => k))
  (at level 61, m at next level, right associativity) : maker_scope.
Notation "m ;;; k" := (bind m (fun _ => k))
  (at level 61, right associativity) : maker_scope.

Local Open Scope maker_scope.

(** [for x in l: body(x)] *)
Fixpoint for_each {A : Type} (l : list A) (body : A -> M unit) : M unit :=
  match l with
  | [] => ret tt
  | x :: l' => body x ;;; for_each l' body
  end.

(** The game log an attribute of which a method is about to assign: game
    logs are objects, the method mutates the one stored under [key]. *)
Definition mutate_game_log (key : pyval)
  (f : IndividualGameLog.t -> IndividualGameLog.t) : M unit :=
  modify (fun s =>
            match Py.lookup key (_game_id_to_game_log s) with
            | Some game_log =>
                set__game_id_to_game_log
                  (Py.put key (f game_log) (_game_id_to_game_log s)) s
            | None => s
            end).

(** [for game_log in self._game_id_to_game_log.values():
       game_log.line_number_to_batch[batch_line_number] = batch] *)
Definition assign_batch_to_all (batch_line_number : option nat)
  (batch : option (list string)) : M unit :=
  modify (fun s =>
            set__game_id_to_game_log
              (map (fun kv =>
                      (fst kv,
                       IndividualGameLog.assign_batch batch_line_number batch
                         (snd kv)))
                   (_game_id_to_game_log s)) s).

(** [client_ids[0]] *)
Definition first_client_id (client_ids : list Z) : M pyval :=
  n <- lift (Py.index client_ids 0) ;;
  ret (PyInt n).

Section WithEnums.

Variable enums : enums_py.

Definition _handle_connect (client_id : Z) (username : string) : M unit :=
  s <- get ;;
  (if match Py.lookup (PyInt client_id) (_client_id_to_username s) with
      | Some known => negb (Py.eqb known (PyStr username))
      | None => true
      end
   then modify (set__batch_add_client_id (Some client_id))
   else ret tt) ;;;
  modify (fun s =>
            set__client_id_to_username
              (Py.put (PyInt client_id) (PyStr username)
                 (_client_id_to_username s)) s) ;;;
  modify (fun s =>
            set__username_to_client_id
              (Py.put (PyStr username) (PyInt client_id)
                 (_username_to_client_id s)) s).

Definition _handle_disconnect (client_id : Z) : M unit :=
  modify (fun s => set__delayed_calls (_delayed_calls s ++ [client_id]) s).

Definition _handle_disconnect__delayed (client_id : Z) : M unit :=
  s <- get ;;
  (match Py.lookup (PyInt client_id) (_client_id_to_username s) with
   | Some username =>
       if Py.truthy username
       then modify (set__batch_remove_client_id (Some client_id))
       else ret tt
   | None => ret tt
   end) ;;;
  d <- lift (Dict.delitem (PyInt client_id) (_client_id_to_username s)) ;;
  modify (set__client_id_to_username d) ;;;
  modify (set__username_to_client_id
            (fold_left (fun acc cu => Py.put (snd cu) (fst cu) acc) d [])).

(** [self._batch_game_id = self._client_id_to_game_id[client_ids[0]]] *)
Definition batch_of_first_client (client_ids : list Z) : M unit :=
  client_id <- first_client_id client_ids ;;
  s <- get ;;
  game_id <- lift (Dict.getitem client_id (_client_id_to_game_id s)) ;;
  modify (set__batch_game_id game_id).

Definition _handle_command_to_client__set_game_board_cell
  (client_ids : list Z) (command : pyval) : M unit :=
  batch_of_first_client client_ids.

Definition _handle_command_to_client__set_score_sheet_cell
  (client_ids : list Z) (command : pyval) : M unit :=
  batch_of_first_client client_ids.

Definition _handle_command_to_client__set_score_sheet
  (client_ids : list Z) (command : pyval) : M unit :=
  batch_of_first_client client_ids.

Definition _add_client_id_to_game (game_id client_id : pyval) : M unit :=
  s <- get ;;
  d <- lift (Dict.setitem client_id game_id (_client_id_to_game_id s)) ;;
  modify (set__client_id_to_game_id d) ;;;
  modify (set__batch_game_id game_id).

Definition _remove_client_id_from_game (client_id : pyval) : M unit :=
  s <- get ;;
  present <- lift (Dict.contains client_id (_client_id_to_game_id s)) ;;
  if present then
    game_id <- lift (Dict.getitem client_id (_client_id_to_game_id s)) ;;
    modify (set__batch_game_id game_id) ;;;
    d <- lift (Dict.delitem client_id (_client_id_to_game_id s)) ;;
    modify (set__client_id_to_game_id d)
  else ret tt.

Definition _remove_player_id_from_game (game_id player_id : pyval) : M unit :=
  s <- get ;;
  game_log <- lift (Dict.getitem game_id (_game_id_to_game_log s)) ;;
  username <-
    lift (Dict.getitem player_id
            (IndividualGameLog.player_id_to_username game_log)) ;;
  client_id <- lift (Dict.getitem username (_username_to_client_id s)) ;;
  present <- lift (Dict.contains client_id (_client_id_to_game_id s)) ;;
  if present then
    modify (set__batch_game_id game_id) ;;;
    d <- lift (Dict.delitem client_id (_client_id_to_game_id s)) ;;
    modify (set__client_id_to_game_id d)
  else ret tt.

Definition _handle_command_to_client__set_game_player_join
  (client_ids : list Z) (command : pyval) : M unit :=
  game_id <- lift (Py.getitem command (PyInt 1)) ;;
  client_id <- lift (Py.getitem command (PyInt 3)) ;;
  _add_client_id_to_game game_id client_id.

Definition _handle_command_to_client__set_game_player_rejoin
  (client_ids : list Z) (command : pyval) : M unit :=
  game_id <- lift (Py.getitem command (PyInt 1)) ;;
  client_id <- lift (Py.getitem command (PyInt 3)) ;;
  _add_client_id_to_game game_id client_id.

Definition _handle_command_to_client__set_game_player_leave
  (client_ids : list Z) (command : pyval) : M unit :=
  client_id <- lift (Py.getitem command (PyInt 3)) ;;
  _remove_client_id_from_game client_id.

Definition _handle_command_to_client__set_game_watcher_client_id
  (client_ids : list Z) (command : pyval) : M unit :=
  game_id <- lift (Py.getitem command (PyInt 1)) ;;
  client_id <- lift (Py.getitem command (PyInt 2)) ;;
  _add_client_id_to_game game_id client_id.

Definition _handle_command_to_client__return_watcher_to_lobby
  (client_ids : list Z) (command : pyval) : M unit :=
  client_id <- lift (Py.getitem command (PyInt 2)) ;;
  _remove_client_id_from_game client_id.

Definition _handle_command_to_client__set_tile
  (client_ids : list Z) (command : pyval) : M unit :=
  batch_of_first_client client_ids.

Definition _handle_command_to_client__set_game_player_client_id
  (client_ids : list Z) (command : pyval) : M unit :=
  client_id <- lift (Py.getitem command (PyInt 3)) ;;
  match client_id with
  | PyNone =>
      game_id <- lift (Py.getitem command (PyInt 1)) ;;
      player_id <- lift (Py.getitem command (PyInt 2)) ;;
      _remove_player_id_from_game game_id player_id
  | _ =>
      game_id <- lift (Py.getitem command (PyInt 1)) ;;
      _add_client_id_to_game game_id client_id
  end.

(** [self._commands_to_client_handlers], a dict from command codes to
    methods, written out in the order of the source. *)
Definition _commands_to_client_handlers
  : zdict (list Z -> pyval -> M unit) :=
  fold_left (fun d kv => ZDict.put (fst kv) (snd kv) d)
    ([ (SetGameBoardCell enums,
         _handle_command_to_client__set_game_board_cell);
       (SetScoreSheetCell enums,
         _handle_command_to_client__set_score_sheet_cell);
       (SetScoreSheet enums, _handle_command_to_client__set_score_sheet);
       (SetGamePlayerJoin enums,
         _handle_command_to_client__set_game_player_join);
       (SetGamePlayerRejoin enums,
         _handle_command_to_client__set_game_player_rejoin);
       (SetGamePlayerLeave enums,
         _handle_command_to_client__set_game_player_leave);
       (SetGameWatcherClientId enums,
         _handle_command_to_client__set_game_watcher_client_id);
       (ReturnWatcherToLobby enums,
         _handle_command_to_client__return_watcher_to_lobby);
       (SetTile enums, _handle_command_to_client__set_tile) ]
     ++ match SDict.lookup "CommandsToClient" (Enums.lookups enums) with
        | Some names =>
            match index_of "SetGamePlayerClientId" names with
            | Some i =>
                [ (Z.of_nat i,
                    _handle_command_to_client__set_game_player_client_id) ]
            | None => []
            end
        | None => []
        end)
    [].

(** The body of the loop of [_handle_command_to_client], inside [try]. *)
Definition dispatch_command_to_client (client_ids : list Z) (command : pyval)
  : M unit :=
  code <- lift (Py.getitem command (PyInt 0)) ;;
  handler <- lift (ZDict.get code _commands_to_client_handlers) ;;
  match handler with
  | Some handler => handler client_ids command
  | None => ret tt
  end.

Definition _handle_command_to_client (client_ids : list Z) (commands : pyval)
  : M unit :=
  commands <- lift (Py.iter commands) ;;
  for_each commands (fun command =>
    try_ (dispatch_command_to_client client_ids command)).

Definition _handle_command_to_server__do_game_action
  (client_id : Z) (command : pyval) : M unit :=
  s <- get ;;
  game_id <- lift (Dict.get (PyInt client_id) (_client_id_to_game_id s)) ;;
  match game_id with
  | Some game_id =>
      if Py.truthy game_id then
        game_log <- lift (Dict.getitem game_id (_game_id_to_game_log s)) ;;
        username <-
          lift (Dict.getitem (PyInt client_id) (_client_id_to_username s)) ;;
        player_id <-
          lift (Dict.get username
                  (IndividualGameLog.username_to_player_id game_log)) ;;
        match player_id with
        | Some PyNone | None => ret tt
        | Some _ => modify (set__batch_game_id game_id)
        end
      else ret tt
  | None => ret tt
  end.

Definition _commands_to_server_handlers
  : zdict (Z -> pyval -> M unit) :=
  [ (DoGameAction enums, _handle_command_to_server__do_game_action) ].

Definition _handle_command_to_server (client_id : Z) (command : pyval)
  : M unit :=
  try_ (code <- lift (Py.getitem command (PyInt 0)) ;;
        handler <- lift (ZDict.get code _commands_to_server_handlers) ;;
        match handler with
        | Some handler => handler client_id command
        | None => ret tt
        end).

Definition _handle_game_expired (game_id : pyval) : M unit :=
  modify (fun s =>
            set__batch_destroy_game_ids
              (_batch_destroy_game_ids s ++ [game_id]) s).

(** The body of the loop over [self._client_id_to_add_batch.items()] in
    [_handle_log]. *)
Definition copy_add_batch (game_id : pyval)
  (add_batch : option nat * option (list string)) : M unit :=
  let batch_line_number := fst add_batch in
  batch <- lift (match snd add_batch with
                 | Some batch => Ok (filter not_disconnect batch)
                 | None => Raise TypeError
                 end) ;;
  mutate_game_log game_id
    (IndividualGameLog.assign_batch batch_line_number (Some batch)).

Definition _handle_log (entry : pyval) : M unit :=
  external <- lift (Py.contains_key "external-game-id" entry) ;;
  game_id <-
    lift (Py.getitem entry
            (PyStr (if external then "external-game-id" else "game-id"))) ;;
  internal_game_id <- lift (Py.getitem entry (PyStr "game-id")) ;;
  s <- get ;;
  known <- lift (Dict.contains game_id (_game_id_to_game_log s)) ;;
  (if known then ret tt
   else
     modify (fun s =>
               set__game_id_to_game_log
                 (Py.put game_id
                    (IndividualGameLog.__init__ (_log_timestamp s)
                       internal_game_id)
                    (_game_id_to_game_log s)) s) ;;;
     for_each (Dict.values (_client_id_to_add_batch s))
              (copy_add_batch game_id)) ;;;
  kind <- lift (Py.getitem entry (PyStr "_")) ;;
  if Py.eqb kind (PyStr "game-player") then
    player_id <- lift (Py.getitem entry (PyStr "player-id")) ;;
    username <- lift (Py.getitem entry (PyStr "username")) ;;
    s <- get ;;
    game_log <- lift (Dict.getitem game_id (_game_id_to_game_log s)) ;;
    d <- lift (Dict.setitem player_id username
                 (IndividualGameLog.player_id_to_username game_log)) ;;
    mutate_game_log game_id (IndividualGameLog.set_player_id_to_username d) ;;;
    d <- lift (Dict.setitem username player_id
                 (IndividualGameLog.username_to_player_id game_log)) ;;
    mutate_game_log game_id (IndividualGameLog.set_username_to_player_id d)
  else ret tt.

(** The body of the loop over [self._batch_destroy_game_ids]. *)
Definition complete_game_log (game_id : pyval) : M unit :=
  s <- get ;;
  game_log <- lift (Dict.getitem game_id (_game_id_to_game_log s)) ;;
  modify (fun s =>
            set__completed_game_logs (_completed_game_logs s ++ [game_log])
              s) ;;;
  s <- get ;;
  d <- lift (Dict.delitem game_id (_game_id_to_game_log s)) ;;
  modify (set__game_id_to_game_log d).

(** The four [if]s of [_batch_completed]: the batch in which a client
    has connected, the batch in which one has disconnected, the batch of a
    game, and the game logs to complete. *)
Definition batch_of_added_client (batch_line_number : option nat)
  (batch : option (list string)) : M unit :=
  s <- get ;;
  if truthy_id (_batch_add_client_id s) then
    assign_batch_to_all batch_line_number batch ;;;
    match _batch_add_client_id s with
    | Some client_id =>
        modify (fun s =>
                  set__client_id_to_add_batch
                    (Py.put (PyInt client_id) (batch_line_number, batch)
                       (_client_id_to_add_batch s)) s)
    | None => ret tt
    end ;;;
    modify (set__batch_add_client_id None)
  else ret tt.

Definition batch_of_removed_client (batch_line_number : option nat)
  (batch : option (list string)) : M unit :=
  s <- get ;;
  if truthy_id (_batch_remove_client_id s) then
    assign_batch_to_all batch_line_number batch ;;;
    match _batch_remove_client_id s with
    | Some client_id =>
        s <- get ;;
        d <- lift (Dict.delitem (PyInt client_id)
                     (_client_id_to_add_batch s)) ;;
        modify (set__client_id_to_add_batch d)
    | None => ret tt
    end ;;;
    modify (set__batch_remove_client_id None)
  else ret tt.

Definition batch_of_game (batch_line_number : option nat)
  (batch : option (list string)) : M unit :=
  s <- get ;;
  if Py.truthy (_batch_game_id s) then
    game_log <-
      lift (Dict.getitem (_batch_game_id s) (_game_id_to_game_log s)) ;;
    mutate_game_log (_batch_game_id s)
      (IndividualGameLog.assign_batch batch_line_number batch) ;;;
    modify (set__batch_game_id PyNone)
  else ret tt.

Definition complete_game_logs : M unit :=
  s <- get ;;
  match _batch_destroy_game_ids s with
  | [] => ret tt
  | game_ids =>
      for_each game_ids complete_game_log ;;;
      modify (set__batch_destroy_game_ids [])
  end.

Definition _batch_completed (batch_line_number : option nat)
  (batch : option (list string)) : M unit :=
  batch_of_added_client batch_line_number batch ;;;
  batch_of_removed_client batch_line_number batch ;;;
  batch_of_game batch_line_number batch ;;;
  complete_game_logs.

Definition _handle_blank_line : M unit :=
  s <- get ;;
  match _delayed_calls s with
  | [] => ret tt
  | calls =>
      for_each calls _handle_disconnect__delayed ;;;
      modify (set__delayed_calls [])
  end ;;;
  s <- get ;;
  _batch_completed (Some (_batch_line_number s)) (Some (_batch s)) ;;;
  modify (fun s => set__batch_line_number (S (_line_number s)) s) ;;;
  modify (set__batch []).

(** [handler = self._line_type_to_handler.get(line_type)], to be called,
    if there is one, with the items of [parse_line_data]: there is none
    for lines of no type and for [time] lines.  A handler called with
    arguments that are not its own is a [TypeError]. *)
Definition call_handler (l : LogParser.parsed_line) : option (M unit) :=
  match LogParser.handled_line_type l, LogParser.parse_line_data l with
  | None, _ => None
  | Some LineTypes.time, _ => None
  | Some LineTypes.connect, LogParser.PConnect client_id username =>
      Some (_handle_connect client_id username)
  | Some LineTypes.disconnect, LogParser.PDisconnect client_id =>
      Some (_handle_disconnect client_id)
  | Some LineTypes.command_to_client,
    LogParser.PCommandToClient client_ids commands =>
      Some (_handle_command_to_client client_ids commands)
  | Some LineTypes.command_to_server,
    LogParser.PCommandToServer client_id command =>
      Some (_handle_command_to_server client_id command)
  | Some LineTypes.game_expired, LogParser.PGameExpired game_id =>
      Some (_handle_game_expired (PyInt game_id))
  | Some LineTypes.log, LogParser.PLog entry => Some (_handle_log entry)
  | Some LineTypes.blank_line, LogParser.PUnit => Some _handle_blank_line
  | Some LineTypes.connection_made, LogParser.PUnit =>
      Some _handle_blank_line
  | Some LineTypes.error, LogParser.PUnit => Some _handle_blank_line
  | Some _, _ => Some (lift (Raise TypeError))
  end.

(** The body of the first loop of [go], up to the yields. *)
Definition handle_line (l : LogParser.parsed_line) : M unit :=
  modify (fun s => set__batch (_batch s ++ [LogParser.line l]) s) ;;;
  match call_handler l with
  | Some handler =>
      modify (set__line_number (LogParser.line_number l)) ;;;
      handler
  | None => ret tt
  end.

(** The first loop of [go]: the game logs yielded while the parsed lines
    are consumed, how the loop ended and the maker it leaves. *)
Fixpoint go_lines (lines : list LogParser.parsed_line) (self : t)
  : list IndividualGameLog.t * option exn * t :=
  match lines with
  | [] => ([], None, self)
  | l :: lines' =>
      match handle_line l self with
      | (Raise e, self) => ([], Some e, self)
      | (Ok _, self) =>
          let completed := _completed_game_logs self in
          let self :=
            match completed with
            | [] => self
            | _ => set__completed_game_logs [] self
            end in
          let '(game_logs, e, self) := go_lines lines' self in
          (completed ++ game_logs, e, self)
      end
  end.

(** What [go] does after the loop, up to the yields. *)
Definition finish : M unit :=
  s <- get ;;
  for_each (Dict.keys (_game_id_to_game_log s)) _handle_game_expired ;;;
  _batch_completed None None.

(** [go(self)], the parser having yielded [parsed] and then ended with or
    without an exception: the game logs [go] yields and the exception it
    ends with, if any. *)
Definition go_parsed (self : t)
  (parsed : list LogParser.parsed_line * option exn)
  : list IndividualGameLog.t * option exn :=
  let '(game_logs, e, self) := go_lines (fst parsed) self in
  match e, snd parsed with
  | Some e, _ => (game_logs, Some e)
  | None, Some e => (game_logs, Some e)
  | None, None =>
      match finish self with
      | (Ok _, self) => (game_logs ++ _completed_game_logs self, None)
      | (Raise e, _) => (game_logs, Some e)
      end
  end.

(** [IndividualGameLogMaker(log_timestamp, file).go()] *)
Definition go (ujson_decode : string -> option pyval)
  (_translations : zdict (sdict Enums.index_map))
  (log_timestamp : Z) (file : list string)
  : list IndividualGameLog.t * option exn :=
  go_parsed (__init__ log_timestamp)
    (LogParser.go ujson_decode
       (LogParser.__init__ enums _translations log_timestamp) file).

End WithEnums.

End IndividualGameLogMaker.

(** The number a batch gets that starts after the lines [before]: the
    number after the last line, 1 at the start. *)
Definition next_line_number (before : list LogParser.parsed_line) : nat :=
  match rev before with
  | [] => 1
  | l :: _ => S (LogParser.line_number l)
  end.

(** A frame of the parsed lines [lines]: lines that follow the start or a
    line that ends a frame, up to and with the next line that ends a
    frame. *)
Definition frame_of (lines before frame : list LogParser.parsed_line)
  : Prop :=
  (exists after, lines = before ++ frame ++ after)
  /\ (before = [] \/ exists before' l,
         before = before' ++ [l] /\ ends_frame l = true)
  /\ exists body l,
       frame = body ++ [l] /\ ends_frame l = true
       /\ Forall (fun l => ends_frame l = false) body.

(** An entry of [line_number_to_batch] that records a frame of [lines]:
    the lines of the frame, with or without its [disconnect] lines, under
    the number the first of them should have. *)
Definition records_frame (lines : list LogParser.parsed_line)
  (entry : option nat * option (list string)) : Prop :=
  exists before frame,
    frame_of lines before frame
    /\ fst entry = Some (next_line_number before)
    /\ (snd entry = Some (map LogParser.line frame)
        \/ snd entry
           = Some (filter IndividualGameLogMaker.not_disconnect
                     (map LogParser.line frame))).

(** The marks of the batch under way: the client that has connected, the
    client that has disconnected, the game. *)
Definition marks (s : IndividualGameLogMaker.t)
  : option Z * option Z * pyval :=
  (IndividualGameLogMaker._batch_add_client_id s,
   IndividualGameLogMaker._batch_remove_client_id s,
   IndividualGameLogMaker._batch_game_id s).

(** No batch is marked for a client or a game: the three marks are
    [None] or a false value. *)
Definition marks_idle (s : IndividualGameLogMaker.t) : Prop :=
  IndividualGameLogMaker.truthy_id
    (IndividualGameLogMaker._batch_add_client_id s) = false
  /\ IndividualGameLogMaker.truthy_id
       (IndividualGameLogMaker._batch_remove_client_id s) = false
  /\ Py.truthy (IndividualGameLogMaker._batch_game_id s) = false.

(** A game log whose entries satisfy [P], and a maker in which the
    entries of all game logs and of [_client_id_to_add_batch] do. *)
Definition log_ok (P : option nat * option (list string) -> Prop)
  (game_log : IndividualGameLog.t) : Prop :=
  Forall P (IndividualGameLog.line_number_to_batch game_log).

Definition stored_ok (P : option nat * option (list string) -> Prop)
  (s : IndividualGameLogMaker.t) : Prop :=
  Forall (log_ok P)
         (Dict.values (IndividualGameLogMaker._game_id_to_game_log s))
  /\ Forall (log_ok P) (IndividualGameLogMaker._completed_game_logs s)
  /\ Forall P (Dict.values (IndividualGameLogMaker._client_id_to_add_batch s)).

(** The batch under way, its number and the number of the line handled
    last. *)
Definition frame_state (s : IndividualGameLogMaker.t)
  : list string * nat * nat :=
  (IndividualGameLogMaker._batch s,
   IndividualGameLogMaker._batch_line_number s,
   IndividualGameLogMaker._line_number s).

(** A method that keeps the stored entries in [P] and leaves the batch
    under way as it is, whether it returns or raises. *)
Definition keeps_batches (P : option nat * option (list string) -> Prop)
  {A : Type} (m : IndividualGameLogMaker.M A) : Prop :=
  forall s,
    stored_ok P s ->
    stored_ok P (snd (m s)) /\ frame_state (snd (m s)) = frame_state s.

(** What [make_game_log_file] writes for a batch: the header line, the
    lines of the batch joined by newlines, a newline. *)
Definition written_batch (item : nat * list string) : list string :=
  [ IndividualGameLog.header (Some (fst item));
    Py.join (String Re.newline "") (snd item);
    String Re.newline "" ].

(** The entry of [line_number_to_batch] for a numbered batch. *)
Definition batch_entry (item : nat * list string)
  : option nat * option (list string) :=
  (Some (fst item), Some (snd item)).

(** A string between double quotes. *)
Definition quoted (s : string) : string :=
  String (ascii_of_nat 34) s ^^ String (ascii_of_nat 34) "".

(** The log entry that makes alice player 0 of game 7, and a decoder
    that knows this entry. *)
Definition player_entry_text : string :=
  "{" ^^ quoted "_" ^^ ": " ^^ quoted "game-player" ^^ ", "
    ^^ quoted "game-id" ^^ ": 7, " ^^ quoted "player-id" ^^ ": 0, "
    ^^ quoted "username" ^^ ": " ^^ quoted "alice" ^^ "}".

Definition one_entry_json (s : string) : option pyval :=
  if String.eqb s player_entry_text
  then Some (PyDict [ (PyStr "_", PyStr "game-player");
                      (PyStr "game-id", PyInt 7);
                      (PyStr "player-id", PyInt 0);
                      (PyStr "username", PyStr "alice") ])
  else None.

(** A file in which alice connects and joins game 7. *)
Definition one_game_file : list string :=
  [ ln "5 connect alice 1.2.3.4 token"; ln "";
    ln player_entry_text; ln "" ].

(** A game of one player, without an entry in [Game.tile_bag_tweaks],
    who drew the tiles of four columns. *)
Definition uncorrected_game : Game.t :=
  game_with_history 1500000000 7 (draws 2 4).

(* ------------------------------------------------------------------ *)
(** ** Vocabulary of frames, exceptions and yields *)

(** The items of a dict of clients after the clients of [calls] have been
    deleted from it, one after the other. *)
Definition without_clients (calls : list Z) (d : pydict pyval)
  : pydict pyval :=
  fold_left (fun d client_id => Py.remove (PyInt client_id) d) calls d.

(** [{username: client_id for client_id, username in d.items()}] *)
Definition usernames_to_client_ids (d : pydict pyval) : pydict pyval :=
  fold_left (fun acc cu => Py.put (snd cu) (fst cu) acc) d [].

(** The client has a user name in the processor. *)
Definition connected (s : LogProcessor.t) (client_id : Z) : Prop :=
  has_key (PyInt client_id) (LogProcessor._client_id_to_username s).

(** The line is the disconnect line of the client. *)
Definition is_disconnect_of (client_id : Z) (l : LogParser.parsed_line)
  : Prop :=
  LogParser.handled_line_type l = Some LineTypes.disconnect
  /\ LogParser.parse_line_data l = LogParser.PDisconnect client_id.

(** The processor after [_handle_disconnect__delayed] has deleted a
    client that is connected. *)
Definition disconnected (client_id : Z) (s : LogProcessor.t)
  : LogProcessor.t :=
  let d :=
    Py.remove (PyInt client_id) (LogProcessor._client_id_to_username s) in
  LogProcessor.set__username_to_client_id (usernames_to_client_ids d)
    (LogProcessor.set__client_id_to_username d s).

(** The processor once the frame has ended in which the clients of its
    queue disconnected. *)
Definition flushed (s : LogProcessor.t) : LogProcessor.t :=
  let d :=
    without_clients (LogProcessor._delayed_calls s)
      (LogProcessor._client_id_to_username s) in
  LogProcessor.set__delayed_calls []
    (LogProcessor.set__username_to_client_id (usernames_to_client_ids d)
       (LogProcessor.set__client_id_to_username d s)).

(** The processor after alice and bob have connected as clients 5 and 6
    and the disconnect lines of both have been read. *)
Definition processor_after_two_disconnects : LogProcessor.t :=
  snd (LogProcessor._handle_disconnect 6
         (snd (LogProcessor._handle_disconnect 5
                 (snd (LogProcessor._handle_connect 6 "bob"
                         (snd (LogProcessor._handle_connect 5 "alice"
                                 (LogProcessor.__init__ 1500000000)))))))).

(** The data [LogParser] hands over with a line of a given type: the
    arguments of the handler [LogProcessor] has for the type. *)
Definition typed (line_type : LineTypes.t) (d : LogParser.parse_data)
  : bool :=
  match line_type, d with
  | LineTypes.time, LogParser.PTime _
  | LineTypes.connect, LogParser.PConnect _ _
  | LineTypes.disconnect, LogParser.PDisconnect _
  | LineTypes.command_to_client, LogParser.PCommandToClient _ _
  | LineTypes.command_to_server, LogParser.PCommandToServer _ _
  | LineTypes.game_expired, LogParser.PGameExpired _
  | LineTypes.log, LogParser.PLog _
  | LineTypes.blank_line, LogParser.PUnit
  | LineTypes.connection_made, LogParser.PUnit
  | LineTypes.error, LogParser.PUnit => true
  | _, _ => false
  end.

Definition well_typed (l : LogParser.parsed_line) : bool :=
  match LogParser.handled_line_type l with
  | Some line_type => typed line_type (LogParser.parse_line_data l)
  | None => true
  end.

(** An entry of [_line_matchers_and_handlers] whose handler, if it has
    one, returns the data of the entry's line type. *)
Definition matcher_typed
  (m : LineTypes.t * Re.regex * option LogParser.handler) : Prop :=
  match snd m with
  | Some h =>
      forall match_ self d self',
        h match_ self = Ok (LogParser.HData d, self') ->
        typed (fst (fst m)) d = true
  | None => typed (fst (fst m)) LogParser.PUnit = true
  end.

(** The lines at which [LogProcessor] can raise, in a given state: a
    game that expires, a log entry, a batch of commands that cannot be
    run through, and the end of a frame when a disconnect is queued. *)
Definition unguarded (l : LogParser.parsed_line) (s : LogProcessor.t)
  : Prop :=
  match LogParser.handled_line_type l, LogParser.parse_line_data l with
  | Some LineTypes.game_expired, LogParser.PGameExpired _ => True
  | Some LineTypes.log, LogParser.PLog _ => True
  | Some LineTypes.command_to_client,
    LogParser.PCommandToClient _ commands =>
      is_ok (Py.iter commands) = false
  | Some LineTypes.blank_line, LogParser.PUnit
  | Some LineTypes.connection_made, LogParser.PUnit
  | Some LineTypes.error, LogParser.PUnit =>
      LogProcessor._delayed_calls s <> []
  | _, _ => False
  end.

(** The processor after the parsed lines [lines], from [s]. *)
Definition state_after (enums : enums_py)
  (lines : list LogParser.parsed_line) (s : LogProcessor.t)
  : LogProcessor.t :=
  snd (LogProcessor.go_lines enums lines s).

(** The exception, if any, with which the processor ends on [lines]. *)
Definition raised_on (enums : enums_py)
  (lines : list LogParser.parsed_line) (s : LogProcessor.t) : option exn :=
  snd (fst (LogProcessor.go_lines enums lines s)).

(** A decoder that knows the batch of one empty command. *)
Definition empty_command_json (s : string) : option pyval :=
  if String.eqb s "[[]]" then Some (PyList [PyList []]) else None.

(** A file in which game 7 begins and a game that is not open expires,
    and the lines [LogParser.go] yields for it. *)
Definition lost_game_file : list string :=
  [ ln player_entry_text; ln "game #5 expired" ].

Definition lost_game_lines : list LogParser.parsed_line :=
  fst (LogParser.go one_entry_json parser_instance lost_game_file).






(** The number of lines [connection_made] among some lines of a file. *)
Definition connections_made (lines : list string) : nat :=
  List.length (filter is_connection_made lines).

(** A file with two lines [connection_made]. *)
Definition restarted_file : list string :=
  [ ln "time: 1.5"; ln "connection_made"; ln "5 disconnect";
    ln "connection_made"; ln "game #5 expired" ].

(** A method that leaves [_expired_games] as it is, whether it returns
    or raises. *)
Definition keeps_expired {A : Type} (m : LogProcessor.M A) : Prop :=
  forall s,
    LogProcessor._expired_games (snd (m s)) = LogProcessor._expired_games s.

(** The games the first loop of [go] yields on the parsed lines [lines],
    from [s]. *)
Definition yielded_on (enums : enums_py)
  (lines : list LogParser.parsed_line) (s : LogProcessor.t) : list Game.t :=
  fst (fst (LogProcessor.go_lines enums lines s)).

(** The line says that the game has expired. *)
Definition expires (game_id : Z) (l : LogParser.parsed_line) : Prop :=
  LogParser.handled_line_type l = Some LineTypes.game_expired
  /\ LogParser.parse_line_data l = LogParser.PGameExpired game_id.

(** The log entry that makes bob player 0 of game 8, a decoder that
    knows this entry and the one of alice, and a file in which the two
    games begin and game 7 expires. *)
Definition other_entry_text : string :=
  "{" ^^ quoted "_" ^^ ": " ^^ quoted "game-player" ^^ ", "
    ^^ quoted "game-id" ^^ ": 8, " ^^ quoted "player-id" ^^ ": 0, "
    ^^ quoted "username" ^^ ": " ^^ quoted "bob" ^^ "}".

Definition two_entries_json (s : string) : option pyval :=
  if String.eqb s other_entry_text
  then Some (PyDict [ (PyStr "_", PyStr "game-player");
                      (PyStr "game-id", PyInt 8);
                      (PyStr "player-id", PyInt 0);
                      (PyStr "username", PyStr "bob") ])
  else one_entry_json s.

Definition two_games_file : list string :=
  [ ln player_entry_text; ln other_entry_text; ln "game #7 expired";
    ln "" ].

Definition two_games_lines : list LogParser.parsed_line :=
  fst (LogParser.go two_entries_json parser_instance two_games_file).

(* ------------------------------------------------------------------ *)
(** ** The function [print_table] *)

(** [print_table] needs nothing of a character but the space, so a cell
    is taken as the list of its characters, whatever these are: its
    [len] is the length of the list. *)
Section PrintTable.

Context {char : Type}.

Variable space : char.

(** [zip] of the rows of a table: as many columns as the shortest row
    has cells, none for an empty table. *)
Definition zip_rows (table : list (list (list char)))
  : list (list (list char)) :=
  match table with
  | [] => []
  | row :: rows =>
      map (fun j => map (fun row => nth j row []) table)
          (seq 0 (fold_left Nat.min (map (@List.length (list char)) rows)
                            (List.length row)))
  end.

(** [column_lengths]: [max(map(len, column))] for each column of the
    [zip] of the rows. *)
Definition column_lengths (table : list (list (list char))) : list nat :=
  map (fun column => list_max (map (@List.length char) column))
      (zip_rows table).

(** [sep.join(l)] *)
Fixpoint join_cells (sep : list char) (l : list (list char)) : list char :=
  match l with
  | [] => []
  | [s] => s
  | s :: l' => s ++ sep ++ join_cells sep l'
  end.

(** [(' ' * (column_length - len(cell))) + cell] *)
Definition right_justified (cell : list char) (column_length : nat)
  : list char :=
  repeat space (column_length - List.length cell) ++ cell.

(** [print_table(table)]: the lines printed, one for each row. *)
Definition print_table (table : list (list (list char)))
  : list (list char) :=
  map (fun row =>
         join_cells [space; space]
           (map (fun cc => right_justified (fst cc) (snd cc))
                (combine row (column_lengths table))))
      table.

End PrintTable.

(** A table of two rows and two columns, as lists of characters. *)
Definition small_table : list (list (list ascii)) :=
  map (map list_ascii_of_string) [["a"; "bcd"]; ["ef"; "g"]].

(* ================================================================== *)
(** * Properties *)

(* ------------------------------------------------------------------ *)
(** ** General facts *)

Lemma rbind_ok {A B : Type} (r : result A) (k : A -> result B) (b : B) :
  rbind r k = Ok b -> exists a, r = Ok a /\ k a = Ok b.
Proof.
  destruct r as [a | e]; simpl; intros H; [eauto | discriminate].
Qed.

Lemma filter_none {A : Type} (f : A -> bool) (l : list A) :
  (forall x, In x l -> f x = false) -> filter f l = [].
Proof.
  induction l as [| x l IH]; simpl; intros H; [reflexivity |].
  rewrite (H x) by auto. apply IH. auto.
Qed.

(* ------------------------------------------------------------------ *)
(** ** A new game *)

(** C10.  Every game object starts from the same state: a board of twelve
    columns of nine cells, all [Nothing]; six score rows
    [0, 0, 0, 0, 0, 0, 0, 60]; a chain-size row of seven zeros; six racks
    and six initial racks of six empty slots; no played tile, no additional
    tile, no action and no history. *)
Theorem game_init_state (enums : enums_py) (log_timestamp : Z)
  (game_id internal_game_id : pyval) (verbose : bool) :
  let game :=
    Game.__init__ enums log_timestamp game_id internal_game_id verbose in
  Game.board game = repeat (repeat (PyInt (Nothing enums)) 9) 12
  /\ Game.score_sheet_players game
     = repeat (PyList [PyInt 0; PyInt 0; PyInt 0; PyInt 0; PyInt 0; PyInt 0;
                       PyInt 0; PyInt 60]) 6
  /\ Game.score_sheet_chain_size game = PyList (repeat (PyInt 0) 7)
  /\ Game.tile_racks game = repeat (repeat PyNone 6) 6
  /\ Game.initial_tile_racks game = repeat (repeat PyNone 6) 6
  /\ Game.played_tiles_order game = []
  /\ Game.tile_rack_tiles game = []
  /\ Game.additional_tile_rack_tiles_order game = []
  /\ Game.actions game = []
  /\ Game.username_to_game_history game = [].
Proof.
  cbv zeta. repeat split; reflexivity.
Qed.

(* ------------------------------------------------------------------ *)
(** ** Translations of old command codes *)

Lemma sdict_keys_put {V : Type} (k k' : string) (v : V) (d : sdict V) :
  In k (SDict.keys (SDict.put k' v d)) <-> k = k' \/ In k (SDict.keys d).
Proof.
  induction d as [| [k0 v0] d IH]; simpl.
  - intuition.
  - destruct (String.eqb k' k0) eqn:E; simpl.
    + apply String.eqb_eq in E. subst k0. intuition.
    + rewrite IH. intuition.
Qed.

Lemma sdict_keys_update {V : Type} (e d : sdict V) (k : string) :
  In k (SDict.keys (SDict.update d e))
  <-> In k (SDict.keys d) \/ In k (SDict.keys e).
Proof.
  unfold SDict.update. revert d.
  induction e as [| [k0 v0] e IH]; intros d; simpl.
  - intuition.
  - rewrite IH, sdict_keys_put. simpl. intuition.
Qed.

Lemma insert_desc_perm {V : Type} (kv : Z * V) (l : list (Z * V)) :
  Permutation (Enums.insert_desc kv l) (kv :: l).
Proof.
  induction l as [| kv' l IH]; simpl.
  - reflexivity.
  - destruct (fst kv' <? fst kv).
    + reflexivity.
    + rewrite IH. apply perm_swap.
Qed.

Lemma sorted_reverse_perm {V : Type} (d : zdict V) :
  Permutation (Enums.sorted_reverse d) d.
Proof.
  induction d as [| kv d IH]; simpl.
  - reflexivity.
  - rewrite insert_desc_perm. now constructor.
Qed.

Lemma insert_desc_sorted {V : Type} (kv : Z * V) (l : list (Z * V)) :
  StronglySorted newer_first l ->
  StronglySorted newer_first (Enums.insert_desc kv l).
Proof.
  induction 1 as [| kv' l Hs IH Hall]; simpl.
  - repeat constructor.
  - destruct (fst kv' <? fst kv) eqn:E.
    + apply Z.ltb_lt in E. constructor.
      * now constructor.
      * constructor.
        -- unfold newer_first. lia.
        -- eapply Forall_impl; [| exact Hall].
           unfold newer_first. intros; lia.
    + apply Z.ltb_ge in E. constructor; [exact IH |].
      eapply Permutation_Forall;
        [symmetry; apply insert_desc_perm |].
      constructor; [exact E | exact Hall].
Qed.

Lemma sorted_reverse_sorted {V : Type} (d : zdict V) :
  StronglySorted newer_first (Enums.sorted_reverse d).
Proof.
  induction d as [| kv d IH]; simpl.
  - constructor.
  - now apply insert_desc_sorted.
Qed.

Lemma fold_updates_filter (timestamp : Z)
  (l : list (Z * sdict Enums.index_map)) (acc : sdict Enums.index_map) :
  fold_left
    (fun translations_for_timestamp tc =>
       if timestamp <=? fst tc
       then SDict.update translations_for_timestamp (snd tc)
       else translations_for_timestamp) l acc
  = fold_left SDict.update
      (map snd (filter (fun tc => timestamp <=? fst tc) l)) acc.
Proof.
  revert acc. induction l as [| tc l IH]; intros acc; simpl.
  - reflexivity.
  - destruct (timestamp <=? fst tc); simpl; apply IH.
Qed.

Lemma keys_fold_updates {V : Type} (l : list (sdict V)) (acc : sdict V)
  (k : string) :
  In k (SDict.keys (fold_left SDict.update l acc))
  <-> In k (SDict.keys acc) \/ exists e, In e l /\ In k (SDict.keys e).
Proof.
  revert acc. induction l as [| e l IH]; intros acc; simpl.
  - split; [auto | intros [H | [e [[] _]]]; exact H].
  - rewrite IH, sdict_keys_update. split.
    + intros [[H | H] | [e' [H1 H2]]]; eauto.
    + intros [H | [e' [[H1 | H1] H2]]]; subst; eauto.
Qed.

Lemma translate_without_translations (enums : enums_py) (commands : pyval) :
  CommandsToClientTranslator.translate
    (CommandsToClientTranslator.__init__ enums []) commands = Ok commands.
Proof. reflexivity. Qed.

(** C5.  [Enums.get_translations(timestamp)] has as keys exactly the
    enumerations with a recorded change whose time stamp is at or after
    [timestamp]; it is built by updating an empty dict with every such
    change, newest first; and past the last recorded change it is empty and
    [CommandsToClientTranslator.translate] leaves any batch as it is. *)
Theorem get_translations_spec (enums : enums_py)
  (_translations : zdict (sdict Enums.index_map)) (timestamp : Z) :
  (forall name,
      In name (SDict.keys (Enums.get_translations _translations timestamp))
      <-> exists trans_timestamp trans_changes,
            In (trans_timestamp, trans_changes) _translations
            /\ timestamp <= trans_timestamp
            /\ In name (SDict.keys trans_changes))
  /\ (Enums.get_translations _translations timestamp
      = fold_left SDict.update
          (map snd (filter (fun tc => timestamp <=? fst tc)
                           (Enums.sorted_reverse _translations))) []
      /\ Permutation (Enums.sorted_reverse _translations) _translations
      /\ StronglySorted newer_first (Enums.sorted_reverse _translations))
  /\ ((forall trans_timestamp trans_changes,
          In (trans_timestamp, trans_changes) _translations ->
          trans_timestamp < timestamp) ->
      Enums.get_translations _translations timestamp = []
      /\ forall commands,
           CommandsToClientTranslator.translate
             (CommandsToClientTranslator.__init__ enums
                (Enums.get_translations _translations timestamp)) commands
           = Ok commands).
Proof.
  assert (Heq : Enums.get_translations _translations timestamp
                = fold_left SDict.update
                    (map snd (filter (fun tc => timestamp <=? fst tc)
                                (Enums.sorted_reverse _translations))) [])
    by apply fold_updates_filter.
  split; [| split].
  - intros name. rewrite Heq, keys_fold_updates. simpl. split.
    + intros [[] | [e [He Hk]]].
      apply in_map_iff in He. destruct He as [[ts ch] [<- Hin]].
      apply filter_In in Hin. destruct Hin as [Hin Hle]. simpl in *.
      exists ts, ch. repeat split; [| now apply Z.leb_le | exact Hk].
      eapply Permutation_in; [apply sorted_reverse_perm | exact Hin].
    + intros [ts [ch [Hin [Hle Hk]]]]. right. exists ch. split; [| exact Hk].
      apply in_map_iff. exists (ts, ch). split; [reflexivity |].
      apply filter_In. split; [| now apply Z.leb_le].
      eapply Permutation_in;
        [symmetry; apply sorted_reverse_perm | exact Hin].
  - repeat split;
      [exact Heq | apply sorted_reverse_perm | apply sorted_reverse_sorted].
  - intros Hold.
    assert (Hnil : Enums.get_translations _translations timestamp = []).
    { rewrite Heq.
      replace (filter (fun tc => timestamp <=? fst tc)
                 (Enums.sorted_reverse _translations)) with
        (@nil (Z * sdict Enums.index_map)); [reflexivity |].
      symmetry. apply filter_none. intros [ts ch] Hin. simpl.
      apply (Permutation_in _ (sorted_reverse_perm _)) in Hin.
      apply Hold in Hin. apply Z.leb_gt. exact Hin. }
    split; [exact Hnil |].
    intros commands. rewrite Hnil. apply translate_without_translations.
Qed.

Lemma get_translations_spec_witness :
  Enums.get_translations translations_instance 1500000000 = []
  /\ forall commands,
       CommandsToClientTranslator.translate
         (CommandsToClientTranslator.__init__ enums_instance
            (Enums.get_translations translations_instance 1500000000))
         commands
       = Ok commands.
Proof.
  apply (proj2 (proj2 (get_translations_spec enums_instance
                         translations_instance 1500000000))).
  intros ts ch Hin. vm_compute in Hin.
  destruct Hin as [H | [H | []]]; inversion H; reflexivity.
Defined.

(* ------------------------------------------------------------------ *)
(** ** Moving the [SetGamePlayer*] commands of a batch *)

Section Reorder.

Variable board_cell : Z.
Variable player : list Z.

Let is_board := is_board_command board_cell player.
Let is_player := is_player_command board_cell player.







End Reorder.







Lemma fold_min_le (l : list nat) :
  forall x, (fold_left Nat.min l x <= x)%nat.
Proof.
  induction l as [| y l IH]; intros x; simpl; [lia |].
  specialize (IH (Nat.min x y)). lia.
Qed.


Lemma fold_min_in (l : list nat) :
  forall x y, In y l -> (fold_left Nat.min l x <= y)%nat.
Proof.
  induction l as [| z l IH]; intros x y H; simpl; [contradiction |].
  destruct H as [<- | H].
  - pose proof (fold_min_le l (Nat.min x z)). lia.
  - now apply IH.
Qed.









Lemma fold_min_mem (l : list nat) :
  forall x, fold_left Nat.min l x = x \/ In (fold_left Nat.min l x) l.
Proof.
  induction l as [| y l IH]; intros x; simpl; [auto |].
  destruct (IH (Nat.min x y)) as [H | H]; [| auto].
  rewrite H. destruct (Nat.min_spec x y) as [[_ E] | [_ E]]; rewrite E; auto.
Qed.









Section ReorderSpec.

Variable board_cell : Z.
Variable player : list Z.

Let is_board := is_board_command board_cell player.
Let is_player := is_player_command board_cell player.


Lemma player_is_no_board (c : pyval) :
  is_player c = true -> is_board c = false.
Proof.
  unfold is_player, is_board, is_player_command, is_board_command.
  destruct (kind_of board_cell player c) as [[[|] [|]] | e];
    intros; congruence.
Qed.





End ReorderSpec.




(* ------------------------------------------------------------------ *)
(** ** Comparing with the reference engine *)

Lemma index_resolve {A : Type} (l : list A) (i : Z) (x : A) :
  Py.index l i = Ok x ->
  exists j, nth_error l j = Some x /\ (j < List.length l)%nat
            /\ Z.of_nat j = (if i <? 0 then i + Z.of_nat (List.length l) else i).
Proof.
  unfold Py.index.
  set (k := if i <? 0 then i + Z.of_nat (List.length l) else i).
  destruct ((0 <=? k) && (k <? Z.of_nat (List.length l))) eqn:E;
    [| discriminate].
  apply andb_true_iff in E. destruct E as [E1 E2].
  apply Z.leb_le in E1. apply Z.ltb_lt in E2.
  destruct (nth_error l (Z.to_nat k)) eqn:En; [| discriminate].
  intros H. inversion H; subst. exists (Z.to_nat k).
  repeat split; [exact En | lia | lia].
Qed.

Lemma set_index_resolve {A : Type} (l l' : list A) (i : Z) (x : A) :
  Py.set_index l i x = Ok l' ->
  exists j, l' = Py.replace_nth j x l /\ (j < List.length l)%nat
            /\ Z.of_nat j = (if i <? 0 then i + Z.of_nat (List.length l) else i).
Proof.
  unfold Py.set_index.
  set (k := if i <? 0 then i + Z.of_nat (List.length l) else i).
  destruct ((0 <=? k) && (k <? Z.of_nat (List.length l))) eqn:E;
    [| discriminate].
  apply andb_true_iff in E. destruct E as [E1 E2].
  apply Z.leb_le in E1. apply Z.ltb_lt in E2.
  intros H. inversion H; subst. exists (Z.to_nat k).
  repeat split; lia.
Qed.

Lemma replace_nth_length {A : Type} (l : list A) :
  forall n x, List.length (Py.replace_nth n x l) = List.length l.
Proof.
  induction l as [| y l IH]; intros [| n] x; simpl; auto.
Qed.

Lemma nth_error_replace_nth {A : Type} (l : list A) :
  forall n x k,
    (n < List.length l)%nat ->
    nth_error (Py.replace_nth n x l) k
    = if Nat.eqb k n then Some x else nth_error l k.
Proof.
  induction l as [| y l IH]; intros [| n] x [| k] H; simpl in *;
    try lia; try reflexivity.
  apply IH. lia.
Qed.

Lemma denotes_iff (n i : nat) (t : Z) (j : nat) :
  (j < n)%nat ->
  Z.of_nat j = (if t <? 0 then t + Z.of_nat n else t) ->
  denotes n i t = Nat.eqb i j.
Proof.
  intros Hj E. unfold denotes. rewrite <- E.
  destruct (Nat.eqb_spec i j) as [-> | Hne].
  - rewrite Z.eqb_refl, andb_true_r. apply andb_true_iff.
    split; [apply Z.leb_le | apply Z.ltb_lt]; lia.
  - replace (Z.of_nat j =? Z.of_nat i) with false;
      [apply andb_false_r |].
    symmetry. apply Z.eqb_neq. lia.
Qed.

Lemma deliver_spec (n : nat) (histories histories' : list (list pyval))
  (entry : pyval * pyval) :
  List.length histories = n ->
  Game.deliver histories entry = Ok histories' ->
  List.length histories' = n
  /\ forall i h,
       nth_error histories i = Some h ->
       nth_error histories' i
       = Some (h ++ if addressed_to n i (fst entry) then [snd entry] else []).
Proof.
  intros Hlen. destruct entry as [target message]. unfold Game.deliver.
  assert (Hidx : forall t,
             Py.as_index target = Ok t ->
             (forall i, addressed_to n i target = denotes n i t) ->
             (let? i := Ok t in
              let? game_history := Py.index histories i in
              Py.set_index histories i (game_history ++ [message]))
             = Ok histories' ->
             List.length histories' = n
             /\ forall i h,
                  nth_error histories i = Some h ->
                  nth_error histories' i
                  = Some (h ++ if addressed_to n i target
                               then [message] else [])).
  { intros t _ Hadd H. simpl in H.
    apply rbind_ok in H. destruct H as [gh [H1 H2]].
    apply index_resolve in H1. destruct H1 as [j [Hj [Hjl Ej]]].
    apply set_index_resolve in H2. destruct H2 as [j' [-> [Hjl' Ej']]].
    assert (j' = j) by lia. subst j'.
    split; [rewrite replace_nth_length; exact Hlen |].
    intros i h Hi. rewrite nth_error_replace_nth by exact Hjl.
    rewrite Hadd, (denotes_iff n i t j) by (rewrite <- ?Hlen; assumption).
    destruct (Nat.eqb_spec i j) as [-> | Hne].
    - rewrite Hj in Hi. injection Hi as <-. reflexivity.
    - now rewrite Hi, app_nil_r. }
  destruct target; simpl;
    try discriminate;
    try (intros H; now apply (Hidx _ eq_refl (fun _ => eq_refl) H)).
  intros H. injection H as <-. split; [now rewrite length_map |].
  intros i h Hi. now rewrite nth_error_map, Hi.
Qed.

Lemma deliver_all (n : nat) (history : list (pyval * pyval)) :
  forall histories histories',
    List.length histories = n ->
    rfold Game.deliver history histories = Ok histories' ->
    List.length histories' = n
    /\ forall i h,
         nth_error histories i = Some h ->
         nth_error histories' i = Some (h ++ delivered_to n i history).
Proof.
  induction history as [| entry history IH]; intros hs hs' Hlen H; simpl in H.
  - injection H as <-. split; [exact Hlen |].
    intros i h Hi. now rewrite app_nil_r.
  - apply rbind_ok in H. destruct H as [hs1 [H1 H2]].
    destruct (deliver_spec n _ _ _ Hlen H1) as [Hlen1 Hstep].
    destruct (IH _ _ Hlen1 H2) as [Hlen' Hrest].
    split; [exact Hlen' |].
    intros i h Hi. rewrite (Hrest i _ (Hstep i h Hi)).
    rewrite <- app_assoc. unfold delivered_to. simpl.
    destruct (addressed_to n i (fst entry)); reflexivity.
Qed.

Lemma server_histories_spec (sg : ServerGame) (servers : list (list pyval)) :
  Game.server_player_id_to_game_history sg = Ok servers ->
  List.length servers = number_of_players sg
  /\ forall i,
       (i < number_of_players sg)%nat ->
       nth_error servers i
       = Some (delivered_to (number_of_players sg) i (history_messages sg)).
Proof.
  unfold Game.server_player_id_to_game_history. intros H.
  apply (deliver_all (number_of_players sg)) in H;
    [| now rewrite length_map, length_seq].
  destruct H as [Hlen Hall]. split; [exact Hlen |].
  intros i Hi. apply (Hall i []).
  rewrite nth_error_map, nth_error_seq.
  apply Nat.ltb_lt in Hi. now rewrite Hi.
Qed.

Lemma slice_to_nat {A : Type} (l : list A) (k : nat) :
  Py.slice_to l (Z.of_nat k) = firstn k l.
Proof.
  unfold Py.slice_to, Py.clamp.
  destruct (Z.of_nat k <? 0) eqn:E; [apply Z.ltb_lt in E; lia |].
  destruct (Nat.le_gt_cases k (List.length l)) as [H | H].
  - f_equal. lia.
  - rewrite !firstn_all2 by lia. reflexivity.
Qed.

Section CompareFacts.

Variable repr_str : string -> string.

Lemma sync_compare_verdict (verbose : bool) (name : string)
  (first second : pyval) (racks : list (list pyval) * list (list pyval))
  (st : bool * list string) :
  fst (Game._sync_compare repr_str verbose name first second racks st)
  = fst st && same_str repr_str first second.
Proof.
  unfold Game._sync_compare, same_str.
  destruct (String.eqb (Py.str repr_str first) (Py.str repr_str second));
    simpl; [now rewrite andb_true_r | now rewrite andb_false_r].
Qed.

Lemma compare_histories_verdict (locals servers : list (list pyval)) :
  forall i st,
    fst (fold_left
           (fun st e =>
              let '(player_id, local_game_history, server_game_history) :=
                e in
              let server_game_history_under_consideration :=
                Py.slice_to server_game_history
                  (Z.of_nat (List.length local_game_history)) in
              if negb (Py.list_eqb local_game_history
                         server_game_history_under_consideration)
              then
                (false,
                 snd st
                   ++ [ "player_id_to_game_history diff for player_id "
                          ^^ Game.str_nat player_id ^^ "!";
                        Py.str repr_str (PyList local_game_history);
                        Py.str repr_str
                          (PyList server_game_history_under_consideration) ])
              else st)
           (Game.zip3 i locals servers) st)
    = fst st
      && forallb (fun ls => prefix_matches (fst ls) (snd ls))
                 (combine locals servers).
Proof.
  revert servers.
  induction locals as [| l locals IH]; intros [| s servers] i st; simpl;
    try (now rewrite andb_true_r).
  rewrite IH. unfold prefix_matches at 2. simpl.
  rewrite slice_to_nat.
  destruct (Py.list_eqb l (firstn (List.length l) s)); simpl.
  - reflexivity.
  - now rewrite andb_false_r.
Qed.

Lemma combine_agree (D : nat -> list pyval) (locals : list (list pyval)) :
  forall servers i0,
    (forall k, (k < List.length servers)%nat ->
               nth_error servers k = Some (D (i0 + k)%nat)) ->
    forallb (fun ls => prefix_matches (fst ls) (snd ls))
            (combine locals servers)
    = forallb (fun il => prefix_matches (snd il) (D (fst il)))
              (firstn (List.length servers) (enumerate_from i0 locals)).
Proof.
  induction locals as [| l locals IH]; intros [| s servers] i0 H; simpl;
    try reflexivity.
  pose proof (H 0%nat ltac:(simpl; lia)) as H0. simpl in H0.
  rewrite Nat.add_0_r in H0. injection H0 as ->.
  f_equal. apply IH. intros k Hk.
  specialize (H (S k) ltac:(simpl; lia)). simpl in H.
  now rewrite Nat.add_succ_r in H.
Qed.

Lemma compare_verdict (self : Game.t) (sg : ServerGame) (b : bool)
  (log : list string) :
  Game.compare_with_server_game repr_str self sg = Ok (b, log) ->
  exists server_rows server_tile_racks locals,
    rmap (fun x => Py.slice_to_obj x 8) (player_data sg) = Ok server_rows
    /\ server_tile_racks_of sg = Ok server_tile_racks
    /\ local_histories self = Ok locals
    /\ b = structural_verdict repr_str self sg server_rows server_tile_racks
           && histories_agree (number_of_players sg) locals
                (history_messages sg).
Proof.
  unfold Game.compare_with_server_game. intros H.
  apply rbind_ok in H. destruct H as [server_rows [Hrows H]].
  apply rbind_ok in H. destruct H as [st4 [Hracks H]].
  apply rbind_ok in H. destruct H as [locals [Hlocals H]].
  apply rbind_ok in H. destruct H as [servers [Hservers H]].
  injection H as H.
  apply (f_equal fst) in H. simpl in H.
  destruct (server_histories_spec _ _ Hservers) as [Hlen Hnth].
  assert (Hagree :
            forallb (fun ls => prefix_matches (fst ls) (snd ls))
                    (combine locals servers)
            = histories_agree (number_of_players sg) locals
                (history_messages sg)).
  { unfold histories_agree, enumerate. rewrite <- Hlen.
    apply (combine_agree
             (fun i => delivered_to (List.length servers) i
                         (history_messages sg))).
    intros k Hk. simpl. rewrite Hlen in *. now apply Hnth. }
  unfold Game.compare_histories in H.
  rewrite compare_histories_verdict, Hagree in H.
  exists server_rows.
  unfold server_tile_racks_of.
  destruct (racks sg) as [server_racks |].
  - apply rbind_ok in Hracks. destruct Hracks as [str [Hstr Hst4]].
    injection Hst4 as <-.
    exists (Some str), locals. rewrite Hstr. simpl.
    split; [exact Hrows |]. split; [reflexivity |].
    split; [exact Hlocals |].
    rewrite <- H. f_equal.
    destruct (Game._verbose self); simpl;
      rewrite !sync_compare_verdict; simpl;
      unfold structural_verdict; reflexivity.
  - injection Hracks as <-.
    exists None, locals.
    split; [exact Hrows |]. split; [reflexivity |].
    split; [exact Hlocals |].
    rewrite <- H. f_equal.
    destruct (Game._verbose self); simpl;
      rewrite !sync_compare_verdict; simpl;
      unfold structural_verdict; now rewrite andb_true_r.
Qed.



End CompareFacts.












(** C9 (amended).  Four comparisons of [compare_with_server_game] go
    through [_sync_compare] and judge by the equality of the two [str]
    representations: board, score sheet rows, chain sizes and, when the
    reference engine has racks, tile racks; so a list and a tuple of the
    same coordinates count as different.  The fifth verdict, on the
    histories, is the prefix comparison of the message lists themselves.
    The overall verdict is the conjunction of the five. *)
Theorem compare_verdict_spec (repr_str : string -> string)
  (self : Game.t) (sg : ServerGame) (b : bool) (log : list string) :
  Game.compare_with_server_game repr_str self sg = Ok (b, log) ->
  (exists server_rows server_tile_racks locals,
      rmap (fun x => Py.slice_to_obj x 8) (player_data sg) = Ok server_rows
      /\ server_tile_racks_of sg = Ok server_tile_racks
      /\ local_histories self = Ok locals
      /\ b = structural_verdict repr_str self sg server_rows server_tile_racks
             && histories_agree (number_of_players sg) locals
                  (history_messages sg))
  /\ (forall verbose name first second racks st,
         fst (Game._sync_compare repr_str verbose name first second racks st)
         = fst st && same_str repr_str first second)
  /\ (forall verbose name x y racks st,
         fst (Game._sync_compare repr_str verbose name
                (PyList [PyInt x; PyInt y]) (PyTuple [PyInt x; PyInt y])
                racks st)
         = false).
Proof.
  intros H. split; [eapply compare_verdict; exact H |]. split.
  - apply sync_compare_verdict.
  - intros. rewrite sync_compare_verdict. unfold same_str. simpl.
    apply andb_false_r.
Qed.

Lemma compare_verdict_spec_witness :
  exists server_rows server_tile_racks locals,
    rmap (fun x => Py.slice_to_obj x 8) (player_data one_player_server_game)
    = Ok server_rows
    /\ server_tile_racks_of one_player_server_game = Ok server_tile_racks
    /\ local_histories one_player_game = Ok locals
    /\ true = structural_verdict plain_repr_str one_player_game
                one_player_server_game server_rows server_tile_racks
              && histories_agree (number_of_players one_player_server_game)
                   locals (history_messages one_player_server_game).
Proof.
  apply (compare_verdict_spec plain_repr_str one_player_game
           one_player_server_game true []).
  vm_compute. reflexivity.
Defined.

(** C9 as stated fails on the fifth comparison.  The first game below is
    judged synchronized, with an empty log, although the [str]
    representations of the observed and of the simulated histories differ:
    the reference engine has one message more.  The second game is judged
    synchronized as well, although the histories have the same length and
    their [str] representations differ: the lists are compared with [!=],
    for which [True] equals [1]. *)
Lemma compare_by_str_counterexample :
  (Game.compare_with_server_game plain_repr_str one_player_game
     one_player_server_game = Ok (true, [])
   /\ local_histories one_player_game = Ok [[cmd 0 [0]]]
   /\ Game.server_player_id_to_game_history one_player_server_game
      = Ok [[cmd 0 [0]; cmd 3 [0; 1; 5]]]
   /\ same_str plain_repr_str
        (PyList (map PyList [[cmd 0 [0]]]))
        (PyList (map PyList [[cmd 0 [0]; cmd 3 [0; 1; 5]]]))
      = false)
  /\ (Game.compare_with_server_game plain_repr_str flagged_game
        flagged_server_game = Ok (true, [])
      /\ local_histories flagged_game = Ok [[PyList [PyInt 0; PyBool true]]]
      /\ Game.server_player_id_to_game_history flagged_server_game
         = Ok [[PyList [PyInt 0; PyInt 1]]]
      /\ same_str plain_repr_str
           (PyList [PyList [PyInt 0; PyBool true]])
           (PyList [PyList [PyInt 0; PyInt 1]])
         = false).
Proof.
  repeat split; vm_compute; reflexivity.
Qed.

(* ------------------------------------------------------------------ *)
(** ** The inferred tile bag *)

Lemma on_board_eqb (a b : pyval) :
  on_board a = true -> on_board b = true -> Py.eqb a b = true -> a = b.
Proof.
  destruct a as [| | | | | [| [| | x | | | |] [| [| | y | | | |] [|]]] |];
    try discriminate.
  destruct b as [| | | | | [| [| | x' | | | |] [| [| | y' | | | |] [|]]] |];
    try discriminate.
  intros _ _. simpl. rewrite andb_true_r. intros H.
  apply andb_true_iff in H. destruct H as [H1 H2].
  apply Z.eqb_eq in H1. apply Z.eqb_eq in H2. now subst.
Qed.

Lemma on_board_eqb_refl (a : pyval) : on_board a = true -> Py.eqb a a = true.
Proof.
  destruct a as [| | | | | [| [| | x | | | |] [| [| | y | | | |] [|]]] |];
    try discriminate.
  intros _. simpl. now rewrite !Z.eqb_refl.
Qed.

Lemma on_board_hashable (a : pyval) : on_board a = true -> Py.hashable a = true.
Proof.
  destruct a as [| | | | | [| [| | x | | | |] [| [| | y | | | |] [|]]] |];
    try discriminate.
  reflexivity.
Qed.

Lemma mem_in (t : pyval) (l : list pyval) :
  on_board t = true -> Forall (fun u => on_board u = true) l ->
  Py.mem t l = true <-> In t l.
Proof.
  intros Ht Hl. unfold Py.mem. rewrite existsb_exists. split.
  - intros [u [Hu E]]. rewrite Forall_forall in Hl.
    apply (on_board_eqb t u Ht (Hl u Hu)) in E. now subst.
  - intros H. exists t. split; [exact H | now apply on_board_eqb_refl].
Qed.

Lemma mem_not_in (t : pyval) (l : list pyval) :
  on_board t = true -> Forall (fun u => on_board u = true) l ->
  Py.mem t l = false <-> ~ In t l.
Proof.
  intros Ht Hl. rewrite <- (mem_in t l Ht Hl).
  destruct (Py.mem t l); split; congruence.
Qed.

Lemma distinct_nodup (l : list pyval) :
  Forall (fun u => on_board u = true) l -> distinct l = true -> NoDup l.
Proof.
  induction 1 as [| x l Hx Hl IH]; simpl; intros H; [constructor |].
  apply andb_true_iff in H. destruct H as [H1 H2].
  constructor; [| now apply IH].
  apply (mem_not_in x l Hx Hl). now apply negb_true_iff.
Qed.

Lemma all_tiles_on_board : Forall (fun u => on_board u = true) Game.all_tiles.
Proof.
  apply Forall_forall. apply forallb_forall. vm_compute. reflexivity.
Qed.

Lemma all_tiles_nodup : NoDup Game.all_tiles.
Proof.
  apply distinct_nodup; [apply all_tiles_on_board |].
  vm_compute. reflexivity.
Qed.

Lemma in_range (n : nat) (x : Z) :
  0 <= x < Z.of_nat n -> In x (Game.range n).
Proof.
  intros H. unfold Game.range. apply in_map_iff.
  exists (Z.to_nat x). split; [lia |]. apply in_seq. lia.
Qed.

Lemma on_board_in_all_tiles (t : pyval) :
  on_board t = true <-> In t Game.all_tiles.
Proof.
  split.
  - destruct t as [| | | | | [| [| | x | | | |] [| [| | y | | | |] [|]]] |];
      try discriminate.
    intros H. simpl in H.
    repeat (apply andb_true_iff in H; destruct H as [H ?]).
    unfold Game.all_tiles. apply in_flat_map. exists x. split.
    + apply (in_range 12). lia.
    + apply in_map_iff. exists y. split; [reflexivity |].
      apply (in_range 9). lia.
  - intros H. pose proof all_tiles_on_board as Hall.
    rewrite Forall_forall in Hall. now apply Hall.
Qed.

Lemma all_tiles_coordinates (t : pyval) :
  In t Game.all_tiles
  <-> exists x y, 0 <= x < 12 /\ 0 <= y < 9 /\ t = Game.tile x y.
Proof.
  rewrite <- on_board_in_all_tiles. split.
  - destruct t as [| | | | | [| [| | x | | | |] [| [| | y | | | |] [|]]] |];
      try discriminate.
    simpl. intros H.
    repeat (apply andb_true_iff in H; destruct H as [H ?]).
    exists x, y. repeat split; lia.
  - intros [x [y [Hx [Hy ->]]]]. simpl.
    repeat (apply andb_true_iff; split); lia.
Qed.

Section TurnByTurn.

Variable enums : enums_py.

Lemma valid_drawn_on_board (m t : pyval) :
  valid_message enums m = true -> drawn_tile enums m = Some t ->
  on_board t = true.
Proof.
  unfold valid_message, drawn_tile.
  destruct (Py.getitem m (PyInt 0)) as [code |]; [| discriminate].
  destruct (in_int_set code (Game._drew_or_replaced_tile_message_ids enums))
    as [[|] |]; try discriminate.
  destruct (Py.getitem m (PyInt 2)) as [x |]; [| discriminate].
  destruct (Py.getitem m (PyInt 3)) as [y |]; [| discriminate].
  intros H E. injection E as <-. exact H.
Qed.

Lemma turn_step_valid (st : list (list pyval) * list pyval) (m : pyval) :
  valid_message enums m = true ->
  exists st',
    turn_step enums st m = Ok st'
    /\ forall t,
         In t (List.concat (fst st') ++ snd st') ->
         In t (List.concat (fst st) ++ snd st) \/ drawn_tile enums m = Some t.
Proof.
  unfold valid_message, turn_step, drawn_tile, rbind.
  destruct (Py.getitem m (PyInt 0)) as [code |]; [| discriminate].
  cbv beta.
  destruct (in_int_set code (Game._drew_or_replaced_tile_message_ids enums))
    as [[|] |]; try discriminate; cbv beta iota.
  - destruct (Py.getitem m (PyInt 2)) as [x |]; [| discriminate].
    destruct (Py.getitem m (PyInt 3)) as [y |]; [| discriminate].
    intros _. eexists. split; [reflexivity |]. simpl.
    intros t. rewrite !in_app_iff. simpl. intuition congruence.
  - intros _. destruct (Py.eqb code (PyInt (TurnBegan enums))).
    + eexists. split; [reflexivity |]. simpl.
      intros t. rewrite List.concat_app. simpl. rewrite !app_nil_r. auto.
    + eexists. split; [reflexivity |]. auto.
Qed.

Lemma turn_fold_valid (h : list pyval) :
  forall st,
    Forall (fun m => valid_message enums m = true) h ->
    exists st',
      rfold (turn_step enums) h st = Ok st'
      /\ forall t,
           In t (List.concat (fst st') ++ snd st') ->
           In t (List.concat (fst st) ++ snd st)
           \/ In t (flat_map (fun message =>
                                match drawn_tile enums message with
                                | Some t => [t]
                                | None => []
                                end) h).
Proof.
  induction h as [| m h IH]; intros st Hv; simpl.
  - exists st. split; [reflexivity | auto].
  - inversion Hv as [| ? ? Hm Hh]; subst.
    destruct (turn_step_valid st m Hm) as [st1 [E1 H1]].
    destruct (IH st1 Hh) as [st' [E' H']].
    exists st'. rewrite E1. simpl. split; [exact E' |].
    intros t Ht.
    destruct (H' t Ht) as [H | H]; [| right; apply in_or_app; auto].
    destruct (H1 t H) as [H2 | H2]; [auto |].
    right. apply in_or_app. left. rewrite H2. simpl. auto.
Qed.

Lemma turn_by_turn_valid (h : list pyval) :
  Forall (fun m => valid_message enums m = true) h ->
  exists turns,
    Game.turn_by_turn_tiles_drawn_or_replaced enums h = Ok turns
    /\ forall t,
         In t (List.concat turns) ->
         In t (flat_map (fun message =>
                           match drawn_tile enums message with
                           | Some t => [t]
                           | None => []
                           end) h).
Proof.
  intros Hv. destruct (turn_fold_valid h ([], []) Hv) as [st' [E H]].
  unfold Game.turn_by_turn_tiles_drawn_or_replaced.
  change (rfold _ h ([], [])) with (rfold (turn_step enums) h ([], [])).
  rewrite E. simpl. eexists. split; [reflexivity |].
  intros t Ht. rewrite List.concat_app in Ht. simpl in Ht.
  rewrite app_nil_r in Ht. destruct (H t Ht) as [[] | H']. exact H'.
Qed.

Lemma all_turns_valid (histories : list (list pyval)) :
  Forall (Forall (fun m => valid_message enums m = true)) histories ->
  exists players,
    rmap (Game.turn_by_turn_tiles_drawn_or_replaced enums) histories
    = Ok players
    /\ List.length players = List.length histories
    /\ forall t,
         In t (List.concat (List.concat players)) ->
         In t (observed_tiles enums histories).
Proof.
  induction 1 as [| h histories Hh _ IH]; simpl.
  - exists []. repeat split. intros t [].
  - destruct (turn_by_turn_valid h Hh) as [turns [E Ht]].
    destruct IH as [players [E' [Hlen Hp]]].
    exists (turns :: players). rewrite E, E'. simpl.
    repeat split; [now rewrite Hlen |].
    intros t Hin. rewrite List.concat_app in Hin.
    apply in_app_or in Hin. apply in_or_app.
    destruct Hin as [Hin | Hin]; [left; now apply Ht | right; now apply Hp].
Qed.

Lemma observed_on_board (histories : list (list pyval)) (t : pyval) :
  Forall (Forall (fun m => valid_message enums m = true)) histories ->
  In t (observed_tiles enums histories) -> on_board t = true.
Proof.
  intros Hv Hin. unfold observed_tiles in Hin.
  apply in_flat_map in Hin. destruct Hin as [h [Hh Hin]].
  apply in_flat_map in Hin. destruct Hin as [m [Hm Hin]].
  rewrite Forall_forall in Hv. specialize (Hv h Hh).
  rewrite Forall_forall in Hv. specialize (Hv m Hm).
  destruct (drawn_tile enums m) as [u |] eqn:E; [| contradiction].
  destruct Hin as [<- | []]. eapply valid_drawn_on_board; eassumption.
Qed.

End TurnByTurn.

Section IncludeTurns.

(** The tiles that may come up: board coordinates among [T]. *)
Variable T : list pyval.

Let Q (t : pyval) : Prop := on_board t = true /\ In t T.

Let I (st : list pyval * list pyval) : Prop :=
  fst st = snd st /\ NoDup (snd st)
  /\ Forall (fun t => on_board t = true /\ In t T) (snd st).

Lemma include_tile_inv (st : list pyval * list pyval) (t : pyval) :
  Q t -> I st -> exists st', Game.include_tile st t = Ok st' /\ I st'.
Proof.
  intros [Hb Ht] [Heq [Hnd Hall]]. unfold Game.include_tile.
  rewrite (on_board_hashable t Hb).
  assert (Hob : Forall (fun u => on_board u = true) (fst st)).
  { rewrite Heq. eapply Forall_impl; [| exact Hall]. now intros u [Hu _]. }
  destruct (Py.mem t (fst st)) eqn:E.
  - exists st. repeat split; assumption.
  - apply (mem_not_in t (fst st) Hb Hob) in E.
    eexists. split; [reflexivity |]. simpl. repeat split.
    + now rewrite Heq.
    + apply NoDup_app; [exact Hnd | repeat constructor; auto |].
      intros a Ha [<- | []]. now rewrite Heq in E.
    + apply Forall_app. split; [exact Hall | repeat constructor; auto].
Qed.

Lemma include_tiles_inv (p : list pyval) :
  forall st, Forall Q p -> I st ->
             exists st', rfold Game.include_tile p st = Ok st' /\ I st'.
Proof.
  induction p as [| t p IH]; intros st Hp Hst; simpl.
  - eauto.
  - inversion Hp as [| ? ? Ht Hp']; subst.
    destruct (include_tile_inv st t Ht Hst) as [st1 [E1 H1]].
    rewrite E1. simpl. now apply IH.
Qed.

Lemma include_players_inv (ps : list (list pyval)) :
  forall st, Forall (Forall Q) ps -> I st ->
             exists st',
               rfold (fun st player_tiles_by_turn =>
                        rfold Game.include_tile player_tiles_by_turn st)
                     ps st = Ok st' /\ I st'.
Proof.
  induction ps as [| p ps IH]; intros st Hps Hst; simpl.
  - eauto.
  - inversion Hps as [| ? ? Hp Hps']; subst.
    destruct (include_tiles_inv p st Hp Hst) as [st1 [E1 H1]].
    rewrite E1. simpl. now apply IH.
Qed.

Lemma insert_by_len_perm (x : list pyval) (l : list (list pyval)) :
  Permutation (Game.insert_by_len x l) (x :: l).
Proof.
  induction l as [| y l IH]; simpl; [reflexivity |].
  destruct (List.length y <=? List.length x)%nat; [reflexivity |].
  rewrite IH. apply perm_swap.
Qed.

Lemma sorted_by_len_perm (l : list (list pyval)) :
  Permutation (Game.sorted_by_len l) l.
Proof.
  induction l as [| x l IH]; simpl; [reflexivity |].
  rewrite insert_by_len_perm. now constructor.
Qed.

Lemma contributing_in (row : list (option (list pyval))) (p : list pyval) :
  In p (Game.contributing row) -> In (Some p) row.
Proof.
  unfold Game.contributing. intros H. apply in_flat_map in H.
  destruct H as [o [Ho Hp]]. destruct o as [[| t tiles] |];
    simpl in Hp; try contradiction.
  destruct Hp as [<- | []]. exact Ho.
Qed.

Lemma zip_longest_in (players : list (list (list pyval)))
  (row : list (option (list pyval))) (p : list pyval) :
  In row (Game.zip_longest players) -> In (Some p) row ->
  exists player, In player players /\ In p player.
Proof.
  unfold Game.zip_longest. intros Hrow Hp.
  apply in_map_iff in Hrow. destruct Hrow as [i [<- _]].
  apply in_map_iff in Hp. destruct Hp as [player [E Hplayer]].
  exists player. split; [exact Hplayer |]. eapply nth_error_In. exact E.
Qed.

Lemma include_rows_inv (rows : list (list (option (list pyval)))) :
  forall st,
    Forall (fun row =>
              Forall (Forall Q) (Game.sorted_by_len (Game.contributing row)))
           rows ->
    I st ->
    exists st',
      rfold (fun st players_tiles_by_turn =>
               rfold (fun st player_tiles_by_turn =>
                        rfold Game.include_tile player_tiles_by_turn st)
                     (Game.sorted_by_len
                        (Game.contributing players_tiles_by_turn)) st)
            rows st = Ok st' /\ I st'.
Proof.
  induction rows as [| row rows IH]; intros st Hrows Hst; simpl.
  - eauto.
  - inversion Hrows as [| ? ? Hrow Hrows']; subst.
    destruct (include_players_inv _ st Hrow Hst) as [st1 [E1 H1]].
    rewrite E1. simpl. now apply IH.
Qed.

Lemma include_turns_inv (players : list (list (list pyval))) :
  (forall t, In t (List.concat (List.concat players)) -> on_board t = true /\ In t T) ->
  exists bag,
    Game.include_turns players = Ok (bag, bag)
    /\ NoDup bag
    /\ Forall (fun t => on_board t = true /\ In t T) bag.
Proof.
  intros H. unfold Game.include_turns.
  destruct (include_rows_inv (Game.zip_longest players) ([], []))
    as [[included bag] [E [Heq [Hnd Hall]]]].
  - apply Forall_forall. intros row Hrow.
    apply Forall_forall. intros p Hp.
    apply (Permutation_in _ (sorted_by_len_perm _)) in Hp.
    apply contributing_in in Hp.
    destruct (zip_longest_in _ _ _ Hrow Hp) as [player [Hpl Hin]].
    apply Forall_forall. intros t Ht. apply H.
    apply in_concat. exists p. split; [| exact Ht].
    apply in_concat. exists player. split; assumption.
  - repeat split; constructor.
  - simpl in *. subst included. exists bag. repeat split; assumption.
Qed.

End IncludeTurns.

Lemma rmap_length {A B : Type} (f : A -> result B) (l : list A) :
  forall l', rmap f l = Ok l' -> List.length l' = List.length l.
Proof.
  induction l as [| x l IH]; intros l' H; simpl in H.
  - injection H as <-. reflexivity.
  - apply rbind_ok in H. destruct H as [y [_ H]].
    apply rbind_ok in H. destruct H as [ys [Hys H]].
    injection H as <-. simpl. f_equal. now apply IH.
Qed.

Lemma bag_remaining_perm (bag : list pyval) :
  NoDup bag -> Forall (fun t => on_board t = true) bag ->
  Permutation (bag ++ Py.set_diff Game.all_tiles bag) Game.all_tiles.
Proof.
  intros Hnd Hob. unfold Py.set_diff.
  assert (Hin : forall x, In x Game.all_tiles ->
                          Py.mem x bag = true <-> In x bag).
  { intros x Hx. apply mem_in; [now apply on_board_in_all_tiles | exact Hob]. }
  apply NoDup_Permutation.
  - apply NoDup_app; [exact Hnd | apply NoDup_filter, all_tiles_nodup |].
    intros a Ha Hf. apply filter_In in Hf. destruct Hf as [Hall Hm].
    apply negb_true_iff in Hm. apply (Hin a Hall) in Ha. congruence.
  - apply all_tiles_nodup.
  - intros x. rewrite in_app_iff, filter_In. split.
    + intros [H | [H _]]; [| exact H].
      rewrite Forall_forall in Hob. now apply on_board_in_all_tiles, Hob.
    + intros H. destruct (Py.mem x bag) eqn:E.
      * left. now apply (Hin x H).
      * right. split; [exact H | reflexivity].
Qed.

Lemma insert_perm {A : Type} (l : list A) (i : Z) (x : A) :
  Permutation (Py.insert l i x) (x :: l).
Proof.
  unfold Py.insert. rewrite <- Permutation_middle.
  now rewrite firstn_skipn.
Qed.

Lemma set_remove_perm (t : pyval) (rem : list pyval) :
  on_board t = true -> Forall (fun u => on_board u = true) rem ->
  In t rem ->
  exists rem', Py.set_remove t rem = Ok rem' /\ Permutation (t :: rem') rem.
Proof.
  intros Ht. induction 1 as [| y rem Hy Hrem IH]; intros Hin;
    [contradiction |]. simpl.
  destruct (Py.eqb t y) eqn:E.
  - apply (on_board_eqb t y Ht Hy) in E. subst y.
    exists rem. split; reflexivity.
  - destruct Hin as [-> | Hin];
      [rewrite on_board_eqb_refl in E by assumption; discriminate |].
    destruct (IH Hin) as [rem' [E' Hp]]. rewrite E'. simpl.
    exists (y :: rem'). split; [reflexivity |].
    rewrite perm_swap. now constructor.
Qed.

Lemma tweaks_get_in (table : Game.tweaks) (ts : Z) (id : pyval)
  (entries : list (Z * option pyval)) :
  Game.tweaks_get table ts id = Some entries -> In entries (map snd table).
Proof.
  induction table as [| [[ts' gid] es] table IH]; simpl; [discriminate |].
  destruct ((ts =? ts') && Py.eqb id (PyInt gid)).
  - intros H. injection H as <-. now left.
  - intros H. right. now apply IH.
Qed.

Lemma tile_bag_tweaks_wellformed (ts : Z) (id : pyval)
  (entries : list (Z * option pyval)) :
  Game.tweaks_get Game.tile_bag_tweaks ts id = Some entries ->
  entries_wellformed entries = true.
Proof.
  intros H. apply tweaks_get_in in H. revert entries H.
  apply forallb_forall. vm_compute. reflexivity.
Qed.

Section Tweaks.

Variable rng : Type.
Variable random_sample : rng -> list pyval -> pyval * rng.

Lemma tweaks_inv (entries : list (Z * option pyval)) :
  forall bag rem g,
    Permutation (bag ++ rem) Game.all_tiles ->
    entries_wellformed entries = true ->
    (forall t, In t (tiles_of entries) -> ~ In t bag) ->
    exists bag' rem',
      rfold (Game.apply_tweak rng random_sample) entries (bag, rem, g)
      = Ok (bag', rem', g)
      /\ Permutation (bag' ++ rem') Game.all_tiles.
Proof.
  induction entries as [| [index [t |]] entries IH];
    intros bag rem g Hp Hwf Hnew.
  - exists bag, rem. split; [reflexivity | exact Hp].
  - unfold entries_wellformed in Hwf. simpl in Hwf.
    apply andb_true_iff in Hwf. destruct Hwf as [Hwf Hd].
    apply andb_true_iff in Hwf. destruct Hwf as [Hs Hb].
    apply andb_true_iff in Hb. destruct Hb as [Ht Hb].
    apply andb_true_iff in Hd. destruct Hd as [Hm Hd].
    apply negb_true_iff in Hm.
    assert (Hwf' : entries_wellformed entries = true).
    { unfold entries_wellformed. now rewrite Hs, Hb, Hd. }
    assert (Ht_new : ~ In t (tiles_of entries)).
    { apply (mem_not_in t _ Ht); [| exact Hm].
      apply Forall_forall. now apply forallb_forall. }
    simpl. unfold Game.apply_tweak at 1. simpl.
    destruct (Z.of_nat (List.length bag) >=? index).
    + assert (Hrem : Forall (fun u => on_board u = true) rem).
      { apply Forall_forall. intros u Hu. apply on_board_in_all_tiles.
        eapply Permutation_in; [exact Hp |]. apply in_or_app. now right. }
      assert (Hin : In t rem).
      { apply on_board_in_all_tiles in Ht.
        apply (Permutation_in _ (Permutation_sym Hp)) in Ht.
        apply in_app_or in Ht. destruct Ht as [Ht' | Ht']; [| exact Ht'].
        exfalso. apply (Hnew t); [simpl; auto | exact Ht']. }
      destruct (set_remove_perm t rem Ht Hrem Hin) as [rem' [E Hp']].
      rewrite E. simpl. apply IH; [| exact Hwf' |].
      * rewrite insert_perm. simpl.
        rewrite <- Hp. rewrite <- Hp'.
        rewrite Permutation_middle. reflexivity.
      * intros u Hu Hin'.
        apply (Permutation_in _ (insert_perm bag index t)) in Hin'.
        destruct Hin' as [<- | Hin']; [contradiction |].
        apply (Hnew u); [simpl; auto | exact Hin'].
    + apply IH; [exact Hp | exact Hwf' |].
      intros u Hu. apply Hnew. simpl. auto.
  - unfold entries_wellformed in Hwf. simpl in Hwf. discriminate.
Qed.

Lemma tweaks_deterministic (entries : list (Z * option pyval)) :
  all_specified entries = true ->
  forall bag rem,
  exists R : result (list pyval * list pyval),
  forall g,
    rfold (Game.apply_tweak rng random_sample) entries (bag, rem, g)
    = match R with
      | Ok br => Ok (fst br, snd br, g)
      | Raise e => Raise e
      end.
Proof.
  induction entries as [| [index [t |]] entries IH]; intros Hs bag rem.
  - exists (Ok (bag, rem)). reflexivity.
  - simpl in Hs. specialize (IH Hs).
    simpl. unfold Game.apply_tweak at 1. simpl.
    destruct (Z.of_nat (List.length bag) >=? index).
    + destruct (Py.set_remove t rem) as [rem' | e]; simpl.
      * apply IH.
      * exists (Raise e). reflexivity.
    + apply IH.
  - discriminate.
Qed.

End Tweaks.

Section TileBag.

Variable rng : Type.
Variable random_seed : string -> rng.
Variable random_shuffle : rng -> list pyval -> list pyval * rng.
Variable random_sample : rng -> list pyval -> pyval * rng.
Variable enums : enums_py.
Variable repr_str : string -> string.

(** [random.shuffle] rearranges the list it is given. *)
Hypothesis shuffle_permutes :
  forall g l, Permutation (fst (random_shuffle g l)) l.

(** C1 (amended).  Take a game without a recorded tile bag and with a
    valid draw history, whose internal id can be hashed, which is not a
    verbose game without players, and such that no tile its correction
    entries name (if it has any) was observed in a draw.  Then
    [_get_initial_tile_bag] returns a bag that is a permutation of exactly
    the 108 board coordinates. *)
Theorem initial_tile_bag_is_permutation (self : Game.t)
  (histories : list (list pyval)) (g : rng) :
  no_recorded_tile_bag self ->
  valid_draw_history enums self histories ->
  Py.hashable (Game.internal_game_id self) = true ->
  (Game._verbose self = true -> Game.player_id_to_username self <> []) ->
  (forall entries t,
      Game.tweaks_get Game.tile_bag_tweaks (Game.log_timestamp self)
        (Game.internal_game_id self) = Some entries ->
      In t (tiles_of entries) ->
      ~ In t (observed_tiles enums histories)) ->
  exists bag g',
    Game._get_initial_tile_bag rng random_seed random_shuffle random_sample
      enums repr_str self g = Ok (bag, g')
    /\ Permutation bag Game.all_tiles
    /\ NoDup bag
    /\ List.length bag = 108%nat
    /\ forall t,
         In t bag
         <-> exists x y, 0 <= x < 12 /\ 0 <= y < 9 /\ t = Game.tile x y.
Proof.
  intros Hno [Hhist Hvalid] Hhash Hverbose Htweak.
  assert (Hgoal :
            exists bag g',
              Game._get_initial_tile_bag rng random_seed random_shuffle
                random_sample enums repr_str self g = Ok (bag, g')
              /\ Permutation bag Game.all_tiles).
  { unfold Game._get_initial_tile_bag, Game._get_initial_tile_bag_with.
    assert (Hbody :
              forall (A : Type) (x : A) (f : list pyval -> A),
                match Game.tile_bag self with
                | Some ((_ :: _) as bag) => f bag
                | _ => x
                end = x)
      by (intros A x f; destruct Hno as [-> | ->]; reflexivity).
    rewrite Hbody. clear Hbody.
    unfold local_histories in Hhist. rewrite Hhist. cbn [rbind].
    destruct (all_turns_valid enums histories Hvalid)
      as [players [Eplayers [Hlen Hobs]]].
    rewrite Eplayers. cbn [rbind].
    assert (Hmax : match Game._verbose self, players with
                   | true, [] => Raise ValueError
                   | _, _ => Ok tt
                   end = Ok tt).
    { destruct (Game._verbose self); [| reflexivity].
      destruct players; [| reflexivity].
      exfalso. apply Hverbose; [reflexivity |].
      apply rmap_length in Hhist. unfold Dict.values in Hhist.
      rewrite length_map in Hhist. rewrite <- Hlen in Hhist. simpl in Hhist.
      now destruct (Game.player_id_to_username self). }
    rewrite Hmax. cbn [rbind].
    destruct (include_turns_inv (observed_tiles enums histories) players)
      as [bag [Ebag [Hnd Hall]]].
    { intros t Ht. split; [| now apply Hobs].
      eapply observed_on_board; [exact Hvalid | now apply Hobs]. }
    rewrite Ebag. cbn [rbind fst snd]. rewrite Hhash. cbn [rbind].
    assert (Hob : Forall (fun t => on_board t = true) bag)
      by (eapply Forall_impl; [| exact Hall]; now intros t [Ht _]).
    pose proof (bag_remaining_perm bag Hnd Hob) as Hperm.
    assert (Htw :
              exists bag' rem',
                match Game.tweaks_get Game.tile_bag_tweaks
                        (Game.log_timestamp self)
                        (Game.internal_game_id self) with
                | Some ((_ :: _) as entries) =>
                    rfold (Game.apply_tweak rng random_sample) entries
                      (bag, Py.set_diff Game.all_tiles bag, g)
                | _ => Ok (bag, Py.set_diff Game.all_tiles bag, g)
                end = Ok (bag', rem', g)
                /\ Permutation (bag' ++ rem') Game.all_tiles).
    { destruct (Game.tweaks_get Game.tile_bag_tweaks
                  (Game.log_timestamp self) (Game.internal_game_id self))
        as [[| e entries] |] eqn:Eget.
      - eexists. eexists. split; [reflexivity | exact Hperm].
      - apply tweaks_inv; [exact Hperm | |].
        + eapply tile_bag_tweaks_wellformed. exact Eget.
        + intros t Ht Hin. apply (Htweak _ t eq_refl Ht).
          rewrite Forall_forall in Hall. now apply Hall.
      - eexists. eexists. split; [reflexivity | exact Hperm]. }
    destruct Htw as [bag' [rem' [Etw Hperm']]].
    rewrite Etw. cbn [rbind fst snd].
    eexists. eexists. split; [reflexivity |].
    rewrite <- Permutation_rev.
    rewrite <- Hperm'. apply Permutation_app_head. apply shuffle_permutes. }
  destruct Hgoal as [bag [g' [E Hperm]]].
  exists bag, g'. split; [exact E |]. split; [exact Hperm |].
  split; [| split].
  - eapply Permutation_NoDup; [symmetry; exact Hperm | apply all_tiles_nodup].
  - now rewrite (Permutation_length Hperm).
  - intros t. rewrite <- all_tiles_coordinates. split; intros H.
    + eapply Permutation_in; [exact Hperm | exact H].
    + eapply Permutation_in; [symmetry; exact Hperm | exact H].
Qed.

(** C2 (amended).  With a correction table whose entries for the game all
    name their tile, as all entries of [Game.tile_bag_tweaks] do, the
    outcome of [_get_initial_tile_bag] - the bag or the exception - does
    not depend on the state the generator is in when the method is
    called. *)
Theorem initial_tile_bag_is_reproducible (table : Game.tweaks)
  (self : Game.t) :
  (forall entries,
      Game.tweaks_get table (Game.log_timestamp self)
        (Game.internal_game_id self) = Some entries ->
      all_specified entries = true) ->
  forall g1 g2,
    bag_of (Game._get_initial_tile_bag_with rng random_seed random_shuffle
              random_sample enums repr_str table self g1)
    = bag_of (Game._get_initial_tile_bag_with rng random_seed random_shuffle
                random_sample enums repr_str table self g2).
Proof.
  intros Hspec g1 g2. unfold Game._get_initial_tile_bag_with.
  destruct (Game.tile_bag self) as [[| t bag] |]; try reflexivity;
    (destruct (rmap _ (Dict.values (Game.player_id_to_username self)))
       as [hs | e]; [cbn [rbind] | reflexivity];
     destruct (rmap (Game.turn_by_turn_tiles_drawn_or_replaced enums) hs)
       as [players | e]; [cbn [rbind] | reflexivity];
     destruct (match Game._verbose self, players with
               | true, [] => Raise ValueError
               | _, _ => Ok tt
               end) as [[] | e]; [cbn [rbind] | reflexivity];
     destruct (Game.include_turns players) as [st | e];
       [cbn [rbind] | reflexivity];
     destruct (Py.hashable (Game.internal_game_id self));
       [cbn [rbind] | reflexivity];
     destruct (Game.tweaks_get table (Game.log_timestamp self)
                 (Game.internal_game_id self))
       as [[| e entries] |] eqn:Eget; try reflexivity;
     destruct (tweaks_deterministic rng random_sample (e :: entries)
                 (Hspec _ eq_refl) (snd st)
                 (Py.set_diff Game.all_tiles (fst st))) as [R HR];
     rewrite (HR g1), (HR g2); destruct R as [[b r] | e']; reflexivity).
Qed.

End TileBag.

Lemma counter_shuffle_permutes (g : nat) (l : list pyval) :
  Permutation (fst (counter_shuffle g l)) l.
Proof.
  unfold counter_shuffle. simpl.
  rewrite Permutation_app_comm. now rewrite firstn_skipn.
Qed.

Lemma initial_tile_bag_is_permutation_witness :
  exists bag g',
    Game._get_initial_tile_bag nat counter_seed counter_shuffle counter_sample
      enums_instance plain_repr_str corrected_game 0%nat = Ok (bag, g')
    /\ Permutation bag Game.all_tiles
    /\ NoDup bag
    /\ List.length bag = 108%nat
    /\ forall t,
         In t bag
         <-> exists x y, 0 <= x < 12 /\ 0 <= y < 9 /\ t = Game.tile x y.
Proof.
  apply (initial_tile_bag_is_permutation nat counter_seed counter_shuffle
           counter_sample enums_instance plain_repr_str
           counter_shuffle_permutes corrected_game [draws 2 4]).
  - left. reflexivity.
  - split; [reflexivity |].
    constructor; [| constructor].
    apply Forall_forall. apply forallb_forall. vm_compute. reflexivity.
  - reflexivity.
  - intros H. discriminate H.
  - intros entries t H Ht. vm_compute in H. injection H as <-.
    destruct Ht as [<- | []]. vm_compute. intros Hin.
    repeat (destruct Hin as [Hin | Hin]; [discriminate Hin |]).
    exact Hin.
Defined.

(** C1 as stated fails.  The game below has no recorded tile bag and a
    valid draw history, and [_get_initial_tile_bag] raises [KeyError]: the
    correction table inserts tile (1, 5), which the player was seen to
    draw, so that it is not among the remaining tiles.  A verbose game
    that has no player yet makes the method raise [ValueError]. *)
Lemma initial_tile_bag_counterexample :
  (no_recorded_tile_bag clashing_game
   /\ valid_draw_history enums_instance clashing_game [draws 0 5]
   /\ Game._get_initial_tile_bag nat counter_seed counter_shuffle
        counter_sample enums_instance plain_repr_str clashing_game 0%nat
      = Raise KeyError)
  /\ (no_recorded_tile_bag verbose_new_game
      /\ valid_draw_history enums_instance verbose_new_game []
      /\ Game._get_initial_tile_bag nat counter_seed counter_shuffle
           counter_sample enums_instance plain_repr_str verbose_new_game 0%nat
         = Raise ValueError).
Proof.
  split; (split; [left; reflexivity |]); split.
  - split; [reflexivity |]. constructor; [| constructor].
    apply Forall_forall. apply forallb_forall. vm_compute. reflexivity.
  - vm_compute. reflexivity.
  - split; [reflexivity | constructor].
  - vm_compute. reflexivity.
Qed.

Lemma initial_tile_bag_is_reproducible_witness :
  bag_of (Game._get_initial_tile_bag_with nat counter_seed counter_shuffle
            counter_sample enums_instance plain_repr_str
            Game.tile_bag_tweaks corrected_game 0%nat)
  = bag_of (Game._get_initial_tile_bag_with nat counter_seed counter_shuffle
              counter_sample enums_instance plain_repr_str
              Game.tile_bag_tweaks corrected_game 1%nat).
Proof.
  apply (initial_tile_bag_is_reproducible nat counter_seed counter_shuffle
           counter_sample enums_instance plain_repr_str Game.tile_bag_tweaks
           corrected_game).
  intros entries H. vm_compute in H. injection H as <-. reflexivity.
Defined.

(** C2 as stated fails where a correction entry leaves the tile
    unspecified: the tile is drawn before the generator is seeded, so the
    bag depends on the state of the generator at the time of the call.
    With a generator that draws the element its counter points at, two
    calls on the same game give bags that end in different tiles. *)
Lemma initial_tile_bag_reproducible_counterexample :
  bag_of (Game._get_initial_tile_bag_with nat counter_seed counter_shuffle
            counter_sample enums_instance plain_repr_str
            unspecified_tweak new_game 0%nat)
  <> bag_of (Game._get_initial_tile_bag_with nat counter_seed counter_shuffle
               counter_sample enums_instance plain_repr_str
               unspecified_tweak new_game 1%nat).
Proof.
  intros H.
  apply (f_equal (fun r => match r with
                           | Ok bag => last bag PyNone
                           | Raise _ => PyNone
                           end)) in H.
  vm_compute in H. discriminate H.
Qed.

(* ------------------------------------------------------------------ *)
(** ** The parser stops at the second [connection_made] *)

Section ParserFacts.

Variable ujson_decode : string -> option pyval.

Let matchers := LogParser._line_matchers_and_handlers ujson_decode.

Lemma sentinel_line (self : LogParser.t) :
  LogParser.match_line matchers "connection_made" self
  = Ok {| LogParser.lo_handled_line_type := Some LineTypes.connection_made;
          LogParser.lo_parse_line_data :=
            if (LogParser._connection_made_count self =? 0)%nat
            then LogParser.PUnit else LogParser.PNone;
          LogParser.lo_stop_processing_file :=
            negb (LogParser._connection_made_count self =? 0)%nat;
          LogParser.lo_self := count_connection self |}.
Proof.
  destruct self as [tr n b p].
  unfold matchers, LogParser._line_matchers_and_handlers.
  cbn -[Nat.eqb]. destruct n; reflexivity.
Qed.

Lemma plain_time : plain_handler LogParser._handle_time.
Proof.
  intros m self r self'. unfold LogParser._handle_time.
  destruct (float_accepts (Re.group "time" m)); [| discriminate].
  intros H. injection H as <- <-. split; [reflexivity | discriminate].
Qed.

Lemma plain_command_to_client :
  plain_handler (LogParser._handle_command_to_client ujson_decode).
Proof.
  intros m self r self'. unfold LogParser._handle_command_to_client.
  destruct (rmap _ _) as [client_ids |];
    [| intros H; injection H as <- <-; split; [reflexivity | discriminate]].
  destruct (ujson_decode _) as [commands |];
    [| intros H; injection H as <- <-; split; [reflexivity | discriminate]].
  destruct (CommandsToClientTranslator.translate _ _) as [c1 |];
    [cbn [rbind] | discriminate].
  destruct (LogParser.reorder_obj _ _ _) as [c2 |];
    [cbn [rbind] | discriminate].
  intros H. injection H as <- <-. split; [reflexivity | discriminate].
Qed.

Lemma plain_command_to_server :
  plain_handler (LogParser._handle_command_to_server ujson_decode).
Proof.
  intros m self r self'. unfold LogParser._handle_command_to_server.
  destruct (py_int _); [destruct (ujson_decode _) |];
    intros H; injection H as <- <-; split; try reflexivity; discriminate.
Qed.

Lemma plain_log : plain_handler (LogParser._handle_log ujson_decode).
Proof.
  intros m self r self'. unfold LogParser._handle_log.
  destruct (ujson_decode _);
    intros H; injection H as <- <-; split; try reflexivity; discriminate.
Qed.

Lemma plain_connect : plain_handler LogParser._handle_connect.
Proof.
  intros m self r self'. unfold LogParser._handle_connect.
  destruct (py_int _); [| discriminate].
  intros H. injection H as <- <-. split; [reflexivity | discriminate].
Qed.

Lemma plain_disconnect : plain_handler LogParser._handle_disconnect.
Proof.
  intros m self r self'. unfold LogParser._handle_disconnect.
  destruct (py_int _); [| discriminate].
  intros H. injection H as <- <-. split; [reflexivity | discriminate].
Qed.

Lemma plain_game_expired : plain_handler LogParser._handle_game_expired.
Proof.
  intros m self r self'. unfold LogParser._handle_game_expired.
  destruct (py_int _); [| discriminate].
  intros H. injection H as <- <-. split; [reflexivity | discriminate].
Qed.

Lemma matchers_kinds : Forall matcher_kind matchers.
Proof.
  unfold matchers, LogParser._line_matchers_and_handlers.
  assert (Hplain : forall lt re h,
             plain_handler h -> matcher_kind (lt, re, Some h)).
  { intros lt re h Hh. right. left. exists h. split; [reflexivity | exact Hh]. }
  assert (Hnone : forall lt re, matcher_kind (lt, re, None)).
  { intros lt re. left. reflexivity. }
  apply Forall_cons; [apply Hplain, plain_time |].
  apply Forall_cons; [apply Hplain, plain_command_to_client |].
  apply Forall_cons; [apply Hnone |].
  apply Forall_cons; [apply Hplain, plain_command_to_server |].
  apply Forall_cons; [apply Hplain, plain_log |].
  apply Forall_cons; [apply Hplain, plain_connect |].
  apply Forall_cons; [apply Hplain, plain_disconnect |].
  apply Forall_cons; [apply Hplain, plain_game_expired |].
  apply Forall_cons; [apply Hplain, plain_connect |].
  apply Forall_cons; [apply Hplain, plain_disconnect |].
  apply Forall_cons; [apply Hplain, plain_command_to_server |].
  apply Forall_cons; [right; right; reflexivity |].
  apply Forall_cons; [apply Hnone |].
  apply Forall_nil.
Qed.

(** What the inner loop of [go] can do to the parser: nothing, or count
    the first [connection_made], or stop at a later one. *)
Lemma match_line_cases
  (ms : list (LineTypes.t * Re.regex * option LogParser.handler))
  (line : string) (self : LogParser.t) (o : LogParser.line_outcome) :
  Forall matcher_kind ms ->
  LogParser.match_line ms line self = Ok o ->
  (LogParser.lo_stop_processing_file o = false
   /\ (LogParser.lo_self o = self
       \/ (LogParser.lo_self o = count_connection self
           /\ LogParser._connection_made_count self = 0%nat
           /\ Re.match_ LogParser.re_connection_made line <> None)))
  \/ (LogParser.lo_stop_processing_file o = true
      /\ LogParser.lo_self o = count_connection self
      /\ (1 <= LogParser._connection_made_count self)%nat
      /\ Re.match_ LogParser.re_connection_made line <> None
      /\ LogParser.lo_handled_line_type o = Some LineTypes.connection_made).
Proof.
  induction 1 as [| [[line_type regex] h] ms Hk _ IH]; simpl.
  - intros H. injection H as <-. left. split; [reflexivity | now left].
  - destruct (Re.match_ regex line) as [m |] eqn:Em; [| exact IH].
    destruct Hk as [Hk | [[h0 [Hk Hplain]] | Hk]]; simpl in Hk.
    + subst h. intros H. injection H as <-.
      left. split; [reflexivity | now left].
    + subst h. destruct (h0 m self) as [[r self'] |] eqn:Eh;
        [cbn [rbind fst snd] | discriminate].
      destruct (Hplain _ _ _ _ Eh) as [-> Hr].
      destruct r as [| | d]; [exact IH | congruence |].
      intros H. injection H as <-. left. split; [reflexivity | now left].
    + injection Hk as -> -> ->.
      unfold LogParser._handle_connection_made. cbn [rbind fst snd].
      fold (count_connection self).
      change (LogParser._connection_made_count (count_connection self))
        with (S (LogParser._connection_made_count self)).
      destruct (LogParser._connection_made_count self) as [| n] eqn:En;
        cbn [Nat.eqb fst snd]; intros H; injection H as <-.
      * left. split; [reflexivity |]. right.
        split; [reflexivity |]. split; [reflexivity | congruence].
      * right. split; [reflexivity |]. split; [reflexivity |].
        split; [lia |]. split; [congruence | reflexivity].
Qed.

End ParserFacts.

Section GoFacts.

Variable ujson_decode : string -> option pyval.

Let loop := LogParser.go_loop ujson_decode.
Let matchers := LogParser._line_matchers_and_handlers ujson_decode.

Lemma loop_cons (self : LogParser.t) (raw : string) (file : list string)
  (h : option LineTypes.t) (n : nat) :
  loop self (raw :: file) h n
  = match LogParser.match_line matchers (LogParser.strip_newline raw) self
    with
    | Raise e =>
        {| LogParser.yields := []; LogParser.ended := LogParser.Failed e;
           LogParser.last_handled_line_type := h;
           LogParser.last_line_number := S n;
           LogParser.last_self := self |}
    | Ok o =>
        if LogParser.lo_stop_processing_file o then
          {| LogParser.yields := []; LogParser.ended := LogParser.Stopped;
             LogParser.last_handled_line_type :=
               LogParser.lo_handled_line_type o;
             LogParser.last_line_number := S n;
             LogParser.last_self := LogParser.lo_self o |}
        else
          let r := loop (LogParser.lo_self o) file
                     (LogParser.lo_handled_line_type o) (S n) in
          {| LogParser.yields :=
               {| LogParser.handled_line_type :=
                    LogParser.lo_handled_line_type o;
                  LogParser.line_number := S n;
                  LogParser.line := LogParser.strip_newline raw;
                  LogParser.parse_line_data :=
                    LogParser.lo_parse_line_data o |}
               :: LogParser.yields r;
             LogParser.ended := LogParser.ended r;
             LogParser.last_handled_line_type :=
               LogParser.last_handled_line_type r;
             LogParser.last_line_number := LogParser.last_line_number r;
             LogParser.last_self := LogParser.last_self r |}
    end.
Proof. reflexivity. Qed.

Lemma loop_lines (file : list string) :
  forall self h n,
    LogParser.ended (loop self file h n) = LogParser.Exhausted ->
    map LogParser.line (LogParser.yields (loop self file h n))
    = map LogParser.strip_newline file
    /\ map LogParser.line_number (LogParser.yields (loop self file h n))
       = seq (S n) (List.length file)
    /\ LogParser.last_line_number (loop self file h n)
       = (n + List.length file)%nat.
Proof.
  induction file as [| raw file IH]; intros self h n.
  - intros _. simpl. repeat split. lia.
  - rewrite loop_cons.
    destruct (LogParser.match_line matchers _ self) as [o | e];
      [| discriminate].
    destruct (LogParser.lo_stop_processing_file o); [discriminate |].
    cbn [LogParser.ended LogParser.yields LogParser.last_line_number].
    intros H. destruct (IH _ _ _ H) as [H1 [H2 H3]].
    cbn [map List.length seq LogParser.line LogParser.line_number].
    rewrite H1, H2, H3. repeat split. lia.
Qed.

Lemma loop_app (pre : list string) :
  forall self h n rest,
    LogParser.ended (loop self pre h n) = LogParser.Exhausted ->
    let r := loop self pre h n in
    let r2 := loop (LogParser.last_self r) rest
                (LogParser.last_handled_line_type r)
                (LogParser.last_line_number r) in
    loop self (pre ++ rest) h n
    = {| LogParser.yields := LogParser.yields r ++ LogParser.yields r2;
         LogParser.ended := LogParser.ended r2;
         LogParser.last_handled_line_type :=
           LogParser.last_handled_line_type r2;
         LogParser.last_line_number := LogParser.last_line_number r2;
         LogParser.last_self := LogParser.last_self r2 |}.
Proof.
  induction pre as [| raw pre IH]; intros self h n rest.
  - intros _. simpl. now destruct (loop self rest h n).
  - cbv zeta. rewrite <- app_comm_cons, !loop_cons.
    destruct (LogParser.match_line matchers _ self) as [o | e];
      [| discriminate].
    destruct (LogParser.lo_stop_processing_file o); [discriminate |].
    cbn [LogParser.ended LogParser.yields LogParser.last_line_number
         LogParser.last_handled_line_type LogParser.last_self].
    intros H. rewrite (IH _ _ _ rest H). reflexivity.
Qed.

Lemma loop_count_mono (file : list string) :
  forall self h n,
    LogParser.ended (loop self file h n) = LogParser.Exhausted ->
    (LogParser._connection_made_count self
     <= LogParser._connection_made_count
          (LogParser.last_self (loop self file h n)))%nat.
Proof.
  induction file as [| raw file IH]; intros self h n.
  - intros _. simpl. lia.
  - rewrite loop_cons.
    destruct (LogParser.match_line matchers _ self) as [o | e] eqn:E;
      [| discriminate].
    destruct (LogParser.lo_stop_processing_file o) eqn:Es; [discriminate |].
    cbn [LogParser.ended LogParser.last_self].
    intros H. specialize (IH _ _ _ H).
    destruct (match_line_cases _ _ _ _
                (matchers_kinds ujson_decode) E)
      as [[_ [Hs | [Hs _]]] | [Hs _]]; [| | congruence].
    + assert (Hle : (LogParser._connection_made_count self
                     <= LogParser._connection_made_count
                          (LogParser.lo_self o))%nat)
        by (rewrite Hs; lia).
      lia.
    + assert (Hle : (LogParser._connection_made_count self
                     <= LogParser._connection_made_count
                          (LogParser.lo_self o))%nat).
      { rewrite Hs.
        change (LogParser._connection_made_count (count_connection self))
          with (S (LogParser._connection_made_count self)).
        lia. }
      lia.
Qed.

Lemma loop_stops (self : LogParser.t) (cm : string) (post : list string)
  (h : option LineTypes.t) (n : nat) :
  (1 <= LogParser._connection_made_count self)%nat ->
  LogParser.strip_newline cm = "connection_made" ->
  loop self (cm :: post) h n
  = {| LogParser.yields := []; LogParser.ended := LogParser.Stopped;
       LogParser.last_handled_line_type := Some LineTypes.connection_made;
       LogParser.last_line_number := S n;
       LogParser.last_self := count_connection self |}.
Proof.
  intros Hc Hcm. rewrite loop_cons, Hcm.
  unfold matchers. rewrite sentinel_line.
  destruct (LogParser._connection_made_count self); [lia | reflexivity].
Qed.

Lemma loop_counts_sentinel (self : LogParser.t) (cm : string)
  (file : list string) (h : option LineTypes.t) (n : nat) :
  LogParser.strip_newline cm = "connection_made" ->
  LogParser.ended (loop self (cm :: file) h n) = LogParser.Exhausted ->
  (1 <= LogParser._connection_made_count
          (LogParser.last_self (loop self (cm :: file) h n)))%nat.
Proof.
  intros Hcm. rewrite loop_cons, Hcm.
  unfold matchers. rewrite sentinel_line.
  cbn [LogParser.lo_stop_processing_file LogParser.lo_self
       LogParser.lo_handled_line_type].
  destruct (LogParser._connection_made_count self =? 0)%nat;
    [| discriminate].
  cbn [negb LogParser.ended LogParser.last_self].
  intros H. apply loop_count_mono in H.
  change (LogParser._connection_made_count (count_connection self))
    with (S (LogParser._connection_made_count self)) in H.
  lia.
Qed.

Lemma loop_stopped_by_sentinel (file : list string) :
  forall self h n,
    LogParser.ended (loop self file h n) = LogParser.Stopped ->
    exists before cm after,
      file = before ++ cm :: after
      /\ is_connection_made cm = true
      /\ LogParser.ended (loop self before h n) = LogParser.Exhausted
      /\ (1 <= LogParser._connection_made_count
                 (LogParser.last_self (loop self before h n)))%nat.
Proof.
  induction file as [| raw file IH]; intros self h n.
  - discriminate.
  - rewrite loop_cons.
    destruct (LogParser.match_line matchers _ self) as [o | e] eqn:E;
      [| discriminate].
    pose proof (match_line_cases _ _ _ _
                  (matchers_kinds ujson_decode) E) as Hcases.
    destruct (LogParser.lo_stop_processing_file o) eqn:Es.
    + intros _. exists [], raw, file.
      destruct Hcases as [[Hs _] | [_ [_ [Hc [Hm _]]]]]; [congruence |].
      split; [reflexivity |]. split.
      * unfold is_connection_made.
        now destruct (Re.match_ LogParser.re_connection_made _).
      * split; [reflexivity | exact Hc].
    + cbn [LogParser.ended]. intros H.
      destruct (IH _ _ _ H) as [before [cm [after [-> [Hcm [He Hc]]]]]].
      exists (raw :: before), cm, after.
      split; [reflexivity |]. split; [exact Hcm |].
      rewrite loop_cons, E, Es.
      cbn [LogParser.ended LogParser.last_self]. split; assumption.
Qed.

End GoFacts.

Lemma loop_prefix_exhausted (ujson_decode : string -> option pyval)
  (pre : list string) :
  forall self h n rest,
    LogParser.ended (LogParser.go_loop ujson_decode self (pre ++ rest) h n)
    = LogParser.Exhausted ->
    LogParser.ended (LogParser.go_loop ujson_decode self pre h n)
    = LogParser.Exhausted.
Proof.
  induction pre as [| raw pre IH]; intros self h n rest.
  - reflexivity.
  - rewrite <- app_comm_cons, !loop_cons.
    destruct (LogParser.match_line _ _ self) as [o | e]; [| discriminate].
    destruct (LogParser.lo_stop_processing_file o); [discriminate |].
    cbn [LogParser.ended]. apply IH.
Qed.

(** C6.  Let a file have a second line [connection_made], the lines before
    it being read without an exception.  Then [LogParser.go] yields one
    event for each line before that line, in order, and after them only
    the frame terminator it synthesizes: nothing for the second
    [connection_made] line or for a line after it, whatever these lines
    are.  The loop over the lines stops early only at a line
    [connection_made] that is not the first; when it reaches the end of the
    file it has yielded an event for every line. *)
Theorem go_stops_at_second_connection_made
  (ujson_decode : string -> option pyval) :
  (forall self l1 cm1 l2 cm2 l3,
      LogParser.strip_newline cm1 = "connection_made" ->
      LogParser.strip_newline cm2 = "connection_made" ->
      let pre := l1 ++ cm1 :: l2 in
      let r := LogParser.go_loop ujson_decode self pre None 0 in
      LogParser.ended r = LogParser.Exhausted ->
      LogParser.go ujson_decode self (pre ++ cm2 :: l3)
      = (LogParser.yields r
           ++ [synthesized_blank_line (List.length pre + 2)], None)
      /\ map LogParser.line (LogParser.yields r)
         = map LogParser.strip_newline pre
      /\ map LogParser.line_number (LogParser.yields r)
         = seq 1 (List.length pre))
  /\ (forall self file h n,
         LogParser.ended (LogParser.go_loop ujson_decode self file h n)
         = LogParser.Stopped ->
         exists before cm after,
           file = before ++ cm :: after
           /\ is_connection_made cm = true
           /\ LogParser.ended
                (LogParser.go_loop ujson_decode self before h n)
              = LogParser.Exhausted
           /\ (1 <= LogParser._connection_made_count
                      (LogParser.last_self
                         (LogParser.go_loop ujson_decode self before h n)))%nat)
  /\ (forall self file h n,
         LogParser.ended (LogParser.go_loop ujson_decode self file h n)
         = LogParser.Exhausted ->
         List.length
           (LogParser.yields (LogParser.go_loop ujson_decode self file h n))
         = List.length file).
Proof.
  split; [| split].
  - intros self l1 cm1 l2 cm2 l3 Hcm1 Hcm2 pre r Hr.
    destruct (loop_lines ujson_decode pre self None 0%nat Hr)
      as [Hlines [Hnumbers Hlast]].
    split; [| split; assumption].
    assert (Hcount : (1 <= LogParser._connection_made_count
                             (LogParser.last_self r))%nat).
    { pose proof (loop_prefix_exhausted ujson_decode l1 _ _ _ _ Hr) as H1.
      unfold r, pre in *.
      rewrite (loop_app ujson_decode l1 _ _ _ _ H1) in Hr |- *.
      cbn [LogParser.ended LogParser.last_self] in Hr |- *.
      now apply loop_counts_sentinel. }
    unfold LogParser.go.
    rewrite (loop_app ujson_decode pre _ _ _ _ Hr).
    fold r. rewrite (loop_stops ujson_decode _ _ _ _ _ Hcount Hcm2).
    cbn [LogParser.ended LogParser.yields LogParser.last_line_number
         LogParser.last_handled_line_type LogParser.is_blank_line].
    rewrite app_nil_r. unfold synthesized_blank_line.
    fold r in Hlast. rewrite Hlast.
    replace (List.length pre + 2)%nat with (S (S (0 + List.length pre)))
      by lia.
    reflexivity.
  - intros self file h n. apply loop_stopped_by_sentinel.
  - intros self file h n H.
    destruct (loop_lines ujson_decode file self h n H) as [Hlines _].
    apply (f_equal (@List.length string)) in Hlines.
    now rewrite !length_map in Hlines.
Qed.

Lemma go_stops_at_second_connection_made_witness :
  let pre := [ln "time: 1.5"] ++ ln "connection_made" :: [ln "5 disconnect"] in
  let r := LogParser.go_loop no_json parser_instance pre None 0 in
  LogParser.go no_json parser_instance
    (pre ++ ln "connection_made" :: [ln "game #5 expired"])
  = (LogParser.yields r ++ [synthesized_blank_line (List.length pre + 2)],
     None)
  /\ map LogParser.line (LogParser.yields r)
     = map LogParser.strip_newline pre
  /\ map LogParser.line_number (LogParser.yields r)
     = seq 1 (List.length pre).
Proof.
  apply (proj1 (go_stops_at_second_connection_made no_json) parser_instance
           [ln "time: 1.5"] (ln "connection_made") [ln "5 disconnect"]
           (ln "connection_made") [ln "game #5 expired"]).
  - reflexivity.
  - reflexivity.
  - vm_compute. reflexivity.
Defined.

(* ------------------------------------------------------------------ *)
(** ** The processor: what a line can change, what can raise *)

Section Frames.

Import LogProcessor.
Local Open Scope proc_scope.

Lemma keeps_ret {A : Type} (a : A) : keeps_clients (ret a).
Proof. intros s. reflexivity. Qed.

Lemma keeps_lift {A : Type} (r : result A) : keeps_clients (lift r).
Proof. intros s. reflexivity. Qed.

Lemma keeps_get : keeps_clients get.
Proof. intros s. reflexivity. Qed.

Lemma keeps_bind {A B : Type} (m : M A) (k : A -> M B) :
  keeps_clients m -> (forall a, keeps_clients (k a)) ->
  keeps_clients (bind m k).
Proof.
  intros Hm Hk s. unfold bind. specialize (Hm s).
  destruct (m s) as [[a | e] s']; simpl in *.
  - now rewrite Hk.
  - exact Hm.
Qed.

Lemma keeps_bind_lift {A B : Type} (r : result A) (k : A -> M B) :
  (forall a, r = Ok a -> keeps_clients (k a)) ->
  keeps_clients (bind (lift r) k).
Proof.
  intros Hk s. unfold bind, lift. destruct r as [a | e]; simpl.
  - now apply Hk.
  - reflexivity.
Qed.

Lemma keeps_bind_get {B : Type} (k : t -> M B) :
  (forall a, keeps_clients (k a)) -> keeps_clients (bind get k).
Proof. intros Hk. apply keeps_bind; [apply keeps_get | exact Hk]. Qed.

Lemma keeps_try (m : M unit) : keeps_clients m -> keeps_clients (try_ m).
Proof. intros Hm s. unfold try_. simpl. apply Hm. Qed.

Lemma keeps_for_each {A : Type} (l : list A) (body : A -> M unit) :
  (forall x, keeps_clients (body x)) -> keeps_clients (for_each l body).
Proof.
  intros Hb. induction l as [| x l IH]; simpl.
  - apply keeps_ret.
  - apply keeps_bind; [apply Hb | intros _; exact IH].
Qed.

Lemma keeps_modify_games (f : t -> pydict Game.t) :
  keeps_clients (modify (fun s => set__game_id_to_game (f s) s)).
Proof. intros s. reflexivity. Qed.

Lemma keeps_modify_routes (d : pydict pyval) :
  keeps_clients (modify (set__client_id_to_game_id d)).
Proof. intros s. reflexivity. Qed.

Lemma keeps_modify_expired (f : t -> list Game.t) :
  keeps_clients (modify (fun s => set__expired_games (f s) s)).
Proof. intros s. reflexivity. Qed.

Lemma keeps_modify_time (time : option string) :
  keeps_clients (modify (set__time time)).
Proof. intros s. reflexivity. Qed.

Lemma keeps_mutate_game (key : pyval) (f : Game.t -> Game.t) :
  keeps_clients (mutate_game key f).
Proof.
  intros s. unfold mutate_game, modify. simpl.
  now destruct (Py.lookup key (_game_id_to_game s)).
Qed.

Ltac keeps_step :=
  lazymatch goal with
  | |- keeps_clients (ret _) => apply keeps_ret
  | |- keeps_clients (lift _) => apply keeps_lift
  | |- keeps_clients get => apply keeps_get
  | |- keeps_clients (mutate_game _ _) => apply keeps_mutate_game
  | |- keeps_clients (modify (set__client_id_to_game_id _)) =>
      apply keeps_modify_routes
  | |- keeps_clients (modify (set__time _)) => apply keeps_modify_time
  | |- keeps_clients (modify (fun s => set__game_id_to_game _ s)) =>
      apply keeps_modify_games
  | |- keeps_clients (modify (fun s => set__expired_games _ s)) =>
      apply keeps_modify_expired
  | |- keeps_clients (try_ _) => apply keeps_try
  | |- keeps_clients (for_each _ _) => apply keeps_for_each; intros
  | |- keeps_clients (bind _ _) => apply keeps_bind; [| intros]
  | |- keeps_clients (if ?b then _ else _) => destruct b
  | |- keeps_clients (match ?x with _ => _ end) => destruct x
  | |- keeps_clients (let _ := _ in _) => progress cbv zeta
  end.

Ltac keeps := repeat keeps_step.

Section Handlers.

Variable enums : enums_py.

Lemma keeps_game_of_client (client_id : pyval) :
  keeps_clients (game_of_client client_id).
Proof. unfold game_of_client. keeps. Qed.

Lemma keeps_first_client_id (client_ids : list Z) :
  keeps_clients (first_client_id client_ids).
Proof. unfold first_client_id. keeps. Qed.

Lemma keeps_add_client_id_to_game (game_id client_id : pyval) :
  keeps_clients (_add_client_id_to_game game_id client_id).
Proof. unfold _add_client_id_to_game. keeps. Qed.

Lemma keeps_remove_client_id_from_game (client_id : pyval) :
  keeps_clients (_remove_client_id_from_game client_id).
Proof. unfold _remove_client_id_from_game. keeps. Qed.

Lemma keeps_remove_player_id_from_game (game_id player_id : pyval) :
  keeps_clients (_remove_player_id_from_game game_id player_id).
Proof.
  unfold _remove_player_id_from_game.
  keeps; apply keeps_remove_client_id_from_game.
Qed.

Ltac keeps_handler :=
  repeat
    lazymatch goal with
    | |- keeps_clients (game_of_client _) => apply keeps_game_of_client
    | |- keeps_clients (first_client_id _) => apply keeps_first_client_id
    | |- keeps_clients (_add_client_id_to_game _ _) =>
        apply keeps_add_client_id_to_game
    | |- keeps_clients (_remove_client_id_from_game _) =>
        apply keeps_remove_client_id_from_game
    | |- keeps_clients (_remove_player_id_from_game _ _) =>
        apply keeps_remove_player_id_from_game
    | |- _ => keeps_step
    end.

Lemma keeps_set_game_board_cell (client_ids : list Z) (command : pyval) :
  keeps_clients
    (_handle_command_to_client__set_game_board_cell enums client_ids command).
Proof. unfold _handle_command_to_client__set_game_board_cell. keeps_handler. Qed.

Lemma keeps_set_score_sheet_cell (client_ids : list Z) (command : pyval) :
  keeps_clients
    (_handle_command_to_client__set_score_sheet_cell client_ids command).
Proof.
  unfold _handle_command_to_client__set_score_sheet_cell. keeps_handler.
Qed.

Lemma keeps_set_score_sheet (client_ids : list Z) (command : pyval) :
  keeps_clients
    (_handle_command_to_client__set_score_sheet client_ids command).
Proof. unfold _handle_command_to_client__set_score_sheet. keeps_handler. Qed.

Lemma keeps_set_game_player_join (client_ids : list Z) (command : pyval) :
  keeps_clients
    (_handle_command_to_client__set_game_player_join client_ids command).
Proof.
  unfold _handle_command_to_client__set_game_player_join. keeps_handler.
Qed.

Lemma keeps_set_game_player_rejoin (client_ids : list Z) (command : pyval) :
  keeps_clients
    (_handle_command_to_client__set_game_player_rejoin client_ids command).
Proof.
  unfold _handle_command_to_client__set_game_player_rejoin. keeps_handler.
Qed.

Lemma keeps_set_game_player_leave (client_ids : list Z) (command : pyval) :
  keeps_clients
    (_handle_command_to_client__set_game_player_leave client_ids command).
Proof.
  unfold _handle_command_to_client__set_game_player_leave. keeps_handler.
Qed.

Lemma keeps_set_game_watcher_client_id (client_ids : list Z)
  (command : pyval) :
  keeps_clients
    (_handle_command_to_client__set_game_watcher_client_id client_ids
       command).
Proof.
  unfold _handle_command_to_client__set_game_watcher_client_id.
  keeps_handler.
Qed.

Lemma keeps_return_watcher_to_lobby (client_ids : list Z) (command : pyval) :
  keeps_clients
    (_handle_command_to_client__return_watcher_to_lobby client_ids command).
Proof.
  unfold _handle_command_to_client__return_watcher_to_lobby. keeps_handler.
Qed.

Lemma keeps_add_game_history_message (client_ids : list Z)
  (command : pyval) :
  keeps_clients
    (_handle_command_to_client__add_game_history_message enums client_ids
       command).
Proof.
  unfold _handle_command_to_client__add_game_history_message. keeps_handler.
Qed.

Lemma keeps_add_game_history_messages (client_ids : list Z)
  (command : pyval) :
  keeps_clients
    (_handle_command_to_client__add_game_history_messages enums client_ids
       command).
Proof.
  unfold _handle_command_to_client__add_game_history_messages. keeps_handler.
Qed.

Lemma keeps_set_tile (client_ids : list Z) (command : pyval) :
  keeps_clients (_handle_command_to_client__set_tile client_ids command).
Proof. unfold _handle_command_to_client__set_tile. keeps_handler. Qed.

Lemma keeps_remove_tile (client_ids : list Z) (command : pyval) :
  keeps_clients (_handle_command_to_client__remove_tile client_ids command).
Proof. unfold _handle_command_to_client__remove_tile. keeps_handler. Qed.

Lemma keeps_set_game_player_client_id (client_ids : list Z)
  (command : pyval) :
  keeps_clients
    (_handle_command_to_client__set_game_player_client_id client_ids command).
Proof.
  unfold _handle_command_to_client__set_game_player_client_id.
  keeps_handler.
Qed.

Lemma zdict_put_all {V : Type} (P : V -> Prop) (k : Z) (v : V)
  (d : zdict V) :
  P v -> Forall (fun kv => P (snd kv)) d ->
  Forall (fun kv => P (snd kv)) (ZDict.put k v d).
Proof.
  intros Hv. induction 1 as [| [k' v'] d Hkv Hd IH]; simpl.
  - repeat constructor. exact Hv.
  - destruct (k =? k'); constructor; auto.
Qed.

Lemma zdict_lookup_all {V : Type} (P : V -> Prop) (k : Z) (d : zdict V)
  (v : V) :
  Forall (fun kv => P (snd kv)) d -> ZDict.lookup k d = Some v -> P v.
Proof.
  induction 1 as [| [k' v'] d Hkv Hd IH]; simpl; [discriminate |].
  destruct (k =? k'); [| exact IH].
  intros H. injection H as <-. exact Hkv.
Qed.

Lemma zdict_get_all {V : Type} (P : V -> Prop) (k : pyval) (d : zdict V)
  (v : V) :
  Forall (fun kv => P (snd kv)) d -> ZDict.get k d = Ok (Some v) -> P v.
Proof.
  intros Hd. unfold ZDict.get.
  destruct (Py.hashable k); [| discriminate].
  destruct k; try discriminate; intros H; injection H as H;
    eapply zdict_lookup_all; eassumption.
Qed.

Lemma fold_put_all {V : Type} (P : V -> Prop) (l : list (Z * V)) :
  forall d,
    Forall (fun kv => P (snd kv)) l -> Forall (fun kv => P (snd kv)) d ->
    Forall (fun kv => P (snd kv))
           (fold_left (fun d kv => ZDict.put (fst kv) (snd kv) d) l d).
Proof.
  induction l as [| [k v] l IH]; intros d Hl Hd; simpl; [exact Hd |].
  inversion Hl; subst. apply IH; [assumption |].
  now apply zdict_put_all.
Qed.

Lemma handlers_keep_clients :
  Forall (fun kv => forall client_ids command,
              keeps_clients (snd kv client_ids command))
         (_commands_to_client_handlers enums).
Proof.
  unfold _commands_to_client_handlers.
  apply (fold_put_all
           (fun h => forall client_ids command,
                keeps_clients (h client_ids command)));
    [| constructor].
  apply Forall_app. split.
  - repeat (apply Forall_cons; [simpl; intros |]); [.. | apply Forall_nil].
    + apply keeps_set_game_board_cell.
    + apply keeps_set_score_sheet_cell.
    + apply keeps_set_score_sheet.
    + apply keeps_set_game_player_join.
    + apply keeps_set_game_player_rejoin.
    + apply keeps_set_game_player_leave.
    + apply keeps_set_game_watcher_client_id.
    + apply keeps_return_watcher_to_lobby.
    + apply keeps_add_game_history_message.
    + apply keeps_add_game_history_messages.
    + apply keeps_set_tile.
    + apply keeps_remove_tile.
  - destruct (SDict.lookup _ _) as [names |]; [| constructor].
    destruct (index_of _ names); [| constructor].
    constructor; [| constructor]. simpl. intros.
    apply keeps_set_game_player_client_id.
Qed.

Lemma keeps_dispatch_command_to_client (client_ids : list Z)
  (command : pyval) :
  keeps_clients (dispatch_command_to_client enums client_ids command).
Proof.
  unfold dispatch_command_to_client.
  apply keeps_bind; [apply keeps_lift | intros code].
  apply keeps_bind_lift. intros [h |] Hget; [| apply keeps_ret].
  apply (zdict_get_all
           (fun h => forall client_ids command,
                keeps_clients (h client_ids command))
           _ _ _ handlers_keep_clients Hget).
Qed.

Lemma keeps_handle_command_to_client (client_ids : list Z)
  (commands : pyval) :
  keeps_clients (_handle_command_to_client enums client_ids commands).
Proof.
  unfold _handle_command_to_client.
  apply keeps_bind; [apply keeps_lift | intros l].
  apply keeps_for_each. intros command. apply keeps_try.
  apply keeps_dispatch_command_to_client.
Qed.

Lemma keeps_handle_command_to_server (client_id : Z) (command : pyval) :
  keeps_clients (_handle_command_to_server enums client_id command).
Proof.
  unfold _handle_command_to_server. apply keeps_try.
  apply keeps_bind; [apply keeps_lift | intros code].
  apply keeps_bind_lift. intros [h |] Hget; [| apply keeps_ret].
  unfold ZDict.get, _commands_to_server_handlers in Hget.
  assert (Hh : h = _handle_command_to_server__do_game_action).
  { destruct (Py.hashable code); [| discriminate].
    destruct code; try discriminate; simpl in Hget;
      match type of Hget with
      | context [if ?c then _ else _] => destruct c
      end; congruence. }
  subst h. unfold _handle_command_to_server__do_game_action. keeps.
Qed.

Lemma keeps_handle_time (time : string) : keeps_clients (_handle_time time).
Proof. unfold _handle_time. keeps. Qed.

Lemma keeps_handle_game_expired (game_id : Z) :
  keeps_clients (_handle_game_expired game_id).
Proof.
  unfold _handle_game_expired. keeps.
Qed.

Lemma keeps_copy_field (entry : pyval) (name : string) (key : pyval)
  (assign : pyval -> Game.t -> result Game.t) :
  keeps_clients (copy_field entry name key assign).
Proof. unfold copy_field. keeps. Qed.

Lemma keeps_handle_log (entry : pyval) :
  keeps_clients (_handle_log enums entry).
Proof.
  unfold _handle_log.
  repeat lazymatch goal with
         | |- keeps_clients (copy_field _ _ _ _) => apply keeps_copy_field
         | |- _ => keeps_step
         end.
Qed.

Lemma keeps_handle_line (l : LogParser.parsed_line) :
  inert_for_clients l = true -> keeps_clients (handle_line enums l).
Proof.
  unfold inert_for_clients, handle_line.
  destruct (LogParser.handled_line_type l) as [[] |];
    try discriminate; intros _;
    destruct (LogParser.parse_line_data l);
    lazymatch goal with
    | |- keeps_clients (lift _) => apply keeps_lift
    | |- keeps_clients (ret _) => apply keeps_ret
    | |- keeps_clients (_handle_time _) => apply keeps_handle_time
    | |- keeps_clients (_handle_command_to_client _ _ _) =>
        apply keeps_handle_command_to_client
    | |- keeps_clients (_handle_command_to_server _ _ _) =>
        apply keeps_handle_command_to_server
    | |- keeps_clients (_handle_game_expired _) =>
        apply keeps_handle_game_expired
    | |- keeps_clients (_handle_log _ _) => apply keeps_handle_log
    end.
Qed.

End Handlers.

End Frames.

Lemma go_lines_keeps_clients (enums : enums_py)
  (lines : list LogParser.parsed_line) :
  forall s,
    forallb inert_for_clients lines = true ->
    clients (snd (LogProcessor.go_lines enums lines s)) = clients s.
Proof.
  induction lines as [| l lines IH]; intros s H; [reflexivity |].
  simpl in H. apply andb_true_iff in H. destruct H as [Hl Hlines].
  pose proof (keeps_handle_line enums l Hl s) as Hk.
  cbn [LogProcessor.go_lines].
  destruct (LogProcessor.handle_line enums l s) as [[[] | e] s1];
    cbn [snd] in Hk; [| exact Hk].
  specialize (IH (match LogProcessor._expired_games s1 with
                  | [] => s1
                  | _ :: _ => LogProcessor.set__expired_games [] s1
                  end) Hlines).
  destruct (LogProcessor.go_lines enums lines _) as [[games e] s2].
  cbn [snd] in *. rewrite IH, <- Hk.
  now destruct (LogProcessor._expired_games s1).
Qed.

Lemma lookup_remove_other {V : Type} (a b : Z) (d : pydict V) :
  a <> b ->
  Py.lookup (PyInt b) (Py.remove (PyInt a) d) = Py.lookup (PyInt b) d.
Proof.
  intros Hab. induction d as [| [k v] d IH]; [reflexivity |].
  cbn [Py.remove Py.lookup].
  destruct (Py.eqb (PyInt a) k) eqn:Ea.
  - destruct (Py.eqb (PyInt b) k) eqn:Eb; [| reflexivity].
    exfalso. destruct k; simpl in Ea, Eb; try discriminate;
      apply Z.eqb_eq in Ea; apply Z.eqb_eq in Eb; congruence.
  - cbn [Py.lookup]. now rewrite IH.
Qed.

Lemma delayed_connected (client_id : Z) (s : LogProcessor.t) :
  connected s client_id ->
  LogProcessor._handle_disconnect__delayed client_id s
  = (Ok tt, disconnected client_id s).
Proof.
  unfold connected, has_key, LogProcessor._handle_disconnect__delayed,
    LogProcessor.bind, LogProcessor.get, LogProcessor.lift,
    LogProcessor.modify, Dict.delitem.
  cbn [Py.hashable].
  destruct (Py.lookup (PyInt client_id) _); [reflexivity |].
  intros H. now elim H.
Qed.

Lemma delayed_not_connected (client_id : Z) (s : LogProcessor.t) :
  Py.lookup (PyInt client_id) (LogProcessor._client_id_to_username s) = None ->
  LogProcessor._handle_disconnect__delayed client_id s = (Raise KeyError, s).
Proof.
  unfold LogProcessor._handle_disconnect__delayed,
    LogProcessor.bind, LogProcessor.get, LogProcessor.lift, Dict.delitem.
  cbn [Py.hashable]. now intros ->.
Qed.

Lemma connected_disconnected (c b : Z) (s : LogProcessor.t) :
  c <> b -> connected s b -> connected (disconnected c s) b.
Proof.
  intros Hcb. unfold connected, has_key, disconnected.
  destruct s. cbn. now rewrite lookup_remove_other.
Qed.

(** What the loop over the queue does as long as the clients it meets are
    connected. *)
Lemma flush_loop (calls : list Z) :
  forall s,
    NoDup calls ->
    Forall (connected s) calls ->
    calls <> [] ->
    let d := without_clients calls (LogProcessor._client_id_to_username s) in
    LogProcessor.for_each calls LogProcessor._handle_disconnect__delayed s
    = (Ok tt,
       LogProcessor.set__username_to_client_id (usernames_to_client_ids d)
         (LogProcessor.set__client_id_to_username d s)).
Proof.
  induction calls as [| c calls IH]; intros s Hnd Hc Hne; [now elim Hne |].
  inversion Hnd as [| ? ? Hnotin Hnd']; subst.
  inversion Hc as [| ? ? Hc1 Hc']; subst.
  cbv zeta. cbn [LogProcessor.for_each]. unfold LogProcessor.bind.
  rewrite (delayed_connected c s Hc1).
  destruct calls as [| c' calls].
  - destruct s. reflexivity.
  - rewrite IH; [| exact Hnd' | | discriminate].
    + destruct s. reflexivity.
    + apply Forall_forall. intros b Hb.
      rewrite Forall_forall in Hc'. specialize (Hc' b Hb).
      apply connected_disconnected; [| exact Hc'].
      intros ->. contradiction.
Qed.

(** And when it meets a client that is not connected. *)
Lemma flush_loop_raises (done : list Z) :
  forall s client_id rest,
    NoDup done ->
    Forall (connected s) done ->
    Py.lookup (PyInt client_id)
      (without_clients done (LogProcessor._client_id_to_username s)) = None ->
    let r :=
      LogProcessor.for_each (done ++ client_id :: rest)
        LogProcessor._handle_disconnect__delayed s in
    fst r = Raise KeyError
    /\ LogProcessor._client_id_to_username (snd r)
       = without_clients done (LogProcessor._client_id_to_username s)
    /\ LogProcessor._delayed_calls (snd r) = LogProcessor._delayed_calls s.
Proof.
  induction done as [| c done IH]; intros s client_id rest Hnd Hc Hl;
    cbv zeta.
  - cbn [app LogProcessor.for_each without_clients fold_left] in *.
    unfold LogProcessor.bind.
    rewrite (delayed_not_connected client_id s Hl). now repeat split.
  - inversion Hnd as [| ? ? Hnotin Hnd']; subst.
    inversion Hc as [| ? ? Hc1 Hc']; subst.
    cbn [app LogProcessor.for_each]. unfold LogProcessor.bind.
    rewrite (delayed_connected c s Hc1).
    assert (E1 : LogProcessor._client_id_to_username (disconnected c s)
                 = Py.remove (PyInt c) (LogProcessor._client_id_to_username s))
      by (destruct s; reflexivity).
    assert (E2 : LogProcessor._delayed_calls (disconnected c s)
                 = LogProcessor._delayed_calls s)
      by (destruct s; reflexivity).
    destruct (IH (disconnected c s) client_id rest Hnd') as [H1 [H2 H3]].
    + apply Forall_forall. intros b Hb.
      rewrite Forall_forall in Hc'. specialize (Hc' b Hb).
      apply connected_disconnected; [| exact Hc'].
      intros ->. contradiction.
    + rewrite E1. exact Hl.
    + rewrite H1, H2, H3, E1, E2. now repeat split.
Qed.

Lemma lookup_put_kept {V : Type} (k k' : pyval) (v : V) (d : pydict V) :
  Py.lookup k d <> None -> Py.lookup k (Py.put k' v d) <> None.
Proof.
  induction d as [| [k0 v0] d IH]; [intros H; now elim H |].
  cbn [Py.lookup Py.put].
  destruct (Py.eqb k' k0); cbn [Py.lookup];
    destruct (Py.eqb k k0); try discriminate; try exact IH.
  trivial.
Qed.

(** No line but one that ends a frame takes a client off the map. *)
Lemma handle_line_keeps_connected (enums : enums_py)
  (l : LogParser.parsed_line) (s : LogProcessor.t) (client_id : Z) :
  ends_frame l = false ->
  connected s client_id ->
  connected (snd (LogProcessor.handle_line enums l s)) client_id.
Proof.
  intros He Hc.
  destruct (inert_for_clients l) eqn:Ei.
  - pose proof (keeps_handle_line enums l Ei s) as Hk.
    unfold clients in Hk. injection Hk as Hk _ _.
    unfold connected. now rewrite Hk.
  - revert He Ei. unfold ends_frame, inert_for_clients, LogProcessor.handle_line.
    destruct (LogParser.handled_line_type l) as [[] |];
      try discriminate;
      destruct (LogParser.parse_line_data l);
      try discriminate; intros _ _; try exact Hc.
    unfold connected, has_key in *. destruct s. cbn.
    now apply lookup_put_kept.
Qed.

Lemma go_lines_keep_connected (enums : enums_py)
  (lines : list LogParser.parsed_line) :
  forall s client_id,
    forallb (fun l => negb (ends_frame l)) lines = true ->
    connected s client_id ->
    connected (snd (LogProcessor.go_lines enums lines s)) client_id.
Proof.
  induction lines as [| l lines IH]; intros s client_id H Hc; [exact Hc |].
  simpl in H. apply andb_true_iff in H. destruct H as [Hl Hlines].
  apply negb_true_iff in Hl.
  pose proof (handle_line_keeps_connected enums l s client_id Hl Hc) as Hk.
  cbn [LogProcessor.go_lines].
  destruct (LogProcessor.handle_line enums l s) as [[[] | e] s1];
    cbn [snd] in Hk; [| exact Hk].
  specialize (IH (match LogProcessor._expired_games s1 with
                  | [] => s1
                  | _ :: _ => LogProcessor.set__expired_games [] s1
                  end) client_id Hlines).
  destruct (LogProcessor.go_lines enums lines _) as [[games e] s2].
  cbn [snd] in *. apply IH.
  destruct (LogProcessor._expired_games s1); [exact Hk |].
  unfold connected in *. now destruct s1.
Qed.

Lemma blank_line_unfold (s : LogProcessor.t) :
  LogProcessor._handle_blank_line s
  = match LogProcessor._delayed_calls s with
    | [] => (Ok tt, s)
    | calls =>
        match LogProcessor.for_each calls
                LogProcessor._handle_disconnect__delayed s with
        | (Ok _, s') => (Ok tt, LogProcessor.set__delayed_calls [] s')
        | (Raise e, s') => (Raise e, s')
        end
    end.
Proof.
  unfold LogProcessor._handle_blank_line.
  unfold LogProcessor.bind at 1, LogProcessor.get. cbn [fst snd].
  destruct (LogProcessor._delayed_calls s); reflexivity.
Qed.

(** C8 (amended).  Reading a disconnect line changes neither
    client-id-to-username map and only queues the removal.  Whatever the
    lines that follow, as long as they are of the types [time],
    [command_to_client], [command_to_server], [log] and [game_expired] or
    of no type, the maps and the queue stay as the disconnect line left
    them, also when one of these lines raises: every command in between
    sees the old mapping.  No line takes a client off the map but a line
    of type [blank_line], [connection_made] or [error], which ends the
    frame: [LogProcessor] handles the three alike.  There every queued
    client is deleted, in the order of the queue, the map from user names
    is rebuilt from what is left and the queue is emptied; a queued
    client that is not connected when its turn comes ends the run with
    [KeyError], the queue as it was. *)
Theorem disconnect_is_delayed (enums : enums_py) :
  (forall client_id s,
      LogProcessor._handle_disconnect client_id s
      = (Ok tt,
         LogProcessor.set__delayed_calls
           (LogProcessor._delayed_calls s ++ [client_id]) s))
  /\ (forall l client_id between s,
         is_disconnect_of client_id l ->
         forallb inert_for_clients between = true ->
         clients (snd (LogProcessor.go_lines enums (l :: between) s))
         = (LogProcessor._client_id_to_username s,
            LogProcessor._username_to_client_id s,
            LogProcessor._delayed_calls s ++ [client_id]))
  /\ (forall lines s client_id,
         forallb (fun l => negb (ends_frame l)) lines = true ->
         connected s client_id ->
         connected (snd (LogProcessor.go_lines enums lines s)) client_id)
  /\ (forall l s,
         ends_frame l = true ->
         LogProcessor.handle_line enums l s = LogProcessor._handle_blank_line s)
  /\ (forall s,
         LogProcessor._delayed_calls s = [] ->
         LogProcessor._handle_blank_line s = (Ok tt, s))
  /\ (forall s,
         LogProcessor._delayed_calls s <> [] ->
         NoDup (LogProcessor._delayed_calls s) ->
         Forall (connected s) (LogProcessor._delayed_calls s) ->
         LogProcessor._handle_blank_line s = (Ok tt, flushed s))
  /\ (forall s done client_id rest,
         LogProcessor._delayed_calls s = done ++ client_id :: rest ->
         NoDup done ->
         Forall (connected s) done ->
         Py.lookup (PyInt client_id)
           (without_clients done (LogProcessor._client_id_to_username s))
         = None ->
         let r := LogProcessor._handle_blank_line s in
         fst r = Raise KeyError
         /\ LogProcessor._client_id_to_username (snd r)
            = without_clients done (LogProcessor._client_id_to_username s)
         /\ LogProcessor._delayed_calls (snd r)
            = LogProcessor._delayed_calls s).
Proof.
  split; [| split; [| split; [| split; [| split; [| split]]]]].
  - intros client_id s. reflexivity.
  - intros l client_id between s [Ht Hd] Hb.
    cbn [LogProcessor.go_lines].
    unfold LogProcessor.handle_line at 1. rewrite Ht, Hd.
    unfold LogProcessor._handle_disconnect, LogProcessor.modify.
    set (s1 := LogProcessor.set__delayed_calls _ s).
    pose proof (go_lines_keeps_clients enums between
                  (match LogProcessor._expired_games s1 with
                   | [] => s1
                   | _ :: _ => LogProcessor.set__expired_games [] s1
                   end) Hb) as Hk.
    destruct (LogProcessor.go_lines enums between _) as [[games e] s2].
    cbn [snd] in *. rewrite Hk.
    destruct s as [ts c2u u2c c2g g2g delayed expired time].
    now destruct expired.
  - apply go_lines_keep_connected.
  - intros l s. unfold ends_frame, LogProcessor.handle_line.
    destruct (LogParser.handled_line_type l) as [[] |];
      destruct (LogParser.parse_line_data l);
      try discriminate; reflexivity.
  - intros s Hq. rewrite blank_line_unfold. now rewrite Hq.
  - intros s Hq Hnd Hc. rewrite blank_line_unfold.
    destruct (LogProcessor._delayed_calls s) as [| c calls] eqn:Eq;
      [now elim Hq |].
    rewrite (flush_loop (c :: calls) s Hnd Hc Hq).
    unfold flushed. rewrite Eq. destruct s. reflexivity.
  - intros s done client_id rest Hq Hnd Hc Hl. cbv zeta.
    rewrite blank_line_unfold, Hq.
    destruct (flush_loop_raises done s client_id rest Hnd Hc Hl)
      as [H1 [H2 H3]].
    destruct (done ++ client_id :: rest) as [| c calls] eqn:Eq;
      [now destruct done |].
    destruct (LogProcessor.for_each (c :: calls) _ s) as [[[] | e] s1];
      cbn [fst snd] in *; [discriminate |].
    split; [exact H1 |]. split; [exact H2 |]. now rewrite H3.
Qed.

Lemma disconnect_is_delayed_witness :
  LogProcessor._handle_blank_line processor_after_two_disconnects
  = (Ok tt, flushed processor_after_two_disconnects)
  /\ clients processor_after_two_disconnects
     = ([(PyInt 5, PyStr "alice"); (PyInt 6, PyStr "bob")],
        [(PyStr "alice", PyInt 5); (PyStr "bob", PyInt 6)], [5; 6])
  /\ clients (flushed processor_after_two_disconnects) = ([], [], []).
Proof.
  split; [| split; reflexivity].
  apply (proj1 (proj2 (proj2 (proj2 (proj2 (proj2
                 (disconnect_is_delayed enums_instance))))))
           processor_after_two_disconnects).
  - discriminate.
  - repeat constructor; simpl; intuition discriminate.
  - repeat constructor; unfold connected, has_key; simpl; discriminate.
Defined.

(** C8 as stated fails.  In the file below the line [connection_lost], of
    type [error], follows the disconnect line of client 5 within the
    frame.  The removal of client 5 is applied at that line, before any
    blank line, and the lines after it in the frame no longer see the old
    mapping. *)
Lemma disconnect_flushed_early_counterexample :
  map LogParser.handled_line_type disconnect_lines
  = [ Some LineTypes.connect; Some LineTypes.disconnect;
      Some LineTypes.error; None; Some LineTypes.blank_line ]
  /\ clients (processor_after 2 disconnect_lines)
     = ([(PyInt 5, PyStr "alice")], [(PyStr "alice", PyInt 5)], [5])
  /\ clients (processor_after 3 disconnect_lines) = ([], [], []).
Proof.
  repeat split; vm_compute; reflexivity.
Qed.

(* ------------------------------------------------------------------ *)
(** ** Exceptions while a file is processed *)

Lemma for_each_try_never_raises {A : Type} (l : list A)
  (body : A -> LogProcessor.M unit) :
  never_raises
    (LogProcessor.for_each l (fun x => LogProcessor.try_ (body x))).
Proof.
  induction l as [| x l IH]; intros s; simpl; [reflexivity |].
  unfold LogProcessor.bind, LogProcessor.try_ at 1. simpl. apply IH.
Qed.

Lemma batch_never_raises (enums : enums_py) (client_ids : list Z)
  (commands : list pyval) :
  never_raises
    (LogProcessor._handle_command_to_client enums client_ids (PyList commands)).
Proof.
  intros s. unfold LogProcessor._handle_command_to_client.
  unfold LogProcessor.bind at 1, LogProcessor.lift. simpl.
  apply for_each_try_never_raises.
Qed.

Lemma batch_continues (enums : enums_py) (client_ids : list Z)
  (command : pyval) (commands : list pyval) (s : LogProcessor.t) :
  LogProcessor._handle_command_to_client enums client_ids
    (PyList (command :: commands)) s
  = LogProcessor._handle_command_to_client enums client_ids (PyList commands)
      (snd (LogProcessor.dispatch_command_to_client enums client_ids command
              s)).
Proof. reflexivity. Qed.

Lemma guarded_line_never_raises (enums : enums_py)
  (l : LogParser.parsed_line) (s : LogProcessor.t) :
  guarded_line l = true ->
  LogProcessor._delayed_calls s = [] ->
  fst (LogProcessor.handle_line enums l s) = Ok tt
  /\ LogProcessor._delayed_calls (snd (LogProcessor.handle_line enums l s))
     = [].
Proof.
  intros Hg Hd.
  assert (Hkeeps : forall m : LogProcessor.M unit,
             keeps_clients m -> LogProcessor._delayed_calls (snd (m s)) = []).
  { intros m Hm. specialize (Hm s). unfold clients in Hm.
    injection Hm as _ _ ->. exact Hd. }
  revert Hg. unfold guarded_line, LogProcessor.handle_line.
  destruct (LogParser.handled_line_type l) as [[] |];
    destruct (LogParser.parse_line_data l) as [| | | ? [] | | | | |];
    try discriminate; intros _;
    lazymatch goal with
    | |- context [LogProcessor._handle_time] =>
        split; [reflexivity | apply Hkeeps, keeps_handle_time]
    | |- context [LogProcessor._handle_command_to_client] =>
        split; [apply batch_never_raises
               | apply Hkeeps, keeps_handle_command_to_client]
    | |- context [LogProcessor._handle_command_to_server] =>
        split; [reflexivity | apply Hkeeps, keeps_handle_command_to_server]
    | |- context [LogProcessor._handle_blank_line] =>
        unfold LogProcessor._handle_blank_line, LogProcessor.bind,
          LogProcessor.get; rewrite Hd; split; [reflexivity | exact Hd]
    | |- _ => split; [reflexivity | exact Hd]
    end.
Qed.

Lemma guarded_lines_never_raise (enums : enums_py)
  (lines : list LogParser.parsed_line) :
  forall s,
    forallb guarded_line lines = true ->
    LogProcessor._delayed_calls s = [] ->
    snd (fst (LogProcessor.go_lines enums lines s)) = None.
Proof.
  induction lines as [| l lines IH]; intros s H Hd; simpl; [reflexivity |].
  simpl in H. apply andb_true_iff in H. destruct H as [Hl Hlines].
  destruct (guarded_line_never_raises enums l s Hl Hd) as [Hok Hd'].
  destruct (LogProcessor.handle_line enums l s) as [[[] | e] s'];
    simpl in Hok, Hd'; [| discriminate].
  specialize (IH (match LogProcessor._expired_games s' with
                  | [] => s'
                  | _ :: _ => LogProcessor.set__expired_games [] s'
                  end) Hlines).
  destruct (LogProcessor.go_lines enums lines _) as [[games e] s''].
  apply IH. now destruct (LogProcessor._expired_games s').
Qed.

(* ------------------------------------------------------------------ *)
(** ** The data of a line fit its type *)

Section ParserTyped.

Variable ujson_decode : string -> option pyval.

Lemma matchers_typed :
  Forall matcher_typed (LogParser._line_matchers_and_handlers ujson_decode).
Proof.
  unfold LogParser._line_matchers_and_handlers.
  repeat (apply Forall_cons; [| ]); try apply Forall_nil;
    unfold matcher_typed; cbn [fst snd]; try reflexivity;
    intros m self d self'.
  - unfold LogParser._handle_time.
    destruct (float_accepts _); [| discriminate].
    intros H. injection H as <- _. reflexivity.
  - unfold LogParser._handle_command_to_client.
    destruct (rmap _ _); [| discriminate].
    destruct (ujson_decode _); [| discriminate].
    destruct (CommandsToClientTranslator.translate _ _);
      [cbn [rbind] | discriminate].
    destruct (LogParser.reorder_obj _ _ _); [cbn [rbind] | discriminate].
    intros H. injection H as <- _. reflexivity.
  - unfold LogParser._handle_command_to_server.
    destruct (py_int _); [| discriminate].
    destruct (ujson_decode _); [| discriminate].
    intros H. injection H as <- _. reflexivity.
  - unfold LogParser._handle_log.
    destruct (ujson_decode _); [| discriminate].
    intros H. injection H as <- _. reflexivity.
  - unfold LogParser._handle_connect.
    destruct (py_int _); [| discriminate].
    intros H. injection H as <- _. reflexivity.
  - unfold LogParser._handle_disconnect.
    destruct (py_int _); [| discriminate].
    intros H. injection H as <- _. reflexivity.
  - unfold LogParser._handle_game_expired.
    destruct (py_int _); [| discriminate].
    intros H. injection H as <- _. reflexivity.
  - unfold LogParser._handle_connect.
    destruct (py_int _); [| discriminate].
    intros H. injection H as <- _. reflexivity.
  - unfold LogParser._handle_disconnect.
    destruct (py_int _); [| discriminate].
    intros H. injection H as <- _. reflexivity.
  - unfold LogParser._handle_command_to_server.
    destruct (py_int _); [| discriminate].
    destruct (ujson_decode _); [| discriminate].
    intros H. injection H as <- _. reflexivity.
  - unfold LogParser._handle_connection_made.
    destruct (_ =? 1)%nat; [| discriminate].
    intros H. injection H as <- _. reflexivity.
Qed.

Lemma match_line_typed
  (ms : list (LineTypes.t * Re.regex * option LogParser.handler))
  (line : string) (self : LogParser.t) (o : LogParser.line_outcome) :
  Forall matcher_typed ms ->
  LogParser.match_line ms line self = Ok o ->
  LogParser.lo_stop_processing_file o = false ->
  match LogParser.lo_handled_line_type o with
  | Some line_type => typed line_type (LogParser.lo_parse_line_data o) = true
  | None => True
  end.
Proof.
  intros Hms. revert self.
  induction Hms as [| [[line_type regex] h] ms Hm _ IH]; intros self; simpl.
  - intros H _. injection H as <-. exact I.
  - destruct (Re.match_ regex line) as [m |]; [| apply IH].
    unfold matcher_typed in Hm. cbn [fst snd] in Hm.
    destruct h as [h |].
    + destruct (h m self) as [[r self'] |] eqn:Eh;
        [cbn [rbind fst snd] | discriminate].
      destruct r as [| | d].
      * apply IH.
      * intros H. injection H as <-. discriminate.
      * intros H _. injection H as <-. cbn. eapply Hm. exact Eh.
    + intros H _. injection H as <-. exact Hm.
Qed.

Lemma loop_typed (file : list string) :
  forall self h n,
    Forall (fun l => well_typed l = true)
           (LogParser.yields (LogParser.go_loop ujson_decode self file h n)).
Proof.
  induction file as [| raw file IH]; intros self h n; [constructor |].
  rewrite loop_cons.
  destruct (LogParser.match_line _ _ self) as [o | e] eqn:E; [| constructor].
  destruct (LogParser.lo_stop_processing_file o) eqn:Es; [constructor |].
  cbn [LogParser.yields]. constructor; [| apply IH].
  unfold well_typed. cbn [LogParser.handled_line_type LogParser.parse_line_data].
  pose proof (match_line_typed _ _ _ _ matchers_typed E Es) as Ht.
  now destruct (LogParser.lo_handled_line_type o).
Qed.

Lemma go_typed (self : LogParser.t) (file : list string) :
  Forall (fun l => well_typed l = true)
         (fst (LogParser.go ujson_decode self file)).
Proof.
  unfold LogParser.go.
  pose proof (loop_typed file self None 0%nat) as H.
  destruct (LogParser.ended _); cbn [fst]; try exact H;
    (destruct (LogParser.is_blank_line _); cbn [fst]; [exact H |];
     apply Forall_app; split; [exact H |]; repeat constructor).
Qed.

End ParserTyped.

(* ------------------------------------------------------------------ *)
(** ** Where the processor can raise *)

Lemma go_lines_app (enums : enums_py) (before : list LogParser.parsed_line) :
  forall after s,
    LogProcessor.go_lines enums (before ++ after) s
    = match LogProcessor.go_lines enums before s with
      | (games, None, s1) =>
          let '(games', e, s2) := LogProcessor.go_lines enums after s1 in
          (games ++ games', e, s2)
      | (games, Some e, s1) => (games, Some e, s1)
      end.
Proof.
  induction before as [| l before IH]; intros after s.
  - cbn [app LogProcessor.go_lines].
    now destruct (LogProcessor.go_lines enums after s) as [[games e] s2].
  - cbn [app LogProcessor.go_lines].
    destruct (LogProcessor.handle_line enums l s) as [[[] | e] s1];
      [| reflexivity].
    rewrite IH.
    destruct (LogProcessor.go_lines enums before _) as [[games [e |]] s2];
      [reflexivity |].
    destruct (LogProcessor.go_lines enums after s2) as [[games' e'] s3].
    now rewrite app_assoc.
Qed.

(** The line at which the processor raised. *)
Lemma go_lines_raised (enums : enums_py)
  (lines : list LogParser.parsed_line) :
  forall s e,
    raised_on enums lines s = Some e ->
    exists before l after,
      lines = before ++ l :: after
      /\ raised_on enums before s = None
      /\ fst (LogProcessor.handle_line enums l (state_after enums before s))
         = Raise e.
Proof.
  unfold raised_on, state_after.
  induction lines as [| l lines IH]; intros s e; [discriminate |].
  cbn [LogProcessor.go_lines].
  destruct (LogProcessor.handle_line enums l s) as [[[] | e0] s1] eqn:El.
  - set (s2 := match LogProcessor._expired_games s1 with
               | [] => s1
               | _ :: _ => LogProcessor.set__expired_games [] s1
               end).
    specialize (IH s2 e).
    destruct (LogProcessor.go_lines enums lines s2) as [[games e'] s3] eqn:Eg.
    cbn [fst snd]. intros ->.
    destruct (IH eq_refl) as [before [l' [after [-> [Hb Hl]]]]].
    exists (l :: before), l', after.
    split; [reflexivity |].
    cbn [LogProcessor.go_lines]. rewrite El. fold s2.
    destruct (LogProcessor.go_lines enums before s2) as [[games1 e1] s4].
    cbn [fst snd] in *. now split.
  - cbn [fst snd]. intros H. injection H as <-.
    exists [], l, lines. cbn [LogProcessor.go_lines fst snd].
    rewrite El. now repeat split.
Qed.

Lemma go_lines_raises_at (enums : enums_py)
  (before : list LogParser.parsed_line) (l : LogParser.parsed_line)
  (after : list LogParser.parsed_line) (s : LogProcessor.t) (e : exn) :
  raised_on enums before s = None ->
  fst (LogProcessor.handle_line enums l (state_after enums before s))
  = Raise e ->
  raised_on enums (before ++ l :: after) s = Some e.
Proof.
  unfold raised_on, state_after. rewrite go_lines_app.
  destruct (LogProcessor.go_lines enums before s) as [[games [e0 |]] s1];
    cbn [fst snd]; [discriminate |].
  intros _ Hl. cbn [LogProcessor.go_lines].
  destruct (LogProcessor.handle_line enums l s1) as [[[] | e1] s2];
    cbn [fst] in Hl; [discriminate |].
  injection Hl as ->. reflexivity.
Qed.

Lemma iterable_batch_never_raises (enums : enums_py) (client_ids : list Z)
  (commands : pyval) (s : LogProcessor.t) :
  is_ok (Py.iter commands) = true ->
  fst (LogProcessor._handle_command_to_client enums client_ids commands s)
  = Ok tt.
Proof.
  unfold LogProcessor._handle_command_to_client.
  unfold LogProcessor.bind at 1, LogProcessor.lift.
  destruct (Py.iter commands) as [items |]; [| discriminate].
  intros _. apply for_each_try_never_raises.
Qed.

Lemma blank_line_unfold_0 (s : LogProcessor.t) :
  LogProcessor._delayed_calls s = [] ->
  LogProcessor._handle_blank_line s = (Ok tt, s).
Proof.
  intros Hq. unfold LogProcessor._handle_blank_line, LogProcessor.bind,
    LogProcessor.get. cbn [fst snd]. now rewrite Hq.
Qed.

(** A line at which the processor raises is one of those it does not
    guard. *)
Lemma raising_line_unguarded (enums : enums_py) (l : LogParser.parsed_line)
  (s : LogProcessor.t) (e : exn) :
  well_typed l = true ->
  fst (LogProcessor.handle_line enums l s) = Raise e ->
  unguarded l s.
Proof.
  unfold well_typed, unguarded, LogProcessor.handle_line.
  destruct (LogParser.handled_line_type l) as [[] |];
    destruct (LogParser.parse_line_data l) as [| | | ids commands | | | | |];
    try discriminate; intros _; try exact (fun _ => I);
    try (intros H; discriminate H).
  - destruct (is_ok (Py.iter commands)) eqn:Ei; [| reflexivity].
    rewrite (iterable_batch_never_raises enums ids commands s Ei).
    discriminate.
  - intros H Hq. rewrite blank_line_unfold_0 in H by exact Hq. discriminate.
  - intros H Hq. rewrite blank_line_unfold_0 in H by exact Hq. discriminate.
  - intros H Hq. rewrite blank_line_unfold_0 in H by exact Hq. discriminate.
Qed.

(** C4 (amended).  An exception raised while one command of a batch to
    clients, or a command to the server, is dispatched is caught, and the
    batch goes on with its next command from the state the failed command
    left.  Nothing else is caught.  [LogProcessor.go], the processor
    constructed with [verbose=False], ends with an exception when, and
    only when, [LogParser] raised it while it read a line, the lines
    before having been handled, or a handler of the processor raised it
    at a line.  Such a line is one where a game expires, a log entry, a
    batch of commands that cannot be run through, or the end of a frame
    while a disconnect is queued.  So a file that the parser reads
    without an exception, and in which it finds nothing but unmatched
    lines, [time] and [connect] lines, commands to the server, batches
    that are lists and lines that end a frame, does not make [go]
    raise.  When [go] ends with an exception it has yielded what it
    yielded while it handled the lines, and not the games that are open
    then; these it yields when it ends without an exception. *)
Theorem command_exceptions_are_caught (enums : enums_py) :
  (forall client_ids commands s,
      is_ok (Py.iter commands) = true ->
      fst (LogProcessor._handle_command_to_client enums client_ids commands s)
      = Ok tt)
  /\ (forall client_ids command commands s,
         LogProcessor._handle_command_to_client enums client_ids
           (PyList (command :: commands)) s
         = LogProcessor._handle_command_to_client enums client_ids
             (PyList commands)
             (snd (LogProcessor.dispatch_command_to_client enums client_ids
                     command s)))
  /\ (forall client_id command s,
         fst (LogProcessor._handle_command_to_server enums client_id command s)
         = Ok tt)
  /\ (forall ujson_decode _translations log_timestamp file e,
         let parsed :=
           LogParser.go ujson_decode
             (LogParser.__init__ enums _translations log_timestamp) file in
         let s0 := LogProcessor.__init__ log_timestamp in
         snd (LogProcessor.go enums ujson_decode _translations log_timestamp
                file) = Some e
         <-> (snd parsed = Some e /\ raised_on enums (fst parsed) s0 = None)
             \/ exists before l after,
                  fst parsed = before ++ l :: after
                  /\ raised_on enums before s0 = None
                  /\ fst (LogProcessor.handle_line enums l
                            (state_after enums before s0)) = Raise e)
  /\ (forall ujson_decode _translations log_timestamp file before l after e,
         let s0 := LogProcessor.__init__ log_timestamp in
         fst (LogParser.go ujson_decode
                (LogParser.__init__ enums _translations log_timestamp) file)
         = before ++ l :: after ->
         fst (LogProcessor.handle_line enums l (state_after enums before s0))
         = Raise e ->
         unguarded l (state_after enums before s0))
  /\ (forall ujson_decode _translations log_timestamp file,
         let parsed :=
           LogParser.go ujson_decode
             (LogParser.__init__ enums _translations log_timestamp) file in
         snd parsed = None ->
         forallb guarded_line (fst parsed) = true ->
         snd (LogProcessor.go enums ujson_decode _translations log_timestamp
                file) = None)
  /\ (forall ujson_decode _translations log_timestamp file,
         let lines :=
           fst (LogParser.go ujson_decode
                  (LogParser.__init__ enums _translations log_timestamp)
                  file) in
         let s0 := LogProcessor.__init__ log_timestamp in
         let result :=
           LogProcessor.go enums ujson_decode _translations log_timestamp
             file in
         fst result
         = yielded_on enums lines s0
             ++ match snd result with
                | None =>
                    Dict.values
                      (LogProcessor._game_id_to_game
                         (state_after enums lines s0))
                | Some _ => []
                end).
Proof.
  split; [| split; [| split; [| split; [| split; [| split]]]]].
  - intros. now apply iterable_batch_never_raises.
  - intros. apply batch_continues.
  - intros. reflexivity.
  - intros ujson_decode _translations log_timestamp file e.
    unfold LogProcessor.go, LogProcessor.go_parsed. cbv zeta.
    set (parsed := LogParser.go ujson_decode _ file).
    set (s0 := LogProcessor.__init__ log_timestamp).
    pose proof (go_lines_raised enums (fst parsed) s0) as Hr.
    pose proof (fun before l after =>
                  go_lines_raises_at enums before l after s0) as Hat.
    unfold raised_on in *.
    destruct (LogProcessor.go_lines enums (fst parsed) s0)
      as [[games [e1 |]] s1] eqn:Eg; cbn [fst snd] in *.
    + split.
      * intros H. injection H as <-. right.
        destruct (Hr e1 eq_refl) as [before [l [after [Ep [Hb Hl]]]]].
        exists before, l, after. now repeat split.
      * intros [[_ H] | [before [l [after [Ep [Hb Hl]]]]]]; [discriminate |].
        specialize (Hat before l after e Hb Hl).
        rewrite <- Ep, Eg in Hat. exact Hat.
    + split.
      * destruct (snd parsed) as [e2 |]; [| discriminate].
        intros H. injection H as <-. left. now split.
      * intros [[H _] | [before [l [after [Ep [Hb Hl]]]]]].
        -- now rewrite H.
        -- specialize (Hat before l after e Hb Hl).
           rewrite <- Ep, Eg in Hat. discriminate.
  - intros ujson_decode _translations log_timestamp file before l after e s0
      Ep Hl.
    apply (raising_line_unguarded enums l _ e); [| exact Hl].
    pose proof (go_typed ujson_decode
                  (LogParser.__init__ enums _translations log_timestamp)
                  file) as Ht.
    rewrite Ep, Forall_forall in Ht.
    apply Ht. apply in_or_app. right. now left.
  - intros ujson_decode _translations log_timestamp file parsed Hp Hg.
    unfold LogProcessor.go, LogProcessor.go_parsed. fold parsed.
    pose proof (guarded_lines_never_raise enums (fst parsed)
                  (LogProcessor.__init__ log_timestamp) Hg eq_refl) as Hn.
    destruct (LogProcessor.go_lines enums (fst parsed) _) as [[games e] s1].
    cbn [fst snd] in Hn. subst e. now rewrite Hp.
  - intros ujson_decode _translations log_timestamp file. cbv zeta.
    unfold LogProcessor.go, LogProcessor.go_parsed, yielded_on, state_after.
    destruct (LogProcessor.go_lines enums _ _) as [[games e] s1].
    cbn [fst snd].
    destruct e as [e |]; [cbn [fst snd]; now rewrite app_nil_r |].
    destruct (snd (LogParser.go ujson_decode _ file));
      cbn [fst snd]; [now rewrite app_nil_r | reflexivity].
Qed.

Lemma command_exceptions_are_caught_witness :
  snd (LogProcessor.go enums_instance one_batch_json translations_instance
         1500000000 unrouted_batch_file)
  = None.
Proof.
  apply (proj1 (proj2 (proj2 (proj2 (proj2 (proj2
           (command_exceptions_are_caught enums_instance))))))
           one_batch_json translations_instance 1500000000
           unrouted_batch_file).
  - vm_compute. reflexivity.
  - vm_compute. reflexivity.
Defined.

(** C4 as stated fails.  [go] raises [KeyError] to its caller when a game
    that the file never introduced expires, and when the frame ends after
    the disconnect of a client that never connected; it raises
    [ValueError] when [float] rejects the number on a [time:] line, and
    [IndexError] when a batch holds a command without a code.  And a game
    that is open when [go] raises is not yielded: in the last file game 7
    has begun when the line of game 5 raises. *)
Lemma go_raises_counterexample :
  LogProcessor.go enums_instance no_json translations_instance 1500000000
    [ln "game #5 expired"] = ([], Some KeyError)
  /\ LogProcessor.go enums_instance no_json translations_instance 1500000000
       [ln "5 disconnect"; ln ""] = ([], Some KeyError)
  /\ LogProcessor.go enums_instance no_json translations_instance 1500000000
       [ln "time: 1.2.3"] = ([], Some ValueError)
  /\ LogProcessor.go enums_instance empty_command_json translations_instance
       1500000000 [ln "5 <- [[]]"] = ([], Some IndexError)
  /\ Dict.keys
       (LogProcessor._game_id_to_game
          (state_after enums_instance (firstn 1 lost_game_lines)
             (LogProcessor.__init__ 1500000000)))
     = [PyInt 7]
  /\ LogProcessor.go enums_instance one_entry_json translations_instance
       1500000000 lost_game_file = ([], Some KeyError).
Proof.
  repeat split; vm_compute; reflexivity.
Qed.

(* ================================================================== *)
(** * Further properties of the code *)

(* ------------------------------------------------------------------ *)
(** ** Which recorded change translates an enumeration *)

Lemma sdict_lookup_put {V : Type} (k k' : string) (v : V) (d : sdict V) :
  SDict.lookup k (SDict.put k' v d)
  = if String.eqb k k' then Some v else SDict.lookup k d.
Proof.
  induction d as [| [k0 v0] d IH]; simpl.
  - reflexivity.
  - destruct (String.eqb k' k0) eqn:E; simpl.
    + apply String.eqb_eq in E. subst k0.
      now destruct (String.eqb k k').
    + rewrite IH. destruct (String.eqb k k0) eqn:E0; [| reflexivity].
      apply String.eqb_eq in E0. subst k0.
      destruct (String.eqb k k') eqn:E1; [| reflexivity].
      apply String.eqb_eq in E1. subst k'.
      rewrite String.eqb_refl in E. discriminate.
Qed.

Lemma sdict_lookup_none {V : Type} (k : string) (d : sdict V) :
  SDict.lookup k d = None <-> ~ In k (SDict.keys d).
Proof.
  induction d as [| [k0 v0] d IH]; simpl.
  - intuition.
  - destruct (String.eqb k k0) eqn:E.
    + apply String.eqb_eq in E. subst. split; [discriminate | intuition].
    + apply String.eqb_neq in E. rewrite IH. intuition congruence.
Qed.

Lemma sdict_lookup_update {V : Type} (k : string) (e d : sdict V) :
  distinct_keys e ->
  SDict.lookup k (SDict.update d e)
  = match SDict.lookup k e with
    | Some v => Some v
    | None => SDict.lookup k d
    end.
Proof.
  unfold SDict.update, distinct_keys. revert d.
  induction e as [| [k0 v0] e IH]; intros d Hnd; simpl.
  - reflexivity.
  - inversion Hnd as [| ? ? Hnotin Hnd']; subst.
    rewrite (IH _ Hnd'), sdict_lookup_put.
    destruct (String.eqb k k0) eqn:E; [| reflexivity].
    apply String.eqb_eq in E. subst k0.
    apply sdict_lookup_none in Hnotin. now rewrite Hnotin.
Qed.

Lemma fold_updates_lookup (f : string) (m : Enums.index_map)
  (l : list (Z * sdict Enums.index_map)) :
  StronglySorted strictly_newer_first l ->
  Forall (fun tc => distinct_keys (snd tc)) l ->
  forall acc,
    SDict.lookup f (fold_left SDict.update (map snd l) acc) = Some m
    <-> (exists ts ch,
            In (ts, ch) l /\ SDict.lookup f ch = Some m
            /\ forall ts' ch',
                 In (ts', ch') l -> SDict.lookup f ch' <> None -> ts <= ts')
        \/ ((forall ts' ch', In (ts', ch') l -> SDict.lookup f ch' = None)
            /\ SDict.lookup f acc = Some m).
Proof.
  induction 1 as [| [ts0 ch0] l Hs IH Hall]; intros Hd acc.
  - simpl. split.
    + intros H. right. split; [intros ? ? [] | exact H].
    + intros [[ts [ch [[] _]]] | [_ H]]. exact H.
  - inversion Hd as [| ? ? Hd0 Hd']; subst. simpl in Hd0.
    cbn [map fold_left]. rewrite (IH Hd').
    rewrite (sdict_lookup_update _ _ _ Hd0). split.
    + intros [[ts [ch [Hin [Hl Hmin]]]] | [Hnone Hl]].
      * left. exists ts, ch. split; [now right |]. split; [exact Hl |].
        intros ts' ch' [Heq | Hin'] Hsome.
        -- injection Heq as <- <-.
           rewrite Forall_forall in Hall. specialize (Hall _ Hin).
           unfold strictly_newer_first in Hall. simpl in Hall. lia.
        -- now apply (Hmin ts' ch').
      * destruct (SDict.lookup f ch0) as [v |] eqn:E.
        -- left. exists ts0, ch0. split; [now left |].
           split; [congruence |].
           intros ts' ch' [Heq | Hin'] Hsome.
           ++ injection Heq as <- <-. lia.
           ++ now rewrite (Hnone _ _ Hin') in Hsome.
        -- right. split; [| exact Hl].
           intros ts' ch' [Heq | Hin'].
           ++ now injection Heq as <- <-.
           ++ now apply (Hnone ts' ch').
    + intros [[ts [ch [[Heq | Hin] [Hl Hmin]]]] | [Hnone Hl]].
      * injection Heq as <- <-. right. split.
        -- intros ts' ch' Hin'.
           destruct (SDict.lookup f ch') eqn:E; [| reflexivity].
           assert (Hle : ts0 <= ts').
           { apply (Hmin ts' ch'); [now right | congruence]. }
           rewrite Forall_forall in Hall. specialize (Hall _ Hin').
           unfold strictly_newer_first in Hall. simpl in Hall. lia.
        -- now rewrite Hl.
      * left. exists ts, ch. split; [exact Hin |]. split; [exact Hl |].
        intros ts' ch' Hin' Hsome. apply (Hmin ts' ch'); [now right | exact Hsome].
      * right. split.
        -- intros ts' ch' Hin'. apply (Hnone ts' ch'). now right.
        -- rewrite (Hnone ts0 ch0); [exact Hl | now left].
Qed.

Lemma sorted_strict {V : Type} (l : list (Z * V)) :
  StronglySorted newer_first l -> distinct_keys l ->
  StronglySorted strictly_newer_first l.
Proof.
  unfold distinct_keys.
  induction 1 as [| kv l Hs IH Hall]; intros Hnd; [constructor |].
  simpl in Hnd. inversion Hnd as [| ? ? Hnotin Hnd']; subst.
  constructor; [now apply IH |].
  rewrite Forall_forall in *. intros kv' Hin.
  specialize (Hall _ Hin). unfold newer_first in Hall.
  unfold strictly_newer_first.
  assert (fst kv' <> fst kv).
  { intros Heq. apply Hnotin. rewrite <- Heq. now apply in_map. }
  lia.
Qed.

Lemma sorted_filter {A : Type} (R : A -> A -> Prop) (p : A -> bool)
  (l : list A) :
  StronglySorted R l -> StronglySorted R (filter p l).
Proof.
  induction 1 as [| x l Hs IH Hall]; simpl; [constructor |].
  destruct (p x); [| exact IH].
  constructor; [exact IH |].
  rewrite Forall_forall in *. intros y Hy. apply filter_In in Hy.
  now apply Hall.
Qed.

(** X1.  For every enumeration, [Enums.get_translations(timestamp)] holds
    the translation of the oldest recorded change at or after [timestamp]
    that lists the enumeration: the changes are applied newest first and a
    later [update] replaces what an earlier one put. *)
Theorem get_translations_oldest_change_wins
  (_translations : zdict (sdict Enums.index_map)) (timestamp : Z)
  (name : string) (translation : Enums.index_map) :
  translations_wellformed _translations ->
  (SDict.lookup name (Enums.get_translations _translations timestamp)
   = Some translation
   <-> exists trans_timestamp trans_changes,
         In (trans_timestamp, trans_changes) _translations
         /\ timestamp <= trans_timestamp
         /\ SDict.lookup name trans_changes = Some translation
         /\ forall other_timestamp other_changes,
              In (other_timestamp, other_changes) _translations ->
              timestamp <= other_timestamp ->
              SDict.lookup name other_changes <> None ->
              trans_timestamp <= other_timestamp).
Proof.
  intros [Hkeys Hch].
  unfold Enums.get_translations. rewrite fold_updates_filter.
  set (l := filter (fun tc => timestamp <=? fst tc)
              (Enums.sorted_reverse _translations)).
  assert (Hin : forall ts ch,
             In (ts, ch) l <-> In (ts, ch) _translations /\ timestamp <= ts).
  { intros ts ch. unfold l. rewrite filter_In. simpl. rewrite Z.leb_le.
    split; intros [H1 H2]; (split; [| exact H2]).
    - eapply Permutation_in; [apply sorted_reverse_perm | exact H1].
    - eapply Permutation_in; [symmetry; apply sorted_reverse_perm | exact H1]. }
  assert (Hsorted : StronglySorted strictly_newer_first l).
  { apply sorted_filter. apply sorted_strict; [apply sorted_reverse_sorted |].
    unfold distinct_keys.
    eapply Permutation_NoDup; [| exact Hkeys].
    apply Permutation_map. symmetry. apply sorted_reverse_perm. }
  assert (Hd : Forall (fun tc => distinct_keys (snd tc)) l).
  { rewrite Forall_forall in *. intros [ts ch] H.
    apply Hin in H. now apply Hch. }
  rewrite (fold_updates_lookup name translation l Hsorted Hd []). split.
  - intros [[ts [ch [H1 [H2 H3]]]] | [_ H]]; [| discriminate].
    apply Hin in H1. destruct H1 as [H1 Hle].
    exists ts, ch. repeat split; try assumption.
    intros ts' ch' Hin' Hle' Hsome. apply (H3 ts' ch'); [| exact Hsome].
    now apply Hin.
  - intros [ts [ch [H1 [Hle [H2 H3]]]]]. left. exists ts, ch.
    split; [now apply Hin |]. split; [exact H2 |].
    intros ts' ch' Hin' Hsome. apply Hin in Hin'.
    now apply (H3 ts' ch').
Qed.

(* ------------------------------------------------------------------ *)
(** ** [Enums.initialize] *)




Lemma zdict_lookup_put {V : Type} (k k' : Z) (v : V) (d : zdict V) :
  ZDict.lookup k (ZDict.put k' v d)
  = if k =? k' then Some v else ZDict.lookup k d.
Proof.
  induction d as [| [k0 v0] d IH]; simpl.
  - reflexivity.
  - destruct (k' =? k0) eqn:E; simpl.
    + apply Z.eqb_eq in E. subst k0. now destruct (k =? k').
    + rewrite IH. destruct (k =? k0) eqn:E0; [| reflexivity].
      apply Z.eqb_eq in E0. subst k0.
      destruct (k =? k') eqn:E1; [| reflexivity].
      apply Z.eqb_eq in E1. subst k'. rewrite Z.eqb_refl in E. discriminate.
Qed.

Lemma enumerate_from_nth {A : Type} (l : list A) :
  forall i n x,
    In (n, x) (enumerate_from i l)
    <-> (i <= n)%nat /\ nth_error l (n - i) = Some x.
Proof.
  induction l as [| y l IH]; intros i n x; simpl.
  - split; [intros [] | intros [_ H]]. now destruct (n - i)%nat.
  - rewrite IH. split.
    + intros [H | [Hle Hn]].
      * injection H as <- <-. split; [lia |]. now rewrite Nat.sub_diag.
      * split; [lia |]. replace (n - i)%nat with (S (n - S i)) by lia.
        exact Hn.
    + intros [Hle Hn]. destruct (n - i)%nat as [| k] eqn:E.
      * left. injection Hn as <-. f_equal. lia.
      * right. split; [lia |]. replace (n - S i)%nat with k by lia. exact Hn.
Qed.

Lemma enumerate_nth {A : Type} (l : list A) (n : nat) (x : A) :
  In (n, x) (enumerate l) <-> nth_error l n = Some x.
Proof.
  unfold enumerate. rewrite enumerate_from_nth, Nat.sub_0_r.
  split; [now intros [_ H] | intros H; split; [lia | exact H]].
Qed.





Section Initialize.

Variable enums : enums_py.





End Initialize.

(* ------------------------------------------------------------------ *)
(** ** What [CommandsToClientTranslator.translate] leaves alone *)












(* ------------------------------------------------------------------ *)
(** ** What [LogParser.go] yields *)

Lemma last_cons_map {A B : Type} (f : A -> B) (l : list A) :
  forall (x : A) (d : B), last (map f (x :: l)) d = last (map f l) (f x).
Proof.
  induction l as [| y l IH]; intros x d; [reflexivity |].
  change (last (map f (x :: y :: l)) d) with (last (map f (y :: l)) d).
  now rewrite !IH.
Qed.

Lemma loop_shape (ujson_decode : string -> option pyval)
  (file : list string) :
  forall self h n,
    let r := LogParser.go_loop ujson_decode self file h n in
    let k := List.length (LogParser.yields r) in
    map LogParser.line (LogParser.yields r)
    = map LogParser.strip_newline (firstn k file)
    /\ map LogParser.line_number (LogParser.yields r) = seq (S n) k
    /\ match LogParser.ended r with
       | LogParser.Exhausted =>
           k = List.length file
           /\ LogParser.last_line_number r = (n + k)%nat
           /\ LogParser.last_handled_line_type r
              = last_line_type h (LogParser.yields r)
       | LogParser.Stopped =>
           (k < List.length file)%nat
           /\ LogParser.last_line_number r = (n + k + 1)%nat
           /\ LogParser.last_handled_line_type r
              = Some LineTypes.connection_made
       | LogParser.Failed _ => (k < List.length file)%nat
       end.
Proof.
  induction file as [| raw file IH]; intros self h n.
  - simpl. repeat split. lia.
  - cbv zeta. rewrite loop_cons.
    destruct (LogParser.match_line _ _ self) as [o | e] eqn:E.
    + destruct (LogParser.lo_stop_processing_file o) eqn:Es.
      * cbn [LogParser.yields LogParser.ended LogParser.last_line_number
             LogParser.last_handled_line_type List.length firstn map seq].
        repeat split; [lia | lia |].
        destruct (match_line_cases _ _ _ _ (matchers_kinds ujson_decode) E)
          as [[Hs _] | [_ [_ [_ [_ Ht]]]]]; [congruence | exact Ht].
      * specialize (IH (LogParser.lo_self o) (LogParser.lo_handled_line_type o)
                       (S n)).
        cbv zeta in IH. destruct IH as [H1 [H2 H3]].
        cbn [LogParser.yields LogParser.ended LogParser.last_line_number
             LogParser.last_handled_line_type List.length firstn map seq
             LogParser.line LogParser.line_number].
        rewrite H1, H2. split; [reflexivity |]. split; [reflexivity |].
        destruct (LogParser.ended _).
        -- destruct H3 as [H3 [H4 H5]]. repeat split; [lia | lia |].
           rewrite H5. unfold last_line_type. now rewrite last_cons_map.
        -- destruct H3 as [H3 [H4 H5]]. repeat split; [lia | lia | exact H5].
        -- lia.
    + cbn [LogParser.yields LogParser.ended List.length firstn map seq].
      repeat split. lia.
Qed.

Lemma prefix_drop (t : string) :
  forall s, String.prefix t s = true ->
            s = t ^^ Re.drop (String.length t) s.
Proof.
  induction t as [| c t IH]; intros s; [reflexivity |].
  destruct s as [| c' s]; [discriminate |]. cbn [String.prefix].
  destruct (ascii_dec c c') as [<- | Hne];
    [| intros H; discriminate].
  intros H. cbn [String.length Re.drop String.append].
  f_equal. now apply IH.
Qed.

(** The lines that match [^connection_made$]. *)
Lemma connection_made_lines (line : string) :
  Re.match_ LogParser.re_connection_made line <> None ->
  line = "connection_made" \/ line = ln "connection_made".
Proof.
  unfold Re.match_, LogParser.re_connection_made.
  cbn [Re.seq Re.run Nat.eqb].
  destruct (String.prefix "connection_made" line) eqn:Ep;
    [| intros H; now elim H].
  apply prefix_drop in Ep. revert Ep.
  generalize (Re.drop (String.length "connection_made") line).
  intros rest ->. 
  destruct rest as [| c [| c' rest]].
  - now left.
  - destruct (Ascii.eqb_spec c Re.newline) as [-> | Hne].
    + intros _. now right.
    + intros H. now elim H.
  - intros H. now elim H.
Qed.

Section Sentinel.

Variable ujson_decode : string -> option pyval.

Lemma sentinel_line_newline (self : LogParser.t) :
  LogParser.match_line (LogParser._line_matchers_and_handlers ujson_decode)
    (ln "connection_made") self
  = Ok {| LogParser.lo_handled_line_type := Some LineTypes.connection_made;
          LogParser.lo_parse_line_data :=
            if (LogParser._connection_made_count self =? 0)%nat
            then LogParser.PUnit else LogParser.PNone;
          LogParser.lo_stop_processing_file :=
            negb (LogParser._connection_made_count self =? 0)%nat;
          LogParser.lo_self := count_connection self |}.
Proof.
  destruct self as [tr n b p].
  unfold LogParser._line_matchers_and_handlers.
  cbn -[Nat.eqb]. destruct n; reflexivity.
Qed.

(** What the inner loop of [go] does with a line [connection_made]. *)
Lemma match_line_sentinel (line : string) (self : LogParser.t) :
  Re.match_ LogParser.re_connection_made line <> None ->
  exists o,
    LogParser.match_line (LogParser._line_matchers_and_handlers ujson_decode)
      line self = Ok o
    /\ LogParser.lo_stop_processing_file o
       = negb (LogParser._connection_made_count self =? 0)%nat
    /\ LogParser.lo_self o = count_connection self.
Proof.
  intros H. destruct (connection_made_lines line H) as [-> | ->].
  - rewrite sentinel_line. eexists. now repeat split.
  - rewrite sentinel_line_newline. eexists. now repeat split.
Qed.

Lemma loop_connections (file : list string) :
  forall self h n,
    let r := LogParser.go_loop ujson_decode self file h n in
    let k := List.length (LogParser.yields r) in
    let first := (LogParser._connection_made_count self =? 0)%nat in
    match LogParser.ended r with
    | LogParser.Exhausted =>
        (connections_made file <= if first then 1 else 0)%nat
    | LogParser.Stopped =>
        (exists cm,
            nth_error file k = Some cm /\ is_connection_made cm = true)
        /\ connections_made (firstn k file) = (if first then 1 else 0)%nat
    | LogParser.Failed _ => True
    end.
Proof.
  induction file as [| raw file IH]; intros self h n; cbv zeta.
  - unfold connections_made. simpl. destruct (_ =? 0)%nat; lia.
  - rewrite loop_cons. unfold connections_made.
    cbn [filter]. unfold is_connection_made at 1 3.
    destruct (Re.match_ LogParser.re_connection_made
                (LogParser.strip_newline raw)) as [g |] eqn:Em.
    + destruct (match_line_sentinel (LogParser.strip_newline raw) self)
        as [o [Eo [Es Hs]]]; [congruence |].
      rewrite Eo, Es.
      destruct (LogParser._connection_made_count self) as [| c] eqn:Ec;
        cbn [Nat.eqb negb].
      * specialize (IH (LogParser.lo_self o)
                       (LogParser.lo_handled_line_type o) (S n)).
        cbv zeta in IH. rewrite Hs in IH.
        change (LogParser._connection_made_count (count_connection self))
          with (S (LogParser._connection_made_count self)) in IH.
        cbn [Nat.eqb] in IH. rewrite Hs.
        cbn [LogParser.ended LogParser.yields List.length firstn nth_error
             filter].
        destruct (LogParser.ended _).
        -- unfold connections_made in IH. cbn [List.length]. lia.
        -- destruct IH as [Hcm Hc]. split; [exact Hcm |].
           unfold is_connection_made at 1. rewrite Em.
           unfold connections_made in Hc. cbn [List.length]. lia.
        -- exact I.
      * cbn [LogParser.ended LogParser.yields List.length firstn nth_error
             filter].
        split; [| reflexivity].
        exists raw. split; [reflexivity |].
        unfold is_connection_made. now rewrite Em.
    + destruct (LogParser.match_line _ _ self) as [o | e] eqn:Eo;
        [| exact I].
      destruct (match_line_cases _ _ _ _ (matchers_kinds ujson_decode) Eo)
        as [[Es [Hs | [_ [_ Hm]]]] | [_ [_ [_ [Hm _]]]]];
        try (now elim Hm).
      rewrite Es.
      specialize (IH (LogParser.lo_self o)
                     (LogParser.lo_handled_line_type o) (S n)).
      cbv zeta in IH. rewrite Hs in IH |- *.
      cbn [LogParser.ended LogParser.yields List.length firstn nth_error
           filter].
      destruct (LogParser.ended _).
      * exact IH.
      * destruct IH as [Hcm Hc]. split; [exact Hcm |].
        unfold is_connection_made at 1. rewrite Em. exact Hc.
      * exact I.
Qed.

End Sentinel.

(** X4.  Let [LogParser.go], started as [__init__] leaves the parser, end
    without an exception.  What it has yielded ends with an event of type
    [blank_line].  It has yielded one event for each of the first [k]
    lines of the file, in order, numbered from 1, with the line less its
    newline, and after them at most one event of its own making.  Either
    it read the whole file, which then has at most one line
    [connection_made]: it adds nothing when the last line was a blank
    line, and a blank line numbered one past the last line otherwise.  Or
    line [k + 1] is the second line [connection_made] of the file: it
    yields nothing for this line and the lines after it and adds a blank
    line numbered one past it. *)
Theorem go_ends_with_a_blank_line (ujson_decode : string -> option pyval)
  (self : LogParser.t) (file : list string)
  (events : list LogParser.parsed_line) :
  LogParser._connection_made_count self = 0%nat ->
  LogParser.go ujson_decode self file = (events, None) ->
  last_line_type None events = Some LineTypes.blank_line
  /\ exists k own,
       (k <= List.length file)%nat
       /\ map LogParser.line (firstn k events)
          = map LogParser.strip_newline (firstn k file)
       /\ map LogParser.line_number (firstn k events) = seq 1 k
       /\ events = firstn k events ++ own
       /\ ((own = [] /\ k = List.length file
            /\ last_line_type None (firstn k events)
               = Some LineTypes.blank_line
            /\ (connections_made file <= 1)%nat)
           \/ (own = [synthesized_blank_line (S k)]
               /\ k = List.length file
               /\ last_line_type None (firstn k events)
                  <> Some LineTypes.blank_line
               /\ (connections_made file <= 1)%nat)
           \/ (own = [synthesized_blank_line (S (S k))]
               /\ (exists cm,
                      nth_error file k = Some cm
                      /\ is_connection_made cm = true)
               /\ connections_made (firstn k file) = 1%nat)).
Proof.
  intros Hcount. unfold LogParser.go.
  pose proof (loop_shape ujson_decode file self None 0%nat) as Hs.
  pose proof (loop_connections ujson_decode file self None 0%nat) as Hc.
  cbv zeta in Hs, Hc. rewrite Hcount in Hc. cbn [Nat.eqb] in Hc.
  set (r := LogParser.go_loop ujson_decode self file None 0) in *.
  set (k := List.length (LogParser.yields r)) in *.
  destruct Hs as [H1 [H2 H3]].
  assert (Hfa : forall own, firstn k (LogParser.yields r ++ own)
                            = LogParser.yields r).
  { intros own. unfold k. rewrite firstn_app, firstn_all, Nat.sub_diag.
    apply app_nil_r. }
  destruct (LogParser.ended r) eqn:Ee; [| | discriminate].
  - (* the file was read to its end *)
    destruct H3 as [Hk [Hn Ht]].
    destruct (LogParser.is_blank_line (LogParser.last_handled_line_type r))
      eqn:Eb; intros H; injection H as <-.
    + assert (Hb : last_line_type None (LogParser.yields r)
                   = Some LineTypes.blank_line).
      { rewrite <- Ht.
        destruct (LogParser.last_handled_line_type r) as [[] |];
          try discriminate; reflexivity. }
      split; [exact Hb |].
      assert (Hfa0 : firstn k (LogParser.yields r) = LogParser.yields r)
        by (unfold k; apply firstn_all).
      exists k, []. rewrite Hfa0.
      split; [lia |]. split; [exact H1 |]. split; [exact H2 |].
      split; [now rewrite app_nil_r |].
      left. split; [reflexivity |]. split; [exact Hk |].
      split; [exact Hb | exact Hc].
    + split.
      * unfold last_line_type. rewrite map_app. cbn [map].
        rewrite last_last. reflexivity.
      * exists k, [synthesized_blank_line (S k)].
        rewrite Hfa.
        split; [lia |]. split; [exact H1 |]. split; [exact H2 |].
        split.
        -- unfold synthesized_blank_line. rewrite Hn. reflexivity.
        -- right. left. split; [reflexivity |]. split; [exact Hk |].
           split; [| exact Hc].
           rewrite <- Ht. intros Hb. rewrite Hb in Eb. discriminate.
  - (* stopped at the second connection_made *)
    destruct H3 as [Hk [Hn Ht]]. rewrite Ht. cbn [LogParser.is_blank_line].
    intros H. injection H as <-. split.
    + unfold last_line_type. rewrite map_app. cbn [map].
      rewrite last_last. reflexivity.
    + exists k, [synthesized_blank_line (S (S k))].
      rewrite Hfa.
      split; [lia |]. split; [exact H1 |]. split; [exact H2 |].
      split.
      * unfold synthesized_blank_line. rewrite Hn.
        replace (0 + k + 1)%nat with (S k) by lia. reflexivity.
      * right. right. split; [reflexivity | exact Hc].
Qed.

Lemma go_ends_with_a_blank_line_witness :
  exists events,
    LogParser.go no_json parser_instance restarted_file = (events, None)
    /\ map LogParser.line events
       = ["time: 1.5"; "connection_made"; "5 disconnect"; ""]
    /\ map LogParser.line_number events = [1; 2; 3; 5]%nat
    /\ last_line_type None events = Some LineTypes.blank_line
    /\ exists k own,
         (k <= List.length restarted_file)%nat
         /\ map LogParser.line (firstn k events)
            = map LogParser.strip_newline (firstn k restarted_file)
         /\ map LogParser.line_number (firstn k events) = seq 1 k
         /\ events = firstn k events ++ own
         /\ ((own = [] /\ k = List.length restarted_file
              /\ last_line_type None (firstn k events)
                 = Some LineTypes.blank_line
              /\ (connections_made restarted_file <= 1)%nat)
             \/ (own = [synthesized_blank_line (S k)]
                 /\ k = List.length restarted_file
                 /\ last_line_type None (firstn k events)
                    <> Some LineTypes.blank_line
                 /\ (connections_made restarted_file <= 1)%nat)
             \/ (own = [synthesized_blank_line (S (S k))]
                 /\ (exists cm,
                        nth_error restarted_file k = Some cm
                        /\ is_connection_made cm = true)
                 /\ connections_made (firstn k restarted_file) = 1%nat)).
Proof.
  eexists. split; [vm_compute; reflexivity |].
  split; [vm_compute; reflexivity |]. split; [vm_compute; reflexivity |].
  apply (go_ends_with_a_blank_line no_json parser_instance restarted_file).
  - reflexivity.
  - vm_compute. reflexivity.
Defined.

(* ------------------------------------------------------------------ *)
(** ** Dictionaries *)

Lemma lookup_mem {V : Type} (k : pyval) (d : pydict V) :
  Py.lookup k d = None <-> Py.mem k (map fst d) = false.
Proof.
  unfold Py.mem. induction d as [| [k0 v0] d IH]; simpl.
  - intuition.
  - destruct (Py.eqb k k0); simpl; [| exact IH].
    split; discriminate.
Qed.

Lemma has_key_mem {V : Type} (k : pyval) (d : pydict V) :
  has_key k d <-> Py.mem k (map fst d) = true.
Proof.
  unfold has_key. rewrite lookup_mem.
  destruct (Py.mem k (map fst d)); intuition congruence.
Qed.

Lemma keys_put {V : Type} (k : pyval) (v : V) (d : pydict V) :
  map fst (Py.put k v d)
  = if Py.mem k (map fst d) then map fst d else map fst d ++ [k].
Proof.
  unfold Py.mem. induction d as [| [k0 v0] d IH]; simpl.
  - reflexivity.
  - destruct (Py.eqb k k0); simpl; [reflexivity |].
    rewrite IH. now destruct (existsb (Py.eqb k) (map fst d)).
Qed.

Lemma has_key_put {V : Type} (k k' : pyval) (v : V) (d : pydict V) :
  has_key k' d -> has_key k' (Py.put k v d).
Proof.
  rewrite !has_key_mem, keys_put. intros H.
  destruct (Py.mem k (map fst d)); [exact H |].
  unfold Py.mem in *. rewrite existsb_app, H. reflexivity.
Qed.

Lemma has_key_put_same {V : Type} (k : pyval) (v : V) (d : pydict V) :
  Py.eqb k k = true -> has_key k (Py.put k v d).
Proof.
  intros Hk. rewrite has_key_mem, keys_put.
  destruct (Py.mem k (map fst d)) eqn:E; [exact E |].
  unfold Py.mem. rewrite existsb_app. simpl. rewrite Hk.
  now rewrite orb_true_r.
Qed.

Lemma lookup_put_found {V : Type} (k : pyval) (v v0 : V) (d : pydict V) :
  Py.lookup k d = Some v0 -> Py.lookup k (Py.put k v d) = Some v.
Proof.
  induction d as [| [k0 v1] d IH]; simpl; [discriminate |].
  destruct (Py.eqb k k0) eqn:E; simpl; rewrite E; [reflexivity | exact IH].
Qed.

Lemma put_put_found {V : Type} (k : pyval) (v1 v2 v0 : V) (d : pydict V) :
  Py.lookup k d = Some v0 -> Py.put k v2 (Py.put k v1 d) = Py.put k v2 d.
Proof.
  induction d as [| [k0 v] d IH]; simpl; [discriminate |].
  destruct (Py.eqb k k0) eqn:E; simpl; rewrite E; [reflexivity |].
  intros H. now rewrite IH.
Qed.

Lemma put_same_found {V : Type} (k : pyval) (v : V) (d : pydict V) :
  Py.lookup k d = Some v -> Py.put k v d = d.
Proof.
  induction d as [| [k0 v0] d IH]; simpl; [discriminate |].
  destruct (Py.eqb k k0); [intros H; now injection H as -> |].
  intros H. now rewrite IH.
Qed.

Lemma values_put {V : Type} (k : pyval) (v x : V) (d : pydict V) :
  In x (Dict.values (Py.put k v d)) -> x = v \/ In x (Dict.values d).
Proof.
  unfold Dict.values. induction d as [| [k0 v0] d IH]; simpl.
  - intuition.
  - destruct (Py.eqb k k0); simpl; intuition.
Qed.

Lemma values_remove {V : Type} (k : pyval) (x : V) (d : pydict V) :
  In x (Dict.values (Py.remove k d)) -> In x (Dict.values d).
Proof.
  unfold Dict.values. induction d as [| [k0 v0] d IH]; simpl.
  - intuition.
  - destruct (Py.eqb k k0); simpl; intuition.
Qed.

Lemma lookup_in_values {V : Type} (k : pyval) (v : V) (d : pydict V) :
  Py.lookup k d = Some v -> In v (Dict.values d).
Proof.
  unfold Dict.values. induction d as [| [k0 v0] d IH]; simpl; [discriminate |].
  destruct (Py.eqb k k0); [intros H; injection H as <-; now left |].
  intros H. right. now apply IH.
Qed.

Lemma getitem_in_values {V : Type} (k : pyval) (v : V) (d : pydict V) :
  Dict.getitem k d = Ok v ->
  Py.lookup k d = Some v /\ Py.hashable k = true /\ In v (Dict.values d).
Proof.
  unfold Dict.getitem. destruct (Py.hashable k); [| discriminate].
  destruct (Py.lookup k d) as [v0 |] eqn:E; [| discriminate].
  intros H. injection H as <-. repeat split.
  eapply lookup_in_values. exact E.
Qed.

Lemma forall_values_put {V : Type} (P : V -> Prop) (k : pyval) (v : V)
  (d : pydict V) :
  P v -> Forall P (Dict.values d) -> Forall P (Dict.values (Py.put k v d)).
Proof.
  intros Hv Hd. rewrite Forall_forall in *. intros x Hx.
  apply values_put in Hx. destruct Hx as [-> | Hx]; auto.
Qed.

Lemma forall_values_put_found {V : Type} (P : V -> Prop) (k : pyval)
  (v v0 : V) (d : pydict V) :
  Py.lookup k d = Some v0 -> (P v0 -> P v) ->
  Forall P (Dict.values d) -> Forall P (Dict.values (Py.put k v d)).
Proof.
  intros Hl Hv Hd. apply forall_values_put; [| exact Hd].
  apply Hv. rewrite Forall_forall in Hd. apply Hd.
  eapply lookup_in_values. exact Hl.
Qed.

Lemma eqb_refl_hashable :
  forall v, Py.hashable v = true -> Py.eqb v v = true.
Proof.
  fix IH 1. intros [| b | n | s | l | l | d]; simpl; try discriminate;
    try reflexivity.
  - intros _. now destruct b.
  - intros _. apply Z.eqb_refl.
  - intros _. apply String.eqb_refl.
  - induction l as [| x l IHl]; simpl; [reflexivity |].
    intros H. apply andb_true_iff in H. destruct H as [Hx Hl].
    rewrite (IH x Hx). simpl. now apply IHl.
Qed.

(* ------------------------------------------------------------------ *)
(** ** The games [LogProcessor] holds stay well formed *)

Section Games.

Import LogProcessor.
Local Open Scope proc_scope.

Lemma h_weaken_pre {A : Type} (P : t -> Prop) (m : M A)
  (Q : A -> t -> Prop) :
  hoare (fun _ => True) m Q -> hoare P m Q.
Proof. intros H s Hs _. now apply H. Qed.

Lemma h_post_true {A : Type} (P : t -> Prop) (m : M A)
  (Q : A -> t -> Prop) :
  hoare P m Q -> hoare P m (fun _ _ => True).
Proof.
  intros H s Hs HP. specialize (H s Hs HP).
  destruct (m s) as [[a | e] s']; [| exact H]. now destruct H.
Qed.

Lemma h_if_ok {A : Type} (P : t -> Prop) (m : M A) (Q : A -> t -> Prop) :
  hoare P m Q -> hoare_if_ok P m.
Proof.
  intros H s Hs HP. specialize (H s Hs HP). unfold wellformed_if_ok.
  destruct (m s) as [[a | e] s']; [now destruct H | exact I].
Qed.

Lemma ho_bind {A B : Type} (P : t -> Prop) (m : M A) (k : A -> M B)
  (Q : A -> t -> Prop) :
  hoare P m Q -> (forall a, hoare_if_ok (Q a) (k a)) ->
  hoare_if_ok P (bind m k).
Proof.
  intros Hm Hk s Hs HP. unfold bind. specialize (Hm s Hs HP).
  destruct (m s) as [[a | e] s']; [| exact I].
  destruct Hm as [Hs' Ha]. exact (Hk a s' Hs' Ha).
Qed.

Lemma ho_bind_lift {A B : Type} (P : t -> Prop) (r : result A)
  (k : A -> M B) :
  (forall a, r = Ok a -> hoare_if_ok P (k a)) ->
  hoare_if_ok P (bind (lift r) k).
Proof.
  intros Hk s Hs HP. unfold bind, lift. destruct r as [a | e]; [| exact I].
  now apply Hk.
Qed.

Lemma ho_bind_get {B : Type} (P : t -> Prop) (k : t -> M B) :
  (forall s0, games_wellformed s0 -> P s0 -> hoare_if_ok (eq s0) (k s0)) ->
  hoare_if_ok P (bind get k).
Proof. intros Hk s Hs HP. unfold bind, get. now apply (Hk s). Qed.

Lemma h_ret {A : Type} (P : t -> Prop) (a : A) :
  hoare P (ret a) (fun _ _ => True).
Proof. intros s Hs _. now split. Qed.

Lemma h_lift {A : Type} (P : t -> Prop) (r : result A) :
  hoare P (lift r) (fun _ _ => True).
Proof. intros s Hs _. unfold lift. destruct r; [now split | exact Hs]. Qed.

Lemma h_bind {A B : Type} (P : t -> Prop) (m : M A) (k : A -> M B)
  (Q : A -> t -> Prop) (R : B -> t -> Prop) :
  hoare P m Q -> (forall a, hoare (Q a) (k a) R) -> hoare P (bind m k) R.
Proof.
  intros Hm Hk s Hs HP. unfold bind. specialize (Hm s Hs HP).
  destruct (m s) as [[a | e] s']; [| exact Hm].
  destruct Hm as [Hs' Ha]. exact (Hk a s' Hs' Ha).
Qed.

Lemma h_bind_lift {A B : Type} (P : t -> Prop) (r : result A)
  (k : A -> M B) (R : B -> t -> Prop) :
  (forall a, r = Ok a -> hoare P (k a) R) -> hoare P (bind (lift r) k) R.
Proof.
  intros Hk s Hs HP. unfold bind, lift. destruct r as [a | e]; [| exact Hs].
  now apply Hk.
Qed.

Lemma h_bind_get {B : Type} (P : t -> Prop) (k : t -> M B)
  (R : B -> t -> Prop) :
  (forall s0, games_wellformed s0 -> P s0 -> hoare (eq s0) (k s0) R) ->
  hoare P (bind get k) R.
Proof. intros Hk s Hs HP. unfold bind, get. now apply (Hk s). Qed.

Lemma h_try (P : t -> Prop) (m : M unit) (Q : unit -> t -> Prop) :
  hoare P m Q -> hoare P (try_ m) (fun _ _ => True).
Proof.
  intros Hm s Hs HP. unfold try_. specialize (Hm s Hs HP).
  destruct (m s) as [[a | e] s']; simpl; [now destruct Hm | now split].
Qed.

Lemma h_for_each {A : Type} (P : t -> Prop) (l : list A)
  (body : A -> M unit) :
  (forall x, keeps_games (body x)) ->
  hoare P (for_each l body) (fun _ _ => True).
Proof.
  intros Hb. apply h_weaken_pre. induction l as [| x l IH]; simpl.
  - apply h_ret.
  - eapply h_bind; [apply Hb | intros ?; exact IH].
Qed.

Lemma h_modify (P : t -> Prop) (f : t -> t) :
  (forall s, _game_id_to_game (f s) = _game_id_to_game s
             /\ _expired_games (f s) = _expired_games s) ->
  hoare P (modify f) (fun _ _ => True).
Proof.
  intros Hf s Hs _. unfold modify. split; [| exact I].
  destruct (Hf s) as [H1 H2]. unfold games_wellformed. now rewrite H1, H2.
Qed.

Lemma h_mutate_game (P : t -> Prop) (key : pyval) (f : Game.t -> Game.t) :
  (forall s game,
      P s -> Py.lookup key (_game_id_to_game s) = Some game ->
      open_game game -> open_game (f game)) ->
  hoare P (mutate_game key f) (fun _ _ => True).
Proof.
  intros Hf s [Ho He] HP. unfold mutate_game, modify. split; [| exact I].
  destruct (Py.lookup key (_game_id_to_game s)) as [game |] eqn:E;
    [| now split].
  split; [| exact He]. cbn.
  eapply forall_values_put_found; [exact E | | exact Ho].
  now apply (Hf s).
Qed.

Lemma h_bind_then {A B : Type} (P : t -> Prop) (m : M A) (k : A -> M B) :
  hoare P m (fun _ _ => True) -> (forall a, keeps_games (k a)) ->
  hoare P (bind m k) (fun _ _ => True).
Proof. intros Hm Hk. eapply h_bind; [exact Hm | exact Hk]. Qed.

Lemma h_game_of_client (P : t -> Prop) (client_id : pyval) :
  hoare P (game_of_client client_id)
    (fun kg s =>
       P s /\ open_game (snd kg)
       /\ Py.lookup (fst kg) (_game_id_to_game s) = Some (snd kg)).
Proof.
  intros s Hs HP. unfold game_of_client, bind, get, lift, ret.
  destruct (Dict.getitem client_id (_client_id_to_game_id s)) as [game_id |];
    [| exact Hs].
  destruct (Dict.getitem game_id (_game_id_to_game s)) as [game |] eqn:E;
    [| exact Hs].
  split; [exact Hs |]. cbn [fst snd]. split; [exact HP |].
  apply getitem_in_values in E. destruct E as [E [_ Hin]].
  split; [| exact E].
  destruct Hs as [Ho _]. rewrite Forall_forall in Ho. now apply Ho.
Qed.

Lemma h_bind_game_of_client {B : Type} (P : t -> Prop) (client_id : pyval)
  (k : pyval * Game.t -> M B) (R : B -> t -> Prop) :
  (forall key game,
      open_game game ->
      hoare (fun s => P s
                      /\ Py.lookup key (_game_id_to_game s) = Some game)
            (k (key, game)) R) ->
  hoare P (bind (game_of_client client_id) k) R.
Proof.
  intros Hk. eapply h_bind; [apply h_game_of_client |].
  intros [key game] s Hs [HP [Hg Hl]]. cbn [fst snd] in *.
  apply (Hk key game Hg s Hs). now split.
Qed.

Lemma h_bind_first_client_id {B : Type} (P : t -> Prop)
  (client_ids : list Z) (k : pyval -> M B) (R : B -> t -> Prop) :
  (forall client_id, hoare P (k client_id) R) ->
  hoare P (bind (first_client_id client_ids) k) R.
Proof.
  intros Hk. unfold first_client_id.
  intros s Hs HP. unfold bind at 1 2, lift, ret.
  destruct (Py.index client_ids 0) as [n |]; [| exact Hs].
  now apply Hk.
Qed.

Lemma open_game_in_state (s : t) (key : pyval) (game : Game.t) :
  games_wellformed s -> Dict.getitem key (_game_id_to_game s) = Ok game ->
  open_game game /\ Py.lookup key (_game_id_to_game s) = Some game.
Proof.
  intros [Ho _] Hg. apply getitem_in_values in Hg.
  destruct Hg as [Hl [_ Hin]]. split; [| exact Hl].
  rewrite Forall_forall in Ho. now apply Ho.
Qed.

(** *** Shapes *)

Lemma set_index_length {A : Type} (l l' : list A) (i : Z) (x : A) :
  Py.set_index l i x = Ok l' -> List.length l' = List.length l.
Proof.
  intros H. apply set_index_resolve in H. destruct H as [j [-> _]].
  apply replace_nth_length.
Qed.

Lemma replace_nth_forall {A : Type} (P : A -> Prop) (l : list A) :
  forall n x, P x -> Forall P l -> Forall P (Py.replace_nth n x l).
Proof.
  induction l as [| y l IH]; intros [| n] x Hx Hl; simpl;
    inversion Hl; subst; try constructor; auto.
Qed.

Lemma index_forall {A : Type} (P : A -> Prop) (l : list A) (i : Z) (x : A) :
  Forall P l -> Py.index l i = Ok x -> P x.
Proof.
  intros Hl H. apply index_resolve in H. destruct H as [j [Hn _]].
  rewrite Forall_forall in Hl. apply Hl. eapply nth_error_In. exact Hn.
Qed.

Lemma set_index2_rectangular (rows columns : nat) (l l' : list (list pyval))
  (i j v : pyval) :
  rectangular rows columns l -> set_index2 l i j v = Ok l' ->
  rectangular rows columns l'.
Proof.
  intros [Hlen Hall]. unfold set_index2.
  destruct (Py.as_index i) as [i' |]; cbn [rbind]; [| discriminate].
  destruct (Py.index l i') as [row |] eqn:Er; cbn [rbind]; [| discriminate].
  destruct (Py.as_index j) as [j' |]; cbn [rbind]; [| discriminate].
  destruct (Py.set_index row j' v) as [row' |] eqn:Es; cbn [rbind];
    [| discriminate].
  intros H. pose proof (set_index_length _ _ _ _ H) as Hl'.
  apply set_index_resolve in H. destruct H as [n [-> _]].
  split; [now rewrite replace_nth_length |].
  apply replace_nth_forall; [| exact Hall].
  apply set_index_length in Es. rewrite Es.
  eapply (index_forall (fun row => List.length row = columns));
    [exact Hall | exact Er].
Qed.

Lemma remove_from_rack_length (tile : pyval) (rack : list pyval) :
  List.length (remove_from_rack tile rack) = List.length rack.
Proof.
  induction rack as [| entry rack IH]; simpl; [reflexivity |].
  destruct (Py.eqb entry tile); simpl; congruence.
Qed.

Lemma slices_rectangular (rows columns : nat) (l : list (list pyval))
  (f : list pyval -> list pyval) (n : Z) :
  (forall row, List.length (f row) = List.length row) ->
  rectangular rows columns l ->
  rectangular rows columns (map f (Py.slice_to l n) ++ Py.slice_from l n).
Proof.
  intros Hf [Hlen Hall]. unfold Py.slice_to, Py.slice_from.
  set (k := Py.clamp (List.length l) n). split.
  - rewrite length_app, length_map, <- length_app, firstn_skipn. exact Hlen.
  - rewrite <- (firstn_skipn k l) in Hall. apply Forall_app in Hall.
    destruct Hall as [H1 H2]. apply Forall_app. split; [| exact H2].
    rewrite Forall_map. eapply Forall_impl; [| exact H1].
    intros row Hrow. now rewrite Hf.
Qed.

Lemma clamp_le (n : nat) (i : Z) : (Py.clamp n i <= n)%nat.
Proof. unfold Py.clamp. destruct (i <? 0); lia. Qed.

Lemma clamp_nat (n k : nat) : Py.clamp n (Z.of_nat k) = Nat.min n k.
Proof.
  unfold Py.clamp. destruct (Z.of_nat k <? 0) eqn:E; [apply Z.ltb_lt in E; lia |].
  lia.
Qed.

Lemma replaced_rows_length {A : Type} (items l : list A) :
  (List.length l
   <= List.length (items ++ Py.slice_from l (Z.of_nat (List.length items))))%nat.
Proof.
  unfold Py.slice_from. rewrite clamp_nat, length_app, length_skipn. lia.
Qed.

Lemma length_chars (s : string) :
  List.length (Py.chars s) = String.length s.
Proof.
  unfold Py.chars. rewrite length_map.
  induction s; simpl; congruence.
Qed.

Lemma len_iter (v : pyval) (n : nat) (l : list pyval) :
  Py.len v = Ok n -> Py.iter v = Ok l -> n = List.length l.
Proof.
  destruct v; simpl; try discriminate; intros H H';
    injection H as <-; injection H' as <-;
    rewrite ?length_map, ?length_chars; reflexivity.
Qed.

(** *** Tactics *)

Ltac h_step :=
  lazymatch goal with
  | |- keeps_games _ => unfold keeps_games
  | |- hoare _ (ret _) _ => apply h_ret
  | |- hoare _ (lift _) _ => apply h_lift
  | |- hoare _ (bind (lift _) _) _ => apply h_bind_lift; intros ? ?
  | |- hoare _ (bind get _) _ => apply h_bind_get; intros ? ? ?
  | |- hoare _ (bind (game_of_client _) _) _ =>
      apply h_bind_game_of_client; intros ? ? ?
  | |- hoare _ (bind (first_client_id _) _) _ =>
      apply h_bind_first_client_id; intros ?
  | |- hoare _ (bind (mutate_game _ _) _) _ =>
      apply h_bind_then; [apply h_mutate_game | intros ?]
  | |- hoare _ (mutate_game _ _) _ => apply h_mutate_game
  | |- hoare _ (bind (modify _) _) _ =>
      apply h_bind_then; [apply h_modify; intros ?; split; reflexivity
                         | intros ?]
  | |- hoare _ (modify _) _ =>
      apply h_modify; intros ?; split; reflexivity
  | |- hoare _ (try_ _) _ => eapply h_try
  | |- hoare _ (for_each _ _) _ => apply h_for_each; intros ?
  | |- hoare _ (bind (for_each _ _) _) _ =>
      apply h_bind_then; [apply h_for_each; intros ? | intros ?]
  | |- hoare _ (bind (if ?b then _ else _) _) _ =>
      apply h_bind_then; [destruct b eqn:? | intros ?]
  | |- hoare _ (bind (match ?x with _ => _ end) _) _ =>
      apply h_bind_then; [destruct x eqn:? | intros ?]
  | |- hoare _ (if ?b then _ else _) _ => destruct b eqn:?
  | |- hoare _ (match ?x with _ => _ end) _ => destruct x eqn:?
  | |- hoare _ (let _ := _ in _) _ => progress cbv zeta
  end.

Ltac h_steps := repeat h_step.

(** What is known of the games read from a state. *)
Ltac h_facts :=
  cbv beta in *; cbn [fst snd] in *;
  repeat match goal with
    | H : _ /\ _ |- _ => destruct H
    | H : ?s0 = ?s |- _ => is_var s; subst s
    | Hs : games_wellformed ?s,
      Hg : Dict.getitem _ (_game_id_to_game ?s) = Ok ?g |- _ =>
        apply (open_game_in_state _ _ _ Hs) in Hg
    | H1 : Py.lookup ?k ?d = Some ?g1, H2 : Py.lookup ?k ?d = Some ?g2 |- _ =>
        assert (g2 = g1) by congruence; subst g2; clear H2
    end.

(** The side condition of [h_mutate_game] for an assignment to an
    attribute: the shape of the four lists is to be shown where it is not
    the one the game had. *)
Ltac open_game_goal :=
  let s := fresh "s" in
  let game := fresh "game" in
  let HP := fresh "HP" in
  let Hl := fresh "Hl" in
  let Hsh := fresh "Hsh" in
  let Hpl := fresh "Hpl" in
  let Hex := fresh "Hex" in
  let Hb := fresh "Hb" in
  let Hr := fresh "Hr" in
  let Hi := fresh "Hi" in
  let Hs := fresh "Hs" in
  intros s game HP Hl [[Hsh Hpl] Hex];
  split; [split; [| try exact Hpl] | exact Hex];
  [destruct Hsh as [Hb [Hr [Hi Hs]]];
   unfold game_shape; cbn;
   (split; [try exact Hb | split; [try exact Hr | split;
                                    [try exact Hi | try exact Hs]]]) | ..].

Ltac shape_of_game :=
  match goal with
  | H : open_game ?g |- rectangular _ _ (_ ?g) => apply H
  | H : open_game ?g |- (_ <= List.length (_ ?g))%nat => apply H
  end.

Section Handlers.

Variable enums : enums_py.

Lemma kg_add_client_id_to_game (game_id client_id : pyval) :
  keeps_games (_add_client_id_to_game game_id client_id).
Proof. unfold _add_client_id_to_game. h_steps. Qed.

Lemma kg_remove_client_id_from_game (client_id : pyval) :
  keeps_games (_remove_client_id_from_game client_id).
Proof. unfold _remove_client_id_from_game. h_steps. Qed.

Lemma kg_remove_player_id_from_game (game_id player_id : pyval) :
  keeps_games (_remove_player_id_from_game game_id player_id).
Proof.
  unfold _remove_player_id_from_game. h_steps.
  apply h_weaken_pre. apply kg_remove_client_id_from_game.
Qed.

Lemma kg_set_game_board_cell (client_ids : list Z) (command : pyval) :
  keeps_games
    (_handle_command_to_client__set_game_board_cell enums client_ids command).
Proof.
  unfold _handle_command_to_client__set_game_board_cell. h_steps.
  - open_game_goal.
  - open_game_goal.
    apply slices_rectangular; [apply remove_from_rack_length | exact Hr].
  - open_game_goal. h_facts.
    eapply set_index2_rectangular; [| eassumption]. shape_of_game.
Qed.

Lemma kg_set_score_sheet_cell (client_ids : list Z) (command : pyval) :
  keeps_games
    (_handle_command_to_client__set_score_sheet_cell client_ids command).
Proof.
  unfold _handle_command_to_client__set_score_sheet_cell. h_steps.
  - open_game_goal. h_facts.
    match goal with H : Py.set_index _ _ _ = Ok _ |- _ =>
      apply set_index_length in H; rewrite H end.
    shape_of_game.
  - open_game_goal.
Qed.

Lemma kg_set_score_sheet (client_ids : list Z) (command : pyval) :
  keeps_games
    (_handle_command_to_client__set_score_sheet client_ids command).
Proof.
  unfold _handle_command_to_client__set_score_sheet. h_steps.
  - open_game_goal. h_facts.
    match goal with H : Py.len _ = Ok ?n, H' : Py.iter _ = Ok ?l |- _ =>
      pose proof (len_iter _ _ _ H H')
    end.
    subst. etransitivity; [exact Hs | apply replaced_rows_length].
  - open_game_goal.
Qed.

Lemma kg_set_game_player_join (client_ids : list Z) (command : pyval) :
  keeps_games
    (_handle_command_to_client__set_game_player_join client_ids command).
Proof.
  unfold _handle_command_to_client__set_game_player_join. h_steps.
  apply h_weaken_pre. apply kg_add_client_id_to_game.
Qed.

Lemma kg_set_game_player_rejoin (client_ids : list Z) (command : pyval) :
  keeps_games
    (_handle_command_to_client__set_game_player_rejoin client_ids command).
Proof.
  unfold _handle_command_to_client__set_game_player_rejoin. h_steps.
  apply h_weaken_pre. apply kg_add_client_id_to_game.
Qed.

Lemma kg_set_game_player_leave (client_ids : list Z) (command : pyval) :
  keeps_games
    (_handle_command_to_client__set_game_player_leave client_ids command).
Proof.
  unfold _handle_command_to_client__set_game_player_leave. h_steps.
  apply h_weaken_pre. apply kg_remove_client_id_from_game.
Qed.

Lemma kg_set_game_watcher_client_id (client_ids : list Z)
  (command : pyval) :
  keeps_games
    (_handle_command_to_client__set_game_watcher_client_id client_ids
       command).
Proof.
  unfold _handle_command_to_client__set_game_watcher_client_id. h_steps.
  apply h_weaken_pre. apply kg_add_client_id_to_game.
Qed.

Lemma kg_return_watcher_to_lobby (client_ids : list Z) (command : pyval) :
  keeps_games
    (_handle_command_to_client__return_watcher_to_lobby client_ids command).
Proof.
  unfold _handle_command_to_client__return_watcher_to_lobby. h_steps.
  apply h_weaken_pre. apply kg_remove_client_id_from_game.
Qed.

Lemma kg_set_game_player_client_id (client_ids : list Z) (command : pyval) :
  keeps_games
    (_handle_command_to_client__set_game_player_client_id client_ids
       command).
Proof.
  unfold _handle_command_to_client__set_game_player_client_id. h_steps;
    apply h_weaken_pre;
    first [apply kg_remove_player_id_from_game
          | apply kg_add_client_id_to_game].
Qed.

(** A history put under a user name that has one. *)
Lemma players_put_history (game : Game.t) (username : pyval)
  (history : list pyval) :
  game_players game ->
  has_key username (Game.username_to_game_history game) ->
  game_players
    (Game.set_username_to_game_history
       (Py.put username history (Game.username_to_game_history game)) game).
Proof.
  intros [H1 [H2 H3]] Hk. unfold game_players. cbn.
  split; [exact H1 |]. split.
  - rewrite keys_put. apply has_key_mem in Hk. now rewrite Hk.
  - eapply Forall_impl; [| exact H3]. intros u [Hu Hh].
    split; [exact Hu | now apply has_key_put].
Qed.

Lemma is_player_has_history (game : Game.t) (username : pyval) :
  game_players game -> is_player game username = Ok true ->
  has_key username (Game.username_to_game_history game).
Proof.
  intros [H1 [H2 _]]. unfold is_player, Dict.get.
  destruct (Py.hashable username); cbn [rbind]; [| discriminate].
  destruct (Py.lookup username (Game.username_to_player_id game)) as [v |]
    eqn:E; [| discriminate].
  intros _. apply has_key_mem. rewrite H2, <- H1. apply has_key_mem.
  unfold has_key. congruence.
Qed.

Lemma kg_add_game_history_message (client_ids : list Z) (command : pyval) :
  keeps_games
    (_handle_command_to_client__add_game_history_message enums client_ids
       command).
Proof.
  unfold _handle_command_to_client__add_game_history_message. h_steps.
  intros s game0 HP Hl [[Hsh Hpl] Hex]. h_facts.
  split; [split; [exact Hsh |] | exact Hex].
  apply players_put_history; [exact Hpl |].
  match goal with H : Dict.getitem _ _ = Ok _ |- _ =>
    apply getitem_in_values in H; destruct H as [H _] end.
  unfold has_key. congruence.
Qed.

Lemma kg_add_game_history_messages (client_ids : list Z) (command : pyval) :
  keeps_games
    (_handle_command_to_client__add_game_history_messages enums client_ids
       command).
Proof.
  unfold _handle_command_to_client__add_game_history_messages. h_steps.
  intros s game0 HP Hl [[Hsh Hpl] Hex]. h_facts.
  split; [split; [exact Hsh |] | exact Hex].
  apply players_put_history; [exact Hpl |].
  now apply is_player_has_history.
Qed.

Lemma kg_set_tile (client_ids : list Z) (command : pyval) :
  keeps_games (_handle_command_to_client__set_tile client_ids command).
Proof.
  unfold _handle_command_to_client__set_tile. h_steps;
    first [ intros s game0 _ _ Hg; destruct (Py.mem _ _); exact Hg
          | open_game_goal; h_facts;
            try (eapply set_index2_rectangular; [| eassumption];
                 shape_of_game) ].
Qed.

Lemma kg_remove_tile (client_ids : list Z) (command : pyval) :
  keeps_games (_handle_command_to_client__remove_tile client_ids command).
Proof.
  unfold _handle_command_to_client__remove_tile. h_steps.
  open_game_goal. h_facts.
  eapply set_index2_rectangular; [| eassumption]. shape_of_game.
Qed.

Lemma handlers_keep_games :
  Forall (fun kv => forall client_ids command,
              keeps_games (snd kv client_ids command))
         (_commands_to_client_handlers enums).
Proof.
  unfold _commands_to_client_handlers.
  apply (fold_put_all
           (fun h => forall client_ids command,
                keeps_games (h client_ids command)));
    [| constructor].
  apply Forall_app. split.
  - repeat (apply Forall_cons; [simpl; intros |]); [.. | apply Forall_nil].
    + apply kg_set_game_board_cell.
    + apply kg_set_score_sheet_cell.
    + apply kg_set_score_sheet.
    + apply kg_set_game_player_join.
    + apply kg_set_game_player_rejoin.
    + apply kg_set_game_player_leave.
    + apply kg_set_game_watcher_client_id.
    + apply kg_return_watcher_to_lobby.
    + apply kg_add_game_history_message.
    + apply kg_add_game_history_messages.
    + apply kg_set_tile.
    + apply kg_remove_tile.
  - destruct (SDict.lookup _ _) as [names |]; [| constructor].
    destruct (index_of _ names); [| constructor].
    constructor; [| constructor]. simpl. intros.
    apply kg_set_game_player_client_id.
Qed.

Lemma kg_dispatch_command_to_client (client_ids : list Z)
  (command : pyval) :
  keeps_games (dispatch_command_to_client enums client_ids command).
Proof.
  unfold dispatch_command_to_client. h_steps.
  match goal with H : ZDict.get _ _ = Ok (Some _) |- _ =>
    exact (zdict_get_all
             (fun h => forall client_ids command,
                  keeps_games (h client_ids command))
             _ _ _ handlers_keep_games H client_ids command)
  end.
Qed.

Lemma kg_handle_command_to_client (client_ids : list Z)
  (commands : pyval) :
  keeps_games (_handle_command_to_client enums client_ids commands).
Proof.
  unfold _handle_command_to_client. h_steps.
  apply kg_dispatch_command_to_client.
Qed.

Lemma kg_do_game_action (client_id : Z) (command : pyval) :
  keeps_games (_handle_command_to_server__do_game_action client_id command).
Proof.
  unfold _handle_command_to_server__do_game_action. h_steps;
    open_game_goal.
Qed.

Lemma kg_handle_command_to_server (client_id : Z) (command : pyval) :
  keeps_games (_handle_command_to_server enums client_id command).
Proof.
  unfold _handle_command_to_server. h_steps.
  unfold _commands_to_server_handlers in *.
  match goal with H : ZDict.get _ _ = Ok (Some _) |- _ =>
    unfold ZDict.get in H; destruct (Py.hashable _) in H; [| discriminate];
    destruct a; try discriminate; simpl in H;
    match type of H with context [if ?b then _ else _] => destruct b end;
    try discriminate; injection H as <- end;
    apply kg_do_game_action.
Qed.

Lemma kg_handle_game_expired (game_id : Z) :
  keeps_games (_handle_game_expired game_id).
Proof.
  unfold _handle_game_expired. intros s Hs _.
  unfold bind, get, lift, modify.
  destruct (Dict.getitem (PyInt game_id) (_game_id_to_game s)) as [game |]
    eqn:E; [| exact Hs].
  split; [| exact I].
  destruct (open_game_in_state _ _ _ Hs E) as [[Hw Hex] _].
  destruct Hs as [Ho He]. split; cbn.
  - rewrite Forall_forall in *. intros g Hg. apply Ho.
    eapply values_remove. exact Hg.
  - apply Forall_app. split; [exact He |].
    constructor; [| constructor]. split; [exact Hw | reflexivity].
Qed.

Lemma kg_copy_field (entry : pyval) (name : string) (key : pyval)
  (assign : pyval -> Game.t -> result Game.t) :
  (forall v game game',
      assign v game = Ok game' -> open_game game -> open_game game') ->
  keeps_games (copy_field entry name key assign).
Proof.
  intros Ha. unfold copy_field. h_steps.
  intros s game0 HP Hl Hg. h_facts. eapply Ha; eassumption.
Qed.

Lemma init_open_game (log_timestamp : Z) (game_id internal_game_id : pyval)
  (verbose : bool) :
  open_game
    (Game.__init__ enums log_timestamp game_id internal_game_id verbose).
Proof.
  repeat split; try reflexivity; cbn;
    repeat (constructor; try reflexivity).
Qed.

Lemma mutate_game_found (key : pyval) (f : Game.t -> Game.t) (s : t)
  (game : Game.t) :
  Py.lookup key (_game_id_to_game s) = Some game ->
  mutate_game key f s
  = (Ok tt,
     set__game_id_to_game (Py.put key (f game) (_game_id_to_game s)) s).
Proof. intros H. unfold mutate_game, modify. now rewrite H. Qed.

(** The attributes a [game-player] entry assigns. *)
Lemma players_registered (game : Game.t) (player_id username : pyval) :
  game_players game -> Py.hashable username = true ->
  game_players
    (Game.set_username_to_game_history
       (match Py.lookup username (Game.username_to_game_history game) with
        | Some _ => Game.username_to_game_history game
        | None => Py.put username [] (Game.username_to_game_history game)
        end)
       (Game.set_player_join_order
          (if Py.mem username (Game.player_join_order game)
           then Game.player_join_order game
           else Game.player_join_order game ++ [username])
          (Game.set_username_to_player_id
             (Py.put username player_id (Game.username_to_player_id game))
             (Game.set_player_id_to_username
                (Py.put player_id username (Game.player_id_to_username game))
                game)))).
Proof.
  intros [H1 [H2 H3]] Hu. unfold game_players. cbn.
  assert (Hmem : Py.mem username
                   (map fst (Game.username_to_game_history game))
                 = Py.mem username (Game.player_join_order game))
    by now rewrite H2.
  split; [| split].
  - rewrite keys_put, H1. reflexivity.
  - destruct (Py.lookup username (Game.username_to_game_history game))
      as [h |] eqn:E.
    + assert (Hk : has_key username (Game.username_to_game_history game))
        by (unfold has_key; congruence).
      apply has_key_mem in Hk. rewrite <- Hmem, Hk. exact H2.
    + apply lookup_mem in E. rewrite keys_put, <- Hmem, E, H2. reflexivity.
  - assert (Hkeep : forall u,
               has_key u (Game.username_to_game_history game) ->
               has_key u
                 match Py.lookup username
                         (Game.username_to_game_history game) with
                 | Some _ => Game.username_to_game_history game
                 | None =>
                     Py.put username [] (Game.username_to_game_history game)
                 end).
    { intros u Hk. destruct (Py.lookup username _); [exact Hk |].
      now apply has_key_put. }
    unfold Dict.values in *. rewrite Forall_forall in *. intros u Hin.
    apply (values_put player_id username u) in Hin.
    destruct Hin as [-> | Hin].
    + split; [exact Hu |].
      destruct (Py.lookup username (Game.username_to_game_history game))
        as [h |] eqn:E; [unfold has_key; congruence |].
      apply has_key_put_same. now apply eqb_refl_hashable.
    + destruct (H3 u Hin) as [Hh Hk]. split; [exact Hh | now apply Hkeep].
Qed.

Lemma differs_at_start (key : pyval) (game : Game.t) (s : t) :
  Py.lookup key (_game_id_to_game s) = Some game -> differs_at key game s s.
Proof.
  intros H. split; [eauto |]. split; [| reflexivity].
  symmetry. now apply put_same_found.
Qed.

Lemma differs_at_mutate {B : Type} (key : pyval) (f : Game.t -> Game.t)
  (k : unit -> M B) (game : Game.t) (s s0 : t) :
  differs_at key game s s0 ->
  exists s',
    bind (mutate_game key f) k s = k tt s'
    /\ differs_at key (f game) s' s0.
Proof.
  intros [[game0 Hl0] [Hg He]].
  assert (Hl : Py.lookup key (_game_id_to_game s) = Some game)
    by (rewrite Hg; eapply lookup_put_found; exact Hl0).
  eexists. split.
  - unfold bind. rewrite (mutate_game_found _ _ _ _ Hl). reflexivity.
  - split; [eauto |]. split; cbn; [| exact He].
    rewrite Hg. eapply put_put_found. exact Hl0.
Qed.

Lemma differs_at_wellformed (key : pyval) (game : Game.t) (s s0 : t) :
  differs_at key game s s0 -> games_wellformed s0 -> open_game game ->
  games_wellformed s.
Proof.
  intros [_ [Hg He]] [Ho Hex] Hgame. split.
  - rewrite Hg. now apply forall_values_put.
  - now rewrite He.
Qed.

Lemma wio_bind_ok {A B : Type} (a : A) (k : A -> M B) (s : t) :
  wellformed_if_ok (k a s) -> wellformed_if_ok (bind (lift (Ok a)) k s).
Proof. intros H. exact H. Qed.

Lemma wio_bind_ret {A B : Type} (a : A) (k : A -> M B) (s : t) :
  wellformed_if_ok (k a s) -> wellformed_if_ok (bind (ret a) k s).
Proof. intros H. exact H. Qed.

Lemma wio_bind_mutate {B : Type} (key : pyval) (f : Game.t -> Game.t)
  (k : unit -> M B) (game : Game.t) (s s0 : t) :
  differs_at key game s s0 ->
  (forall s', differs_at key (f game) s' s0 -> wellformed_if_ok (k tt s')) ->
  wellformed_if_ok (bind (mutate_game key f) k s).
Proof.
  intros Hd Hk. destruct (differs_at_mutate key f k game s s0 Hd)
    as [s' [-> Hd']].
  now apply Hk.
Qed.

Lemma wio_mutate (key : pyval) (f : Game.t -> Game.t) (game : Game.t)
  (s s0 : t) :
  differs_at key game s s0 -> games_wellformed s0 -> open_game (f game) ->
  wellformed_if_ok (mutate_game key f s).
Proof.
  intros Hd Hs Hg.
  destruct (differs_at_mutate key f (fun _ => ret tt) game s s0 Hd)
    as [s' [Heq Hd']].
  unfold bind in Heq. destruct (mutate_game key f s) as [[[] | e] s1];
    [| exact I].
  cbn in Heq. injection Heq as <-. cbn.
  eapply differs_at_wellformed; eassumption.
Qed.

Lemma ho_game_player_entry (game_id player_id username : pyval)
  (game : Game.t) :
  open_game game ->
  hoare_if_ok
    (fun s => Py.lookup game_id (_game_id_to_game s) = Some game)
    (d <- lift (Dict.setitem player_id username
                  (Game.player_id_to_username game)) ;;
     mutate_game game_id (Game.set_player_id_to_username d) ;;;
     d <- lift (Dict.setitem username player_id
                  (Game.username_to_player_id game)) ;;
     mutate_game game_id (Game.set_username_to_player_id d) ;;;
     (if Py.mem username (Game.player_join_order game) then ret tt
      else
        mutate_game game_id
          (Game.set_player_join_order
             (Game.player_join_order game ++ [username]))) ;;;
     (match Py.lookup username (Game.username_to_game_history game) with
      | Some _ => ret tt
      | None =>
          mutate_game game_id
            (Game.set_username_to_game_history
               (Py.put username [] (Game.username_to_game_history game)))
      end)).
Proof.
  intros [[Hsh Hpl] Hex] s Hs Hl.
  pose proof (players_registered game player_id username Hpl) as Hreg.
  apply differs_at_start in Hl.
  unfold Dict.setitem.
  destruct (Py.hashable player_id); [apply wio_bind_ok | exact I].
  eapply wio_bind_mutate; [exact Hl | intros s1 Hl1].
  destruct (Py.hashable username); [apply wio_bind_ok | exact I].
  specialize (Hreg eq_refl).
  eapply wio_bind_mutate; [exact Hl1 | intros s2 Hl2].
  assert (Hlast : forall g3 s3,
             differs_at game_id g3 s3 s ->
             Game.username_to_game_history g3
             = Game.username_to_game_history game ->
             open_game
               (Game.set_username_to_game_history
                  (match Py.lookup username
                           (Game.username_to_game_history game) with
                   | Some _ => Game.username_to_game_history game
                   | None =>
                       Py.put username []
                         (Game.username_to_game_history game)
                   end) g3) ->
             wellformed_if_ok
               (match Py.lookup username
                        (Game.username_to_game_history game) with
                | Some _ => ret tt
                | None =>
                    mutate_game game_id
                      (Game.set_username_to_game_history
                         (Py.put username []
                            (Game.username_to_game_history game)))
                end s3)).
  { intros g3 s3 Hd Hh Hopen.
    destruct (Py.lookup username (Game.username_to_game_history game)) eqn:E.
    - cbn. eapply differs_at_wellformed; [exact Hd | exact Hs |].
      destruct g3; cbn in *; subst; exact Hopen.
    - eapply wio_mutate; [exact Hd | exact Hs | exact Hopen]. }
  destruct (Py.mem username (Game.player_join_order game)) eqn:Em.
  - apply wio_bind_ret. apply (Hlast _ _ Hl2); [reflexivity |].
    split; [split; [exact Hsh | exact Hreg] | exact Hex].
  - eapply wio_bind_mutate; [exact Hl2 | intros s3 Hl3].
    apply (Hlast _ _ Hl3); [reflexivity |].
    split; [split; [exact Hsh | exact Hreg] | exact Hex].
Qed.

Ltac ho_step :=
  lazymatch goal with
  | |- keeps_games_if_ok _ => unfold keeps_games_if_ok
  | |- hoare_if_ok _ (bind (lift _) _) => apply ho_bind_lift; intros ? ?
  | |- hoare_if_ok _ (bind get _) => apply ho_bind_get; intros ? ? ?
  | |- hoare_if_ok _ (if ?b then _ else _) => destruct b eqn:?
  end.

Ltac copy_side :=
  let v := fresh "v" in
  let g := fresh "g" in
  let g' := fresh "g'" in
  let Ha := fresh "Ha" in
  let Hg := fresh "Hg" in
  intros v g g' Ha Hg;
  first
    [ injection Ha as <-; exact Hg
    | destruct (Py.iter v); cbn [rbind] in Ha; [| discriminate];
      destruct (rmap Py.to_tuple _); cbn [rbind] in Ha; [| discriminate];
      injection Ha as <-; exact Hg ].

Lemma kg_handle_log (entry : pyval) :
  keeps_games_if_ok (_handle_log enums entry).
Proof.
  unfold _handle_log. repeat ho_step.
  eapply (ho_bind _ _ _ (fun _ _ => True)).
  { destruct a2.
    - apply h_ret.
    - intros s Hs _. unfold modify. split; [| exact I].
      destruct Hs as [Ho He]. split; [| exact He]. cbn.
      apply forall_values_put; [apply init_open_game | exact Ho]. }
  intros _. cbv beta. ho_step. ho_step.
  - do 4 ho_step. h_facts.
    match goal with
    | Hg : open_game ?g, Hl : Py.lookup ?k (_game_id_to_game ?s) = Some ?g
      |- hoare_if_ok _ ?m =>
        intros s' Hs' <-;
        exact (ho_game_player_entry k _ _ g Hg s Hs' Hl)
    end.
  - apply (h_if_ok _ _ (fun _ _ => True)).
    do 7 (apply h_bind_then;
          [apply kg_copy_field; copy_side | intros ?; unfold keeps_games]).
    apply kg_copy_field; copy_side.
Qed.

Lemma kg_handle_disconnect__delayed (client_id : Z) :
  keeps_games (_handle_disconnect__delayed client_id).
Proof. unfold _handle_disconnect__delayed. h_steps. Qed.

Lemma kg_handle_blank_line : keeps_games _handle_blank_line.
Proof.
  unfold _handle_blank_line. h_steps.
  apply kg_handle_disconnect__delayed.
Qed.

Lemma kg_handle_line (l : LogParser.parsed_line) :
  keeps_games_if_ok (handle_line enums l).
Proof.
  unfold handle_line.
  destruct (LogParser.handled_line_type l) as [[] |];
    destruct (LogParser.parse_line_data l);
    try (eapply h_if_ok; apply h_ret);
    try (eapply h_if_ok; apply h_lift);
    try apply kg_handle_log;
    eapply h_if_ok.
  - unfold _handle_time. h_steps.
  - unfold _handle_connect. h_steps.
  - unfold _handle_disconnect. h_steps.
  - apply kg_handle_command_to_client.
  - apply kg_handle_command_to_server.
  - apply kg_handle_game_expired.
  - apply kg_handle_blank_line.
  - apply kg_handle_blank_line.
  - apply kg_handle_blank_line.
Qed.

Lemma go_lines_games (lines : list LogParser.parsed_line) :
  forall s games e s',
    games_wellformed s -> _expired_games s = [] ->
    go_lines enums lines s = (games, e, s') ->
    Forall expired_game games
    /\ (e = None -> games_wellformed s' /\ _expired_games s' = []).
Proof.
  induction lines as [| l lines IH]; intros s games e s' Hs He; simpl.
  - intros H. injection H as <- <- <-. split; [constructor | now split].
  - pose proof (kg_handle_line l s Hs I) as Hl.
    unfold wellformed_if_ok in Hl.
    destruct (handle_line enums l s) as [[[] | e0] s1].
    + destruct (go_lines enums lines _) as [[games1 e1] s2] eqn:Eg.
      intros H. injection H as <- <- <-.
      apply IH in Eg.
      * destruct Eg as [Hg Hn]. split; [| exact Hn].
        apply Forall_app. split; [apply Hl | exact Hg].
      * destruct (_expired_games s1) eqn:Ex; [exact Hl |].
        destruct Hl as [Ho Hx]. split; [exact Ho | constructor].
      * now destruct (_expired_games s1) eqn:Ex.
    + intros H. injection H as <- <- <-. split; [constructor | discriminate].
Qed.

End Handlers.

End Games.

Lemma go_games (enums : enums_py) (ujson_decode : string -> option pyval)
  (_translations : zdict (sdict Enums.index_map)) (log_timestamp : Z)
  (file : list string) :
  exists expired open,
    fst (LogProcessor.go enums ujson_decode _translations log_timestamp file)
    = expired ++ open
    /\ Forall expired_game expired
    /\ Forall open_game open
    /\ (snd (LogProcessor.go enums ujson_decode _translations log_timestamp
               file) <> None -> open = []).
Proof.
  unfold LogProcessor.go, LogProcessor.go_parsed.
  destruct (LogProcessor.go_lines enums _ _) as [[games e] s'] eqn:E.
  apply go_lines_games in E.
  - destruct E as [Hg Hn]. destruct e as [e |].
    + exists games, []. rewrite app_nil_r. now repeat split.
    + destruct (snd (LogParser.go _ _ _)).
      * exists games, []. rewrite app_nil_r. now repeat split.
      * exists games, (Dict.values (LogProcessor._game_id_to_game s')).
        destruct (Hn eq_refl) as [[Ho _] _]. cbn [fst snd].
        repeat split; try assumption. intros H. now elim H.
  - split; constructor.
  - reflexivity.
Qed.

Lemma rmap_ok {A B : Type} (f : A -> result B) (l : list A) :
  Forall (fun x => exists y, f x = Ok y) l -> exists l', rmap f l = Ok l'.
Proof.
  induction 1 as [| x l [y Hy] _ [l' IH]]; simpl; [eauto |].
  rewrite Hy, IH. simpl. eauto.
Qed.

Lemma players_have_histories (game : Game.t) :
  game_players game -> exists histories, local_histories game = Ok histories.
Proof.
  intros [_ [_ H]]. unfold local_histories. apply rmap_ok.
  eapply Forall_impl; [| exact H]. intros u [Hu Hk]. unfold Dict.getitem.
  rewrite Hu. unfold has_key in Hk.
  destruct (Py.lookup u (Game.username_to_game_history game)); [eauto |].
  now elim Hk.
Qed.

(** X5.  Whatever the file holds, every game [LogProcessor.go] yields has
    a board of 12 columns of 9 cells, six tile racks and six initial tile
    racks of six slots, and a score sheet of at least six rows: a command
    that addresses a cell, a slot or a row that is not there raises
    [IndexError], which is caught, and changes nothing. *)
Theorem yielded_games_keep_their_shape (enums : enums_py)
  (ujson_decode : string -> option pyval)
  (_translations : zdict (sdict Enums.index_map)) (log_timestamp : Z)
  (file : list string) (game : Game.t) :
  In game
     (fst (LogProcessor.go enums ujson_decode _translations log_timestamp
             file)) ->
  game_shape game.
Proof.
  destruct (go_games enums ujson_decode _translations log_timestamp file)
    as [expired [open [-> [He [Ho _]]]]].
  intros Hin. apply in_app_or in Hin. rewrite Forall_forall in He, Ho.
  destruct Hin as [Hin | Hin]; [apply (He _ Hin) | apply (Ho _ Hin)].
Qed.

(** X6.  In every game [LogProcessor.go] yields, the user names that have
    a player id, the user names of [player_join_order] and the user names
    that have a history are the same, in the order in which the
    [game-player] entries first named them; and every user name a player
    id stands for has a history, so that collecting the histories of the
    players, as [compare_with_server_game] and [_get_initial_tile_bag] do
    first, does not raise. *)
Theorem yielded_games_know_their_players (enums : enums_py)
  (ujson_decode : string -> option pyval)
  (_translations : zdict (sdict Enums.index_map)) (log_timestamp : Z)
  (file : list string) (game : Game.t) :
  In game
     (fst (LogProcessor.go enums ujson_decode _translations log_timestamp
             file)) ->
  Dict.keys (Game.username_to_player_id game) = Game.player_join_order game
  /\ Dict.keys (Game.username_to_game_history game)
     = Game.player_join_order game
  /\ (forall username,
         In username (Dict.values (Game.player_id_to_username game)) ->
         has_key username (Game.username_to_game_history game))
  /\ exists histories, local_histories game = Ok histories.
Proof.
  destruct (go_games enums ujson_decode _translations log_timestamp file)
    as [expired [open [-> [He [Ho _]]]]].
  intros Hin. apply in_app_or in Hin. rewrite Forall_forall in He, Ho.
  assert (Hp : game_players game)
    by (destruct Hin as [Hin | Hin];
        [apply (He _ Hin) | apply (Ho _ Hin)]).
  pose proof (players_have_histories game Hp) as Hh.
  destruct Hp as [H1 [H2 H3]]. repeat split; try assumption.
  intros username Hu. rewrite Forall_forall in H3. now apply H3.
Qed.

(* ------------------------------------------------------------------ *)
(** ** Which games [go] yields, and when *)

Section Expired.

Import LogProcessor.
Local Open Scope proc_scope.

Lemma kx_ret {A : Type} (a : A) : keeps_expired (ret a).
Proof. intros s. reflexivity. Qed.

Lemma kx_lift {A : Type} (r : result A) : keeps_expired (lift r).
Proof. intros s. reflexivity. Qed.

Lemma kx_get : keeps_expired get.
Proof. intros s. reflexivity. Qed.

Lemma kx_bind {A B : Type} (m : M A) (k : A -> M B) :
  keeps_expired m -> (forall a, keeps_expired (k a)) ->
  keeps_expired (bind m k).
Proof.
  intros Hm Hk s. unfold bind. specialize (Hm s).
  destruct (m s) as [[a | e] s']; simpl in *.
  - now rewrite Hk.
  - exact Hm.
Qed.

Lemma kx_try (m : M unit) : keeps_expired m -> keeps_expired (try_ m).
Proof. intros Hm s. unfold try_. simpl. apply Hm. Qed.

Lemma kx_for_each {A : Type} (l : list A) (body : A -> M unit) :
  (forall x, keeps_expired (body x)) -> keeps_expired (for_each l body).
Proof.
  intros Hb. induction l as [| x l IH]; simpl.
  - apply kx_ret.
  - apply kx_bind; [apply Hb | intros _; exact IH].
Qed.

Lemma kx_modify (f : t -> t) :
  (forall s, _expired_games (f s) = _expired_games s) ->
  keeps_expired (modify f).
Proof. intros H s. apply H. Qed.

Lemma kx_mutate_game (key : pyval) (f : Game.t -> Game.t) :
  keeps_expired (mutate_game key f).
Proof.
  intros s. unfold mutate_game, modify. simpl.
  now destruct (Py.lookup key (_game_id_to_game s)).
Qed.

Ltac kx_step :=
  lazymatch goal with
  | |- keeps_expired (ret _) => apply kx_ret
  | |- keeps_expired (lift _) => apply kx_lift
  | |- keeps_expired get => apply kx_get
  | |- keeps_expired (mutate_game _ _) => apply kx_mutate_game
  | |- keeps_expired (modify _) => apply kx_modify; intros; reflexivity
  | |- keeps_expired (try_ _) => apply kx_try
  | |- keeps_expired (for_each _ _) => apply kx_for_each; intros
  | |- keeps_expired (bind _ _) => apply kx_bind; [| intros]
  | |- keeps_expired (if ?b then _ else _) => destruct b
  | |- keeps_expired (match ?x with _ => _ end) => destruct x
  | |- keeps_expired (let _ := _ in _) => progress cbv zeta
  end.

Ltac kx :=
  unfold game_of_client, first_client_id, _add_client_id_to_game,
    _remove_player_id_from_game, _remove_client_id_from_game, copy_field;
  repeat kx_step.

Variable enums : enums_py.

Lemma handlers_keep_expired :
  Forall (fun kv => forall client_ids command,
              keeps_expired (snd kv client_ids command))
         (_commands_to_client_handlers enums).
Proof.
  unfold _commands_to_client_handlers.
  apply (fold_put_all
           (fun h => forall client_ids command,
                keeps_expired (h client_ids command)));
    [| constructor].
  apply Forall_app. split.
  - repeat (apply Forall_cons; [simpl; intros |]); [.. | apply Forall_nil].
    + unfold _handle_command_to_client__set_game_board_cell. kx.
    + unfold _handle_command_to_client__set_score_sheet_cell. kx.
    + unfold _handle_command_to_client__set_score_sheet. kx.
    + unfold _handle_command_to_client__set_game_player_join. kx.
    + unfold _handle_command_to_client__set_game_player_rejoin. kx.
    + unfold _handle_command_to_client__set_game_player_leave. kx.
    + unfold _handle_command_to_client__set_game_watcher_client_id. kx.
    + unfold _handle_command_to_client__return_watcher_to_lobby. kx.
    + unfold _handle_command_to_client__add_game_history_message. kx.
    + unfold _handle_command_to_client__add_game_history_messages. kx.
    + unfold _handle_command_to_client__set_tile. kx.
    + unfold _handle_command_to_client__remove_tile. kx.
  - destruct (SDict.lookup _ _) as [names |]; [| constructor].
    destruct (index_of _ names); [| constructor].
    constructor; [| constructor]. simpl. intros.
    unfold _handle_command_to_client__set_game_player_client_id. kx.
Qed.

Lemma kx_handle_command_to_client (client_ids : list Z) (commands : pyval) :
  keeps_expired (_handle_command_to_client enums client_ids commands).
Proof.
  unfold _handle_command_to_client.
  apply kx_bind; [apply kx_lift | intros l].
  apply kx_for_each. intros command. apply kx_try.
  unfold dispatch_command_to_client.
  apply kx_bind; [apply kx_lift | intros code].
  unfold bind, lift. intros s.
  destruct (ZDict.get code (_commands_to_client_handlers enums))
    as [[h |] |] eqn:Hget; try reflexivity.
  apply (zdict_get_all
           (fun h => forall client_ids command,
                keeps_expired (h client_ids command))
           _ _ _ handlers_keep_expired Hget).
Qed.

Lemma kx_handle_command_to_server (client_id : Z) (command : pyval) :
  keeps_expired (_handle_command_to_server enums client_id command).
Proof.
  unfold _handle_command_to_server. apply kx_try.
  apply kx_bind; [apply kx_lift | intros code].
  unfold bind, lift. intros s.
  destruct (ZDict.get code (_commands_to_server_handlers enums))
    as [[h |] |] eqn:Hget; try reflexivity.
  unfold ZDict.get, _commands_to_server_handlers in Hget.
  assert (Hh : h = _handle_command_to_server__do_game_action).
  { destruct (Py.hashable code); [| discriminate].
    destruct code; try discriminate; simpl in Hget;
      match type of Hget with
      | context [if ?c then _ else _] => destruct c
      end; congruence. }
  subst h. revert s.
  change (keeps_expired
            (_handle_command_to_server__do_game_action client_id command)).
  unfold _handle_command_to_server__do_game_action. kx.
Qed.

Lemma kx_handle_log (entry : pyval) : keeps_expired (_handle_log enums entry).
Proof. unfold _handle_log. kx. Qed.

Lemma kx_handle_blank_line : keeps_expired _handle_blank_line.
Proof.
  unfold _handle_blank_line, _handle_disconnect__delayed. kx.
Qed.

(** Only a line that says a game has expired changes
    [_expired_games]. *)
Lemma kx_handle_line (l : LogParser.parsed_line) :
  LogParser.handled_line_type l <> Some LineTypes.game_expired ->
  keeps_expired (handle_line enums l).
Proof.
  unfold handle_line.
  destruct (LogParser.handled_line_type l) as [[] |];
    destruct (LogParser.parse_line_data l); intros Hne;
    try (now elim Hne);
    lazymatch goal with
    | |- keeps_expired (_handle_command_to_client _ _ _) =>
        apply kx_handle_command_to_client
    | |- keeps_expired (_handle_command_to_server _ _ _) =>
        apply kx_handle_command_to_server
    | |- keeps_expired (_handle_log _ _) => apply kx_handle_log
    | |- keeps_expired _handle_blank_line => apply kx_handle_blank_line
    | |- _ =>
        unfold _handle_time, _handle_connect, _handle_disconnect; kx
    end.
Qed.

End Expired.

Lemma go_lines_one (enums : enums_py) (l : LogParser.parsed_line)
  (s : LogProcessor.t) :
  LogProcessor.go_lines enums [l] s
  = match LogProcessor.handle_line enums l s with
    | (Raise e, s1) => ([], Some e, s1)
    | (Ok _, s1) =>
        (LogProcessor._expired_games s1, None,
         match LogProcessor._expired_games s1 with
         | [] => s1
         | _ :: _ => LogProcessor.set__expired_games [] s1
         end)
    end.
Proof.
  cbn [LogProcessor.go_lines].
  destruct (LogProcessor.handle_line enums l s) as [[[] | e] s1];
    [| reflexivity].
  now rewrite app_nil_r.
Qed.

Lemma expired_stay_empty (enums : enums_py)
  (lines : list LogParser.parsed_line) :
  forall s,
    raised_on enums lines s = None ->
    LogProcessor._expired_games s = [] ->
    LogProcessor._expired_games (state_after enums lines s) = [].
Proof.
  unfold raised_on, state_after.
  induction lines as [| l lines IH]; intros s Hr Hx; [exact Hx |].
  cbn [LogProcessor.go_lines] in *.
  destruct (LogProcessor.handle_line enums l s) as [[[] | e] s1];
    [| discriminate].
  specialize (IH (match LogProcessor._expired_games s1 with
                  | [] => s1
                  | _ :: _ => LogProcessor.set__expired_games [] s1
                  end)).
  destruct (LogProcessor.go_lines enums lines _) as [[games e] s2].
  cbn [fst snd] in *. apply IH; [exact Hr |].
  now destruct (LogProcessor._expired_games s1) eqn:E.
Qed.

(** What the processor has yielded, and where it stands, after one more
    line that it handles without an exception. *)
Lemma go_lines_snoc (enums : enums_py) (before : list LogParser.parsed_line)
  (l : LogParser.parsed_line) (s : LogProcessor.t) :
  raised_on enums (before ++ [l]) s = None ->
  raised_on enums before s = None
  /\ exists s1,
       LogProcessor.handle_line enums l (state_after enums before s)
       = (Ok tt, s1)
       /\ yielded_on enums (before ++ [l]) s
          = yielded_on enums before s ++ LogProcessor._expired_games s1
       /\ LogProcessor._game_id_to_game (state_after enums (before ++ [l]) s)
          = LogProcessor._game_id_to_game s1.
Proof.
  unfold raised_on, state_after, yielded_on.
  rewrite go_lines_app.
  destruct (LogProcessor.go_lines enums before s) as [[games [e |]] s1];
    cbn [fst snd]; [discriminate |].
  rewrite go_lines_one.
  destruct (LogProcessor.handle_line enums l s1) as [[[] | e] s2];
    cbn [fst snd]; [| discriminate].
  intros _. split; [reflexivity |].
  exists s2. split; [reflexivity |]. split; [reflexivity |].
  destruct (LogProcessor._expired_games s2); [reflexivity |].
  now destruct s2.
Qed.

Lemma yielded_prefix (enums : enums_py)
  (before after : list LogParser.parsed_line) (s : LogProcessor.t) :
  raised_on enums before s = None ->
  exists rest,
    yielded_on enums (before ++ after) s = yielded_on enums before s ++ rest.
Proof.
  unfold raised_on, yielded_on. rewrite go_lines_app.
  destruct (LogProcessor.go_lines enums before s) as [[games [e |]] s1];
    cbn [fst snd]; [discriminate |].
  intros _.
  destruct (LogProcessor.go_lines enums after s1) as [[games' e'] s2].
  now exists games'.
Qed.

Lemma handle_game_expired_ok (game_id : Z) (s s1 : LogProcessor.t) :
  LogProcessor._handle_game_expired game_id s = (Ok tt, s1) ->
  exists game,
    Py.lookup (PyInt game_id) (LogProcessor._game_id_to_game s) = Some game
    /\ LogProcessor._expired_games s1
       = LogProcessor._expired_games s ++ [Game.set_expired true game]
    /\ LogProcessor._game_id_to_game s1
       = Py.remove (PyInt game_id) (LogProcessor._game_id_to_game s).
Proof.
  unfold LogProcessor._handle_game_expired, LogProcessor.bind,
    LogProcessor.get, LogProcessor.lift, LogProcessor.modify, Dict.getitem.
  cbn [Py.hashable fst snd].
  destruct (Py.lookup (PyInt game_id) (LogProcessor._game_id_to_game s))
    as [game |]; [| discriminate].
  intros H. injection H as <-. exists game. destruct s.
  now repeat split.
Qed.

(** X7.  [LogProcessor.go] yields a game when it has handled the line
    that says the game has expired: the game that was open under the id
    of the line, with [expired] set, and this game is open no longer.  It
    yields nothing when it has handled a line of another type.  When the
    file has been read to its end without an exception, it yields after
    these games the games that are still open, none of them with
    [expired] set; when it ends with an exception it has yielded the
    expired games only. *)
Theorem go_yields_expired_games_first (enums : enums_py)
  (ujson_decode : string -> option pyval)
  (_translations : zdict (sdict Enums.index_map)) (log_timestamp : Z)
  (file : list string) :
  let lines :=
    fst (LogParser.go ujson_decode
           (LogParser.__init__ enums _translations log_timestamp) file) in
  let s0 := LogProcessor.__init__ log_timestamp in
  let result :=
    LogProcessor.go enums ujson_decode _translations log_timestamp file in
  let open :=
    Dict.values (LogProcessor._game_id_to_game (state_after enums lines s0)) in
  (forall before l after,
      lines = before ++ l :: after ->
      raised_on enums (before ++ [l]) s0 = None ->
      (forall game_id,
          expires game_id l ->
          exists game,
            Py.lookup (PyInt game_id)
              (LogProcessor._game_id_to_game (state_after enums before s0))
            = Some game
            /\ yielded_on enums (before ++ [l]) s0
               = yielded_on enums before s0 ++ [Game.set_expired true game]
            /\ LogProcessor._game_id_to_game
                 (state_after enums (before ++ [l]) s0)
               = Py.remove (PyInt game_id)
                   (LogProcessor._game_id_to_game
                      (state_after enums before s0)))
      /\ (LogParser.handled_line_type l <> Some LineTypes.game_expired ->
          yielded_on enums (before ++ [l]) s0 = yielded_on enums before s0)
      /\ exists rest,
           yielded_on enums lines s0
           = yielded_on enums (before ++ [l]) s0 ++ rest)
  /\ Forall (fun game => Game.expired game = true) (yielded_on enums lines s0)
  /\ (snd result = None ->
      fst result = yielded_on enums lines s0 ++ open
      /\ Forall (fun game => Game.expired game = false) open)
  /\ (snd result <> None -> fst result = yielded_on enums lines s0).
Proof.
  cbv zeta.
  set (lines := fst (LogParser.go ujson_decode _ file)).
  set (s0 := LogProcessor.__init__ log_timestamp).
  split; [| split; [| split]].
  - intros before l after El Hr.
    destruct (go_lines_snoc enums before l s0 Hr) as [Hb [s1 [Hl [Hy Hg]]]].
    pose proof (expired_stay_empty enums before s0 Hb eq_refl) as Hx.
    split; [| split].
    + intros game_id [Ht Hd].
      unfold LogProcessor.handle_line in Hl. rewrite Ht, Hd in Hl.
      destruct (handle_game_expired_ok _ _ _ Hl) as [game [Hk [He Hm]]].
      exists game. split; [exact Hk |].
      rewrite Hy, He, Hx, Hg, Hm. now split.
    + intros Hne. rewrite Hy.
      pose proof (kx_handle_line enums l Hne (state_after enums before s0))
        as Hk.
      rewrite Hl in Hk. cbn [snd] in Hk. rewrite Hk, Hx.
      apply app_nil_r.
    + rewrite El.
      replace (before ++ l :: after) with ((before ++ [l]) ++ after)
        by now rewrite <- app_assoc.
      now apply yielded_prefix.
  - unfold yielded_on.
    destruct (LogProcessor.go_lines enums lines s0) as [[games e] s1] eqn:E.
    apply go_lines_games in E; [| split; constructor | reflexivity].
    destruct E as [Hg _]. cbn [fst].
    eapply Forall_impl; [| exact Hg]. now intros g [_ H].
  - unfold LogProcessor.go, LogProcessor.go_parsed, yielded_on, state_after.
    fold lines s0.
    destruct (LogProcessor.go_lines enums lines s0) as [[games e] s1] eqn:E.
    apply go_lines_games in E; [| split; constructor | reflexivity].
    destruct E as [_ Hn]. cbn [fst snd].
    destruct e as [e |]; [discriminate |].
    destruct (snd (LogParser.go ujson_decode _ file)); [discriminate |].
    intros _. split; [reflexivity |].
    destruct (Hn eq_refl) as [[Ho _] _].
    eapply Forall_impl; [| exact Ho]. now intros g [_ H].
  - unfold LogProcessor.go, LogProcessor.go_parsed, yielded_on.
    fold lines s0.
    destruct (LogProcessor.go_lines enums lines s0) as [[games e] s1].
    cbn [fst snd].
    destruct e as [e |]; [reflexivity |].
    destruct (snd (LogParser.go ujson_decode _ file)); [reflexivity |].
    intros H. now elim H.
Qed.

Lemma go_yields_expired_games_first_witness :
  map (fun game => (Game.game_id game, Game.expired game))
      (fst (LogProcessor.go enums_instance two_entries_json
              translations_instance 1500000000 two_games_file))
  = [(PyInt 7, true); (PyInt 8, false)]
  /\ exists game,
       Py.lookup (PyInt 7)
         (LogProcessor._game_id_to_game
            (state_after enums_instance (firstn 2 two_games_lines)
               (LogProcessor.__init__ 1500000000)))
       = Some game
       /\ yielded_on enums_instance
            (firstn 2 two_games_lines ++ firstn 1 (skipn 2 two_games_lines))
            (LogProcessor.__init__ 1500000000)
          = yielded_on enums_instance (firstn 2 two_games_lines)
              (LogProcessor.__init__ 1500000000)
              ++ [Game.set_expired true game]
       /\ LogProcessor._game_id_to_game
            (state_after enums_instance
               (firstn 2 two_games_lines
                  ++ firstn 1 (skipn 2 two_games_lines))
               (LogProcessor.__init__ 1500000000))
          = Py.remove (PyInt 7)
              (LogProcessor._game_id_to_game
                 (state_after enums_instance (firstn 2 two_games_lines)
                    (LogProcessor.__init__ 1500000000))).
Proof.
  split; [vm_compute; reflexivity |].
  apply (proj1 (proj1 (go_yields_expired_games_first enums_instance
                         two_entries_json translations_instance 1500000000
                         two_games_file)
                  (firstn 2 two_games_lines)
                  {| LogParser.handled_line_type := Some LineTypes.game_expired;
                     LogParser.line_number := 3;
                     LogParser.line := "game #7 expired";
                     LogParser.parse_line_data := LogParser.PGameExpired 7 |}
                  (skipn 3 two_games_lines)
                  ltac:(vm_compute; reflexivity)
                  ltac:(vm_compute; reflexivity))
           7).
  split; reflexivity.
Defined.

(* ------------------------------------------------------------------ *)
(** ** The observed tiles in the initial tile bag *)

Lemma rfold_app {A S : Type} (f : S -> A -> result S) (l1 l2 : list A) :
  forall st,
    rfold f (l1 ++ l2) st = rbind (rfold f l1 st) (rfold f l2).
Proof.
  induction l1 as [| x l1 IH]; intros st; simpl; [reflexivity |].
  destruct (f st x) as [st1 | e]; simpl; [apply IH | reflexivity].
Qed.

Lemma rfold_concat {A S : Type} (f : S -> A -> result S)
  (ls : list (list A)) :
  forall st,
    rfold f (List.concat ls) st = rfold (fun st l => rfold f l st) ls st.
Proof.
  induction ls as [| l ls IH]; intros st; simpl; [reflexivity |].
  rewrite rfold_app.
  destruct (rfold f l st) as [st1 | e]; simpl; [apply IH | reflexivity].
Qed.

Lemma rfold_map {A B S : Type} (f : S -> B -> result S) (g : A -> B)
  (l : list A) :
  forall st, rfold f (map g l) st = rfold (fun st x => f st (g x)) l st.
Proof.
  induction l as [| x l IH]; intros st; simpl; [reflexivity |].
  destruct (f st (g x)) as [st1 | e]; simpl; [apply IH | reflexivity].
Qed.

Lemma include_turns_flat (players : list (list (list pyval))) :
  Game.include_turns players
  = rfold Game.include_tile (inclusion_order players) ([], []).
Proof.
  unfold Game.include_turns, inclusion_order.
  rewrite !rfold_concat, rfold_map. reflexivity.
Qed.

Lemma include_tiles_first_draws (tiles : list pyval) :
  forall seen,
    Forall (fun t => Py.hashable t = true) tiles ->
    rfold Game.include_tile tiles (seen, seen)
    = Ok (first_draws_from seen tiles, first_draws_from seen tiles).
Proof.
  induction tiles as [| t tiles IH]; intros seen Hh; [reflexivity |].
  inversion Hh as [| ? ? Ht Hh']; subst.
  cbn [rfold]. unfold Game.include_tile at 1. rewrite Ht. cbn [fst snd].
  unfold first_draws_from. cbn [fold_left].
  destruct (Py.mem t seen); cbn [rbind]; now apply IH.
Qed.

Lemma first_draws_from_spec (tiles : list pyval) :
  forall seen,
    Forall (fun t => on_board t = true) seen ->
    Forall (fun t => on_board t = true) tiles ->
    NoDup seen ->
    NoDup (first_draws_from seen tiles)
    /\ forall t, In t (first_draws_from seen tiles)
                 <-> In t seen \/ In t tiles.
Proof.
  induction tiles as [| u tiles IH]; intros seen Hs Ht Hnd.
  - split; [exact Hnd |]. intros t. simpl. tauto.
  - inversion Ht as [| ? ? Hu Ht']; subst.
    unfold first_draws_from. cbn [fold_left].
    destruct (Py.mem u seen) eqn:E.
    + apply (mem_in u seen Hu Hs) in E.
      destruct (IH seen Hs Ht' Hnd) as [H1 H2]. split; [exact H1 |].
      intros t. unfold first_draws_from in H2. rewrite H2. simpl.
      intuition (subst; auto).
    + apply (mem_not_in u seen Hu Hs) in E.
      destruct (IH (seen ++ [u])) as [H1 H2].
      * apply Forall_app. split; [exact Hs | now repeat constructor].
      * exact Ht'.
      * apply NoDup_app; [exact Hnd | repeat constructor; auto |].
        intros a Ha [<- | []]. contradiction.
      * split; [exact H1 |].
        intros t. unfold first_draws_from in H2. rewrite H2.
        rewrite in_app_iff. simpl. tauto.
Qed.

Lemma nth_error_rows {A B : Type} (f : option A -> B) (l : list A) :
  map (fun i => f (nth_error l i)) (seq 0 (List.length l))
  = map (fun x => f (Some x)) l.
Proof.
  induction l as [| x l IH]; [reflexivity |].
  cbn [List.length seq map nth_error]. f_equal.
  rewrite <- seq_shift, map_map. exact IH.
Qed.

Lemma in_list_max (n : nat) (l : list nat) :
  In n l -> (n <= list_max l)%nat.
Proof.
  induction l as [| m l IH]; intros H; [contradiction |].
  simpl. destruct H as [-> | H]; [lia |]. specialize (IH H). lia.
Qed.

Lemma inclusion_order_in (players : list (list (list pyval))) (t : pyval) :
  In t (inclusion_order players)
  <-> In t (List.concat (List.concat players)).
Proof.
  unfold inclusion_order. split; intros H.
  - apply in_concat in H. destruct H as [p [Hp Ht]].
    apply in_concat in Hp. destruct Hp as [ps [Hps Hp]].
    apply in_map_iff in Hps. destruct Hps as [row [<- Hrow]].
    apply (Permutation_in _ (sorted_by_len_perm _)) in Hp.
    apply contributing_in in Hp.
    destruct (zip_longest_in _ _ _ Hrow Hp) as [player [Hpl Hin]].
    apply in_concat. exists p. split; [| exact Ht].
    apply in_concat. exists player. split; assumption.
  - apply in_concat in H. destruct H as [p [Hp Ht]].
    apply in_concat in Hp. destruct Hp as [player [Hpl Hp]].
    apply In_nth_error in Hp. destruct Hp as [i Hi].
    assert (Hlt : (i < List.length player)%nat)
      by (apply nth_error_Some; congruence).
    apply in_concat. exists p. split; [| exact Ht].
    apply in_concat.
    exists (Game.sorted_by_len
              (Game.contributing (map (fun l => nth_error l i) players))).
    split.
    + apply in_map_iff. exists (map (fun l => nth_error l i) players).
      split; [reflexivity |].
      unfold Game.zip_longest. apply in_map_iff. exists i.
      split; [reflexivity |]. apply in_seq. split; [lia |]. simpl.
      eapply Nat.lt_le_trans; [exact Hlt |].
      apply in_list_max. apply in_map_iff. now exists player.
    + apply (Permutation_in _ (Permutation_sym (sorted_by_len_perm _))).
      unfold Game.contributing. apply in_flat_map. exists (Some p). split.
      * apply in_map_iff. exists player. now split.
      * destruct p as [| u p]; [contradiction | now left].
Qed.

Lemma inclusion_order_single (turns : list (list pyval)) :
  inclusion_order [turns] = List.concat turns.
Proof.
  unfold inclusion_order, Game.zip_longest.
  cbn [map list_max fold_right]. rewrite Nat.max_0_r.
  rewrite (nth_error_rows (fun o => [o])), map_map.
  induction turns as [| p turns IH]; [reflexivity |].
  cbn [map List.concat]. rewrite concat_app, IH. f_equal.
  destruct p as [| u p]; [reflexivity |]. simpl. now rewrite app_nil_r.
Qed.

Section TurnsExact.

Variable enums : enums_py.

Lemma turn_step_exact (st : list (list pyval) * list pyval) (m : pyval) :
  valid_message enums m = true ->
  exists st',
    turn_step enums st m = Ok st'
    /\ List.concat (fst st') ++ snd st'
       = (List.concat (fst st) ++ snd st)
           ++ match drawn_tile enums m with Some t => [t] | None => [] end.
Proof.
  unfold valid_message, turn_step, drawn_tile, rbind.
  destruct (Py.getitem m (PyInt 0)) as [code |]; [| discriminate].
  cbv beta.
  destruct (in_int_set code (Game._drew_or_replaced_tile_message_ids enums))
    as [[|] |]; try discriminate; cbv beta iota.
  - destruct (Py.getitem m (PyInt 2)) as [x |]; [| discriminate].
    destruct (Py.getitem m (PyInt 3)) as [y |]; [| discriminate].
    intros _. eexists. split; [reflexivity |]. cbn [fst snd].
    now rewrite app_assoc.
  - intros _. destruct (Py.eqb code (PyInt (TurnBegan enums))).
    + eexists. split; [reflexivity |]. cbn [fst snd].
      rewrite List.concat_app. simpl. now rewrite !app_nil_r.
    + eexists. split; [reflexivity |]. now rewrite app_nil_r.
Qed.

Lemma turn_fold_exact (h : list pyval) :
  forall st,
    Forall (fun m => valid_message enums m = true) h ->
    exists st',
      rfold (turn_step enums) h st = Ok st'
      /\ List.concat (fst st') ++ snd st'
         = (List.concat (fst st) ++ snd st) ++ observed_tiles enums [h].
Proof.
  unfold observed_tiles. cbn [flat_map]. setoid_rewrite app_nil_r.
  induction h as [| m h IH]; intros st Hv; cbn [rfold flat_map].
  - exists st. split; [reflexivity | now rewrite app_nil_r].
  - inversion Hv as [| ? ? Hm Hh]; subst.
    destruct (turn_step_exact st m Hm) as [st1 [E1 H1]].
    destruct (IH st1 Hh) as [st' [E' H']].
    exists st'. rewrite E1. cbn [rbind]. split; [exact E' |].
    rewrite H', H1. now rewrite <- app_assoc.
Qed.

Lemma turn_by_turn_exact (h : list pyval) :
  Forall (fun m => valid_message enums m = true) h ->
  exists turns,
    Game.turn_by_turn_tiles_drawn_or_replaced enums h = Ok turns
    /\ List.concat turns = observed_tiles enums [h].
Proof.
  intros Hv. destruct (turn_fold_exact h ([], []) Hv) as [st' [E H]].
  unfold Game.turn_by_turn_tiles_drawn_or_replaced.
  change (rfold _ h ([], [])) with (rfold (turn_step enums) h ([], [])).
  rewrite E. cbn [rbind]. eexists. split; [reflexivity |].
  rewrite List.concat_app. simpl. rewrite app_nil_r. exact H.
Qed.

End TurnsExact.

Section DealtFirst.

Variable rng : Type.
Variable random_seed : string -> rng.
Variable random_shuffle : rng -> list pyval -> list pyval * rng.
Variable random_sample : rng -> list pyval -> pyval * rng.
Variable enums : enums_py.
Variable repr_str : string -> string.

Lemma bag_without_corrections (self : Game.t) (histories : list (list pyval))
  (g : rng) :
  no_recorded_tile_bag self ->
  valid_draw_history enums self histories ->
  Py.hashable (Game.internal_game_id self) = true ->
  (Game._verbose self = true -> Game.player_id_to_username self <> []) ->
  Game.tweaks_get Game.tile_bag_tweaks (Game.log_timestamp self)
    (Game.internal_game_id self) = None ->
  exists players,
    rmap (Game.turn_by_turn_tiles_drawn_or_replaced enums) histories
    = Ok players
    /\ (forall t, In t (inclusion_order players)
                  -> In t (observed_tiles enums histories))
    /\ let observed := first_draws (inclusion_order players) in
       let shuffled :=
         random_shuffle
           (random_seed
              (Py.str_of_Z (Game.log_timestamp self) ^^ "-"
                 ^^ Py.str repr_str (Game.internal_game_id self)))
           (Py.set_diff Game.all_tiles observed) in
       Game._get_initial_tile_bag rng random_seed random_shuffle
         random_sample enums repr_str self g
       = Ok (rev (observed ++ fst shuffled), snd shuffled).
Proof.
  intros Hno [Hhist Hvalid] Hhash Hverbose Htweak.
  destruct (all_turns_valid enums histories Hvalid)
    as [players [Eplayers [Hlen Hobs]]].
  exists players. split; [exact Eplayers |].
  assert (Hin : forall t, In t (inclusion_order players)
                          -> In t (observed_tiles enums histories))
    by (intros t Ht; now apply Hobs, inclusion_order_in).
  split; [exact Hin |]. cbv zeta.
  unfold Game._get_initial_tile_bag, Game._get_initial_tile_bag_with.
  assert (Hbody :
            forall (A : Type) (x : A) (f : list pyval -> A),
              match Game.tile_bag self with
              | Some ((_ :: _) as bag) => f bag
              | _ => x
              end = x)
    by (intros A x f; destruct Hno as [-> | ->]; reflexivity).
  rewrite Hbody. clear Hbody.
  unfold local_histories in Hhist. rewrite Hhist. cbn [rbind].
  rewrite Eplayers. cbn [rbind].
  assert (Hmax : match Game._verbose self, players with
                 | true, [] => Raise ValueError
                 | _, _ => Ok tt
                 end = Ok tt).
  { destruct (Game._verbose self); [| reflexivity].
    destruct players; [| reflexivity].
    exfalso. apply Hverbose; [reflexivity |].
    apply rmap_length in Hhist. unfold Dict.values in Hhist.
    rewrite length_map in Hhist. rewrite <- Hlen in Hhist. simpl in Hhist.
    now destruct (Game.player_id_to_username self). }
  rewrite Hmax. cbn [rbind].
  rewrite include_turns_flat, include_tiles_first_draws.
  - cbn [rbind fst snd]. rewrite Hhash, Htweak. reflexivity.
  - apply Forall_forall. intros t Ht. apply on_board_hashable.
    eapply observed_on_board; [exact Hvalid | now apply Hin].
Qed.

(** X8.  Take a game without a recorded tile bag and with a valid draw
    history, whose internal id can be hashed, which is not a verbose game
    without players and has no entry in the correction table.  Then
    [_get_initial_tile_bag] returns the reverse of [observed ++ rest]:
    [observed] holds each tile seen drawn or replaced in the histories
    exactly once and no other tile, and [rest] is what [random.shuffle]
    makes of the other board coordinates with the generator seeded by
    the log timestamp and the internal id of the game. *)
Theorem observed_tiles_are_dealt_first (self : Game.t)
  (histories : list (list pyval)) (g : rng) :
  no_recorded_tile_bag self ->
  valid_draw_history enums self histories ->
  Py.hashable (Game.internal_game_id self) = true ->
  (Game._verbose self = true -> Game.player_id_to_username self <> []) ->
  Game.tweaks_get Game.tile_bag_tweaks (Game.log_timestamp self)
    (Game.internal_game_id self) = None ->
  exists observed,
    let shuffled :=
      random_shuffle
        (random_seed
           (Py.str_of_Z (Game.log_timestamp self) ^^ "-"
              ^^ Py.str repr_str (Game.internal_game_id self)))
        (Py.set_diff Game.all_tiles observed) in
    Game._get_initial_tile_bag rng random_seed random_shuffle random_sample
      enums repr_str self g
    = Ok (rev (observed ++ fst shuffled), snd shuffled)
    /\ NoDup observed
    /\ forall t, In t observed <-> In t (observed_tiles enums histories).
Proof.
  intros Hno Hvalid Hhash Hverbose Htweak.
  destruct (bag_without_corrections self histories g Hno Hvalid Hhash
              Hverbose Htweak) as [players [Eplayers [Hin E]]].
  cbv zeta in E.
  exists (first_draws (inclusion_order players)). cbv zeta.
  split; [exact E |].
  destruct Hvalid as [_ Hvalid].
  destruct (first_draws_from_spec (inclusion_order players) [])
    as [Hnd Hmem].
  - constructor.
  - apply Forall_forall. intros t Ht.
    eapply observed_on_board; [exact Hvalid | now apply Hin].
  - constructor.
  - split; [exact Hnd |]. intros t. unfold first_draws. rewrite Hmem.
    split; [intros [[] | H]; now apply Hin |]. intros H. right.
    apply inclusion_order_in.
    (* every observed tile is in some turn of its player *)
    clear - Hvalid Eplayers H. revert players Eplayers.
    induction Hvalid as [| h histories Hh _ IH]; intros players Eplayers.
    + destruct H.
    + destruct (turn_by_turn_exact enums h Hh) as [turns [Et Hc]].
      cbn [rmap] in Eplayers. rewrite Et in Eplayers. cbn [rbind] in Eplayers.
      destruct (rmap _ histories) as [players' |] eqn:E'; [| discriminate].
      injection Eplayers as <-. cbn [List.concat].
      rewrite concat_app. apply in_or_app.
      unfold observed_tiles in H. cbn [flat_map] in H.
      apply in_app_or in H. destruct H as [H | H].
      * left. rewrite Hc. unfold observed_tiles. cbn [flat_map].
        now rewrite app_nil_r.
      * right. now apply (IH H players').
Qed.

(** X9.  For a game of one player, under the conditions of X8, the
    observed tiles come in the order in which the player's history first
    shows them: [_get_initial_tile_bag] returns the reverse of that list
    followed by the shuffled other board coordinates. *)
Theorem single_player_bag_follows_the_history (self : Game.t)
  (history : list pyval) (g : rng) :
  no_recorded_tile_bag self ->
  valid_draw_history enums self [history] ->
  Py.hashable (Game.internal_game_id self) = true ->
  Game.tweaks_get Game.tile_bag_tweaks (Game.log_timestamp self)
    (Game.internal_game_id self) = None ->
  let observed := first_draws (observed_tiles enums [history]) in
  let shuffled :=
    random_shuffle
      (random_seed
         (Py.str_of_Z (Game.log_timestamp self) ^^ "-"
            ^^ Py.str repr_str (Game.internal_game_id self)))
      (Py.set_diff Game.all_tiles observed) in
  Game._get_initial_tile_bag rng random_seed random_shuffle random_sample
    enums repr_str self g
  = Ok (rev (observed ++ fst shuffled), snd shuffled).
Proof.
  intros Hno Hvalid Hhash Htweak.
  assert (Hverbose : Game._verbose self = true
                     -> Game.player_id_to_username self <> []).
  { intros _ E. destruct Hvalid as [Hh _]. unfold local_histories in Hh.
    rewrite E in Hh. discriminate Hh. }
  destruct (bag_without_corrections self [history] g Hno Hvalid Hhash
              Hverbose Htweak) as [players [Eplayers [_ E]]].
  destruct Hvalid as [_ Hvalid].
  inversion Hvalid as [| ? ? Hh _]; subst.
  destruct (turn_by_turn_exact enums history Hh) as [turns [Et Hc]].
  cbn [rmap] in Eplayers. rewrite Et in Eplayers. cbn [rbind] in Eplayers.
  injection Eplayers as <-.
  rewrite inclusion_order_single, Hc in E. exact E.
Qed.

End DealtFirst.

(* ------------------------------------------------------------------ *)
(** ** Rankings *)

Lemma insert_by_amount_perm (x : nat * Z) (l : list (nat * Z)) :
  Permutation (insert_by_amount x l) (x :: l).
Proof.
  induction l as [| y l IH]; simpl; [reflexivity |].
  destruct (snd y <=? snd x); [reflexivity |].
  rewrite IH. apply perm_swap.
Qed.

Lemma sorted_by_amount_perm (l : list (nat * Z)) :
  Permutation (sorted_by_amount l) l.
Proof.
  induction l as [| x l IH]; simpl; [reflexivity |].
  rewrite insert_by_amount_perm. now constructor.
Qed.

Lemma insert_by_amount_sorted (x : nat * Z) (l : list (nat * Z)) :
  StronglySorted (fun a b => snd b <= snd a) l ->
  StronglySorted (fun a b => snd b <= snd a) (insert_by_amount x l).
Proof.
  induction 1 as [| y l Hl IH Hy]; simpl.
  - constructor; constructor.
  - destruct (snd y <=? snd x) eqn:E.
    + apply Z.leb_le in E. constructor; [now constructor |].
      constructor; [exact E |].
      eapply Forall_impl; [| exact Hy]. intros b Hb. simpl in Hb. lia.
    + apply Z.leb_gt in E. constructor; [exact IH |].
      apply Forall_forall. intros b Hb.
      apply (Permutation_in _ (insert_by_amount_perm x l)) in Hb.
      destruct Hb as [<- | Hb]; [lia |].
      rewrite Forall_forall in Hy. now apply Hy.
Qed.

Lemma sorted_by_amount_sorted (l : list (nat * Z)) :
  StronglySorted (fun a b => snd b <= snd a) (sorted_by_amount l).
Proof.
  induction l as [| x l IH]; simpl; [constructor |].
  now apply insert_by_amount_sorted.
Qed.

Lemma zdict_put_new_length {V : Type} (k : Z) (v : V) (d : zdict V) :
  ZDict.lookup k d = None ->
  List.length (ZDict.put k v d) = S (List.length d).
Proof.
  induction d as [| [k0 v0] d IH]; simpl; [reflexivity |].
  destruct (k =? k0); [discriminate |]. intros H. simpl. now rewrite IH.
Qed.

Lemma higher_app (amount : Z) (l1 l2 : list Z) :
  higher_amounts amount (l1 ++ l2)
  = (higher_amounts amount l1 + higher_amounts amount l2)%nat.
Proof. unfold higher_amounts. now rewrite filter_app, length_app. Qed.

Lemma higher_none (amount : Z) (l : list Z) :
  Forall (fun a => a <= amount) l -> higher_amounts amount l = 0%nat.
Proof.
  unfold higher_amounts. induction 1 as [| a l Ha _ IH]; [reflexivity |].
  simpl. destruct (amount <? a) eqn:E; [apply Z.ltb_lt in E; lia | exact IH].
Qed.

Lemma higher_all (amount : Z) (l : list Z) :
  Forall (fun a => amount < a) l -> higher_amounts amount l = List.length l.
Proof.
  unfold higher_amounts. induction 1 as [| a l Ha _ IH]; [reflexivity |].
  simpl. destruct (amount <? a) eqn:E; [simpl; now rewrite IH |].
  apply Z.ltb_ge in E. lia.
Qed.

Lemma higher_perm (amount : Z) (l1 l2 : list Z) :
  Permutation l1 l2 -> higher_amounts amount l1 = higher_amounts amount l2.
Proof.
  unfold higher_amounts.
  induction 1 as [| a l1 l2 _ IH | a b l | l1 l2 l3 _ IH1 _ IH2]; simpl.
  - reflexivity.
  - destruct (amount <? a); simpl; now rewrite IH.
  - destruct (amount <? a), (amount <? b); reflexivity.
  - now rewrite IH1.
Qed.

(** What the loop has done after the entries [done], with [todo] to
    come. *)
Lemma ranking_loop (todo : list (nat * Z)) :
  forall (done : list (nat * Z)) (d : zdict Z) (last : option (Z * Z)),
    StronglySorted (fun a b => snd b <= snd a) (done ++ todo) ->
    NoDup (map fst (done ++ todo)) ->
    List.length d = List.length done ->
    (forall k, ZDict.lookup k d <> None ->
               exists i, In i (map fst done) /\ k = Z.of_nat i) ->
    (forall i a, In (i, a) done ->
                 ZDict.lookup (Z.of_nat i) d
                 = Some (Z.of_nat (higher_amounts a (map snd done)) + 1)) ->
    match last with
    | None => done = []
    | Some (a, r) =>
        (exists i done', done = done' ++ [(i, a)])
        /\ r = Z.of_nat (higher_amounts a (map snd done)) + 1
    end ->
    let d' := fst (fold_left ranking_step todo (d, last)) in
    List.length d' = List.length (done ++ todo)
    /\ forall i a,
         In (i, a) (done ++ todo) ->
         ZDict.lookup (Z.of_nat i) d'
         = Some (Z.of_nat (higher_amounts a (map snd (done ++ todo))) + 1).
Proof.
  induction todo as [| [i a] todo IH];
    intros done d last Hs Hnd Hlen Hkeys Hd Hlast; cbv zeta.
  - rewrite app_nil_r. split; [exact Hlen | exact Hd].
  - cbn [fold_left].
    replace (done ++ (i, a) :: todo) with ((done ++ [(i, a)]) ++ todo) in *
      by now rewrite <- app_assoc.
    assert (Hs1 : StronglySorted (fun a b => snd b <= snd a)
                                 (done ++ [(i, a)])).
    { clear - Hs. induction done as [| x done IHd].
      - constructor; constructor.
      - simpl in Hs. inversion Hs as [| ? ? Hs' Hx]; subst.
        simpl. constructor.
        + apply IHd. rewrite <- app_assoc in Hs'. simpl in Hs'.
          now rewrite <- app_assoc.
        + rewrite !Forall_app in Hx. apply Forall_app. tauto. }
    assert (Hle : Forall (fun b => a <= b) (map snd done)).
    { clear - Hs1. induction done as [| x done IHd]; [constructor |].
      simpl in Hs1. inversion Hs1 as [| ? ? Hs' Hx]; subst.
      simpl. constructor; [| now apply IHd].
      rewrite Forall_app in Hx. destruct Hx as [_ Hx].
      inversion Hx; subst. assumption. }
    assert (Hnew : ZDict.lookup (Z.of_nat i) d = None).
    { destruct (ZDict.lookup (Z.of_nat i) d) eqn:E; [| reflexivity].
      exfalso. destruct (Hkeys (Z.of_nat i)) as [j [Hj Eij]]; [congruence |].
      apply Nat2Z.inj in Eij. subst j.
      rewrite !map_app in Hnd. apply NoDup_app_remove_r in Hnd.
      apply NoDup_remove_2 in Hnd. apply Hnd. now rewrite app_nil_r. }
    set (ranking :=
           match last with
           | Some (last_amount, last_ranking) =>
               if a =? last_amount then last_ranking
               else Z.of_nat (List.length d) + 1
           | None => Z.of_nat (List.length d) + 1
           end).
    assert (Hr : ranking
                 = Z.of_nat (higher_amounts a (map snd (done ++ [(i, a)])))
                   + 1).
    { rewrite map_app, higher_app. cbn [map snd].
      rewrite (higher_none a [a]) by (repeat constructor; lia).
      rewrite Nat.add_0_r. unfold ranking.
      destruct last as [[la lr] |].
      - destruct Hlast as [[j [done' Ed]] Hlr].
        destruct (a =? la) eqn:E.
        + apply Z.eqb_eq in E. now subst la.
        + apply Z.eqb_neq in E. rewrite higher_all, length_map; [lia |].
          subst done. rewrite map_app in Hle. cbn [map snd] in Hle.
          assert (Hla : a < la).
          { apply Forall_app in Hle. destruct Hle as [_ Hle].
            inversion Hle; subst. lia. }
          clear - Hs1 Hla. rewrite <- app_assoc in Hs1. cbn [app] in Hs1.
          rewrite map_app. cbn [map snd].
          apply Forall_app. split; [| repeat constructor; exact Hla].
          induction done' as [| x done' IHd]; [constructor |].
          simpl in Hs1. inversion Hs1 as [| ? ? Hs' Hx]; subst.
          simpl. constructor; [| now apply IHd].
          rewrite Forall_app in Hx. destruct Hx as [_ Hx].
          inversion Hx; subst. cbn [snd] in *. lia.
      - subst done. simpl in Hlen.
        destruct d; [reflexivity | discriminate]. }
    unfold ranking_step at 2. cbn [fst snd]. fold ranking.
    apply (IH (done ++ [(i, a)])); try assumption.
    + rewrite zdict_put_new_length by exact Hnew.
      rewrite length_app, Hlen. simpl. lia.
    + intros k Hk. rewrite zdict_lookup_put in Hk.
      rewrite map_app. cbn [map fst].
      destruct (k =? Z.of_nat i) eqn:E.
      * apply Z.eqb_eq in E. exists i. split; [| exact E].
        apply in_or_app. right. now left.
      * destruct (Hkeys k Hk) as [j [Hj Ej]]. exists j.
        split; [apply in_or_app; now left | exact Ej].
    + intros j b Hin. rewrite zdict_lookup_put.
      apply in_app_or in Hin. destruct Hin as [Hin | [Hin | []]].
      * destruct (Z.of_nat j =? Z.of_nat i) eqn:E.
        -- exfalso. apply Z.eqb_eq, Nat2Z.inj in E. subst j.
           assert (Hk : ZDict.lookup (Z.of_nat i) d <> None)
             by (rewrite (Hd i b Hin); discriminate).
           congruence.
        -- rewrite (Hd j b Hin). rewrite map_app, higher_app.
           cbn [map snd]. rewrite (higher_none b [a]); [now rewrite Nat.add_0_r |].
           repeat constructor. rewrite Forall_forall in Hle.
           apply Hle. apply in_map_iff. now exists (j, b).
      * injection Hin as <- <-. rewrite Z.eqb_refl. now rewrite Hr.
    + split; [now exists i, done | exact Hr].
Qed.

(** X10.  [get_player_id_to_ranking] ranks every player of a score, a
    list of integers: the ranking of a player is one more than the number
    of amounts of the score that are above the player's.  So the best
    amount has ranking 1, equal amounts have the same ranking, and the
    rankings below a tie skip as many places as the tie has taken. *)
Theorem ranking_counts_the_higher_amounts (score : list Z)
  (player_id : nat) (amount : Z) :
  nth_error score player_id = Some amount ->
  ZDict.lookup (Z.of_nat player_id) (get_player_id_to_ranking score)
  = Some (Z.of_nat (higher_amounts amount score) + 1)
  /\ List.length (get_player_id_to_ranking score) = List.length score.
Proof.
  intros Hn. unfold get_player_id_to_ranking.
  pose proof (sorted_by_amount_perm (enumerate score)) as Hp.
  assert (Hfst : forall (l : list Z) n,
             map fst (enumerate_from n l) = seq n (List.length l)).
  { induction l as [| x l IH]; intros n; simpl; [reflexivity |].
    now rewrite IH. }
  assert (Hsnd : forall (l : list Z) n, map snd (enumerate_from n l) = l).
  { induction l as [| x l IH]; intros n; simpl; [reflexivity |].
    now rewrite IH. }
  destruct (ranking_loop (sorted_by_amount (enumerate score)) [] [] None)
    as [Hlen Hl].
  - apply sorted_by_amount_sorted.
  - cbn [app]. eapply Permutation_NoDup.
    + apply Permutation_map. symmetry. exact Hp.
    + unfold enumerate. rewrite Hfst. apply seq_NoDup.
  - reflexivity.
  - intros k Hk. now contradiction Hk.
  - intros i a [].
  - reflexivity.
  - cbn [app] in Hlen, Hl. split.
    + etransitivity.
      * apply (Hl player_id amount).
        apply (Permutation_in _ (Permutation_sym Hp)).
        now apply enumerate_nth.
      * do 3 f_equal. rewrite (higher_perm _ _ _ (Permutation_map snd Hp)).
        unfold enumerate. now rewrite Hsnd.
    + etransitivity; [exact Hlen |]. rewrite (Permutation_length Hp).
      unfold enumerate. rewrite <- (length_map fst), Hfst. apply length_seq.
Qed.

(* ------------------------------------------------------------------ *)
(** ** What [IndividualGameLogMaker] stores in the game logs *)

Lemma put_batch_forall (P : option nat * option (list string) -> Prop)
  (k : option nat) (v : option (list string))
  (d : list (option nat * option (list string))) :
  P (k, v) -> (forall k', IndividualGameLog.key_eqb k k' = true -> k' = k) ->
  Forall P d -> Forall P (IndividualGameLog.put_batch k v d).
Proof.
  intros Hkv Heq. induction 1 as [| [k' v'] d Hx Hd IH]; simpl.
  - now repeat constructor.
  - destruct (IndividualGameLog.key_eqb k k') eqn:E.
    + apply Heq in E. subst k'. now constructor.
    + now constructor.
Qed.

Lemma key_eqb_eq (k k' : option nat) :
  IndividualGameLog.key_eqb k k' = true -> k' = k.
Proof.
  destruct k as [m |], k' as [n |]; simpl; try discriminate; [| reflexivity].
  intros H. apply Nat.eqb_eq in H. now subst.
Qed.

Lemma forall_values_remove {V : Type} (P : V -> Prop) (k : pyval)
  (d : pydict V) :
  Forall P (Dict.values d) -> Forall P (Dict.values (Py.remove k d)).
Proof.
  intros H. rewrite Forall_forall in *. intros x Hx.
  apply values_remove in Hx. now apply H.
Qed.

Lemma delitem_forall {V : Type} (P : V -> Prop) (k : pyval)
  (d d' : pydict V) :
  Dict.delitem k d = Ok d' -> Forall P (Dict.values d) ->
  Forall P (Dict.values d').
Proof.
  unfold Dict.delitem. destruct (Py.hashable k); [| discriminate].
  destruct (Py.lookup k d); [| discriminate].
  intros H. injection H as <-. apply forall_values_remove.
Qed.

Section MakerBatches.

Import IndividualGameLogMaker.
Local Open Scope maker_scope.

Variable P : option nat * option (list string) -> Prop.

Hypothesis P_filter :
  forall n b, P (n, Some b) -> P (n, Some (filter not_disconnect b)).

Lemma assign_batch_ok (k : option nat) (v : option (list string))
  (game_log : IndividualGameLog.t) :
  P (k, v) -> log_ok P game_log ->
  log_ok P (IndividualGameLog.assign_batch k v game_log).
Proof.
  intros Hkv H. unfold log_ok, IndividualGameLog.assign_batch. cbn.
  apply put_batch_forall; [exact Hkv | apply key_eqb_eq | exact H].
Qed.

Lemma k_ret {A : Type} (a : A) : keeps_batches P (ret a).
Proof. intros s Hs. now split. Qed.

Lemma k_lift {A : Type} (r : result A) : keeps_batches P (lift r).
Proof. intros s Hs. now split. Qed.

Lemma k_bind {A B : Type} (m : M A) (k : A -> M B) :
  keeps_batches P m -> (forall a, keeps_batches P (k a)) ->
  keeps_batches P (bind m k).
Proof.
  intros Hm Hk s Hs. unfold bind. destruct (Hm s Hs) as [H1 H2].
  destruct (m s) as [[a | e] s']; cbn [snd] in *.
  - destruct (Hk a s' H1) as [H3 H4]. split; [exact H3 | congruence].
  - now split.
Qed.

Lemma k_bind_lift {A B : Type} (r : result A) (k : A -> M B) :
  (forall a, r = Ok a -> keeps_batches P (k a)) ->
  keeps_batches P (bind (lift r) k).
Proof.
  intros Hk s Hs. unfold bind, lift. destruct r as [a | e].
  - now apply Hk.
  - now split.
Qed.

Lemma k_bind_get {B : Type} (k : t -> M B) :
  (forall s0, stored_ok P s0 -> keeps_batches P (k s0)) ->
  keeps_batches P (bind get k).
Proof. intros Hk s Hs. unfold bind, get. now apply (Hk s Hs). Qed.

Lemma k_try (m : M unit) : keeps_batches P m -> keeps_batches P (try_ m).
Proof. intros Hm s Hs. unfold try_. cbn [snd]. now apply Hm. Qed.

Lemma k_for_each {A : Type} (l : list A) (body : A -> M unit) :
  (forall x, In x l -> keeps_batches P (body x)) ->
  keeps_batches P (for_each l body).
Proof.
  induction l as [| x l IH]; intros Hb; simpl.
  - apply k_ret.
  - apply k_bind; [apply Hb; now left |].
    intros _. apply IH. intros y Hy. apply Hb. now right.
Qed.

Lemma k_modify (f : t -> t) :
  (forall s, stored_ok P s ->
             stored_ok P (f s) /\ frame_state (f s) = frame_state s) ->
  keeps_batches P (modify f).
Proof. intros Hf s Hs. unfold modify. cbn [snd]. now apply Hf. Qed.

Lemma k_mutate_game_log (key : pyval)
  (f : IndividualGameLog.t -> IndividualGameLog.t) :
  (forall game_log, log_ok P game_log -> log_ok P (f game_log)) ->
  keeps_batches P (mutate_game_log key f).
Proof.
  intros Hf. unfold mutate_game_log. apply k_modify.
  intros s [H1 [H2 H3]].
  destruct (Py.lookup key (_game_id_to_game_log s)) as [game_log |] eqn:E.
  - split; [| reflexivity]. split; [| split; assumption]. cbn.
    eapply forall_values_put_found; [exact E | apply Hf | exact H1].
  - now repeat split.
Qed.

Lemma k_assign_batch_to_all (k : option nat) (v : option (list string)) :
  P (k, v) -> keeps_batches P (assign_batch_to_all k v).
Proof.
  intros Hkv. unfold assign_batch_to_all. apply k_modify.
  intros s [H1 [H2 H3]]. split; [| reflexivity].
  split; [| split; assumption]. cbn.
  unfold Dict.values in *. rewrite map_map. cbn [snd].
  rewrite Forall_map in *. eapply Forall_impl; [| exact H1].
  intros kv Hkv'. now apply assign_batch_ok.
Qed.

Ltac k_step :=
  lazymatch goal with
  | |- keeps_batches _ (ret _) => apply k_ret
  | |- keeps_batches _ (lift _) => apply k_lift
  | |- keeps_batches _ (bind (lift _) _) => apply k_bind_lift; intros ? ?
  | |- keeps_batches _ (bind get _) => apply k_bind_get; intros ? ?
  | |- keeps_batches _ (bind _ _) => apply k_bind; [| intros ?]
  | |- keeps_batches _ (try_ _) => apply k_try
  | |- keeps_batches _ (for_each _ _) => apply k_for_each; intros ? ?
  | |- keeps_batches _ (mutate_game_log _ _) => apply k_mutate_game_log
  | |- keeps_batches _ (modify _) =>
      apply k_modify;
      try solve [ let s := fresh "s" in
                  let H := fresh "H" in
                  intros s H; split; [exact H | reflexivity] ]
  | |- keeps_batches _ (if ?b then _ else _) => destruct b eqn:?
  | |- keeps_batches _ (match ?x with _ => _ end) => destruct x eqn:?
  | |- keeps_batches _ (let _ := _ in _) => progress cbv zeta
  end.

Ltac k_steps := repeat k_step.

Section Handlers.

Variable enums : enums_py.

Lemma kb_handle_connect (client_id : Z) (username : string) :
  keeps_batches P (_handle_connect client_id username).
Proof. unfold _handle_connect. k_steps. Qed.

Lemma kb_handle_disconnect (client_id : Z) :
  keeps_batches P (_handle_disconnect client_id).
Proof. unfold _handle_disconnect. k_steps. Qed.

Lemma kb_handle_disconnect__delayed (client_id : Z) :
  keeps_batches P (_handle_disconnect__delayed client_id).
Proof. unfold _handle_disconnect__delayed. k_steps. Qed.

Lemma kb_batch_of_first_client (client_ids : list Z) :
  keeps_batches P (batch_of_first_client client_ids).
Proof. unfold batch_of_first_client, first_client_id. k_steps. Qed.

Lemma kb_add_client_id_to_game (game_id client_id : pyval) :
  keeps_batches P (_add_client_id_to_game game_id client_id).
Proof. unfold _add_client_id_to_game. k_steps. Qed.

Lemma kb_remove_client_id_from_game (client_id : pyval) :
  keeps_batches P (_remove_client_id_from_game client_id).
Proof. unfold _remove_client_id_from_game. k_steps. Qed.

Lemma kb_remove_player_id_from_game (game_id player_id : pyval) :
  keeps_batches P (_remove_player_id_from_game game_id player_id).
Proof. unfold _remove_player_id_from_game. k_steps. Qed.

Lemma kb_set_game_player_join (client_ids : list Z) (command : pyval) :
  keeps_batches P
    (_handle_command_to_client__set_game_player_join client_ids command).
Proof.
  unfold _handle_command_to_client__set_game_player_join. k_steps.
  apply kb_add_client_id_to_game.
Qed.

Lemma kb_set_game_player_rejoin (client_ids : list Z) (command : pyval) :
  keeps_batches P
    (_handle_command_to_client__set_game_player_rejoin client_ids command).
Proof.
  unfold _handle_command_to_client__set_game_player_rejoin. k_steps.
  apply kb_add_client_id_to_game.
Qed.

Lemma kb_set_game_player_leave (client_ids : list Z) (command : pyval) :
  keeps_batches P
    (_handle_command_to_client__set_game_player_leave client_ids command).
Proof.
  unfold _handle_command_to_client__set_game_player_leave. k_steps.
  apply kb_remove_client_id_from_game.
Qed.

Lemma kb_set_game_watcher_client_id (client_ids : list Z)
  (command : pyval) :
  keeps_batches P
    (_handle_command_to_client__set_game_watcher_client_id client_ids
       command).
Proof.
  unfold _handle_command_to_client__set_game_watcher_client_id. k_steps.
  apply kb_add_client_id_to_game.
Qed.

Lemma kb_return_watcher_to_lobby (client_ids : list Z) (command : pyval) :
  keeps_batches P
    (_handle_command_to_client__return_watcher_to_lobby client_ids command).
Proof.
  unfold _handle_command_to_client__return_watcher_to_lobby. k_steps.
  apply kb_remove_client_id_from_game.
Qed.

Lemma kb_set_game_player_client_id (client_ids : list Z)
  (command : pyval) :
  keeps_batches P
    (_handle_command_to_client__set_game_player_client_id client_ids
       command).
Proof.
  unfold _handle_command_to_client__set_game_player_client_id.
  k_steps;
    first [ apply kb_add_client_id_to_game
          | apply kb_remove_player_id_from_game ].
Qed.

Lemma kb_handlers :
  Forall (fun kv => forall client_ids command,
              keeps_batches P (snd kv client_ids command))
         (_commands_to_client_handlers enums).
Proof.
  unfold _commands_to_client_handlers.
  apply (fold_put_all
           (fun h => forall client_ids command,
                keeps_batches P (h client_ids command)));
    [| constructor].
  apply Forall_app. split.
  - repeat (apply Forall_cons; [simpl; intros |]); [.. | apply Forall_nil].
    + apply kb_batch_of_first_client.
    + apply kb_batch_of_first_client.
    + apply kb_batch_of_first_client.
    + apply kb_set_game_player_join.
    + apply kb_set_game_player_rejoin.
    + apply kb_set_game_player_leave.
    + apply kb_set_game_watcher_client_id.
    + apply kb_return_watcher_to_lobby.
    + apply kb_batch_of_first_client.
  - destruct (SDict.lookup _ _) as [names |]; [| constructor].
    destruct (index_of _ names); [| constructor].
    constructor; [| constructor]. simpl. intros.
    apply kb_set_game_player_client_id.
Qed.

Lemma kb_handle_command_to_client (client_ids : list Z)
  (commands : pyval) :
  keeps_batches P (_handle_command_to_client enums client_ids commands).
Proof.
  unfold _handle_command_to_client, dispatch_command_to_client. k_steps.
  match goal with H : ZDict.get _ _ = Ok (Some _) |- _ =>
    exact (zdict_get_all
             (fun h => forall client_ids command,
                  keeps_batches P (h client_ids command))
             _ _ _ kb_handlers H client_ids _)
  end.
Qed.

Lemma kb_do_game_action (client_id : Z) (command : pyval) :
  keeps_batches P
    (_handle_command_to_server__do_game_action client_id command).
Proof. unfold _handle_command_to_server__do_game_action. k_steps. Qed.

Lemma kb_handle_command_to_server (client_id : Z) (command : pyval) :
  keeps_batches P (_handle_command_to_server enums client_id command).
Proof.
  unfold _handle_command_to_server. k_steps.
  match goal with H : ZDict.get _ _ = Ok (Some _) |- _ =>
    unfold ZDict.get, _commands_to_server_handlers in H;
    destruct (Py.hashable _); [| discriminate];
    destruct a; try discriminate; cbn in H;
    destruct (_ =? _); try discriminate; injection H as <-;
    apply kb_do_game_action
  end.
Qed.

Lemma kb_handle_game_expired (game_id : pyval) :
  keeps_batches P (_handle_game_expired game_id).
Proof. unfold _handle_game_expired. k_steps. Qed.

Lemma kb_handle_log (entry : pyval) : keeps_batches P (_handle_log entry).
Proof.
  unfold _handle_log, copy_add_batch. k_steps.
  - (* the new game log *)
    intros s' [G1 [G2 G3]]. split; [| reflexivity].
    split; [| split; assumption]. cbn.
    apply forall_values_put; [constructor | exact G1].
  - (* the batches of the clients that have connected *)
    intros game_log Hg. apply assign_batch_ok; [| exact Hg].
    match goal with
    | Hs : stored_ok P ?s0, Hin : In ?x (Dict.values _) |- _ =>
        destruct Hs as [_ [_ Hs]]; rewrite Forall_forall in Hs;
        specialize (Hs x Hin); destruct x as [n b]
    end.
    cbn [fst snd] in *.
    match goal with
    | Hb : match ?b with _ => _ end = Ok _ |- _ =>
        destruct b as [lines |]; [| discriminate]; injection Hb as <-
    end.
    now apply P_filter.
  - intros game_log Hg. exact Hg.
  - intros game_log Hg. exact Hg.
Qed.

Lemma kb_complete_game_log (game_id : pyval) :
  keeps_batches P (complete_game_log game_id).
Proof.
  unfold complete_game_log. k_steps.
  - match goal with
    | Hs : stored_ok P ?s0, Hg : Dict.getitem _ _ = Ok _ |- _ =>
        apply getitem_in_values in Hg; destruct Hg as [_ [_ Hin]];
        destruct Hs as [Hs _]; rewrite Forall_forall in Hs;
        specialize (Hs _ Hin)
    end.
    intros s' [G1 [G2 G3]]. split; [| reflexivity].
    split; [exact G1 | split; [| exact G3]]. cbn.
    apply Forall_app. split; [exact G2 | now constructor].
  - intros s' [G1 [G2 G3]]. split; [| reflexivity].
    split; [| split; assumption]. cbn.
    match goal with
    | Hd : Dict.delitem _ (_game_id_to_game_log ?s0) = Ok _,
      Hs : stored_ok P ?s0 |- _ =>
        eapply delitem_forall; [exact Hd | apply Hs]
    end.
Qed.


Lemma kb_complete_game_logs : keeps_batches P complete_game_logs.
Proof. unfold complete_game_logs. k_steps. apply kb_complete_game_log. Qed.

Lemma kb_batch_of_added_client (batch_line_number : option nat)
  (batch : option (list string)) :
  P (batch_line_number, batch) ->
  keeps_batches P (batch_of_added_client batch_line_number batch).
Proof.
  intros HP. unfold batch_of_added_client. k_steps;
    try (apply k_assign_batch_to_all; exact HP).
  intros s' [G1 [G2 G3]]. split; [| reflexivity].
  split; [exact G1 | split; [exact G2 |]]. cbn.
  now apply forall_values_put.
Qed.

Lemma kb_batch_of_removed_client (batch_line_number : option nat)
  (batch : option (list string)) :
  P (batch_line_number, batch) ->
  keeps_batches P (batch_of_removed_client batch_line_number batch).
Proof.
  intros HP. unfold batch_of_removed_client. k_steps;
    try (apply k_assign_batch_to_all; exact HP).
  intros s' [G1 [G2 G3]]. split; [| reflexivity].
  split; [exact G1 | split; [exact G2 |]]. cbn.
  match goal with
  | Hd : Dict.delitem _ (_client_id_to_add_batch ?s0) = Ok _,
    Hs : stored_ok P ?s0 |- _ =>
      eapply delitem_forall; [exact Hd | apply Hs]
  end.
Qed.

Lemma kb_batch_of_game (batch_line_number : option nat)
  (batch : option (list string)) :
  P (batch_line_number, batch) ->
  keeps_batches P (batch_of_game batch_line_number batch).
Proof.
  intros HP. unfold batch_of_game. k_steps.
  intros game_log Hg. now apply assign_batch_ok.
Qed.

Lemma kb_batch_completed (batch_line_number : option nat)
  (batch : option (list string)) :
  P (batch_line_number, batch) ->
  keeps_batches P (_batch_completed batch_line_number batch).
Proof.
  intros HP. unfold _batch_completed. k_steps.
  - now apply kb_batch_of_added_client.
  - now apply kb_batch_of_removed_client.
  - now apply kb_batch_of_game.
  - apply kb_complete_game_logs.
Qed.

Lemma bind_run {A B : Type} (m : M A) (k : A -> M B) (s : t) :
  bind m k s
  = match m s with
    | (Ok a, s') => k a s'
    | (Raise e, s') => (Raise e, s')
    end.
Proof. reflexivity. Qed.

(** What the four parts of [_batch_completed] do to the marks. *)
Lemma added_client_run (k : option nat) (v : option (list string)) (s : t) :
  fst (batch_of_added_client k v s) = Ok tt
  /\ truthy_id (_batch_add_client_id (snd (batch_of_added_client k v s)))
     = false
  /\ _batch_remove_client_id (snd (batch_of_added_client k v s))
     = _batch_remove_client_id s
  /\ _batch_game_id (snd (batch_of_added_client k v s)) = _batch_game_id s
  /\ (truthy_id (_batch_add_client_id s) = false ->
      batch_of_added_client k v s = (Ok tt, s)).
Proof.
  unfold batch_of_added_client, bind, get, assign_batch_to_all, modify, ret.
  destruct (truthy_id (_batch_add_client_id s)) eqn:E.
  - destruct (_batch_add_client_id s); cbn; repeat split; discriminate.
  - cbn. now repeat split.
Qed.

Lemma removed_client_run (k : option nat) (v : option (list string))
  (s : t) :
  (fst (batch_of_removed_client k v s) = Ok tt ->
   truthy_id (_batch_remove_client_id (snd (batch_of_removed_client k v s)))
   = false)
  /\ _batch_add_client_id (snd (batch_of_removed_client k v s))
     = _batch_add_client_id s
  /\ _batch_game_id (snd (batch_of_removed_client k v s)) = _batch_game_id s
  /\ (truthy_id (_batch_remove_client_id s) = false ->
      batch_of_removed_client k v s = (Ok tt, s)).
Proof.
  unfold batch_of_removed_client, bind, get, assign_batch_to_all, modify,
    lift, ret.
  destruct (truthy_id (_batch_remove_client_id s)) eqn:E.
  - destruct (_batch_remove_client_id s); cbv beta iota;
      [match goal with
       | |- context [Dict.delitem ?a ?b] => destruct (Dict.delitem a b)
       end |]; cbn; repeat split; discriminate.
  - cbn. now repeat split.
Qed.

Lemma game_run (k : option nat) (v : option (list string)) (s : t) :
  (fst (batch_of_game k v s) = Ok tt ->
   Py.truthy (_batch_game_id (snd (batch_of_game k v s))) = false)
  /\ _batch_add_client_id (snd (batch_of_game k v s))
     = _batch_add_client_id s
  /\ _batch_remove_client_id (snd (batch_of_game k v s))
     = _batch_remove_client_id s
  /\ (Py.truthy (_batch_game_id s) = false ->
      batch_of_game k v s = (Ok tt, s)).
Proof.
  unfold batch_of_game, bind, get, mutate_game_log, modify, lift, ret.
  destruct (Py.truthy (_batch_game_id s)) eqn:E.
  - match goal with
    | |- context [Dict.getitem ?a ?b] => destruct (Dict.getitem a b)
    end; cbv beta iota;
      [match goal with
       | |- context [Py.lookup ?a ?b] => destruct (Py.lookup a b)
       end |]; cbn; repeat split; discriminate.
  - cbn. now repeat split.
Qed.

Lemma for_each_marks {A : Type} (l : list A) (body : A -> M unit) :
  (forall x s, marks (snd (body x s)) = marks s) ->
  forall s, marks (snd (for_each l body s)) = marks s.
Proof.
  intros Hb. induction l as [| x l IH]; intros s; [reflexivity |].
  cbn [for_each]. rewrite bind_run. specialize (Hb x s).
  destruct (body x s) as [[[] | e] s1]; cbn [snd] in *;
    [now rewrite IH | exact Hb].
Qed.

Lemma complete_game_logs_marks (s : t) :
  marks (snd (complete_game_logs s)) = marks s.
Proof.
  unfold complete_game_logs. rewrite bind_run. unfold get at 1.
  cbv beta iota.
  assert (Hl : forall ids s0,
             marks (snd ((for_each ids complete_game_log
                          ;;; modify (set__batch_destroy_game_ids [])) s0))
             = marks s0).
  { intros ids s0. rewrite bind_run.
    pose proof (for_each_marks ids complete_game_log) as Hm.
    specialize (Hm (fun game_id s1 => ltac:(
      unfold complete_game_log, bind, get, lift, modify;
      match goal with
      | |- context [Dict.getitem ?a ?b] => destruct (Dict.getitem a b)
      end; cbv beta iota; [| reflexivity];
      match goal with
      | |- context [Dict.delitem ?a ?b] => destruct (Dict.delitem a b)
      end; reflexivity)) s0).
    destruct (for_each ids complete_game_log s0) as [[[] | e] s1];
      cbn [snd] in *; exact Hm. }
  destruct (_batch_destroy_game_ids s) as [| game_id ids];
    [reflexivity | apply Hl].
Qed.

Lemma batch_completed_marks (k : option nat) (v : option (list string))
  (s : t) :
  fst (_batch_completed k v s) = Ok tt ->
  marks_idle (snd (_batch_completed k v s)).
Proof.
  unfold _batch_completed. rewrite bind_run.
  destruct (added_client_run k v s) as [_ [Ha [_ [_ _]]]].
  destruct (batch_of_added_client k v s) as [[[] | e] s1];
    cbn [fst snd] in *; [| discriminate].
  rewrite bind_run.
  destruct (removed_client_run k v s1) as [Hr [Ha2 [_ _]]].
  destruct (batch_of_removed_client k v s1) as [[[] | e] s2];
    cbn [fst snd] in *; [| discriminate].
  rewrite bind_run.
  destruct (game_run k v s2) as [Hg [Ha3 [Hr3 _]]].
  destruct (batch_of_game k v s2) as [[[] | e] s3];
    cbn [fst snd] in *; [| discriminate].
  intros _. pose proof (complete_game_logs_marks s3) as Hm.
  unfold marks in Hm. injection Hm as E1 E2 E3.
  unfold marks_idle. rewrite E1, E2, E3, Ha3, Ha2, Hr3.
  split; [exact Ha |]. split; [now apply Hr | now apply Hg].
Qed.

Lemma batch_completed_idle (k : option nat) (v : option (list string))
  (s : t) :
  marks_idle s -> _batch_completed k v s = complete_game_logs s.
Proof.
  intros [Ha [Hr Hg]]. unfold _batch_completed. rewrite bind_run.
  destruct (added_client_run k v s) as [_ [_ [_ [_ ->]]]]; [| exact Ha].
  rewrite bind_run.
  destruct (removed_client_run k v s) as [_ [_ [_ ->]]]; [| exact Hr].
  rewrite bind_run.
  destruct (game_run k v s) as [_ [_ [_ ->]]]; [| exact Hg].
  reflexivity.
Qed.

Lemma seq_run (m k : M unit) (s : t) (Post : result unit * t -> Prop) :
  keeps_batches P m -> stored_ok P s ->
  (forall s1, m s = (Ok tt, s1) -> stored_ok P s1 ->
              frame_state s1 = frame_state s -> Post (k s1)) ->
  (forall e s1, stored_ok P s1 -> Post (Raise e, s1)) ->
  Post (bind m (fun _ => k) s).
Proof.
  intros Hm Hs Hk He. rewrite bind_run. destruct (Hm s Hs) as [H1 H2].
  destruct (m s) as [[[] | e] s1]; cbn [snd] in *; auto.
Qed.

(** A blank line ends the batch under way: the batch is stored where it
    belongs, the marks are taken off and a new batch begins after the
    line handled last. *)
Lemma blank_line_run (s : t) :
  stored_ok P s -> P (Some (_batch_line_number s), Some (_batch s)) ->
  stored_ok P (snd (_handle_blank_line s))
  /\ (fst (_handle_blank_line s) = Ok tt ->
      _batch (snd (_handle_blank_line s)) = []
      /\ _batch_line_number (snd (_handle_blank_line s))
         = S (_line_number s)
      /\ marks_idle (snd (_handle_blank_line s))).
Proof.
  intros Hs HP. unfold _handle_blank_line.
  rewrite bind_run. unfold get at 1. cbv beta iota.
  apply (seq_run _ _ s
           (fun r => stored_ok P (snd r)
                     /\ (fst r = Ok tt ->
                         _batch (snd r) = []
                         /\ _batch_line_number (snd r)
                            = S (_line_number s)
                         /\ marks_idle (snd r)))).
  - destruct (_delayed_calls s); k_steps.
    apply kb_handle_disconnect__delayed.
  - exact Hs.
  - intros s1 _ H1 H2.
    assert (E1 : _batch s1 = _batch s
                 /\ _batch_line_number s1 = _batch_line_number s
                 /\ _line_number s1 = _line_number s).
    { unfold frame_state in H2. injection H2 as -> -> ->. now repeat split. }
    destruct E1 as [Eb [En El]].
    rewrite bind_run. unfold get at 1. cbv beta iota.
    apply (seq_run _ _ s1
             (fun r => stored_ok P (snd r)
                       /\ (fst r = Ok tt ->
                           _batch (snd r) = []
                           /\ _batch_line_number (snd r)
                              = S (_line_number s)
                           /\ marks_idle (snd r)))).
    + apply kb_batch_completed. rewrite Eb, En. exact HP.
    + exact H1.
    + intros s2 Hrun H3 H4. rewrite bind_run. unfold modify.
      cbn [fst snd].
      split; [exact H3 |]. intros _. split; [reflexivity |].
      split.
      * unfold frame_state in H4. injection H4 as _ _ ->. now rewrite El.
      * pose proof (batch_completed_marks
                      (Some (_batch_line_number s1)) (Some (_batch s1)) s1)
          as Hm.
        rewrite Hrun in Hm. exact (Hm eq_refl).
    + intros e s2 H3. cbn [fst snd]. split; [exact H3 | discriminate].
  - intros e s1 H1. cbn [fst snd]. split; [exact H1 | discriminate].
Qed.

(** At the end, with no mark left, the game logs are completed as they
    are. *)
Lemma finish_idle (s : t) :
  stored_ok P s -> marks_idle s -> stored_ok P (snd (finish s)).
Proof.
  intros Hs Hi. unfold finish. rewrite bind_run. unfold get at 1.
  cbv beta iota.
  apply (seq_run _ _ s (fun r => stored_ok P (snd r))).
  - apply k_for_each. intros game_id _. apply kb_handle_game_expired.
  - exact Hs.
  - intros s1 Hrun H1 _.
    pose proof (for_each_marks
                  (Dict.keys (_game_id_to_game_log s)) _handle_game_expired
                  (fun game_id s0 => eq_refl) s) as Hm.
    rewrite Hrun in Hm. cbn [snd] in Hm.
    unfold marks in Hm. injection Hm as E1 E2 E3.
    rewrite batch_completed_idle.
    + now apply kb_complete_game_logs.
    + unfold marks_idle. now rewrite E1, E2, E3.
  - intros e s1 H1. exact H1.
Qed.

Lemma ends_frame_handler (l : LogParser.parsed_line) :
  ends_frame l = true -> call_handler enums l = Some _handle_blank_line.
Proof.
  unfold ends_frame, call_handler.
  destruct (LogParser.handled_line_type l) as [[] |];
    destruct (LogParser.parse_line_data l); try discriminate; reflexivity.
Qed.

Lemma other_handler (l : LogParser.parsed_line) :
  ends_frame l = false ->
  match call_handler enums l with
  | Some handler => keeps_batches P handler
  | None => True
  end.
Proof.
  unfold ends_frame, call_handler.
  destruct (LogParser.handled_line_type l) as [[] |];
    destruct (LogParser.parse_line_data l); try discriminate; intros _;
    first [ exact I
          | apply k_lift
          | apply kb_handle_connect
          | apply kb_handle_disconnect
          | apply kb_handle_command_to_client
          | apply kb_handle_command_to_server
          | apply kb_handle_game_expired
          | apply kb_handle_log ].
Qed.

End Handlers.

End MakerBatches.

Lemma filter_filter {A : Type} (f : A -> bool) (l : list A) :
  filter f (filter f l) = filter f l.
Proof.
  induction l as [| x l IH]; simpl; [reflexivity |].
  destruct (f x) eqn:E; simpl; [rewrite E; now f_equal | exact IH].
Qed.

Lemma records_frame_filter (lines : list LogParser.parsed_line)
  (n : option nat) (b : list string) :
  records_frame lines (n, Some b) ->
  records_frame lines
    (n, Some (filter IndividualGameLogMaker.not_disconnect b)).
Proof.
  intros [before [frame [Hf [Hn Hb]]]].
  exists before, frame. cbn [fst snd] in *.
  split; [exact Hf |]. split; [exact Hn |]. right.
  destruct Hb as [Hb | Hb]; injection Hb as ->;
    [reflexivity | now rewrite filter_filter].
Qed.

Lemma next_line_number_last (done : list LogParser.parsed_line)
  (l : LogParser.parsed_line) :
  next_line_number (done ++ [l]) = S (LogParser.line_number l).
Proof. unfold next_line_number. now rewrite rev_unit. Qed.

Section MakerRun.

Import IndividualGameLogMaker.

Variable enums : enums_py.
Variable lines : list LogParser.parsed_line.

(** The loop of [go] after the lines [done]: they are frames that have
    ended, [closed], and the lines of the batch under way; the marks are
    off when no line of it has been read. *)
Lemma handle_line_batches (done todo : list LogParser.parsed_line)
  (l : LogParser.parsed_line) (s : t) :
  lines = done ++ l :: todo ->
  (exists closed current,
      done = closed ++ current
      /\ (closed = [] \/ exists before' l',
             closed = before' ++ [l'] /\ ends_frame l' = true)
      /\ Forall (fun l => ends_frame l = false) current
      /\ _batch s = map LogParser.line current
      /\ _batch_line_number s = next_line_number closed
      /\ (current = [] -> marks_idle s)) ->
  stored_ok (records_frame lines) s ->
  stored_ok (records_frame lines) (snd (handle_line enums l s))
  /\ (fst (handle_line enums l s) = Ok tt ->
      exists closed current,
        done ++ [l] = closed ++ current
        /\ (closed = [] \/ exists before' l',
               closed = before' ++ [l'] /\ ends_frame l' = true)
        /\ Forall (fun l => ends_frame l = false) current
        /\ _batch (snd (handle_line enums l s)) = map LogParser.line current
        /\ _batch_line_number (snd (handle_line enums l s))
           = next_line_number closed
        /\ (current = [] -> marks_idle (snd (handle_line enums l s)))).
Proof.
  intros Hl [closed [current [Hd [Hc [Hcur [Hb [Hn _]]]]]]] Hs.
  unfold handle_line. rewrite bind_run. unfold modify at 1. cbv beta iota.
  set (s1 := set__batch (_batch s ++ [LogParser.line l]) s).
  assert (Hs1 : stored_ok (records_frame lines) s1) by exact Hs.
  destruct (ends_frame l) eqn:Ee.
  - (* the line ends the frame *)
    rewrite (ends_frame_handler enums l Ee).
    rewrite bind_run. unfold modify at 1. cbv beta iota.
    set (s2 := set__line_number (LogParser.line_number l) s1).
    destruct (blank_line_run (records_frame lines) s2) as [H1 H2].
    + exact Hs.
    + exists closed, (current ++ [l]). cbn [fst snd].
      split; [| split].
      * split; [| split; [exact Hc |]].
        -- exists todo. rewrite Hl, Hd. now rewrite <- !app_assoc.
        -- exists current, l. now repeat split.
      * cbn. now rewrite Hn.
      * left. cbn. now rewrite Hb, map_app.
    + split; [exact H1 |]. intros Hok.
      destruct (H2 Hok) as [H3 [H4 H5]].
      exists (done ++ [l]), []. rewrite app_nil_r.
      split; [reflexivity |]. split; [right; now exists done, l |].
      split; [constructor |]. split; [exact H3 |].
      split; [| intros _; exact H5].
      etransitivity; [exact H4 |]. now rewrite next_line_number_last.
  - (* any other line *)
    pose proof (other_handler (records_frame lines)
                  (records_frame_filter lines) enums l Ee) as Hh.
    assert (Hinv : forall s',
               _batch s' = _batch s1 ->
               _batch_line_number s' = _batch_line_number s1 ->
               exists closed current,
                 done ++ [l] = closed ++ current
                 /\ (closed = [] \/ exists before' l',
                        closed = before' ++ [l'] /\ ends_frame l' = true)
                 /\ Forall (fun l => ends_frame l = false) current
                 /\ _batch s' = map LogParser.line current
                 /\ _batch_line_number s' = next_line_number closed
                 /\ (current = [] -> marks_idle s')).
    { intros s' E1 E2. exists closed, (current ++ [l]).
      split; [now rewrite Hd, app_assoc |]. split; [exact Hc |].
      split; [apply Forall_app; split; [exact Hcur | now constructor] |].
      split; [rewrite E1; cbn; now rewrite Hb, map_app |].
      split; [rewrite E2; exact Hn |].
      intros Hnil. now destruct current. }
    destruct (call_handler enums l) as [handler |].
    + rewrite bind_run. unfold modify at 1. cbv beta iota.
      set (s2 := set__line_number (LogParser.line_number l) s1).
      destruct (Hh s2 Hs) as [H1 H2]. split; [exact H1 |].
      intros _. unfold frame_state in H2. injection H2 as E1 E2 _.
      now apply Hinv.
    + cbn [fst snd ret]. split; [exact Hs |]. intros _. now apply Hinv.
Qed.

Lemma go_lines_batches (todo : list LogParser.parsed_line) :
  forall (done : list LogParser.parsed_line) (s : t),
    lines = done ++ todo ->
    (exists closed current,
        done = closed ++ current
        /\ (closed = [] \/ exists before' l',
               closed = before' ++ [l'] /\ ends_frame l' = true)
        /\ Forall (fun l => ends_frame l = false) current
        /\ _batch s = map LogParser.line current
        /\ _batch_line_number s = next_line_number closed
        /\ (current = [] -> marks_idle s)) ->
    stored_ok (records_frame lines) s ->
    Forall (log_ok (records_frame lines))
           (fst (fst (go_lines enums todo s)))
    /\ stored_ok (records_frame lines) (snd (go_lines enums todo s))
    /\ (snd (fst (go_lines enums todo s)) = None ->
        exists closed current,
          lines = closed ++ current
          /\ Forall (fun l => ends_frame l = false) current
          /\ (current = [] -> marks_idle (snd (go_lines enums todo s)))).
Proof.
  induction todo as [| l todo IH]; intros done s Hl Hinv Hs.
  - split; [constructor |]. split; [exact Hs |]. intros _.
    destruct Hinv as [closed [current [Hd [_ [Hcur [_ [_ Hi]]]]]]].
    exists closed, current. rewrite app_nil_r in Hl.
    split; [congruence |]. now split.
  - cbn [go_lines].
    destruct (handle_line_batches done todo l s Hl Hinv Hs) as [H1 H2].
    destruct (handle_line enums l s) as [[[] | e] s1]; cbn [fst snd] in *;
      [| split; [constructor | split; [exact H1 | discriminate]]].
    specialize (H2 eq_refl).
    set (s2 := match _completed_game_logs s1 with
               | [] => s1
               | _ :: _ => set__completed_game_logs [] s1
               end).
    assert (Hs2 : stored_ok (records_frame lines) s2
                  /\ _batch s2 = _batch s1
                  /\ _batch_line_number s2 = _batch_line_number s1
                  /\ marks s2 = marks s1).
    { unfold s2. destruct (_completed_game_logs s1);
        [split; [exact H1 | now repeat split] |].
      split; [| now repeat split]. destruct H1 as [G1 [G2 G3]].
      split; [exact G1 | split; [constructor | exact G3]]. }
    destruct Hs2 as [Hs2 [Eb [En Em]]].
    destruct (IH (done ++ [l]) s2) as [H3 [H4 H5]].
    + now rewrite <- app_assoc.
    + destruct H2 as [closed [current [G1 [G2 [G3 [G4 [G5 G6]]]]]]].
      exists closed, current. rewrite Eb, En.
      repeat (split; [assumption |]).
      intros Hnil. specialize (G6 Hnil). unfold marks in Em.
      injection Em as E1 E2 E3. unfold marks_idle. now rewrite E1, E2, E3.
    + exact Hs2.
    + destruct (go_lines enums todo s2) as [[game_logs e] s3].
      cbn [fst snd] in *. split; [| split; [exact H4 | exact H5]].
      apply Forall_app. split; [apply H1 | exact H3].
Qed.

End MakerRun.

(** A line of type [blank_line] carries no data. *)
Lemma match_line_blank
  (ms : list (LineTypes.t * Re.regex * option LogParser.handler))
  (line : string) :
  Forall (fun m => fst (fst m) = LineTypes.blank_line -> snd m = None) ms ->
  forall self o,
    LogParser.match_line ms line self = Ok o ->
    LogParser.lo_handled_line_type o = Some LineTypes.blank_line ->
    LogParser.lo_parse_line_data o = LogParser.PUnit.
Proof.
  induction 1 as [| [[line_type regex] h] ms Hm _ IH]; intros self o; simpl.
  - intros H. injection H as <-. discriminate.
  - destruct (Re.match_ regex line) as [m |]; [| apply IH].
    destruct h as [h |].
    + destruct (h m self) as [[r self'] | e]; cbn [rbind fst snd];
        [| discriminate].
      destruct r as [| | d]; [apply IH | |];
        intros H; injection H as <-; cbn; intros E; injection E as ->;
        cbn in Hm; now specialize (Hm eq_refl).
    + intros H. injection H as <-. reflexivity.
Qed.

Lemma loop_blank_lines (ujson_decode : string -> option pyval)
  (file : list string) :
  forall self h n,
    Forall (fun l =>
              LogParser.handled_line_type l = Some LineTypes.blank_line ->
              LogParser.parse_line_data l = LogParser.PUnit)
           (LogParser.yields
              (LogParser.go_loop ujson_decode self file h n)).
Proof.
  induction file as [| raw file IH]; intros self h n; [constructor |].
  rewrite loop_cons.
  destruct (LogParser.match_line _ _ self) as [o | e] eqn:E;
    [| constructor].
  destruct (LogParser.lo_stop_processing_file o); [constructor |].
  cbn [LogParser.yields]. constructor; [| apply IH].
  cbn. eapply match_line_blank; [| exact E].
  unfold LogParser._line_matchers_and_handlers.
  repeat constructor; cbn; intros H; try discriminate H; reflexivity.
Qed.

(** What [LogParser.go] yields when it ends without an exception ends
    with a line that ends a frame. *)
Lemma go_last_ends_frame (ujson_decode : string -> option pyval)
  (self : LogParser.t) (file : list string)
  (events : list LogParser.parsed_line) :
  LogParser.go ujson_decode self file = (events, None) ->
  exists init l, events = init ++ [l] /\ ends_frame l = true.
Proof.
  unfold LogParser.go.
  pose proof (loop_shape ujson_decode file self None 0%nat) as Hs.
  pose proof (loop_blank_lines ujson_decode file self None 0%nat) as Hb.
  cbv zeta in Hs.
  set (r := LogParser.go_loop ujson_decode self file None 0) in *.
  destruct Hs as [_ [_ H3]].
  assert (Hsyn : forall n,
             exists init l,
               LogParser.yields r ++ [synthesized_blank_line n]
               = init ++ [l] /\ ends_frame l = true).
  { intros n. now exists (LogParser.yields r), (synthesized_blank_line n). }
  destruct (LogParser.ended r) eqn:Ee; [| | discriminate].
  - destruct H3 as [_ [_ Ht]].
    destruct (LogParser.is_blank_line (LogParser.last_handled_line_type r))
      eqn:Eb; intros H; injection H as <-; [| apply Hsyn].
    rewrite Ht in Eb. unfold last_line_type in Eb.
    destruct (LogParser.yields r) as [| y ys] eqn:Ey; [discriminate |].
    destruct (@exists_last _ (y :: ys)) as [init [x E]]; [discriminate |].
    rewrite E in *. rewrite map_app in Eb. cbn [map] in Eb.
    rewrite last_last in Eb.
    exists init, x. split; [reflexivity |].
    rewrite Forall_app in Hb. destruct Hb as [_ Hb].
    inversion Hb as [| ? ? Hx _]; subst.
    unfold ends_frame.
    destruct (LogParser.handled_line_type x) as [[] |]; try discriminate.
    now rewrite Hx.
  - destruct H3 as [_ [_ Ht]]. rewrite Ht. cbn [LogParser.is_blank_line].
    intros H. injection H as <-. apply Hsyn.
Qed.

Lemma go_game_logs_ok (enums : enums_py)
  (ujson_decode : string -> option pyval)
  (_translations : zdict (sdict Enums.index_map)) (log_timestamp : Z)
  (file : list string) :
  Forall (log_ok
            (records_frame
               (fst (LogParser.go ujson_decode
                       (LogParser.__init__ enums _translations log_timestamp)
                       file))))
         (fst (IndividualGameLogMaker.go enums ujson_decode _translations
                 log_timestamp file)).
Proof.
  unfold IndividualGameLogMaker.go, IndividualGameLogMaker.go_parsed.
  pose proof (go_last_ends_frame ujson_decode
                (LogParser.__init__ enums _translations log_timestamp) file)
    as Hlast.
  set (parsed := LogParser.go ujson_decode _ file) in *.
  destruct (go_lines_batches enums (fst parsed) (fst parsed) []
              (IndividualGameLogMaker.__init__ log_timestamp) eq_refl)
    as [H1 [H2 H3]].
  - exists [], []. repeat split; [now left | constructor].
  - repeat split; constructor.
  - destruct (IndividualGameLogMaker.go_lines enums (fst parsed) _)
      as [[game_logs e] s]. cbn [fst snd] in *.
    destruct e as [e |]; [exact H1 |].
    destruct (snd parsed) eqn:Ep; [exact H1 |].
    assert (Hi : marks_idle s).
    { destruct (H3 eq_refl) as [closed [current [Hl [Hcur Hi]]]].
      apply Hi.
      destruct (Hlast (fst parsed)) as [init [l [El Hl']]];
        [destruct parsed; cbn in *; now subst |].
      destruct current as [| x current] using rev_ind; [reflexivity |].
      exfalso. rewrite El, app_assoc in Hl.
      apply app_inj_tail in Hl. destruct Hl as [_ <-].
      rewrite Forall_app in Hcur. destruct Hcur as [_ Hcur].
      inversion Hcur; subst. congruence. }
    pose proof (finish_idle (records_frame (fst parsed)) s H2 Hi)
      as [_ [H4 _]].
    destruct (IndividualGameLogMaker.finish s) as [[[] | e] s'];
      cbn [fst snd] in *; [| exact H1].
    apply Forall_app. now split.
Qed.

(** X11.  Every entry of [line_number_to_batch] of a game log that
    [IndividualGameLogMaker.go] yields records a frame of the lines the
    parser has yielded: the lines from the start, or from after a line
    that ends a frame, up to and with the next line that ends a frame, in
    order, with or without the [disconnect] lines among them, under the
    number after that of the line before the frame.  So no entry has the
    key or the value [None] of the last call of [_batch_completed]. *)
Theorem game_logs_record_frames (enums : enums_py)
  (ujson_decode : string -> option pyval)
  (_translations : zdict (sdict Enums.index_map)) (log_timestamp : Z)
  (file : list string) (game_log : IndividualGameLog.t)
  (line_number : option nat) (batch : option (list string)) :
  In game_log
     (fst (IndividualGameLogMaker.go enums ujson_decode _translations
             log_timestamp file)) ->
  In (line_number, batch)
     (IndividualGameLog.line_number_to_batch game_log) ->
  records_frame
    (fst (LogParser.go ujson_decode
            (LogParser.__init__ enums _translations log_timestamp) file))
    (line_number, batch).
Proof.
  intros Hlog Hentry.
  pose proof (go_game_logs_ok enums ujson_decode _translations log_timestamp
                file) as H.
  rewrite Forall_forall in H. specialize (H _ Hlog). unfold log_ok in H.
  rewrite Forall_forall in H. now apply H.
Qed.

(* ------------------------------------------------------------------ *)
(** ** Writing a game log *)

Lemma insert_by_key_perm (x : nat * option (list string))
  (l : list (nat * option (list string))) :
  Permutation (IndividualGameLog.insert_by_key x l) (x :: l).
Proof.
  induction l as [| y l IH]; simpl; [reflexivity |].
  destruct (fst x <? fst y)%nat; [reflexivity |].
  rewrite IH. apply perm_swap.
Qed.

Lemma sorted_by_key_perm (l : list (nat * option (list string))) :
  Permutation (fold_right IndividualGameLog.insert_by_key [] l) l.
Proof.
  induction l as [| x l IH]; simpl; [reflexivity |].
  rewrite insert_by_key_perm. now constructor.
Qed.

Lemma insert_by_key_sorted (x : nat * option (list string))
  (l : list (nat * option (list string))) :
  StronglySorted (fun a b => (fst a <= fst b)%nat) l ->
  StronglySorted (fun a b => (fst a <= fst b)%nat)
                 (IndividualGameLog.insert_by_key x l).
Proof.
  induction 1 as [| y l Hl IH Hy]; simpl.
  - constructor; constructor.
  - destruct (fst x <? fst y)%nat eqn:E.
    + apply Nat.ltb_lt in E. constructor; [now constructor |].
      constructor; [lia |].
      eapply Forall_impl; [| exact Hy]. intros b Hb. simpl in Hb. lia.
    + apply Nat.ltb_ge in E. constructor; [exact IH |].
      apply Forall_forall. intros b Hb.
      apply (Permutation_in _ (insert_by_key_perm x l)) in Hb.
      destruct Hb as [<- | Hb]; [exact E |].
      rewrite Forall_forall in Hy. now apply Hy.
Qed.

Lemma sorted_by_key_sorted (l : list (nat * option (list string))) :
  StronglySorted (fun a b => (fst a <= fst b)%nat)
                 (fold_right IndividualGameLog.insert_by_key [] l).
Proof.
  induction l as [| x l IH]; simpl; [constructor |].
  now apply insert_by_key_sorted.
Qed.

Lemma strongly_sorted_map {A B : Type} (f : A -> B) (R : B -> B -> Prop)
  (l : list A) :
  StronglySorted (fun a b => R (f a) (f b)) l -> StronglySorted R (map f l).
Proof.
  induction 1 as [| x l Hl IH Hx]; simpl; constructor; [exact IH |].
  now rewrite Forall_map.
Qed.

(** The entries sorted, when every key is a number. *)
Lemma sorted_items_numbered
  (d : list (option nat * option (list string))) :
  Forall (fun entry => exists item, entry = batch_entry item) d ->
  exists items,
    IndividualGameLog.sorted_items d = Ok (map batch_entry items)
    /\ Permutation (map batch_entry items) d
    /\ StronglySorted le (map fst items).
Proof.
  intros Hd.
  set (h := fun kv : option nat * option (list string) =>
              (match fst kv with Some n => n | None => 0%nat end, snd kv)).
  set (g := fun kv : nat * option (list string) => (Some (fst kv), snd kv)).
  set (S := fold_right IndividualGameLog.insert_by_key [] (map h d)).
  set (u := fun x : nat * option (list string) =>
              (fst x, match snd x with Some b => b | None => [] end)).
  assert (Hgh : map g (map h d) = d).
  { rewrite map_map. rewrite <- (map_id d) at 2. apply map_ext_in.
    intros e He. rewrite Forall_forall in Hd.
    destruct (Hd e He) as [item ->]. reflexivity. }
  assert (Hperm : Permutation S (map h d)) by apply sorted_by_key_perm.
  assert (HS : Forall (fun x => snd x <> None) S).
  { apply Forall_forall. intros x Hx.
    apply (Permutation_in _ Hperm) in Hx. apply in_map_iff in Hx.
    destruct Hx as [e [<- He]]. rewrite Forall_forall in Hd.
    destruct (Hd e He) as [item ->]. discriminate. }
  assert (Hwrap : map batch_entry (map u S) = map g S).
  { rewrite map_map. apply map_ext_in. intros x Hx.
    rewrite Forall_forall in HS. specialize (HS x Hx).
    destruct x as [n [b |]]; [reflexivity | contradiction]. }
  assert (Hrmap :
            rmap (fun kv : option nat * option (list string) =>
                    match fst kv with
                    | Some n => Ok (n, snd kv)
                    | None => Raise TypeError
                    end) d = Ok (map h d)).
  { clear - Hd. induction Hd as [| e d [item ->] _ IH]; [reflexivity |].
    cbn [rmap]. cbn. rewrite IH. reflexivity. }
  exists (map u S). rewrite Hwrap. split; [| split].
  - unfold IndividualGameLog.sorted_items.
    destruct d as [| e1 [| e2 d']].
    + reflexivity.
    + inversion Hd as [| ? ? [item ->] _]; subst. reflexivity.
    + rewrite Hrmap. reflexivity.
  - apply (Permutation_trans (Permutation_map g Hperm)).
    now rewrite Hgh.
  - rewrite map_map. cbn [fst].
    apply (strongly_sorted_map fst le). apply sorted_by_key_sorted.
Qed.

Lemma write_batches_numbered (items : list (nat * list string)) :
  IndividualGameLog.write_batches (map batch_entry items)
  = (flat_map written_batch items, None).
Proof.
  induction items as [| item items IH]; [reflexivity |].
  cbn [map flat_map]. unfold batch_entry at 1.
  cbn [IndividualGameLog.write_batches]. rewrite IH. reflexivity.
Qed.

Lemma records_frame_numbered (lines : list LogParser.parsed_line)
  (entry : option nat * option (list string)) :
  records_frame lines entry -> exists item, entry = batch_entry item.
Proof.
  intros [before [frame [_ [Hn Hb]]]]. destruct entry as [n b].
  cbn [fst snd] in *. subst n.
  destruct Hb as [-> | ->]; eexists (_, _); reflexivity.
Qed.

(** X12.  [make_game_log_file] does not raise for a game log that
    [IndividualGameLogMaker.go] has yielded: every key of its
    [line_number_to_batch] is a number and every value a list of lines.
    It writes the batches in the order of their line numbers, for each
    one the header line with the number, the lines of the batch joined
    by newlines, and a newline. *)
Theorem yielded_game_logs_are_written_in_line_order (enums : enums_py)
  (ujson_decode : string -> option pyval)
  (_translations : zdict (sdict Enums.index_map)) (log_timestamp : Z)
  (file : list string) (game_log : IndividualGameLog.t) :
  In game_log
     (fst (IndividualGameLogMaker.go enums ujson_decode _translations
             log_timestamp file)) ->
  exists items,
    IndividualGameLog.make_game_log_file game_log
    = (flat_map written_batch items, None)
    /\ Permutation (map batch_entry items)
                   (IndividualGameLog.line_number_to_batch game_log)
    /\ StronglySorted le (map fst items).
Proof.
  intros Hlog.
  pose proof (go_game_logs_ok enums ujson_decode _translations log_timestamp
                file) as H.
  rewrite Forall_forall in H. specialize (H _ Hlog). unfold log_ok in H.
  destruct (sorted_items_numbered
              (IndividualGameLog.line_number_to_batch game_log))
    as [items [Es [Hp Hs]]].
  - eapply Forall_impl; [| exact H].
    intros entry. apply records_frame_numbered.
  - exists items. split; [| now split].
    unfold IndividualGameLog.make_game_log_file. rewrite Es.
    apply write_batches_numbered.
Qed.

(** X13.  The header line that [make_game_log_file] writes before a batch
    is a line of no type for [LogParser]: read back, it matches none of
    the parser's expressions, is yielded with the line type [None] and
    leaves the parser as it is. *)
Theorem header_is_a_line_of_no_type
  (ujson_decode : string -> option pyval) (self : LogParser.t)
  (line_number : option nat) :
  LogParser.match_line
    (LogParser._line_matchers_and_handlers ujson_decode)
    (LogParser.strip_newline (IndividualGameLog.header line_number)) self
  = Ok {| LogParser.lo_handled_line_type := None;
          LogParser.lo_parse_line_data := LogParser.PNone;
          LogParser.lo_stop_processing_file := false;
          LogParser.lo_self := self |}.
Proof.
  unfold IndividualGameLog.header.
  generalize (IndividualGameLog.str_line_number line_number
                ^^ String Re.newline "").
  intros rest.
  assert (E : LogParser.strip_newline ("--- batch line number: " ^^ rest)
              = "--- batch line number: "
                  ^^ match rest with
                     | EmptyString => EmptyString
                     | _ => LogParser.strip_newline rest
                     end).
  { destruct rest; reflexivity. }
  rewrite E.
  generalize (match rest with
              | EmptyString => EmptyString
              | _ => LogParser.strip_newline rest
              end).
  intros tail. reflexivity.
Qed.

(* ------------------------------------------------------------------ *)
(** ** Printing a table *)

Section PrintTableFacts.

Context {char : Type}.

Variable space : char.

Lemma length_join_cells (sep : list char) (l : list (list char)) :
  List.length (join_cells sep l)
  = (list_sum (map (@List.length char) l)
     + List.length sep * (List.length l - 1))%nat.
Proof.
  induction l as [| s l IH]; [simpl; lia |].
  destruct l as [| s' l]; [simpl; lia |].
  change (join_cells sep (s :: s' :: l))
    with (s ++ sep ++ join_cells sep (s' :: l)).
  rewrite !length_app, IH. cbn [map list_sum List.length].
  rewrite !Nat.sub_succ, !Nat.sub_0_r, Nat.mul_succ_r.
  unfold list_sum. cbn [fold_right]. lia.
Qed.

Lemma length_right_justified (cell : list char) (column_length : nat) :
  (List.length cell <= column_length)%nat ->
  List.length (right_justified space cell column_length) = column_length.
Proof.
  intros H. unfold right_justified. rewrite length_app, repeat_length. lia.
Qed.

Lemma list_max_mem (l : list nat) : l <> [] -> In (list_max l) l.
Proof.
  induction l as [| n l IH]; intros H; [now elim H |].
  change (list_max (n :: l)) with (Nat.max n (list_max l)).
  destruct l as [| m l].
  - left. simpl. lia.
  - destruct (Nat.max_spec n (list_max (m :: l))) as [[_ E] | [_ E]];
      rewrite E.
    + right. apply IH. discriminate.
    + now left.
Qed.

(** The number of columns: the number of cells of the shortest row. *)
Lemma length_column_lengths (table : list (list (list char))) :
  Forall (fun row => (List.length (column_lengths table)
                      <= List.length row)%nat) table
  /\ (table <> [] ->
      Exists (fun row => List.length row = List.length (column_lengths table))
             table).
Proof.
  destruct table as [| row rows]; [split; [constructor | intros H; now elim H] |].
  unfold column_lengths, zip_rows. rewrite !length_map, length_seq.
  set (lengths := map (@List.length (list char)) rows).
  split.
  - constructor; [apply fold_min_le |].
    apply Forall_forall. intros r Hr.
    apply fold_min_in. unfold lengths. apply in_map_iff. now exists r.
  - intros _.
    destruct (fold_min_mem lengths (List.length row)) as [E | Hin].
    + apply Exists_cons_hd. now rewrite E.
    + apply Exists_cons_tl. apply Exists_exists.
      unfold lengths in Hin. apply in_map_iff in Hin.
      destruct Hin as [r [Er Hr]]. exists r. split; [exact Hr | exact Er].
Qed.

(** The width of a column: the length of its longest cell. *)
Lemma nth_column_lengths (table : list (list (list char))) (j w : nat) :
  nth_error (column_lengths table) j = Some w ->
  Forall (fun row => (List.length (nth j row []) <= w)%nat) table
  /\ Exists (fun row => List.length (nth j row []) = w) table.
Proof.
  destruct table as [| row rows]; [destruct j; discriminate |].
  unfold column_lengths, zip_rows.
  set (table := row :: rows).
  rewrite map_map, nth_error_map.
  rewrite nth_error_seq.
  destruct (j <? _)%nat; [| discriminate].
  unfold option_map. change (0 + j)%nat with j.
  intros H. injection H as H.
  set (lengths := map (fun r : list (list char) => List.length (nth j r []))
                      table).
  assert (Hw : w = list_max lengths)
    by (rewrite <- H; unfold lengths; now rewrite map_map).
  clear H. subst w. split.
  - apply Forall_forall. intros r Hr. apply in_list_max.
    unfold lengths. apply in_map_iff. now exists r.
  - apply Exists_exists.
    assert (Hm : In (list_max lengths) lengths)
      by (apply list_max_mem; discriminate).
    unfold lengths at 2 in Hm.
    apply in_map_iff in Hm. destruct Hm as [r [Er Hr]].
    exists r. split; [exact Hr | exact Er].
Qed.

End PrintTableFacts.

Section PrintTableLines.

Context {char : Type}.

Variable space : char.

Lemma join_cells_cons (sep s : list char) (l : list (list char)) :
  join_cells sep (s :: l) = s ++ List.concat (map (fun x => sep ++ x) l).
Proof.
  revert s. induction l as [| s' l IH]; intros s.
  - simpl. now rewrite app_nil_r.
  - change (join_cells sep (s :: s' :: l))
      with (s ++ sep ++ join_cells sep (s' :: l)).
    rewrite IH. cbn [map List.concat]. now rewrite <- app_assoc.
Qed.

Lemma concat_after_first {A : Type} (f : A -> list char) (sep : list char)
  (l : list A) :
  forall i,
    List.concat
      (map (fun jx => (if (fst jx =? 0)%nat then [] else sep) ++ f (snd jx))
           (enumerate_from (S i) l))
    = List.concat (map (fun x => sep ++ f x) l).
Proof.
  induction l as [| x l IH]; intros i; [reflexivity |].
  cbn [enumerate_from map List.concat fst snd Nat.eqb]. now rewrite IH.
Qed.

(** A line of the table: the cells of the row, each after as many spaces
    as it is shorter than its column is wide, and two more spaces before
    every column but the first. *)
Lemma join_cells_columns (row : list (list char)) (widths : list nat) :
  join_cells [space; space]
    (map (fun cc => right_justified space (fst cc) (snd cc))
         (combine row widths))
  = List.concat
      (map (fun jc =>
              (if (fst jc =? 0)%nat then [] else [space; space])
                ++ repeat space (snd (snd jc) - List.length (fst (snd jc)))
                ++ fst (snd jc))
           (enumerate (combine row widths))).
Proof.
  unfold enumerate.
  destruct (combine row widths) as [| cc l]; [reflexivity |].
  cbn [map]. rewrite join_cells_cons.
  cbn [enumerate_from map List.concat fst snd Nat.eqb app].
  unfold right_justified at 1. f_equal.
  rewrite (concat_after_first
             (fun cc => repeat space (snd cc - List.length (fst cc)) ++ fst cc)).
  now rewrite map_map.
Qed.

Lemma combine_fits (row : list (list char)) (widths : list nat) :
  (List.length widths <= List.length row)%nat ->
  (forall j w, nth_error widths j = Some w ->
               (List.length (nth j row []) <= w)%nat) ->
  map (fun cc => List.length (right_justified space (fst cc) (snd cc)))
      (combine row widths)
  = widths.
Proof.
  revert row. induction widths as [| w widths IH]; intros row Hl Hw.
  - now destruct row.
  - destruct row as [| cell row]; [simpl in Hl; lia |].
    cbn [combine map fst snd]. f_equal.
    + apply length_right_justified. apply (Hw 0%nat w). reflexivity.
    + apply IH; [simpl in Hl; lia |].
      intros j w' Hj. apply (Hw (S j) w'). exact Hj.
Qed.

End PrintTableLines.

(** X14.  [print_table] prints one line for each row of the table.  The
    columns are as many as the shortest row has cells, and a column is as
    wide as its longest cell is long.  The line of a row holds the cells
    of the row in these columns, each after as many spaces as it is
    shorter than its column is wide, and two more spaces before every
    column but the first.  So all the lines have the same length, the
    widths of the columns and two for each gap between them, and the
    cells of a column end at the same place. *)
Theorem print_table_lines_have_one_length {char : Type} (space : char)
  (table : list (list (list char))) :
  List.length (print_table space table) = List.length table
  /\ exists widths,
       Forall (fun row => (List.length widths <= List.length row)%nat) table
       /\ (table <> [] ->
           Exists (fun row => List.length row = List.length widths) table)
       /\ (forall j w,
              nth_error widths j = Some w ->
              Forall (fun row => (List.length (nth j row []) <= w)%nat) table
              /\ Exists (fun row => List.length (nth j row []) = w) table)
       /\ forall i row,
            nth_error table i = Some row ->
            exists line,
              nth_error (print_table space table) i = Some line
              /\ line
                 = List.concat
                     (map (fun jc =>
                             (if (fst jc =? 0)%nat then []
                              else [space; space])
                               ++ repeat space
                                    (snd (snd jc)
                                     - List.length (fst (snd jc)))
                               ++ fst (snd jc))
                          (enumerate (combine row widths)))
              /\ List.length line
                 = (list_sum widths + 2 * (List.length widths - 1))%nat.
Proof.
  split; [unfold print_table; apply length_map |].
  exists (column_lengths table).
  destruct (length_column_lengths table) as [Hle Hex].
  split; [exact Hle |]. split; [exact Hex |].
  split; [apply nth_column_lengths |].
  intros i row Hi. unfold print_table. rewrite nth_error_map, Hi.
  eexists. split; [reflexivity |].
  split; [apply join_cells_columns |].
  rewrite length_join_cells, map_map, length_map.
  assert (Hrow : In row table) by (eapply nth_error_In; exact Hi).
  rewrite Forall_forall in Hle.
  rewrite (combine_fits space row (column_lengths table) (Hle row Hrow)).
  - rewrite length_combine, Nat.min_r by (apply Hle; exact Hrow).
    reflexivity.
  - intros j w Hj. destruct (nth_column_lengths table j w Hj) as [Hf _].
    rewrite Forall_forall in Hf. now apply Hf.
Qed.

Lemma print_table_lines_have_one_length_witness :
  List.length (print_table " "%char small_table) = 2%nat
  /\ print_table " "%char small_table
     = map list_ascii_of_string [" a  bcd"; "ef    g"].
Proof.
  split; [| vm_compute; reflexivity].
  apply (proj1 (print_table_lines_have_one_length " "%char small_table)).
Defined.

Ltac distinct_keys_tac :=
  repeat (constructor;
          [cbn; intuition (discriminate || congruence) |]);
  try constructor.

Lemma get_translations_oldest_change_wins_witness :
  exists translation,
    SDict.lookup "Errors" (Enums.get_translations translations_instance 0)
    = Some translation
    /\ exists trans_timestamp trans_changes,
         In (trans_timestamp, trans_changes) translations_instance
         /\ 0 <= trans_timestamp
         /\ SDict.lookup "Errors" trans_changes = Some translation
         /\ forall other_timestamp other_changes,
              In (other_timestamp, other_changes) translations_instance ->
              0 <= other_timestamp ->
              SDict.lookup "Errors" other_changes <> None ->
              trans_timestamp <= other_timestamp.
Proof.
  eexists. split; [vm_compute; reflexivity |].
  apply (proj1 (get_translations_oldest_change_wins translations_instance 0
                  "Errors" _
                  ltac:(unfold translations_wellformed, distinct_keys;
                        vm_compute; split; [distinct_keys_tac |];
                        repeat (constructor; [distinct_keys_tac |]);
                        constructor))).
  vm_compute. reflexivity.
Defined.



Lemma yielded_games_keep_their_shape_witness :
  exists game,
    In game (fst (LogProcessor.go enums_instance one_entry_json
                    translations_instance 1500000000 one_game_file))
    /\ game_shape game.
Proof.
  eexists. split; [vm_compute; left; reflexivity |].
  apply (yielded_games_keep_their_shape enums_instance one_entry_json
           translations_instance 1500000000 one_game_file).
  vm_compute. left. reflexivity.
Defined.

Lemma yielded_games_know_their_players_witness :
  exists game,
    In game (fst (LogProcessor.go enums_instance one_entry_json
                    translations_instance 1500000000 one_game_file))
    /\ Dict.keys (Game.username_to_player_id game)
       = Game.player_join_order game
    /\ Dict.keys (Game.username_to_game_history game)
       = Game.player_join_order game
    /\ (forall username,
           In username (Dict.values (Game.player_id_to_username game)) ->
           has_key username (Game.username_to_game_history game))
    /\ exists histories, local_histories game = Ok histories.
Proof.
  eexists. split; [vm_compute; left; reflexivity |].
  apply (yielded_games_know_their_players enums_instance one_entry_json
           translations_instance 1500000000 one_game_file).
  vm_compute. left. reflexivity.
Defined.

Lemma observed_tiles_are_dealt_first_witness :
  exists observed,
    let shuffled :=
      counter_shuffle
        (counter_seed
           (Py.str_of_Z (Game.log_timestamp uncorrected_game) ^^ "-"
              ^^ Py.str plain_repr_str
                   (Game.internal_game_id uncorrected_game)))
        (Py.set_diff Game.all_tiles observed) in
    Game._get_initial_tile_bag nat counter_seed counter_shuffle
      counter_sample enums_instance plain_repr_str uncorrected_game 0%nat
    = Ok (rev (observed ++ fst shuffled), snd shuffled)
    /\ NoDup observed
    /\ forall t, In t observed
                 <-> In t (observed_tiles enums_instance [draws 2 4]).
Proof.
  apply (observed_tiles_are_dealt_first nat counter_seed counter_shuffle
           counter_sample enums_instance plain_repr_str uncorrected_game
           [draws 2 4] 0%nat).
  - left. reflexivity.
  - split; [reflexivity |].
    constructor; [| constructor].
    apply Forall_forall. apply forallb_forall. vm_compute. reflexivity.
  - reflexivity.
  - intros H. discriminate H.
  - vm_compute. reflexivity.
Defined.

Lemma single_player_bag_follows_the_history_witness :
  let observed := first_draws (observed_tiles enums_instance [draws 2 4]) in
  let shuffled :=
    counter_shuffle
      (counter_seed
         (Py.str_of_Z (Game.log_timestamp uncorrected_game) ^^ "-"
            ^^ Py.str plain_repr_str
                 (Game.internal_game_id uncorrected_game)))
      (Py.set_diff Game.all_tiles observed) in
  Game._get_initial_tile_bag nat counter_seed counter_shuffle
    counter_sample enums_instance plain_repr_str uncorrected_game 0%nat
  = Ok (rev (observed ++ fst shuffled), snd shuffled).
Proof.
  apply (single_player_bag_follows_the_history nat counter_seed
           counter_shuffle counter_sample enums_instance plain_repr_str
           uncorrected_game (draws 2 4) 0%nat).
  - left. reflexivity.
  - split; [reflexivity |].
    constructor; [| constructor].
    apply Forall_forall. apply forallb_forall. vm_compute. reflexivity.
  - reflexivity.
  - vm_compute. reflexivity.
Defined.

Lemma ranking_counts_the_higher_amounts_witness :
  ZDict.lookup 2 (get_player_id_to_ranking [10; 30; 20; 30]) = Some 3
  /\ List.length (get_player_id_to_ranking [10; 30; 20; 30]) = 4%nat.
Proof.
  apply (ranking_counts_the_higher_amounts [10; 30; 20; 30] 2%nat 20).
  reflexivity.
Defined.

Lemma game_logs_record_frames_witness :
  records_frame
    (fst (LogParser.go one_entry_json
            (LogParser.__init__ enums_instance translations_instance
               1500000000) one_game_file))
    (Some 1%nat, Some ["5 connect alice 1.2.3.4 token"; ""]).
Proof.
  eapply (game_logs_record_frames enums_instance one_entry_json
            translations_instance 1500000000 one_game_file).
  - vm_compute. left. reflexivity.
  - vm_compute. left. reflexivity.
Defined.

Lemma yielded_game_logs_are_written_in_line_order_witness :
  exists game_log,
    In game_log
       (fst (IndividualGameLogMaker.go enums_instance one_entry_json
               translations_instance 1500000000 one_game_file))
    /\ exists items,
         IndividualGameLog.make_game_log_file game_log
         = (flat_map written_batch items, None)
         /\ Permutation (map batch_entry items)
                        (IndividualGameLog.line_number_to_batch game_log)
         /\ StronglySorted le (map fst items).
Proof.
  eexists. split; [vm_compute; left; reflexivity |].
  apply (yielded_game_logs_are_written_in_line_order enums_instance
           one_entry_json translations_instance 1500000000 one_game_file).
  vm_compute. left. reflexivity.
Defined.
